(** * NFT Scout: pagination walks, statistics reconciliation and cache

    A shallow embedding of the parts of the scraper that the specification
    talks about:

    - [Py]        the Python string and truthiness primitives the code uses;
    - [Models]    [models.py]: [Chain], [NormalizedNFT], [CollectionStats],
                  [CollectionNFTResponse];
    - [Memory]    [storage/memory.py]: the in-process TTL cache adapter;
    - [Helius]    [clients/helius.py]: the total inference of
                  [HeliusClient.get_collection_nfts];
    - [Normalizer] [normalizer.py]: the collection normalizers, on a body
                  they accept and on a body they raise on;
    - [Scout]     [scraper.py]: [NFTScout.get_collection_nfts] and
                  [NFTScout.get_collection_stats];
    - [WebServer] [web_server.py]: the counting loop and the scraping loop of
                  the [scrape_collection] action;
    - [PyStr], [Re]  more string primitives, and the regular expressions of
                  the validators;
    - [Security]  [security.py]: the address and transaction hash
                  validators, [prevent_private_key_exposure];
    - [Utils]     [utils.py]: the address and chain validators;
    - [Config], [BaseClient]  [config.py] and [clients/base.py]: API keys
                  and their rotation;
    - [Ipfs]      [normalizer.py]: [convert_ipfs_to_http];
    - [Manager]   [web_server.py]: [ConnectionManager];
    - [Extract]   [web_server.py]: [extract_collection_info] and the address
                  check of the [scrape_collection] action;
    - [Webhooks]  [webhooks/app.py]: [check_rate_limit].

    Conventions.  Python [str] is [string] (a sequence of code points below
    256).  [Optional[T]] is [option T].  A call that can raise returns
    [Result].  Python [float] is the primitive binary64 [float]; [int] is [Z].
    Mutable objects are passed and returned explicitly. *)

From Stdlib Require Import ZArith Ascii String DecimalString Floats.
From stdpp Require Import gmap strings list.

Set Warnings "-inexact-float,-clear-no-such-hyp".

Open Scope string_scope.
Open Scope list_scope.
Open Scope Z_scope.

(** ** Exceptions *)

Inductive Result (A : Type) : Type :=
| Ok (a : A)
| Raised (e : string).
Arguments Ok {A} a.
Arguments Raised {A} e.


(** ** Python primitives *)

Module Py.

Definition code (a : ascii) : N := Ascii.N_of_ascii a.

(** [str.isspace] on one code point below 256. *)
Definition isspace (a : ascii) : bool :=
  let c := code a in
  ((9 <=? c) && (c <=? 13) || (28 <=? c) && (c <=? 32)
   || (c =? 133) || (c =? 160))%N.

(** [str.lower] on one code point below 256: the ASCII capitals and the
    Latin-1 capitals (192-214, 216-222) move up by 32. *)
Definition lower_char (a : ascii) : ascii :=
  let c := code a in
  if ((65 <=? c) && (c <=? 90) || (192 <=? c) && (c <=? 214)
      || (216 <=? c) && (c <=? 222))%N
  then Ascii.ascii_of_N (c + 32) else a.

Fixpoint lower (s : string) : string :=
  match s with
  | EmptyString => EmptyString
  | String a r => String (lower_char a) (lower r)
  end.

Fixpoint lstrip (s : string) : string :=
  match s with
  | EmptyString => EmptyString
  | String a r => if isspace a then lstrip r else s
  end.

Fixpoint rev_onto (s acc : string) : string :=
  match s with
  | EmptyString => acc
  | String a r => rev_onto r (String a acc)
  end.

Definition reverse (s : string) : string := rev_onto s EmptyString.

Definition rstrip (s : string) : string := reverse (lstrip (reverse s)).

(** [str.strip()] with no argument. *)
Definition strip (s : string) : string := rstrip (lstrip s).

(** [s.startswith(p)] *)
Definition startswith (p s : string) : bool := String.prefix p s.

(** [p in s] *)
Fixpoint contains (p s : string) : bool :=
  String.prefix p s
  || match s with
     | EmptyString => false
     | String _ r => contains p r
     end.

(** [len(s)] *)
Definition len (s : string) : Z := Z.of_nat (String.length s).

(** Truthiness. *)
Definition truthy_str (s : string) : bool := negb (String.eqb s "").

Definition truthy_ostr (o : option string) : bool :=
  match o with Some s => truthy_str s | None => false end.

Definition truthy_int (n : Z) : bool := negb (n =? 0).

Definition truthy_oint (o : option Z) : bool :=
  match o with Some n => truthy_int n | None => false end.

(** A float is falsy exactly when it compares equal to zero; NaN is truthy. *)
Definition truthy_float (f : float) : bool := negb (PrimFloat.eqb f 0%float).

Definition truthy_ofloat (o : option float) : bool :=
  match o with Some f => truthy_float f | None => false end.

(** [a or b] on optional strings: [a] when it is truthy, else [b]. *)
Definition or_ostr (a b : option string) : option string :=
  if truthy_ostr a then a else b.

Definition or_oint (a b : option Z) : option Z :=
  if truthy_oint a then a else b.

(** [float(n)] for an [int]: round to nearest binary64. *)
Definition float_of_int (n : Z) : float :=
  SF2Prim (SpecFloat.binary_normalize prec emax n 0 false).

End Py.

(** ** models.py *)

Module Models.

Inductive Chain : Type :=
| ETHEREUM | POLYGON | ARBITRUM | OPTIMISM | BASE | SOLANA.

#[export] Instance Chain_eq_dec : EqDecision Chain.
Proof. solve_decision. Defined.

(** [Chain.value] *)
Definition value (c : Chain) : string :=
  match c with
  | ETHEREUM => "ethereum" | POLYGON => "polygon" | ARBITRUM => "arbitrum"
  | OPTIMISM => "optimism" | BASE => "base" | SOLANA => "solana"
  end.

(** The dict literal of [Chain.from_string], in source order. *)
Definition mapping_items : list (string * Chain) :=
  [ ("eth", ETHEREUM); ("ethereum", ETHEREUM);
    ("polygon", POLYGON); ("matic", POLYGON);
    ("arbitrum", ARBITRUM); ("arb", ARBITRUM);
    ("optimism", OPTIMISM); ("op", OPTIMISM);
    ("base", BASE);
    ("solana", SOLANA); ("sol", SOLANA) ].

Definition mapping : gmap string Chain := list_to_map mapping_items.

Definition from_string (chain_str : string) : Chain :=
  let chain_str := Py.strip (Py.lower chain_str) in
  default ETHEREUM (mapping !! chain_str).

(** A JSON-like Python value, as found in [raw_metadata].  [PDict] carries
    the text [str()] gives for it; [POpaque] is any other object (a float, a
    list), known by its truthiness and its [str()]. *)
#[warnings="-register-all"]
Inductive pyval : Type :=
| PNone
| PBool (b : bool)
| PInt (n : Z)
| PStr (s : string)
| PDict (items : list (string * pyval)) (shown : string)
| POpaque (truthy : bool) (shown : string).

(** [d.get(k)] on the items of a dict literal: the last binding of a key
    wins when a key is repeated, as in Python. *)
Fixpoint dict_get (k : string) (items : list (string * pyval)) : option pyval :=
  match items with
  | [] => None
  | (k', v) :: rest =>
      match dict_get k rest with
      | Some v' => Some v'
      | None => if String.eqb k k' then Some v else None
      end
  end.

Definition truthy (v : pyval) : bool :=
  match v with
  | PNone => false
  | PBool b => b
  | PInt n => Py.truthy_int n
  | PStr s => Py.truthy_str s
  | PDict items _ => match items with [] => false | _ => true end
  | POpaque t _ => t
  end.

(** [str(v)] *)
Definition py_str (v : pyval) : string :=
  match v with
  | PNone => "None"
  | PBool true => "True"
  | PBool false => "False"
  | PInt n => DecimalString.NilZero.string_of_int (Z.to_int n)
  | PStr s => s
  | PDict _ shown => shown
  | POpaque _ shown => shown
  end.

(** [NormalizedNFT]: the fields the walks read.  The remaining display and
    pricing fields of the class are carried by no code modelled here. *)
Record NormalizedNFT : Type := {
  token_id : string;
  contract_address : string;
  chain : Chain;
  name : option string;
  image_url : option string;
  owner_address : option string;
  raw_metadata : option (list (string * pyval));
  collection_name : option string;
  token_standard : option string;
}.

(** [CollectionStats], field for field. *)
Record CollectionStats : Type := {
  cs_contract_address : string;
  cs_chain : Chain;
  cs_name : option string;
  cs_symbol : option string;
  cs_description : option string;
  cs_total_supply : option Z;
  cs_total_owners : option Z;
  cs_floor_price : option float;
  cs_floor_price_currency : string;
  cs_average_price : option float;
  cs_total_volume : option float;
  cs_volume_24h : option float;
  cs_volume_7d : option float;
  cs_volume_30d : option float;
  cs_sales_24h : option Z;
  cs_sales_7d : option Z;
  cs_sales_30d : option Z;
  cs_market_cap : option float;
  cs_owners_percentage : option float;
  cs_verified : bool;
  cs_website : option string;
  cs_twitter : option string;
  cs_discord : option string;
  cs_image_url : option string;
  cs_banner_url : option string;
  cs_created_at : option Z;
  cs_updated_at : option Z;
}.

(** [CollectionStats(contract_address=.., chain=.., name=..)] with every
    other field at its class default. *)
Definition default_stats (addr : string) (c : Chain) (nm : option string)
  : CollectionStats :=
  {| cs_contract_address := addr; cs_chain := c; cs_name := nm;
     cs_symbol := None; cs_description := None;
     cs_total_supply := None; cs_total_owners := None;
     cs_floor_price := None; cs_floor_price_currency := "ETH";
     cs_average_price := None;
     cs_total_volume := None; cs_volume_24h := None; cs_volume_7d := None;
     cs_volume_30d := None;
     cs_sales_24h := None; cs_sales_7d := None; cs_sales_30d := None;
     cs_market_cap := None; cs_owners_percentage := None;
     cs_verified := false;
     cs_website := None; cs_twitter := None; cs_discord := None;
     cs_image_url := None; cs_banner_url := None;
     cs_created_at := None; cs_updated_at := None |}.

(** Attribute assignment [stats.f = v], one setter per assigned field. *)

Definition set_name (v : option string) (s : CollectionStats) : CollectionStats :=
  {| cs_contract_address := cs_contract_address s; cs_chain := cs_chain s;
     cs_name := v; cs_symbol := cs_symbol s;
     cs_description := cs_description s;
     cs_total_supply := cs_total_supply s;
     cs_total_owners := cs_total_owners s;
     cs_floor_price := cs_floor_price s;
     cs_floor_price_currency := cs_floor_price_currency s;
     cs_average_price := cs_average_price s;
     cs_total_volume := cs_total_volume s; cs_volume_24h := cs_volume_24h s;
     cs_volume_7d := cs_volume_7d s; cs_volume_30d := cs_volume_30d s;
     cs_sales_24h := cs_sales_24h s; cs_sales_7d := cs_sales_7d s;
     cs_sales_30d := cs_sales_30d s; cs_market_cap := cs_market_cap s;
     cs_owners_percentage := cs_owners_percentage s;
     cs_verified := cs_verified s; cs_website := cs_website s;
     cs_twitter := cs_twitter s; cs_discord := cs_discord s;
     cs_image_url := cs_image_url s; cs_banner_url := cs_banner_url s;
     cs_created_at := cs_created_at s; cs_updated_at := cs_updated_at s |}.

Definition set_description (v : option string) (s : CollectionStats) : CollectionStats :=
  {| cs_contract_address := cs_contract_address s; cs_chain := cs_chain s;
     cs_name := cs_name s; cs_symbol := cs_symbol s; cs_description := v;
     cs_total_supply := cs_total_supply s;
     cs_total_owners := cs_total_owners s;
     cs_floor_price := cs_floor_price s;
     cs_floor_price_currency := cs_floor_price_currency s;
     cs_average_price := cs_average_price s;
     cs_total_volume := cs_total_volume s; cs_volume_24h := cs_volume_24h s;
     cs_volume_7d := cs_volume_7d s; cs_volume_30d := cs_volume_30d s;
     cs_sales_24h := cs_sales_24h s; cs_sales_7d := cs_sales_7d s;
     cs_sales_30d := cs_sales_30d s; cs_market_cap := cs_market_cap s;
     cs_owners_percentage := cs_owners_percentage s;
     cs_verified := cs_verified s; cs_website := cs_website s;
     cs_twitter := cs_twitter s; cs_discord := cs_discord s;
     cs_image_url := cs_image_url s; cs_banner_url := cs_banner_url s;
     cs_created_at := cs_created_at s; cs_updated_at := cs_updated_at s |}.

Definition set_total_supply (v : option Z) (s : CollectionStats) : CollectionStats :=
  {| cs_contract_address := cs_contract_address s; cs_chain := cs_chain s;
     cs_name := cs_name s; cs_symbol := cs_symbol s;
     cs_description := cs_description s; cs_total_supply := v;
     cs_total_owners := cs_total_owners s;
     cs_floor_price := cs_floor_price s;
     cs_floor_price_currency := cs_floor_price_currency s;
     cs_average_price := cs_average_price s;
     cs_total_volume := cs_total_volume s; cs_volume_24h := cs_volume_24h s;
     cs_volume_7d := cs_volume_7d s; cs_volume_30d := cs_volume_30d s;
     cs_sales_24h := cs_sales_24h s; cs_sales_7d := cs_sales_7d s;
     cs_sales_30d := cs_sales_30d s; cs_market_cap := cs_market_cap s;
     cs_owners_percentage := cs_owners_percentage s;
     cs_verified := cs_verified s; cs_website := cs_website s;
     cs_twitter := cs_twitter s; cs_discord := cs_discord s;
     cs_image_url := cs_image_url s; cs_banner_url := cs_banner_url s;
     cs_created_at := cs_created_at s; cs_updated_at := cs_updated_at s |}.

Definition set_total_owners (v : option Z) (s : CollectionStats) : CollectionStats :=
  {| cs_contract_address := cs_contract_address s; cs_chain := cs_chain s;
     cs_name := cs_name s; cs_symbol := cs_symbol s;
     cs_description := cs_description s;
     cs_total_supply := cs_total_supply s; cs_total_owners := v;
     cs_floor_price := cs_floor_price s;
     cs_floor_price_currency := cs_floor_price_currency s;
     cs_average_price := cs_average_price s;
     cs_total_volume := cs_total_volume s; cs_volume_24h := cs_volume_24h s;
     cs_volume_7d := cs_volume_7d s; cs_volume_30d := cs_volume_30d s;
     cs_sales_24h := cs_sales_24h s; cs_sales_7d := cs_sales_7d s;
     cs_sales_30d := cs_sales_30d s; cs_market_cap := cs_market_cap s;
     cs_owners_percentage := cs_owners_percentage s;
     cs_verified := cs_verified s; cs_website := cs_website s;
     cs_twitter := cs_twitter s; cs_discord := cs_discord s;
     cs_image_url := cs_image_url s; cs_banner_url := cs_banner_url s;
     cs_created_at := cs_created_at s; cs_updated_at := cs_updated_at s |}.

Definition set_floor_price (v : option float) (s : CollectionStats) : CollectionStats :=
  {| cs_contract_address := cs_contract_address s; cs_chain := cs_chain s;
     cs_name := cs_name s; cs_symbol := cs_symbol s;
     cs_description := cs_description s;
     cs_total_supply := cs_total_supply s;
     cs_total_owners := cs_total_owners s; cs_floor_price := v;
     cs_floor_price_currency := cs_floor_price_currency s;
     cs_average_price := cs_average_price s;
     cs_total_volume := cs_total_volume s; cs_volume_24h := cs_volume_24h s;
     cs_volume_7d := cs_volume_7d s; cs_volume_30d := cs_volume_30d s;
     cs_sales_24h := cs_sales_24h s; cs_sales_7d := cs_sales_7d s;
     cs_sales_30d := cs_sales_30d s; cs_market_cap := cs_market_cap s;
     cs_owners_percentage := cs_owners_percentage s;
     cs_verified := cs_verified s; cs_website := cs_website s;
     cs_twitter := cs_twitter s; cs_discord := cs_discord s;
     cs_image_url := cs_image_url s; cs_banner_url := cs_banner_url s;
     cs_created_at := cs_created_at s; cs_updated_at := cs_updated_at s |}.

Definition set_floor_price_currency (v : string) (s : CollectionStats) : CollectionStats :=
  {| cs_contract_address := cs_contract_address s; cs_chain := cs_chain s;
     cs_name := cs_name s; cs_symbol := cs_symbol s;
     cs_description := cs_description s;
     cs_total_supply := cs_total_supply s;
     cs_total_owners := cs_total_owners s;
     cs_floor_price := cs_floor_price s; cs_floor_price_currency := v;
     cs_average_price := cs_average_price s;
     cs_total_volume := cs_total_volume s; cs_volume_24h := cs_volume_24h s;
     cs_volume_7d := cs_volume_7d s; cs_volume_30d := cs_volume_30d s;
     cs_sales_24h := cs_sales_24h s; cs_sales_7d := cs_sales_7d s;
     cs_sales_30d := cs_sales_30d s; cs_market_cap := cs_market_cap s;
     cs_owners_percentage := cs_owners_percentage s;
     cs_verified := cs_verified s; cs_website := cs_website s;
     cs_twitter := cs_twitter s; cs_discord := cs_discord s;
     cs_image_url := cs_image_url s; cs_banner_url := cs_banner_url s;
     cs_created_at := cs_created_at s; cs_updated_at := cs_updated_at s |}.

Definition set_total_volume (v : option float) (s : CollectionStats) : CollectionStats :=
  {| cs_contract_address := cs_contract_address s; cs_chain := cs_chain s;
     cs_name := cs_name s; cs_symbol := cs_symbol s;
     cs_description := cs_description s;
     cs_total_supply := cs_total_supply s;
     cs_total_owners := cs_total_owners s;
     cs_floor_price := cs_floor_price s;
     cs_floor_price_currency := cs_floor_price_currency s;
     cs_average_price := cs_average_price s; cs_total_volume := v;
     cs_volume_24h := cs_volume_24h s; cs_volume_7d := cs_volume_7d s;
     cs_volume_30d := cs_volume_30d s; cs_sales_24h := cs_sales_24h s;
     cs_sales_7d := cs_sales_7d s; cs_sales_30d := cs_sales_30d s;
     cs_market_cap := cs_market_cap s;
     cs_owners_percentage := cs_owners_percentage s;
     cs_verified := cs_verified s; cs_website := cs_website s;
     cs_twitter := cs_twitter s; cs_discord := cs_discord s;
     cs_image_url := cs_image_url s; cs_banner_url := cs_banner_url s;
     cs_created_at := cs_created_at s; cs_updated_at := cs_updated_at s |}.

Definition set_volume_24h (v : option float) (s : CollectionStats) : CollectionStats :=
  {| cs_contract_address := cs_contract_address s; cs_chain := cs_chain s;
     cs_name := cs_name s; cs_symbol := cs_symbol s;
     cs_description := cs_description s;
     cs_total_supply := cs_total_supply s;
     cs_total_owners := cs_total_owners s;
     cs_floor_price := cs_floor_price s;
     cs_floor_price_currency := cs_floor_price_currency s;
     cs_average_price := cs_average_price s;
     cs_total_volume := cs_total_volume s; cs_volume_24h := v;
     cs_volume_7d := cs_volume_7d s; cs_volume_30d := cs_volume_30d s;
     cs_sales_24h := cs_sales_24h s; cs_sales_7d := cs_sales_7d s;
     cs_sales_30d := cs_sales_30d s; cs_market_cap := cs_market_cap s;
     cs_owners_percentage := cs_owners_percentage s;
     cs_verified := cs_verified s; cs_website := cs_website s;
     cs_twitter := cs_twitter s; cs_discord := cs_discord s;
     cs_image_url := cs_image_url s; cs_banner_url := cs_banner_url s;
     cs_created_at := cs_created_at s; cs_updated_at := cs_updated_at s |}.

Definition set_volume_7d (v : option float) (s : CollectionStats) : CollectionStats :=
  {| cs_contract_address := cs_contract_address s; cs_chain := cs_chain s;
     cs_name := cs_name s; cs_symbol := cs_symbol s;
     cs_description := cs_description s;
     cs_total_supply := cs_total_supply s;
     cs_total_owners := cs_total_owners s;
     cs_floor_price := cs_floor_price s;
     cs_floor_price_currency := cs_floor_price_currency s;
     cs_average_price := cs_average_price s;
     cs_total_volume := cs_total_volume s; cs_volume_24h := cs_volume_24h s;
     cs_volume_7d := v; cs_volume_30d := cs_volume_30d s;
     cs_sales_24h := cs_sales_24h s; cs_sales_7d := cs_sales_7d s;
     cs_sales_30d := cs_sales_30d s; cs_market_cap := cs_market_cap s;
     cs_owners_percentage := cs_owners_percentage s;
     cs_verified := cs_verified s; cs_website := cs_website s;
     cs_twitter := cs_twitter s; cs_discord := cs_discord s;
     cs_image_url := cs_image_url s; cs_banner_url := cs_banner_url s;
     cs_created_at := cs_created_at s; cs_updated_at := cs_updated_at s |}.

Definition set_volume_30d (v : option float) (s : CollectionStats) : CollectionStats :=
  {| cs_contract_address := cs_contract_address s; cs_chain := cs_chain s;
     cs_name := cs_name s; cs_symbol := cs_symbol s;
     cs_description := cs_description s;
     cs_total_supply := cs_total_supply s;
     cs_total_owners := cs_total_owners s;
     cs_floor_price := cs_floor_price s;
     cs_floor_price_currency := cs_floor_price_currency s;
     cs_average_price := cs_average_price s;
     cs_total_volume := cs_total_volume s; cs_volume_24h := cs_volume_24h s;
     cs_volume_7d := cs_volume_7d s; cs_volume_30d := v;
     cs_sales_24h := cs_sales_24h s; cs_sales_7d := cs_sales_7d s;
     cs_sales_30d := cs_sales_30d s; cs_market_cap := cs_market_cap s;
     cs_owners_percentage := cs_owners_percentage s;
     cs_verified := cs_verified s; cs_website := cs_website s;
     cs_twitter := cs_twitter s; cs_discord := cs_discord s;
     cs_image_url := cs_image_url s; cs_banner_url := cs_banner_url s;
     cs_created_at := cs_created_at s; cs_updated_at := cs_updated_at s |}.

Definition set_sales_24h (v : option Z) (s : CollectionStats) : CollectionStats :=
  {| cs_contract_address := cs_contract_address s; cs_chain := cs_chain s;
     cs_name := cs_name s; cs_symbol := cs_symbol s;
     cs_description := cs_description s;
     cs_total_supply := cs_total_supply s;
     cs_total_owners := cs_total_owners s;
     cs_floor_price := cs_floor_price s;
     cs_floor_price_currency := cs_floor_price_currency s;
     cs_average_price := cs_average_price s;
     cs_total_volume := cs_total_volume s; cs_volume_24h := cs_volume_24h s;
     cs_volume_7d := cs_volume_7d s; cs_volume_30d := cs_volume_30d s;
     cs_sales_24h := v; cs_sales_7d := cs_sales_7d s;
     cs_sales_30d := cs_sales_30d s; cs_market_cap := cs_market_cap s;
     cs_owners_percentage := cs_owners_percentage s;
     cs_verified := cs_verified s; cs_website := cs_website s;
     cs_twitter := cs_twitter s; cs_discord := cs_discord s;
     cs_image_url := cs_image_url s; cs_banner_url := cs_banner_url s;
     cs_created_at := cs_created_at s; cs_updated_at := cs_updated_at s |}.

Definition set_sales_7d (v : option Z) (s : CollectionStats) : CollectionStats :=
  {| cs_contract_address := cs_contract_address s; cs_chain := cs_chain s;
     cs_name := cs_name s; cs_symbol := cs_symbol s;
     cs_description := cs_description s;
     cs_total_supply := cs_total_supply s;
     cs_total_owners := cs_total_owners s;
     cs_floor_price := cs_floor_price s;
     cs_floor_price_currency := cs_floor_price_currency s;
     cs_average_price := cs_average_price s;
     cs_total_volume := cs_total_volume s; cs_volume_24h := cs_volume_24h s;
     cs_volume_7d := cs_volume_7d s; cs_volume_30d := cs_volume_30d s;
     cs_sales_24h := cs_sales_24h s; cs_sales_7d := v;
     cs_sales_30d := cs_sales_30d s; cs_market_cap := cs_market_cap s;
     cs_owners_percentage := cs_owners_percentage s;
     cs_verified := cs_verified s; cs_website := cs_website s;
     cs_twitter := cs_twitter s; cs_discord := cs_discord s;
     cs_image_url := cs_image_url s; cs_banner_url := cs_banner_url s;
     cs_created_at := cs_created_at s; cs_updated_at := cs_updated_at s |}.

Definition set_sales_30d (v : option Z) (s : CollectionStats) : CollectionStats :=
  {| cs_contract_address := cs_contract_address s; cs_chain := cs_chain s;
     cs_name := cs_name s; cs_symbol := cs_symbol s;
     cs_description := cs_description s;
     cs_total_supply := cs_total_supply s;
     cs_total_owners := cs_total_owners s;
     cs_floor_price := cs_floor_price s;
     cs_floor_price_currency := cs_floor_price_currency s;
     cs_average_price := cs_average_price s;
     cs_total_volume := cs_total_volume s; cs_volume_24h := cs_volume_24h s;
     cs_volume_7d := cs_volume_7d s; cs_volume_30d := cs_volume_30d s;
     cs_sales_24h := cs_sales_24h s; cs_sales_7d := cs_sales_7d s;
     cs_sales_30d := v; cs_market_cap := cs_market_cap s;
     cs_owners_percentage := cs_owners_percentage s;
     cs_verified := cs_verified s; cs_website := cs_website s;
     cs_twitter := cs_twitter s; cs_discord := cs_discord s;
     cs_image_url := cs_image_url s; cs_banner_url := cs_banner_url s;
     cs_created_at := cs_created_at s; cs_updated_at := cs_updated_at s |}.

Definition set_market_cap (v : option float) (s : CollectionStats) : CollectionStats :=
  {| cs_contract_address := cs_contract_address s; cs_chain := cs_chain s;
     cs_name := cs_name s; cs_symbol := cs_symbol s;
     cs_description := cs_description s;
     cs_total_supply := cs_total_supply s;
     cs_total_owners := cs_total_owners s;
     cs_floor_price := cs_floor_price s;
     cs_floor_price_currency := cs_floor_price_currency s;
     cs_average_price := cs_average_price s;
     cs_total_volume := cs_total_volume s; cs_volume_24h := cs_volume_24h s;
     cs_volume_7d := cs_volume_7d s; cs_volume_30d := cs_volume_30d s;
     cs_sales_24h := cs_sales_24h s; cs_sales_7d := cs_sales_7d s;
     cs_sales_30d := cs_sales_30d s; cs_market_cap := v;
     cs_owners_percentage := cs_owners_percentage s;
     cs_verified := cs_verified s; cs_website := cs_website s;
     cs_twitter := cs_twitter s; cs_discord := cs_discord s;
     cs_image_url := cs_image_url s; cs_banner_url := cs_banner_url s;
     cs_created_at := cs_created_at s; cs_updated_at := cs_updated_at s |}.

Definition set_owners_percentage (v : option float) (s : CollectionStats) : CollectionStats :=
  {| cs_contract_address := cs_contract_address s; cs_chain := cs_chain s;
     cs_name := cs_name s; cs_symbol := cs_symbol s;
     cs_description := cs_description s;
     cs_total_supply := cs_total_supply s;
     cs_total_owners := cs_total_owners s;
     cs_floor_price := cs_floor_price s;
     cs_floor_price_currency := cs_floor_price_currency s;
     cs_average_price := cs_average_price s;
     cs_total_volume := cs_total_volume s; cs_volume_24h := cs_volume_24h s;
     cs_volume_7d := cs_volume_7d s; cs_volume_30d := cs_volume_30d s;
     cs_sales_24h := cs_sales_24h s; cs_sales_7d := cs_sales_7d s;
     cs_sales_30d := cs_sales_30d s; cs_market_cap := cs_market_cap s;
     cs_owners_percentage := v; cs_verified := cs_verified s;
     cs_website := cs_website s; cs_twitter := cs_twitter s;
     cs_discord := cs_discord s; cs_image_url := cs_image_url s;
     cs_banner_url := cs_banner_url s; cs_created_at := cs_created_at s;
     cs_updated_at := cs_updated_at s |}.

Definition set_website (v : option string) (s : CollectionStats) : CollectionStats :=
  {| cs_contract_address := cs_contract_address s; cs_chain := cs_chain s;
     cs_name := cs_name s; cs_symbol := cs_symbol s;
     cs_description := cs_description s;
     cs_total_supply := cs_total_supply s;
     cs_total_owners := cs_total_owners s;
     cs_floor_price := cs_floor_price s;
     cs_floor_price_currency := cs_floor_price_currency s;
     cs_average_price := cs_average_price s;
     cs_total_volume := cs_total_volume s; cs_volume_24h := cs_volume_24h s;
     cs_volume_7d := cs_volume_7d s; cs_volume_30d := cs_volume_30d s;
     cs_sales_24h := cs_sales_24h s; cs_sales_7d := cs_sales_7d s;
     cs_sales_30d := cs_sales_30d s; cs_market_cap := cs_market_cap s;
     cs_owners_percentage := cs_owners_percentage s;
     cs_verified := cs_verified s; cs_website := v;
     cs_twitter := cs_twitter s; cs_discord := cs_discord s;
     cs_image_url := cs_image_url s; cs_banner_url := cs_banner_url s;
     cs_created_at := cs_created_at s; cs_updated_at := cs_updated_at s |}.

Definition set_twitter (v : option string) (s : CollectionStats) : CollectionStats :=
  {| cs_contract_address := cs_contract_address s; cs_chain := cs_chain s;
     cs_name := cs_name s; cs_symbol := cs_symbol s;
     cs_description := cs_description s;
     cs_total_supply := cs_total_supply s;
     cs_total_owners := cs_total_owners s;
     cs_floor_price := cs_floor_price s;
     cs_floor_price_currency := cs_floor_price_currency s;
     cs_average_price := cs_average_price s;
     cs_total_volume := cs_total_volume s; cs_volume_24h := cs_volume_24h s;
     cs_volume_7d := cs_volume_7d s; cs_volume_30d := cs_volume_30d s;
     cs_sales_24h := cs_sales_24h s; cs_sales_7d := cs_sales_7d s;
     cs_sales_30d := cs_sales_30d s; cs_market_cap := cs_market_cap s;
     cs_owners_percentage := cs_owners_percentage s;
     cs_verified := cs_verified s; cs_website := cs_website s;
     cs_twitter := v; cs_discord := cs_discord s;
     cs_image_url := cs_image_url s; cs_banner_url := cs_banner_url s;
     cs_created_at := cs_created_at s; cs_updated_at := cs_updated_at s |}.

Definition set_discord (v : option string) (s : CollectionStats) : CollectionStats :=
  {| cs_contract_address := cs_contract_address s; cs_chain := cs_chain s;
     cs_name := cs_name s; cs_symbol := cs_symbol s;
     cs_description := cs_description s;
     cs_total_supply := cs_total_supply s;
     cs_total_owners := cs_total_owners s;
     cs_floor_price := cs_floor_price s;
     cs_floor_price_currency := cs_floor_price_currency s;
     cs_average_price := cs_average_price s;
     cs_total_volume := cs_total_volume s; cs_volume_24h := cs_volume_24h s;
     cs_volume_7d := cs_volume_7d s; cs_volume_30d := cs_volume_30d s;
     cs_sales_24h := cs_sales_24h s; cs_sales_7d := cs_sales_7d s;
     cs_sales_30d := cs_sales_30d s; cs_market_cap := cs_market_cap s;
     cs_owners_percentage := cs_owners_percentage s;
     cs_verified := cs_verified s; cs_website := cs_website s;
     cs_twitter := cs_twitter s; cs_discord := v;
     cs_image_url := cs_image_url s; cs_banner_url := cs_banner_url s;
     cs_created_at := cs_created_at s; cs_updated_at := cs_updated_at s |}.

Definition set_image_url (v : option string) (s : CollectionStats) : CollectionStats :=
  {| cs_contract_address := cs_contract_address s; cs_chain := cs_chain s;
     cs_name := cs_name s; cs_symbol := cs_symbol s;
     cs_description := cs_description s;
     cs_total_supply := cs_total_supply s;
     cs_total_owners := cs_total_owners s;
     cs_floor_price := cs_floor_price s;
     cs_floor_price_currency := cs_floor_price_currency s;
     cs_average_price := cs_average_price s;
     cs_total_volume := cs_total_volume s; cs_volume_24h := cs_volume_24h s;
     cs_volume_7d := cs_volume_7d s; cs_volume_30d := cs_volume_30d s;
     cs_sales_24h := cs_sales_24h s; cs_sales_7d := cs_sales_7d s;
     cs_sales_30d := cs_sales_30d s; cs_market_cap := cs_market_cap s;
     cs_owners_percentage := cs_owners_percentage s;
     cs_verified := cs_verified s; cs_website := cs_website s;
     cs_twitter := cs_twitter s; cs_discord := cs_discord s;
     cs_image_url := v; cs_banner_url := cs_banner_url s;
     cs_created_at := cs_created_at s; cs_updated_at := cs_updated_at s |}.

(** [CollectionNFTResponse].  The class has no [pageKey] and no [nextToken]
    attribute, so [getattr(response, 'pageKey', None)] is always [None]. *)
Record CollectionNFTResponse : Type := {
  r_contract_address : string;
  r_chain : Chain;
  r_total_count : Z;
  r_total : option Z;
  r_nfts : list NormalizedNFT;
  r_cursor : option string;
  r_has_more : bool;
}.

End Models.

(** ** storage/memory.py *)

Module Memory.

(** [Config]: the two settings read by the code modelled here. *)
Record Config : Type := {
  cache_ttl : Z;
  max_workers : Z;
}.

Section Cache.
Context {V : Type}.

(** [cachetools.TTLCache], as the library documents it: an entry stored at
    time [t] is visible while the timer reads less than [t + ttl]; when the
    cache is full, storing a new key discards the least recently used entry.
    [links] holds the entries least recently used first.  The timer reading
    is passed to every operation. *)
Record Link : Type := {
  lk_key : string;
  lk_value : V;
  lk_expires : Z;
}.

Record TTLCache : Type := {
  maxsize : Z;
  ttl : Z;
  links : list Link;
}.

Definition live (time : Z) (l : Link) : bool := time <? lk_expires l.

Definition has_key (k : string) (l : Link) : bool := String.eqb (lk_key l) k.

Definition find_link (k : string) (ls : list Link) : option Link :=
  List.find (has_key k) ls.

Definition remove_key (k : string) (ls : list Link) : list Link :=
  List.filter (fun l => negb (has_key k l)) ls.

Definition with_links (c : TTLCache) (ls : list Link) : TTLCache :=
  {| maxsize := maxsize c; ttl := ttl c; links := ls |}.

(** [TTLCache.expire(time)] *)
Definition expire (time : Z) (c : TTLCache) : TTLCache :=
  with_links c (List.filter (live time) (links c)).

(** [cache.get(key)]: a hit makes the entry the most recently used. *)
Definition cache_get (time : Z) (k : string) (c : TTLCache)
  : option V * TTLCache :=
  match find_link k (links c) with
  | Some l =>
      if live time l
      then (Some (lk_value l), with_links c (remove_key k (links c) ++ [l]))
      else (None, c)
  | None => (None, c)
  end.

(** [cache[key] = value] *)
Definition cache_setitem (time : Z) (k : string) (v : V) (c : TTLCache)
  : TTLCache :=
  let ls := links (expire time c) in
  let kept :=
    match find_link k ls with
    | Some _ => remove_key k ls
    | None => if maxsize c <? Z.of_nat (length ls) + 1 then tail ls else ls
    end in
  with_links c
    (kept ++ [ {| lk_key := k; lk_value := v; lk_expires := time + ttl c |} ]).

(** [cache.pop(key, None)] *)
Definition cache_pop (k : string) (c : TTLCache) : TTLCache :=
  with_links c (remove_key k (links c)).

Record MemoryStorage : Type := {
  config : Config;
  cache : TTLCache;
}.

(** [MemoryStorage.__init__] *)
Definition new (cfg : Config) : MemoryStorage :=
  {| config := cfg;
     cache := {| maxsize := 10000; ttl := cache_ttl cfg; links := [] |} |}.

Definition get_cache (time : Z) (key : string) (st : MemoryStorage)
  : option V * MemoryStorage :=
  let '(v, c) := cache_get time key (cache st) in
  (v, {| config := config st; cache := c |}).

(** Both branches of the [if ttl != self.config.cache_ttl] store through
    the same [TTLCache]. *)
Definition set_cache (time : Z) (key : string) (value : V) (ttl : Z)
    (st : MemoryStorage) : MemoryStorage :=
  if negb (ttl =? cache_ttl (config st))
  then {| config := config st;
          cache := cache_setitem time key value (cache st) |}
  else {| config := config st;
          cache := cache_setitem time key value (cache st) |}.

Definition delete_cache (key : string) (st : MemoryStorage) : MemoryStorage :=
  {| config := config st; cache := cache_pop key (cache st) |}.

(** What [__init__] establishes and every operation keeps. *)
Definition well_formed (st : MemoryStorage) : Prop :=
  ttl (cache st) = cache_ttl (config st) /\ maxsize (cache st) = 10000.

End Cache.
Arguments Link : clear implicits.
Arguments TTLCache : clear implicits.
Arguments MemoryStorage : clear implicits.

End Memory.

(** ** The dict an adapter hands to [NFTScout.get_collection_nfts] *)

Module Clients.

(** Keys the scraper reads.  [None] stands for an absent key and for a key
    bound to [None]; the scraper tells the two apart only for [has_more]. *)
Record ResponseDict (Item : Type) : Type := {
  d_nfts : list Item;
  d_pageKey : option string;
  d_nextToken : option string;
  d_page : option string;
  d_cursor : option string;
  d_total : option Z;
  d_totalCount : option Z;
  d_totalSupply : option Z;
  d_has_more : option bool;
}.
Arguments d_nfts {Item} _.
Arguments d_pageKey {Item} _.
Arguments d_nextToken {Item} _.
Arguments d_page {Item} _.
Arguments d_cursor {Item} _.
Arguments d_total {Item} _.
Arguments d_totalCount {Item} _.
Arguments d_totalSupply {Item} _.
Arguments d_has_more {Item} _.

End Clients.

(** ** clients/alchemy.py *)

Module Alchemy.
Import Clients.

(** The JSON body of [getNFTsForCollection]. *)
Record Body (Item : Type) : Type := {
  b_nfts : list Item;
  b_nextToken : option string;
  b_pageKey : option string;
}.
Arguments b_nfts {Item} _.
Arguments b_nextToken {Item} _.
Arguments b_pageKey {Item} _.

(** [AlchemyClient.get_contract_nfts]: a failed request is logged and
    raised again. *)
Definition get_contract_nfts {Item} (request : Result (Body Item))
  : Result (ResponseDict Item) :=
  match request with
  | Ok response =>
      let next_token := Py.or_ostr (b_nextToken response) (b_pageKey response) in
      Ok {| d_nfts := b_nfts response;
            d_pageKey := next_token; d_nextToken := next_token;
            d_page := None; d_cursor := None;
            d_total := None; d_totalCount := None; d_totalSupply := None;
            d_has_more := None |}
  | Raised e => Raised e
  end.

End Alchemy.

(** ** clients/moralis.py *)

Module Moralis.
Import Clients.

Record Body (Item : Type) : Type := {
  b_result : list Item;
  b_cursor : option string;
}.
Arguments b_result {Item} _.
Arguments b_cursor {Item} _.

(** [MoralisClient.get_contract_nfts]: a failed request gives an empty
    page. *)
Definition get_contract_nfts {Item} (request : Result (Body Item))
  : ResponseDict Item :=
  match request with
  | Ok response =>
      {| d_nfts := b_result response;
         d_pageKey := b_cursor response; d_nextToken := None;
         d_page := b_cursor response; d_cursor := b_cursor response;
         d_total := None; d_totalCount := None; d_totalSupply := None;
         d_has_more := None |}
  | Raised _ =>
      {| d_nfts := []; d_pageKey := None; d_nextToken := None;
         d_page := None; d_cursor := None;
         d_total := None; d_totalCount := None; d_totalSupply := None;
         d_has_more := None |}
  end.

End Moralis.

(** ** clients/helius.py *)

Module Helius.
Import Clients.

(** The ad hoc attributes [get_collection_nfts] keeps on the client.  An
    attribute the client does not have yet reads as [None]: every test in
    the source is [not hasattr(..) or .. is None] or [hasattr(..) and ..]. *)
Record ClientState : Type := {
  _current_collection : option string;
  _collection_total : option Z;
  _last_total : option Z;
}.

Definition fresh : ClientState :=
  {| _current_collection := None; _collection_total := None;
     _last_total := None |}.

(** One character of the class [[1-9A-HJ-NP-Za-km-z]]. *)
Definition base58_char (a : ascii) : bool :=
  let c := Py.code a in
  ((49 <=? c) && (c <=? 57)
   || (65 <=? c) && (c <=? 72) || (74 <=? c) && (c <=? 78)
   || (80 <=? c) && (c <=? 90)
   || (97 <=? c) && (c <=? 107) || (109 <=? c) && (c <=? 122))%N.

(** [re.match(r'^[1-9A-HJ-NP-Za-km-z]+$', s)]; [$] also matches just before
    one trailing newline. *)
Fixpoint base58_match (s : string) (seen : bool) : bool :=
  match s with
  | EmptyString => seen
  | String a r =>
      if base58_char a then base58_match r true
      else seen && (Py.code a =? 10)%N && String.eqb r ""
  end.

Definition is_address (collection_address : string) : bool :=
  (32 <=? Py.len collection_address) && (Py.len collection_address <=? 44)
  && base58_match collection_address false.

Section Client.
Context {Item : Type}.

(** [_enrich_nft_metadata]: fills display metadata of an item and never
    raises; it has no part in counts or cursors. *)
Variable enrich : Item -> Item.

(** Result of the RPC [getAssetsByGroup]: [items], [cursor], and [total]
    read with [.get("total", 0)]. *)
Record RpcBody : Type := {
  rpc_items : list Item;
  rpc_cursor : option string;
  rpc_total : Z;
}.

(** Body of the DAS [getAssetsByGroup] fallback. *)
Record DasBody : Type := {
  das_items : list Item;
  das_page : option string;
  das_cursor : option string;
}.

(** What the outside world answers during one call: the collection address
    the marketplace lookups resolve a symbol to ([collection_addr_found]),
    and the outcome of the RPC request and of the DAS request. *)
Record CallEnv : Type := {
  resolved : option string;
  rpc : Result RpcBody;
  das : Result DasBody;
}.

Definition store (st : ClientState) (total : Z) : ClientState :=
  {| _current_collection := _current_collection st;
     _collection_total := Some total;
     _last_total := Some total |}.

(** Lines 213-216: totals are forgotten when the collection changes. *)
Definition reset_for (collection_address : string) (st : ClientState)
  : ClientState :=
  if decide (_current_collection st = Some collection_address) then st
  else {| _current_collection := Some collection_address;
          _collection_total := None; _last_total := None |}.

(** [limit] *)
Definition limit_of (page_size : Z) : Z := Z.min page_size 10000.

(** Lines 254-274 (and 490-505): [actual_total]. *)
Definition actual_total_of (cursor page_cursor : option string)
    (n_items limit total_returned : Z) : option Z :=
  if negb (Py.truthy_ostr cursor) then
    if negb (Py.truthy_ostr page_cursor) && (n_items <? limit) then Some n_items
    else if Py.truthy_ostr page_cursor then None
    else Some total_returned
  else None.

(** Lines 276-288: the direct-address path. *)
Definition store_total_direct (st : ClientState) (actual_total : option Z)
    (total_returned : Z) : ClientState :=
  match _collection_total st with
  | None =>
      match actual_total with
      | Some a => store st a
      | None => if 0 <? total_returned then store st total_returned else st
      end
  | Some _ => st
  end.

(** Lines 507-528: the resolved-symbol path. *)
Definition store_total_resolved (st : ClientState) (actual_total : option Z)
    (total_returned : Z) (page_cursor : option string) (n_items limit : Z)
  : ClientState :=
  match _collection_total st with
  | None =>
      match actual_total with
      | Some a => store st a
      | None =>
          if (0 <? total_returned) && negb (Py.truthy_ostr page_cursor)
             && (n_items <? limit)
          then store st total_returned
          else if (0 <? total_returned) && negb (Py.truthy_ostr page_cursor)
          then store st total_returned
          else st
      end
  | Some _ => st
  end.

(** Lines 293-298 (and 530-535): [has_more]. *)
Definition has_more_of (page_cursor : option string)
    (n_items limit total_returned : Z) : bool :=
  bool_decide (page_cursor <> None)
  || (limit <=? n_items)
  || ((0 <? total_returned) && (n_items <? total_returned)).

(** The local variables with which the [try] body reaches line 555. *)
Record Page : Type := {
  pg_items : list Item;
  pg_cursor : option string;
  pg_has_more : bool;
}.

(** One group query: RPC first, DAS when the RPC request raises.  [direct]
    tells which of the two copies of the total bookkeeping runs. *)
Definition group_query (direct : bool) (st : ClientState)
    (cursor : option string) (page_size : Z) (env : CallEnv)
  : Result Page * ClientState :=
  match rpc env with
  | Ok rpc_response =>
      let items := rpc_items rpc_response in
      let page_cursor := rpc_cursor rpc_response in
      let total_returned := rpc_total rpc_response in
      let n := Z.of_nat (length items) in
      let limit := limit_of page_size in
      let actual_total :=
        actual_total_of cursor page_cursor n limit total_returned in
      let st' :=
        if direct then store_total_direct st actual_total total_returned
        else store_total_resolved st actual_total total_returned
               page_cursor n limit in
      (Ok {| pg_items := items; pg_cursor := page_cursor;
             pg_has_more := has_more_of page_cursor n limit total_returned |},
       st')
  | Raised _ =>
      match das env with
      | Ok response =>
          let page_cursor := Py.or_ostr (das_page response) (das_cursor response) in
          (Ok {| pg_items := das_items response; pg_cursor := page_cursor;
                 pg_has_more := bool_decide (page_cursor <> None) |}, st)
      | Raised e => (Raised e, st)
      end
  end.

(** Lines 562-567: the total handed back. *)
Definition stored_total (st : ClientState) : option Z :=
  if Py.truthy_oint (_collection_total st) then _collection_total st
  else if Py.truthy_oint (_last_total st) then _last_total st
  else None.

(** Lines 596-603: what the outer [except] returns. *)
Definition empty_result : ResponseDict Item :=
  {| d_nfts := []; d_pageKey := None; d_nextToken := None;
     d_page := None; d_cursor := None;
     d_total := None; d_totalCount := Some 0; d_totalSupply := None;
     d_has_more := None |}.

Definition result_of (pg : Page) (st : ClientState) : ResponseDict Item :=
  let items := List.map enrich (pg_items pg) in
  {| d_nfts := items; d_pageKey := None; d_nextToken := None;
     d_page := pg_cursor pg; d_cursor := pg_cursor pg;
     d_total := stored_total st;
     d_totalCount := Some (Z.of_nat (length items));
     d_totalSupply := None;
     d_has_more := Some (pg_has_more pg) |}.

(** [HeliusClient.get_collection_nfts] *)
Definition get_collection_nfts (st : ClientState)
    (collection_address chain : string) (cursor : option string)
    (page_size : Z) (env : CallEnv)
  : Result (ResponseDict Item) * ClientState :=
  let st := reset_for collection_address st in
  if negb (String.eqb (Py.lower chain) "solana")
  then (Raised "Helius client only supports Solana", st)
  else if is_address collection_address then
    match group_query true st cursor page_size env with
    | (Ok pg, st') => (Ok (result_of pg st'), st')
    | (Raised _, st') => (Ok empty_result, st')
    end
  else
    if Py.truthy_ostr (resolved env) then
      let st :=
        {| _current_collection := resolved env;
           _collection_total := _collection_total st;
           _last_total := _last_total st |} in
      match group_query false st cursor page_size env with
      | (Ok pg, st') => (Ok (result_of pg st'), st')
      | (Raised _, st') => (Ok empty_result, st')
      end
    else
      (Ok (result_of {| pg_items := []; pg_cursor := None;
                        pg_has_more := false |} st), st).

End Client.
Arguments RpcBody : clear implicits.
Arguments DasBody : clear implicits.
Arguments CallEnv : clear implicits.
Arguments Page : clear implicits.

End Helius.

(** ** normalizer.py: collection statistics

    A response body reaches its normalizer as a [Payload].  A typed
    payload is a record whose fields hold the values the normalizer finds
    under the key (or path) named in the comment of the field, already
    converted as the normalizer converts them ([float(..)], [int(..)],
    URL parsing inside a [try]), all of them values that the model
    [CollectionStats] accepts.  Every other body is [Untyped], with the
    exception the normalizer raises on it.  Dictionary digging, numeric
    parsing and the validation rules of pydantic are not modelled; that a
    normalizer raises, and where the exception goes, is. *)

Module Normalizer.
Import Models.

(** A response body as a normalizer meets it.  [Typed a]: the body has
    the shape the normalizer reads, and the values it hands to the model
    are values the model accepts; the record [a] lists them.  [Untyped e]:
    the normalizer raises [e] on the body, be it an [AttributeError] for a
    null where it reads a dict, a [ValueError] for a number that does not
    convert outside a [try], or the [ValidationError] of the model for a
    value it refuses (a string that [HttpUrl] does not accept as
    [image_url], a text where an [int] is declared).  No normalizer
    raises on the empty dict, so an untyped body is not empty. *)
Inductive Payload (A : Type) : Type :=
| Typed (a : A)
| Untyped (e : string).
Arguments Typed {A} a.
Arguments Untyped {A} e.

(** [if data:] for a body: [truthy] tells whether a typed body is a dict
    with keys. *)
Definition payload_truthy {A} (truthy : A -> bool) (data : Payload A)
  : bool :=
  match data with Typed a => truthy a | Untyped _ => true end.

(** [data.get(..)] read by the scraper itself, after the normalizer has
    accepted the body. *)
Definition read {A B} (field : A -> option B) (data : Payload A)
  : option B :=
  match data with Typed a => field a | Untyped _ => None end.

(** A normalizer on a body: the record its constructor call builds from a
    typed body, the exception on any other. *)
Definition normalized {A} (record : A -> CollectionStats)
    (data : Payload A) : Result CollectionStats :=
  match data with Typed a => Ok (record a) | Untyped e => Raised e end.

(** [HeliusClient.get_collection_metadata] result: [{}] is all [None]. *)
Record HeliusMeta : Type := {
  hm_collection_address : option string;
  hm_name : option string;
  hm_description : option string;
  hm_image : option string;                (* image, a URL for [HttpUrl] *)
  hm_totalSupply : option Z;
}.

(** Lines 144-157 of helius.py: what the client returns for a collection
    with [n_items > 0] items on the page; it has no [collection_address]. *)
Definition helius_metadata (name description image : option string)
    (n_items : Z) : HeliusMeta :=
  {| hm_collection_address := None; hm_name := name;
     hm_description := description; hm_image := image;
     hm_totalSupply := Some n_items |}.

Definition helius_empty : HeliusMeta :=
  {| hm_collection_address := None; hm_name := None;
     hm_description := None; hm_image := None; hm_totalSupply := None |}.

(** The record [normalize_helius_collection] builds from a typed body. *)
Definition helius_record (data : HeliusMeta) (chain : Chain)
  : CollectionStats :=
  set_total_supply (hm_totalSupply data)
    (set_image_url (hm_image data)
       (set_description (hm_description data)
          (default_stats (default "" (hm_collection_address data)) chain
             (hm_name data)))).

(** [normalize_helius_collection]: one constructor call, which validates
    what it is given; [image] goes into the [HttpUrl] field as it comes,
    so a body whose [image] is no URL is an untyped one. *)
Definition normalize_helius_collection (data : Payload HeliusMeta)
    (chain : Chain) : Result CollectionStats :=
  normalized (fun data => helius_record data chain) data.

(** Alchemy [getContractMetadata] body. *)
Record AlchemyMeta : Type := {
  am_truthy : bool;                        (* the dict is not empty *)
  am_address : option string;              (* address *)
  am_name : option string;                 (* name *)
  am_cm_name : option string;              (* contractMetadata.name *)
  am_os_collectionName : option string;    (* openSea.collectionName *)
  am_os_name : option string;              (* openSea.name *)
  am_symbol : option string;               (* symbol *)
  am_cm_symbol : option string;            (* contractMetadata.symbol *)
  am_os_safelist : option string;          (* openSea.safelistRequestStatus *)
}.

Definition alchemy_empty : AlchemyMeta :=
  {| am_truthy := false; am_address := None; am_name := None;
     am_cm_name := None; am_os_collectionName := None; am_os_name := None;
     am_symbol := None; am_cm_symbol := None; am_os_safelist := None |}.

Definition with_symbol_verified (symbol : option string) (verified : bool)
    (s : CollectionStats) : CollectionStats :=
  {| cs_contract_address := cs_contract_address s; cs_chain := cs_chain s;
     cs_name := cs_name s; cs_symbol := symbol;
     cs_description := cs_description s;
     cs_total_supply := cs_total_supply s;
     cs_total_owners := cs_total_owners s;
     cs_floor_price := cs_floor_price s;
     cs_floor_price_currency := cs_floor_price_currency s;
     cs_average_price := cs_average_price s;
     cs_total_volume := cs_total_volume s; cs_volume_24h := cs_volume_24h s;
     cs_volume_7d := cs_volume_7d s; cs_volume_30d := cs_volume_30d s;
     cs_sales_24h := cs_sales_24h s; cs_sales_7d := cs_sales_7d s;
     cs_sales_30d := cs_sales_30d s; cs_market_cap := cs_market_cap s;
     cs_owners_percentage := cs_owners_percentage s;
     cs_verified := verified;
     cs_website := cs_website s; cs_twitter := cs_twitter s;
     cs_discord := cs_discord s; cs_image_url := cs_image_url s;
     cs_banner_url := cs_banner_url s;
     cs_created_at := cs_created_at s; cs_updated_at := cs_updated_at s |}.

(** The record [normalize_alchemy_collection] builds from a typed body. *)
Definition alchemy_record (data : AlchemyMeta) (chain : Chain)
  : CollectionStats :=
  let collection_name :=
    Py.or_ostr (am_name data)
      (Py.or_ostr (am_cm_name data)
         (Py.or_ostr (am_os_collectionName data) (am_os_name data))) in
  with_symbol_verified
    (Py.or_ostr (am_symbol data) (am_cm_symbol data))
    (bool_decide (am_os_safelist data = Some "verified"))
    (default_stats (default "" (am_address data)) chain collection_name).

(** [normalize_alchemy_collection] *)
Definition normalize_alchemy_collection (data : Payload AlchemyMeta)
    (chain : Chain) : Result CollectionStats :=
  normalized (fun data => alchemy_record data chain) data.

(** Moralis [nft/{address}/metadata] body. *)
Record MoralisMeta : Type := {
  mo_token_address : option string;
  mo_name : option string;
  mo_symbol : option string;
  mo_description : option string;          (* metadata.description *)
  mo_image : option string;                (* metadata.image, a URL *)
  mo_total_supply : option Z;              (* int(total_supply) *)
}.

(** The record [normalize_moralis_collection] builds from a typed body. *)
Definition moralis_record (data : MoralisMeta) (chain : Chain)
  : CollectionStats :=
  set_total_supply (mo_total_supply data)
    (set_image_url (mo_image data)
       (set_description (mo_description data)
          (with_symbol_verified (mo_symbol data) false
             (default_stats (default "" (mo_token_address data)) chain
                (mo_name data))))).

(** [normalize_moralis_collection]; [metadata.image] goes into the
    [HttpUrl] field as it comes. *)
Definition normalize_moralis_collection (data : Payload MoralisMeta)
    (chain : Chain) : Result CollectionStats :=
  normalized (fun data => moralis_record data chain) data.

(** QuickNode metadata body (the client returns [{}]). *)
Record QuickNodeMeta : Type := {
  qn_address : option string;
  qn_name : option string;
  qn_symbol : option string;
  qn_description : option string;
  qn_image : option string;                (* image, a URL *)
  qn_totalSupply : option Z;
}.

(** The record [normalize_quicknode_collection] builds from a typed
    body. *)
Definition quicknode_record (data : QuickNodeMeta) (chain : Chain)
  : CollectionStats :=
  set_total_supply (qn_totalSupply data)
    (set_image_url (qn_image data)
       (set_description (qn_description data)
          (with_symbol_verified (qn_symbol data) false
             (default_stats (default "" (qn_address data)) chain
                (qn_name data))))).

(** [normalize_quicknode_collection]; [image] goes into the [HttpUrl]
    field as it comes. *)
Definition normalize_quicknode_collection (data : Payload QuickNodeMeta)
    (chain : Chain) : Result CollectionStats :=
  normalized (fun data => quicknode_record data chain) data.

(** Magic Eden [/collections/{symbol}/stats] body. *)
Record MeStats : Type := {
  ms_truthy : bool;
  ms_floorPrice : option float;
  ms_volume24h : option float;
  ms_volume7d : option float;
  ms_volume30d : option float;
  ms_volumeAll : option float;
  ms_avgPrice24hr : option float;
  ms_sales24h : option Z;
  ms_sales7d : option Z;
  ms_sales30d : option Z;
  ms_supply : option Z;          (* what lines 320-327 leave in total_supply *)
  ms_nested_supply : option Z;   (* what lines 343-351 find under collection *)
}.

(** Magic Eden [/collections/{symbol}] body. *)
Record MeInfo : Type := {
  mi_truthy : bool;
  mi_name : option string;
  mi_description : option string;
  mi_image : option string;
  mi_twitter : option string;
  mi_discord : option string;
  mi_website : option string;
  mi_isVerified : option bool;
  mi_supply : option Z;          (* what lines 331-338 find *)
  mi_nested_supply : option Z;   (* what lines 355-362 find *)
}.

Definition me_stats_empty : MeStats :=
  {| ms_truthy := false; ms_floorPrice := None; ms_volume24h := None;
     ms_volume7d := None; ms_volume30d := None; ms_volumeAll := None;
     ms_avgPrice24hr := None; ms_sales24h := None; ms_sales7d := None;
     ms_sales30d := None; ms_supply := None; ms_nested_supply := None |}.

Definition me_info_empty : MeInfo :=
  {| mi_truthy := false; mi_name := None; mi_description := None;
     mi_image := None; mi_twitter := None; mi_discord := None;
     mi_website := None; mi_isVerified := None; mi_supply := None;
     mi_nested_supply := None |}.

(** [float(x) / 1e9] when [x] is truthy (lamports to SOL). *)
Definition lamports (x : option float) : option float :=
  match x with
  | Some f => if Py.truthy_float f then Some (f / 1e9)%float else None
  | None => None
  end.

Definition refill (cur found : option Z) : option Z :=
  match found with Some v => Some v | None => cur end.

(** Lines 316-362: the search for [total_supply]. *)
Definition magiceden_total_supply (stats_data : MeStats) (info_data : MeInfo)
  : option Z :=
  let t1 := ms_supply stats_data in
  let t2 := if negb (Py.truthy_oint t1) && mi_truthy info_data
            then refill t1 (mi_supply info_data) else t1 in
  if negb (Py.truthy_oint t2) then
    let t3 := refill t2 (ms_nested_supply stats_data) in
    if negb (Py.truthy_oint t3) && mi_truthy info_data
    then refill t3 (mi_nested_supply info_data) else t3
  else t2.

(** The record [normalize_magiceden_collection] builds from two typed
    bodies. *)
Definition magiceden_record (stats_data : MeStats)
    (info_data : MeInfo) (contract_address : string) (chain : Chain)
  : CollectionStats :=
  let floor_price := lamports (ms_floorPrice stats_data) in
  let volume_24h := lamports (ms_volume24h stats_data) in
  let volume_7d := lamports (ms_volume7d stats_data) in
  let volume_30d := lamports (ms_volume30d stats_data) in
  let total_volume := lamports (ms_volumeAll stats_data) in
  let volume_30d :=
    if Py.truthy_ofloat (ms_volumeAll stats_data)
       && negb (Py.truthy_ofloat volume_30d)
    then total_volume else volume_30d in
  let average_price := lamports (ms_avgPrice24hr stats_data) in
  let of_info {A} (x : option A) : option A :=
    if mi_truthy info_data then x else None in
  let total_supply := magiceden_total_supply stats_data info_data in
  {| cs_contract_address := contract_address; cs_chain := chain;
     cs_name := of_info (mi_name info_data);
     cs_symbol := None;
     cs_description := of_info (mi_description info_data);
     cs_total_supply := total_supply; cs_total_owners := None;
     cs_floor_price := floor_price; cs_floor_price_currency := "SOL";
     cs_average_price := average_price;
     cs_total_volume :=
       if Py.truthy_ofloat total_volume then total_volume else volume_30d;
     cs_volume_24h := volume_24h; cs_volume_7d := volume_7d;
     cs_volume_30d := volume_30d;
     cs_sales_24h := ms_sales24h stats_data;
     cs_sales_7d := ms_sales7d stats_data;
     cs_sales_30d := ms_sales30d stats_data;
     cs_market_cap := None; cs_owners_percentage := None;
     cs_verified :=
       if mi_truthy info_data then default false (mi_isVerified info_data)
       else false;
     cs_website := of_info (mi_website info_data);
     cs_twitter := of_info (mi_twitter info_data);
     cs_discord := of_info (mi_discord info_data);
     cs_image_url := of_info (mi_image info_data);
     cs_banner_url := None; cs_created_at := None; cs_updated_at := None |}.

(** [normalize_magiceden_collection]; with two untyped bodies the
    exception is the one of the statistics body, which is read first
    (lines 263-292). *)
Definition normalize_magiceden_collection (stats_data : Payload MeStats)
    (info_data : Payload MeInfo) (contract_address : string) (chain : Chain)
  : Result CollectionStats :=
  match stats_data, info_data with
  | Typed stats_data, Typed info_data =>
      Ok (magiceden_record stats_data info_data contract_address chain)
  | Untyped e, _ => Raised e
  | Typed _, Untyped e => Raised e
  end.

(** Reservoir [collections[0]] body. *)
Record ReservoirData : Type := {
  rv_truthy : bool;
  rv_price_amount : option float;     (* float(floorAsk.price.amount.raw) *)
  rv_currency_symbol : option string; (* floorAsk.price.currency.symbol *)
  rv_volume_1day : option float;
  rv_volume_7day : option float;
  rv_volume_30day : option float;
  rv_volume_allTime : option float;
  rv_sales_1day : option Z;
  rv_sales_7day : option Z;
  rv_sales_30day : option Z;
  rv_ownerCount : option Z;
  rv_name : option string;            (* what lines 544-568 find *)
  rv_description : option string;
  rv_image : option string;
  rv_website : option string;
  rv_twitter : option string;
  rv_discord : option string;
  rv_tokenCount : option Z;           (* what lines 486-532 find *)
  rv_isSpam : option bool;
}.

(** Lines 534-542: the two derived fields. *)
Definition reservoir_market_cap (floor_price : option float)
    (total_supply : option Z) : option float :=
  match floor_price, total_supply with
  | Some fp, Some ts =>
      if Py.truthy_float fp && Py.truthy_int ts
      then Some (fp * Py.float_of_int ts)%float else None
  | _, _ => None
  end.

Definition reservoir_owners_percentage (total_owners total_supply : option Z)
  : option float :=
  match total_owners, total_supply with
  | Some ow, Some ts =>
      if Py.truthy_int ow && Py.truthy_int ts
      then Some ((Py.float_of_int ow / Py.float_of_int ts)
                 * Py.float_of_int 100)%float
      else None
  | _, _ => None
  end.

(** The record [normalize_reservoir_collection] builds from a typed
    body. *)
Definition reservoir_record (data : ReservoirData)
    (contract_address : string) (chain : Chain) : CollectionStats :=
  let floor_price :=
    match rv_price_amount data with
    | Some a => if Py.truthy_float a then Some (a / 1e18)%float else None
    | None => None
    end in
  let currency :=
    match floor_price with
    | Some _ => default "ETH" (rv_currency_symbol data)
    | None => "ETH"
    end in
  let total_owners := rv_ownerCount data in
  let total_supply := rv_tokenCount data in
  let market_cap := reservoir_market_cap floor_price total_supply in
  let owners_percentage :=
    reservoir_owners_percentage total_owners total_supply in
  {| cs_contract_address := contract_address; cs_chain := chain;
     cs_name := rv_name data; cs_symbol := None;
     cs_description := rv_description data;
     cs_total_supply := total_supply; cs_total_owners := total_owners;
     cs_floor_price := floor_price;
     cs_floor_price_currency :=
       if Py.truthy_ofloat floor_price then currency else "ETH";
     cs_average_price := None;
     cs_total_volume := rv_volume_allTime data;
     cs_volume_24h := rv_volume_1day data;
     cs_volume_7d := rv_volume_7day data;
     cs_volume_30d := rv_volume_30day data;
     cs_sales_24h := rv_sales_1day data; cs_sales_7d := rv_sales_7day data;
     cs_sales_30d := rv_sales_30day data;
     cs_market_cap := market_cap; cs_owners_percentage := owners_percentage;
     cs_verified := bool_decide (rv_isSpam data = Some false);
     cs_website := rv_website data; cs_twitter := rv_twitter data;
     cs_discord := rv_discord data; cs_image_url := rv_image data;
     cs_banner_url := None; cs_created_at := None; cs_updated_at := None |}.

(** [normalize_reservoir_collection] *)
Definition normalize_reservoir_collection (data : Payload ReservoirData)
    (contract_address : string) (chain : Chain) : Result CollectionStats :=
  normalized (fun data => reservoir_record data contract_address chain) data.

(** What the page scraper returns. *)
Record SeleniumData : Type := {
  se_truthy : bool;
  se_name : option string;
  se_description : option string;
  se_image_url : option string;
  se_floor_price : option float;
  se_total_supply : option Z;
  se_total_volume : option float;
  se_total_owners : option Z;
}.

End Normalizer.

(** ** scraper.py *)

Module Scout.
Import Models Clients Normalizer.

(** What the cache holds: a page of normalized NFTs or [stats.dict()]. *)
Inductive CacheValue : Type :=
| CachedNfts (nfts : list NormalizedNFT)
| CachedStats (stats : CollectionStats).

(** Truthiness of a cached value: a list is falsy when empty; the dict of
    a stats record always has keys. *)
Definition cached_truthy (v : CacheValue) : bool :=
  match v with
  | CachedNfts [] => false
  | CachedNfts _ => true
  | CachedStats _ => true
  end.

(** [NFTScout]: which clients [_initialize_clients] managed to build, the
    Helius client's attributes, and the storage (the in-memory adapter). *)
Record NFTScout : Type := {
  alchemy : bool;
  moralis : bool;
  helius : option Helius.ClientState;
  quicknode : bool;
  magiceden : bool;
  reservoir : bool;
  selenium_scraper : bool;
  storage : Memory.MemoryStorage CacheValue;
}.

Definition with_helius (sc : NFTScout) (h : option Helius.ClientState)
  : NFTScout :=
  {| alchemy := alchemy sc; moralis := moralis sc; helius := h;
     quicknode := quicknode sc; magiceden := magiceden sc;
     reservoir := reservoir sc; selenium_scraper := selenium_scraper sc;
     storage := storage sc |}.

Definition with_storage (sc : NFTScout)
    (st : Memory.MemoryStorage CacheValue) : NFTScout :=
  {| alchemy := alchemy sc; moralis := moralis sc; helius := helius sc;
     quicknode := quicknode sc; magiceden := magiceden sc;
     reservoir := reservoir sc; selenium_scraper := selenium_scraper sc;
     storage := st |}.

Inductive Client : Type :=
| HeliusClient (st : Helius.ClientState)
| AlchemyClient
| MoralisClient
| QuickNodeClient.

Definition _get_client_for_chain (sc : NFTScout) (chain : Chain)
  : option Client :=
  if decide (chain = SOLANA) then HeliusClient <$> helius sc
  else if alchemy sc then Some AlchemyClient
  else if moralis sc then Some MoralisClient
  else if quicknode sc then Some QuickNodeClient
  else None.

Definition cache_key (kind contract_address : string) (chain : Chain)
  : string :=
  kind +:+ ":" +:+ contract_address +:+ ":" +:+ value chain.

Section Collection.
Context {Item : Type}.

(** [Normalizer.normalize_nft_from_source] and the Helius metadata
    enrichment, for the raw item type of the providers.  The normalizer
    builds a [NormalizedNFT], which validates its fields, and reads the
    item without a [try] of its own: it raises on an item it cannot
    read. *)
Variable normalize_nft_from_source :
  Item -> string -> Chain -> Result NormalizedNFT.
Variable enrich : Item -> Item.

(** Lines 326-329: the list comprehension stops at the first item on
    which the normalizer raises. *)
Fixpoint normalize_page (nfts_data : list Item) (source : string)
    (chain : Chain) : Result (list NormalizedNFT) :=
  match nfts_data with
  | [] => Ok []
  | nft_data :: rest =>
      match normalize_nft_from_source nft_data source chain with
      | Raised e => Raised e
      | Ok nft =>
          match normalize_page rest source chain with
          | Raised e => Raised e
          | Ok nfts => Ok (nft :: nfts)
          end
      end
  end.

(** What the outside world answers during one [get_collection_nfts]. *)
Record NftEnv : Type := {
  now : Z;
  helius_env : Helius.CallEnv Item;
  alchemy_request : Result (Alchemy.Body Item);
  moralis_request : Result (Moralis.Body Item);
}.

(** Lines 334-372: cursor, [has_more] and total out of the adapter dict. *)
Definition extract_cursor (response : ResponseDict Item) : option string :=
  Py.or_ostr (d_pageKey response)
    (Py.or_ostr (d_nextToken response)
       (Py.or_ostr (d_page response) (d_cursor response))).

Definition extract_has_more (response : ResponseDict Item)
    (cursor : option string) (n_normalized page_size : Z) : bool :=
  match d_has_more response with
  | Some b => b
  | None => bool_decide (cursor <> None) || (page_size <=? n_normalized)
  end.

Definition extract_total (response : ResponseDict Item) (chain : Chain)
    (client : Client) : option Z :=
  let collection_total :=
    Py.or_oint (d_total response)
      (Py.or_oint (d_totalCount response) (d_totalSupply response)) in
  match client with
  | HeliusClient st =>
      if negb (Py.truthy_oint collection_total)
         && bool_decide (chain = SOLANA)
      then
        if Py.truthy_oint (Helius._last_total st) then Helius._last_total st
        else if Py.truthy_oint (Helius._collection_total st)
             then Helius._collection_total st
        else collection_total
      else collection_total
  | _ => collection_total
  end.

(** [NFTScout.get_collection_nfts].  The text of the [ValueError] ends
    with the chain as an f-string formats a member of a [str] enum; the
    value of the member is written here.  Neither the request of the
    client nor the normalization of the page is inside a [try]: what
    either raises leaves the method, and then nothing is cached. *)
Definition get_collection_nfts (sc : NFTScout) (contract_address : string)
    (chain : Chain) (cursor : option string) (page_size : Z) (env : NftEnv)
  : Result CollectionNFTResponse * NFTScout :=
  match _get_client_for_chain sc chain with
  | None => (Raised ("No client available for " +:+ value chain), sc)
  | Some client =>
      let fetched : Result (ResponseDict Item * Client) * NFTScout :=
        match client with
        | HeliusClient st =>
            let '(r, st') :=
              Helius.get_collection_nfts enrich st contract_address
                (value chain) cursor page_size (helius_env env) in
            let sc' := with_helius sc (Some st') in
            match r with
            | Ok response => (Ok (response, HeliusClient st'), sc')
            | Raised e => (Raised e, sc')
            end
        | AlchemyClient =>
            match Alchemy.get_contract_nfts (alchemy_request env) with
            | Ok response => (Ok (response, client), sc)
            | Raised e => (Raised e, sc)
            end
        | MoralisClient =>
            (Ok (Moralis.get_contract_nfts (moralis_request env), client), sc)
        | QuickNodeClient =>
            (Ok ({| d_nfts := []; d_pageKey := None; d_nextToken := None;
                    d_page := None; d_cursor := None; d_total := None;
                    d_totalCount := None; d_totalSupply := None;
                    d_has_more := None |}, client), sc)
        end in
      match fetched with
      | (Raised e, sc') => (Raised e, sc')
      | (Ok (response, client), sc') =>
          let source :=
            if decide (chain = SOLANA) then "helius"
            else match client with
                 | AlchemyClient => "alchemy"
                 | _ => "moralis"
                 end in
          match normalize_page (d_nfts response) source chain with
          | Raised e => (Raised e, sc')
          | Ok normalized =>
              let st := storage sc' in
              let st' :=
                Memory.set_cache (now env)
                  (cache_key "collection" contract_address chain)
                  (CachedNfts normalized)
                  (Memory.cache_ttl (Memory.config st)) st in
              let cursor := extract_cursor response in
              let n := Z.of_nat (length normalized) in
              (Ok {| r_contract_address := contract_address;
                     r_chain := chain;
                     r_total_count := n;
                     r_total := extract_total response chain client;
                     r_nfts := normalized;
                     r_cursor := cursor;
                     r_has_more :=
                       extract_has_more response cursor n page_size |},
               with_storage sc' st')
          end
      end
  end.

End Collection.
Arguments NftEnv : clear implicits.

(** *** [get_collection_stats] *)

(** What the outside world answers during one [get_collection_stats]:
    for each source call the body, or the exception the call raised; and
    what the constructor call of line 399, [CollectionStats] on the keys
    of the cached dict, makes of a cached dict ([s_from_cached]).  The
    merge assigns fields to the record without validation (lines 519-695,
    for instance an [image_url] that the page scraper found), so the
    constructor, which validates, can refuse a dict that the same method
    has cached. *)
Record StatsEnv : Type := {
  s_now : Z;
  s_helius : Result (Payload HeliusMeta);
  s_magiceden_stats : Result (Payload MeStats);
  s_magiceden_info : Result (Payload MeInfo);
  s_moralis : Result (Payload MoralisMeta);
  s_alchemy : Result (Payload AlchemyMeta);
  s_reservoir : Result (Payload ReservoirData);
  s_quicknode : Result (Payload QuickNodeMeta);
  s_selenium : Result SeleniumData;
  s_from_cached : CollectionStats -> Result CollectionStats;
}.

(** The [results] dict: one optional entry per task key. *)
Record Results : Type := {
  res_helius : option (Payload HeliusMeta);
  res_magiceden_stats : option (Payload MeStats);
  res_magiceden_info : option (Payload MeInfo);
  res_moralis : option (Payload MoralisMeta);
  res_alchemy : option (Payload AlchemyMeta);
  res_reservoir : option (Payload ReservoirData);
  res_quicknode : option (Payload QuickNodeMeta);
  res_selenium : option SeleniumData;
}.

(** [limited_task] and the loop over [task_results]: a task that was
    created and whose call returned stores its value; a task whose call
    raised stores nothing. *)
Definition run_task {A} (created : bool) (outcome : Result A) : option A :=
  if created then match outcome with Ok v => Some v | Raised _ => None end
  else None.

(** [c.isalnum()] on one code point below 256. *)
Definition isalnum (a : ascii) : bool :=
  let c := Py.code a in
  ((48 <=? c) && (c <=? 57) || (65 <=? c) && (c <=? 90)
   || (97 <=? c) && (c <=? 122)
   || (c =? 170) || (c =? 178) || (c =? 179) || (c =? 181)
   || (c =? 185) || (c =? 186) || (188 <=? c) && (c <=? 190)
   || (192 <=? c) && (c <=? 214) || (216 <=? c) && (c <=? 246)
   || (248 <=? c) && (c <=? 255))%N.

Fixpoint all_symbol_chars (s : string) : bool :=
  match s with
  | EmptyString => true
  | String a r =>
      (isalnum a || (Py.code a =? 45)%N || (Py.code a =? 95)%N)
      && all_symbol_chars r
  end.

(** Lines 415-418: the Magic Eden symbol used for the stats call. *)
Definition me_symbol_of (magic_eden_symbol : option string)
    (contract_address : string) : option string :=
  if Py.truthy_ostr magic_eden_symbol then magic_eden_symbol
  else if (Py.len contract_address <? 32)
          || negb (all_symbol_chars contract_address)
       then Some contract_address
       else magic_eden_symbol.

(** Lines 401-491: which tasks exist and what they leave in [results]. *)
Definition gather (sc : NFTScout) (contract_address : string) (chain : Chain)
    (magic_eden_symbol collection_url : option string) (env : StatsEnv)
  : Results :=
  let solana := bool_decide (chain = SOLANA) in
  let evm := negb solana in
  let me :=
    solana && magiceden sc
    && Py.truthy_ostr (me_symbol_of magic_eden_symbol contract_address) in
  {| res_helius :=
       run_task (solana && bool_decide (is_Some (helius sc))) (s_helius env);
     res_magiceden_stats := run_task me (s_magiceden_stats env);
     res_magiceden_info := run_task me (s_magiceden_info env);
     res_moralis := run_task (moralis sc) (s_moralis env);
     res_alchemy := run_task (evm && alchemy sc) (s_alchemy env);
     res_reservoir := run_task (evm && reservoir sc) (s_reservoir env);
     res_quicknode := run_task (evm && quicknode sc) (s_quicknode env);
     res_selenium :=
       run_task (selenium_scraper sc && Py.truthy_ostr collection_url)
         (s_selenium env) |}.

(** [if x.f: stats.f = x.f] *)
Definition take_ostr (v : option string) (set : option string -> CollectionStats -> CollectionStats)
    (s : CollectionStats) : CollectionStats :=
  if Py.truthy_ostr v then set v s else s.

Definition take_oint (v : option Z) (set : option Z -> CollectionStats -> CollectionStats)
    (s : CollectionStats) : CollectionStats :=
  if Py.truthy_oint v then set v s else s.

Definition take_ofloat (v : option float) (set : option float -> CollectionStats -> CollectionStats)
    (s : CollectionStats) : CollectionStats :=
  if Py.truthy_ofloat v then set v s else s.

(** [if not stats.f and x.f: stats.f = x.f] *)
Definition fill_ostr (cur v : option string) (set : option string -> CollectionStats -> CollectionStats)
    (s : CollectionStats) : CollectionStats :=
  if negb (Py.truthy_ostr cur) && Py.truthy_ostr v then set v s else s.

Definition fill_oint (cur v : option Z) (set : option Z -> CollectionStats -> CollectionStats)
    (s : CollectionStats) : CollectionStats :=
  if negb (Py.truthy_oint cur) && Py.truthy_oint v then set v s else s.

Definition fill_ofloat (cur v : option float) (set : option float -> CollectionStats -> CollectionStats)
    (s : CollectionStats) : CollectionStats :=
  if negb (Py.truthy_ofloat cur) && Py.truthy_ofloat v then set v s else s.

(** A sequence of statements on [stats], first statement first. *)
Definition seq_stmts (stmts : list (CollectionStats -> CollectionStats))
    (s : CollectionStats) : CollectionStats :=
  fold_left (fun acc f => f acc) stmts s.

(** Lines 515-551: Magic Eden laid over an existing Solana record. *)
Definition merge_magiceden (me_stats stats : CollectionStats)
  : CollectionStats :=
  seq_stmts
    [ take_oint (cs_total_supply me_stats) set_total_supply;
      take_ofloat (cs_floor_price me_stats) set_floor_price;
      (fun s => if Py.truthy_str (cs_floor_price_currency me_stats)
                then set_floor_price_currency
                       (cs_floor_price_currency me_stats) s
                else s);
      take_ofloat (cs_total_volume me_stats) set_total_volume;
      take_ofloat (cs_volume_24h me_stats) set_volume_24h;
      take_oint (cs_total_owners me_stats) set_total_owners;
      take_ostr (cs_description me_stats) set_description;
      take_ostr (cs_image_url me_stats) set_image_url;
      take_ostr (cs_twitter me_stats) set_twitter;
      take_ostr (cs_discord me_stats) set_discord;
      take_ostr (cs_website me_stats) set_website;
      take_oint (cs_total_supply me_stats) set_total_supply ]
    stats.

(** Lines 556-569 and 646-661: Moralis fills gaps; [with_supply] is set on
    the EVM path only. *)
Definition merge_moralis (with_supply : bool)
    (moralis_stats stats : CollectionStats) : CollectionStats :=
  seq_stmts
    [ (fun s => fill_ostr (cs_name s) (cs_name moralis_stats) set_name s);
      (fun s => fill_ostr (cs_description s) (cs_description moralis_stats)
                  set_description s);
      (fun s => fill_ostr (cs_image_url s) (cs_image_url moralis_stats)
                  set_image_url s);
      (fun s => if with_supply
                then fill_oint (cs_total_supply s)
                       (cs_total_supply moralis_stats) set_total_supply s
                else s) ]
    stats.

(** Lines 574-587: the Alchemy base record.  The normalizer is called
    outside any [try]. *)
Definition alchemy_base (alchemy_data : Payload AlchemyMeta)
    (contract_address : string) (chain : Chain) : Result CollectionStats :=
  match normalize_alchemy_collection alchemy_data chain with
  | Raised e => Raised e
  | Ok stats =>
      let stats :=
        if negb (Py.truthy_ostr (cs_name stats))
           && payload_truthy am_truthy alchemy_data
        then set_name (Py.or_ostr (read am_name alchemy_data)
                         (read am_cm_name alchemy_data))
               stats
        else stats in
      Ok (if negb (Py.truthy_ostr (cs_name stats))
          then set_name (Some contract_address) stats
          else stats)
  end.

(** Lines 598-643: Reservoir laid over the EVM record. *)
Definition merge_reservoir (reservoir_stats : CollectionStats)
    (contract_address : string) (stats : CollectionStats) : CollectionStats :=
  seq_stmts
    [ take_ofloat (cs_floor_price reservoir_stats) set_floor_price;
      (fun s => if Py.truthy_str (cs_floor_price_currency reservoir_stats)
                then set_floor_price_currency
                       (cs_floor_price_currency reservoir_stats) s
                else s);
      take_ofloat (cs_total_volume reservoir_stats) set_total_volume;
      take_ofloat (cs_volume_24h reservoir_stats) set_volume_24h;
      take_ofloat (cs_volume_7d reservoir_stats) set_volume_7d;
      take_ofloat (cs_volume_30d reservoir_stats) set_volume_30d;
      take_oint (cs_sales_24h reservoir_stats) set_sales_24h;
      take_oint (cs_sales_7d reservoir_stats) set_sales_7d;
      take_oint (cs_sales_30d reservoir_stats) set_sales_30d;
      take_oint (cs_total_owners reservoir_stats) set_total_owners;
      take_ofloat (cs_market_cap reservoir_stats) set_market_cap;
      take_ofloat (cs_owners_percentage reservoir_stats)
        set_owners_percentage;
      (fun s => fill_ostr (cs_description s) (cs_description reservoir_stats)
                  set_description s);
      (fun s => fill_ostr (cs_image_url s) (cs_image_url reservoir_stats)
                  set_image_url s);
      (fun s => fill_ostr (cs_twitter s) (cs_twitter reservoir_stats)
                  set_twitter s);
      (fun s => fill_ostr (cs_discord s) (cs_discord reservoir_stats)
                  set_discord s);
      (fun s => fill_ostr (cs_website s) (cs_website reservoir_stats)
                  set_website s);
      (fun s => if Py.truthy_ostr (cs_name reservoir_stats)
                   && (negb (Py.truthy_ostr (cs_name s))
                       || bool_decide (cs_name s = Some contract_address))
                then set_name (cs_name reservoir_stats) s else s);
      take_oint (cs_total_supply reservoir_stats) set_total_supply ]
    stats.

(** Lines 664-675: QuickNode fills name and description. *)
Definition merge_quicknode (qn_stats stats : CollectionStats)
  : CollectionStats :=
  seq_stmts
    [ (fun s => fill_ostr (cs_name s) (cs_name qn_stats) set_name s);
      (fun s => fill_ostr (cs_description s) (cs_description qn_stats)
                  set_description s) ]
    stats.

(** Lines 678-695: the page scraper fills what is still empty. *)
Definition merge_selenium (selenium_data : SeleniumData)
    (stats : CollectionStats) : CollectionStats :=
  seq_stmts
    [ (fun s => fill_ostr (cs_name s) (se_name selenium_data) set_name s);
      (fun s => fill_ostr (cs_description s) (se_description selenium_data)
                  set_description s);
      (fun s => fill_ostr (cs_image_url s) (se_image_url selenium_data)
                  set_image_url s);
      (fun s => fill_ofloat (cs_floor_price s) (se_floor_price selenium_data)
                  set_floor_price s);
      (fun s => fill_oint (cs_total_supply s) (se_total_supply selenium_data)
                  set_total_supply s);
      (fun s => fill_ofloat (cs_total_volume s)
                  (se_total_volume selenium_data) set_total_volume s);
      (fun s => fill_oint (cs_total_owners s) (se_total_owners selenium_data)
                  set_total_owners s) ]
    stats.

(** [if cond and stats: stats = f(stats)] *)
Definition when_stats (f : CollectionStats -> CollectionStats)
    (stats : option CollectionStats) : option CollectionStats :=
  f <$> stats.

(** Lines 556-569 and 646-661: the Moralis block.  The normalizer is
    called inside the [try]: when it raises nothing is filled. *)
Definition moralis_fill (with_supply : bool)
    (moralis_data : Payload MoralisMeta) (chain : Chain)
    (stats : option CollectionStats) : option CollectionStats :=
  match normalize_moralis_collection moralis_data chain with
  | Ok moralis_stats => when_stats (merge_moralis with_supply moralis_stats) stats
  | Raised _ => stats
  end.

(** Lines 664-675: the QuickNode block, with its [try]. *)
Definition quicknode_fill (qn_data : Payload QuickNodeMeta) (chain : Chain)
    (stats : option CollectionStats) : option CollectionStats :=
  match normalize_quicknode_collection qn_data chain with
  | Ok qn_stats => when_stats (merge_quicknode qn_stats) stats
  | Raised _ => stats
  end.

(** Lines 496-569: the Solana merge.  The Helius normalizer (line 500)
    and the Magic Eden normalizer (line 508) are called outside any
    [try]: what they raise leaves the method. *)
Definition merge_solana (results : Results) (contract_address : string)
    (chain : Chain) : Result (option CollectionStats) :=
  match (match res_helius results with
         | Some helius_data =>
             match normalize_helius_collection helius_data chain with
             | Ok stats => Ok (Some stats)
             | Raised e => Raised e
             end
         | None => Ok None
         end) with
  | Raised e => Raised e
  | Ok stats =>
      match (if bool_decide (is_Some (res_magiceden_stats results))
                || bool_decide (is_Some (res_magiceden_info results))
             then
               let me_stats_data :=
                 default (Typed me_stats_empty)
                   (res_magiceden_stats results) in
               let me_info_data :=
                 default (Typed me_info_empty)
                   (res_magiceden_info results) in
               if payload_truthy ms_truthy me_stats_data
                  || payload_truthy mi_truthy me_info_data then
                 match normalize_magiceden_collection me_stats_data
                         me_info_data contract_address chain with
                 | Raised e => Raised e
                 | Ok me_stats =>
                     match stats with
                     | Some stats => Ok (Some (merge_magiceden me_stats stats))
                     | None => Ok (Some me_stats)
                     end
                 end
               else Ok stats
             else Ok stats) with
      | Raised e => Raised e
      | Ok stats =>
          match res_moralis results with
          | Some moralis_data => Ok (moralis_fill false moralis_data chain stats)
          | None => Ok stats
          end
      end
  end.

(** Lines 571-675: the EVM merge.  The Alchemy normalizer (line 576) and
    the Reservoir normalizer (line 593) are called outside any [try]; the
    Reservoir one only when there is a record to lay it over. *)
Definition merge_evm (results : Results) (contract_address : string)
    (chain : Chain) : Result (option CollectionStats) :=
  match (match res_alchemy results with
         | Some alchemy_data =>
             match alchemy_base alchemy_data contract_address chain with
             | Ok stats => Ok (Some stats)
             | Raised e => Raised e
             end
         | None => Ok None
         end) with
  | Raised e => Raised e
  | Ok stats =>
      match (match res_reservoir results, stats with
             | Some reservoir_data, Some stats =>
                 if payload_truthy rv_truthy reservoir_data then
                   match normalize_reservoir_collection reservoir_data
                           contract_address chain with
                   | Raised e => Raised e
                   | Ok reservoir_stats =>
                       Ok (Some (merge_reservoir reservoir_stats
                                   contract_address stats))
                   end
                 else Ok (Some stats)
             | _, _ => Ok stats
             end) with
      | Raised e => Raised e
      | Ok stats =>
          let stats :=
            match res_moralis results with
            | Some moralis_data => moralis_fill true moralis_data chain stats
            | None => stats
            end in
          match res_quicknode results with
          | Some qn_data => Ok (quicknode_fill qn_data chain stats)
          | None => Ok stats
          end
      end
  end.

(** Lines 493-703: [results] to the record returned. *)
Definition merge_results (results : Results) (contract_address : string)
    (chain : Chain) : Result CollectionStats :=
  match (if decide (chain = SOLANA)
         then merge_solana results contract_address chain
         else merge_evm results contract_address chain) with
  | Raised e => Raised e
  | Ok stats =>
      let stats :=
        match res_selenium results with
        | Some selenium_data =>
            if se_truthy selenium_data
            then when_stats (merge_selenium selenium_data) stats
            else stats
        | None => stats
        end in
      match stats with
      | Some stats => Ok stats
      | None => Ok (default_stats contract_address chain (Some contract_address))
      end
  end.

(** [NFTScout.get_collection_stats].  A cached dict goes through the
    constructor again (line 399); a truthy cached value that is not a
    stats dict cannot be unpacked into the constructor.  An exception of
    the merge leaves the method before anything is cached. *)
Definition get_collection_stats (sc : NFTScout) (contract_address : string)
    (chain : Chain) (magic_eden_symbol collection_url : option string)
    (env : StatsEnv) : Result CollectionStats * NFTScout :=
  let key := cache_key "collection_stats" contract_address chain in
  let '(cached, st) := Memory.get_cache (s_now env) key (storage sc) in
  let sc := with_storage sc st in
  match cached with
  | Some (CachedStats stats) => (s_from_cached env stats, sc)
  | Some (CachedNfts (_ :: _)) => (Raised "TypeError", sc)
  | _ =>
      let results :=
        gather sc contract_address chain magic_eden_symbol collection_url
          env in
      match merge_results results contract_address chain with
      | Raised e => (Raised e, sc)
      | Ok stats =>
          let st' :=
            Memory.set_cache (s_now env) key (CachedStats stats)
              (Memory.cache_ttl (Memory.config st)) st in
          (Ok stats, with_storage sc st')
      end
  end.

End Scout.

(** ** web_server.py: the [scrape_collection] action

    The handler is modelled from the point where the collection statistics
    have been fetched (line 823) to the final [complete] message.  Messages
    of type [status] only narrate and are left out, and so is the leading
    pictogram of a message text; every other message the two loops send,
    and the final [complete] message, are kept key by key. *)

Module WebServer.
Import Models.

(** A value in a message sent to the client. *)
Inductive mval : Type :=
| VNone
| VBool (b : bool)
| VInt (n : Z)
| VStr (s : string)
| VPercent (num den : Z).   (* min(100, round((num / den) * 100, 1)) *)

Definition v_oint (o : option Z) : mval :=
  match o with Some n => VInt n | None => VNone end.

Inductive Message : Type :=
| NftMsg (nft : NormalizedNFT) (total_scraped : Z) (api_source : string)
| Msg (fields : list (string * mval)).

(** [d.get(k)] on a message. *)
Fixpoint field (k : string) (fields : list (string * mval)) : option mval :=
  match fields with
  | [] => None
  | (k', v) :: rest => if String.eqb k k' then Some v else field k rest
  end.

Definition msg_type (m : Message) : option mval :=
  match m with
  | NftMsg _ _ _ => Some (VStr "nft")
  | Msg fields => field "type" fields
  end.

(** How a loop body leaves: on to the next test of the [while] condition,
    or out by [break]. *)
Inductive Flow (A : Type) : Type :=
| Next (a : A)
| Stop (a : A).
Arguments Next {A} a.
Arguments Stop {A} a.

Definition str_of_Z (n : Z) : string :=
  DecimalString.NilZero.string_of_int (Z.to_int n).

(** *** Lines 828-852: is the collection counted by paginating? *)

Definition should_count (chain : Chain) (collection_total : option Z) : bool :=
  let solana := bool_decide (chain = SOLANA) in
  let truthy := Py.truthy_oint collection_total in
  let ct := default 0 collection_total in
  if truthy && (100 <? ct) && negb (ct =? 100) then false
  else if negb solana && negb truthy then true
  else if negb truthy then true
  else if (negb solana && (ct =? 100)) || (solana && (ct =? 1000)) then true
  else if negb solana && truthy && (ct <=? 100) then true
  else false.

Definition max_count_pages (chain : Chain) : Z :=
  if decide (chain = SOLANA) then 100 else 200.

Definition count_page_size (chain : Chain) : Z :=
  if decide (chain = SOLANA) then 1000 else 100.

(** *** Lines 929-946: the token id of the last NFT of a full page *)

Definition get_or (k : string) (d : pyval) (items : list (string * pyval))
  : pyval :=
  default d (dict_get k items).

Definition or_val (a b : pyval) : pyval := if truthy a then a else b.

(** [token_id == '' or token_id == 'None' or not token_id] for the local
    variable [token_id], which starts as [None]. *)
Definition unusable (token_id : option string) : bool :=
  match token_id with
  | None => true
  | Some t => negb (Py.truthy_str t) || String.eqb t "None"
  end.

Definition token_id_from_raw (token_id : option string)
    (raw_meta : list (string * pyval)) : option string :=
  let id_obj := get_or "id" (PDict [] "{}") raw_meta in
  let token_id :=
    match id_obj with
    | PDict items _ => Some (Py.strip (py_str (get_or "tokenId" (PStr "") items)))
    | _ => token_id
    end in
  if negb (Py.truthy_ostr token_id) then
    Some (Py.strip
            (py_str
               (or_val (get_or "tokenId" PNone raw_meta)
                  (or_val (get_or "id" PNone raw_meta)
                     (get_or "token_id" (PStr "") raw_meta)))))
  else token_id.

(** The cursor made from the last NFT, when one can be made. *)
Definition synthetic_cursor (last_nft : NormalizedNFT) : option string :=
  let token_id :=
    if Py.truthy_str (token_id last_nft)
    then Some (Py.strip (token_id last_nft)) else None in
  let token_id :=
    if unusable token_id then
      match raw_metadata last_nft with
      | Some (b :: rest) => token_id_from_raw token_id (b :: rest)
      | _ => token_id
      end
    else token_id in
  if unusable token_id then None else token_id.

Section Walks.

(** The scout as the handler uses it: [get_collection_nfts] with whatever
    state it carries, whether [scout.alchemy] is set, and the two totals of
    [scout.helius] when that client has the attribute [_last_total]. *)
Context {S : Type}.
Variable get_collection_nfts :
  S -> string -> Chain -> option string -> Z ->
  Result CollectionNFTResponse * S.
Variable scout_alchemy : S -> bool.
Variable helius_totals : S -> option (option Z * option Z).

(** *** Lines 870-973: the counting loop *)

Record CountState : Type := {
  total_counted : Z;
  current_cursor : option string;
  page_count : Z;
  consecutive_empty_pages : Z;
}.

Definition count_start : CountState :=
  {| total_counted := 0; current_cursor := None; page_count := 0;
     consecutive_empty_pages := 0 |}.

Definition with_cursor (st : CountState) (c : option string) : CountState :=
  {| total_counted := total_counted st; current_cursor := c;
     page_count := page_count st;
     consecutive_empty_pages := consecutive_empty_pages st |}.

(** Lines 890-970: everything after a page has arrived. *)
Definition count_page (chain : Chain) (st : CountState)
    (count_response : CollectionNFTResponse) : Flow CountState :=
  let page_size := count_page_size chain in
  let nfts_in_page := Z.of_nat (length (r_nfts count_response)) in
  let empties :=
    if nfts_in_page =? 0 then consecutive_empty_pages st + 1 else 0 in
  let st :=
    {| total_counted := total_counted st + nfts_in_page;
       current_cursor := current_cursor st;
       page_count := page_count st + 1;
       consecutive_empty_pages := empties |} in
  if (nfts_in_page =? 0) && (2 <=? empties) then Stop st
  else
    let next_cursor := Py.or_ostr (r_cursor count_response) None in
    if Py.truthy_ostr next_cursor then Next (with_cursor st next_cursor)
    else if nfts_in_page =? page_size then
      match last (r_nfts count_response) with
      | Some last_nft =>
          match synthetic_cursor last_nft with
          | Some token_id => Next (with_cursor st (Some token_id))
          | None =>
              if page_count st <? max_count_pages chain - 1
              then Next st else Stop st
          end
      | None => Stop st
      end
    else if nfts_in_page <? page_size then Stop st
    else Stop st.

(** What a run of the loop leaves: the loop variables, the scout, and the
    cursor of every request made, first request first. *)
Record CountRun : Type := {
  cr_state : CountState;
  cr_scout : S;
  cr_requests : list (option string);
}.

(** The [while] loop; [fuel] bounds the unfolding and [None] means the
    bound was too small. *)
Fixpoint count_loop (fuel : nat) (contract_address : string) (chain : Chain)
    (st : CountState) (s : S) (requests : list (option string))
  : option CountRun :=
  if page_count st <? max_count_pages chain then
    match fuel with
    | O => None
    | Datatypes.S fuel =>
        let requests := requests ++ [current_cursor st] in
        match get_collection_nfts s contract_address chain
                (current_cursor st) (count_page_size chain) with
        | (Raised _, s) =>
            Some {| cr_state := st; cr_scout := s; cr_requests := requests |}
        | (Ok count_response, s) =>
            match count_page chain st count_response with
            | Next st => count_loop fuel contract_address chain st s requests
            | Stop st =>
                Some {| cr_state := st; cr_scout := s;
                        cr_requests := requests |}
            end
        end
    end
  else Some {| cr_state := st; cr_scout := s; cr_requests := requests |}.

Definition count_walk (contract_address : string) (chain : Chain) (s : S)
  : option CountRun :=
  count_loop (Z.to_nat (max_count_pages chain)) contract_address chain
    count_start s [].

(** Lines 975-988: the total the count reports. *)
Definition counted_total (collection_total : option Z) (run : CountRun)
  : option Z :=
  if 0 <? total_counted (cr_state run)
  then Some (total_counted (cr_state run))
  else collection_total.

(** *** Lines 1059-1476: the scraping loop *)

Definition max_pages : Z := 10000.

Definition scrape_page_size (chain : Chain) : Z :=
  if decide (chain = SOLANA) then 1000 else 100.

Record ScrapeState : Type := {
  cursor : option string;
  total_scraped : Z;
  seen_nfts : gset (string * string);
  collection_total : option Z;
  sc_page_count : Z;
  sc_chain : Chain;
}.

(** [(str(nft.token_id), str(nft.contract_address))] *)
Definition nft_id (nft : NormalizedNFT) : string * string :=
  (token_id nft, contract_address nft).

(** Lines 1093-1159: a total taken from the response when none is known. *)
Definition infer_total (chain : Chain) (collection_total : option Z)
    (response : CollectionNFTResponse) (s : S) : option Z :=
  match collection_total with
  | Some _ => collection_total
  | None =>
      let from_response :=
        if Py.truthy_oint (r_total response) then r_total response
        else if Z.of_nat (length (r_nfts response)) <? r_total_count response
             then Some (r_total_count response)
        else None in
      if decide (chain = SOLANA) then
        match helius_totals s with
        | Some (last_total, coll_total) =>
            if Py.truthy_oint last_total then last_total
            else if Py.truthy_oint coll_total then coll_total
            else from_response
        | None => from_response
        end
      else from_response
  end.

(** Lines 1235-1314: the loop over the NFTs of one page. *)
Fixpoint send_nfts (contract_address api_source : string) (chain : Chain)
    (nfts : list NormalizedNFT) (seen : gset (string * string))
    (total_scraped : Z)
  : list Message * gset (string * string) * Z :=
  match nfts with
  | [] => ([], seen, total_scraped)
  | nft :: rest =>
      if decide (nft_id nft ∈ seen)
      then send_nfts contract_address api_source chain rest seen total_scraped
      else
        let seen := seen ∪ {[ nft_id nft ]} in
        let total_scraped := total_scraped + 1 in
        let first :=
          if total_scraped =? 1
          then [ Msg [ ("type", VStr "collection_info");
                       ("collection_name",
                        VStr (default contract_address
                                (Py.or_ostr (collection_name nft)
                                   (Some contract_address))));
                       ("chain", VStr (value chain)) ] ]
          else [] in
        let '(msgs, seen, total) :=
          send_nfts contract_address api_source chain rest seen
            total_scraped in
        (NftMsg nft total_scraped api_source :: first ++ msgs, seen, total)
  end.

(** Lines 1323-1339 and 1478-1494: [remaining] and [progress_pct]. *)
Definition remaining_of (collection_total : option Z) (total_scraped : Z)
  : mval :=
  match collection_total with
  | Some ct =>
      if Py.truthy_int ct && (0 <? ct)
      then VInt (Z.max 0 (ct - total_scraped)) else VNone
  | None => VNone
  end.

Definition progress_pct_of (collection_total : option Z) (total_scraped : Z)
  : mval :=
  match collection_total with
  | Some ct =>
      if Py.truthy_int ct && (0 <? ct)
      then VPercent total_scraped ct else VInt 0
  | None => VInt 0
  end.

Definition progress_msg (st : ScrapeState) (has_more : bool) : Message :=
  Msg [ ("type", VStr "progress");
        ("total_scraped", VInt (total_scraped st));
        ("collection_total", v_oint (collection_total st));
        ("remaining", remaining_of (collection_total st) (total_scraped st));
        ("progress_pct",
         progress_pct_of (collection_total st) (total_scraped st));
        ("has_more", VBool has_more);
        ("message",
         VStr ("Scraped " +:+ str_of_Z (total_scraped st)
               +:+ " NFTs so far...")) ].

Definition complete_msg (st : ScrapeState) (api_source : string) : Message :=
  Msg [ ("type", VStr "complete");
        ("total_scraped", VInt (total_scraped st));
        ("collection_total", v_oint (collection_total st));
        ("remaining", remaining_of (collection_total st) (total_scraped st));
        ("progress_pct",
         progress_pct_of (collection_total st) (total_scraped st));
        ("message",
         VStr ("Completed scraping " +:+ str_of_Z (total_scraped st)
               +:+ " NFTs from " +:+ api_source +:+ " API"));
        ("api_source", VStr api_source);
        ("chain", VStr (value (sc_chain st))) ].

Definition error_msg (text api_source : string) (chain : Chain) : Message :=
  Msg [ ("type", VStr "error"); ("message", VStr text);
        ("api_source", VStr api_source); ("chain", VStr (value chain)) ].

Definition warning_msg (text api_source : string) (chain : Chain) : Message :=
  Msg [ ("type", VStr "warning"); ("message", VStr text);
        ("api_source", VStr api_source); ("chain", VStr (value chain)) ].

Definition with_page_count (st : ScrapeState) (n : Z) : ScrapeState :=
  {| cursor := cursor st; total_scraped := total_scraped st;
     seen_nfts := seen_nfts st; collection_total := collection_total st;
     sc_page_count := n; sc_chain := sc_chain st |}.

Definition with_scrape_cursor (st : ScrapeState) (c : option string)
  : ScrapeState :=
  {| cursor := c; total_scraped := total_scraped st;
     seen_nfts := seen_nfts st; collection_total := collection_total st;
     sc_page_count := sc_page_count st; sc_chain := sc_chain st |}.

(** Lines 1341-1457: go on to another page, or stop. *)
Definition paginate (api_source : string) (st : ScrapeState)
    (response : CollectionNFTResponse) : Flow ScrapeState * list Message :=
  let solana := bool_decide (sc_chain st = SOLANA) in
  let n := Z.of_nat (length (r_nfts response)) in
  let response_cursor :=
    if Py.truthy_ostr (r_cursor response) then r_cursor response else None in
  let known := Py.truthy_oint (collection_total st) in
  let ct := default 0 (collection_total st) in
  let take (st : ScrapeState) :=
    if Py.truthy_ostr response_cursor
    then with_scrape_cursor st response_cursor else st in
  let go (st : ScrapeState) :=
    (Next (with_page_count st (sc_page_count st + 1)), []) in
  if known && (0 <? ct) && (total_scraped st <? ct) then go (take st)
  else if (solana && (1000 <=? n)) || (negb solana && (100 <=? n))
  then go (take st)
  else if r_has_more response then go (take st)
  else if Py.truthy_ostr response_cursor then go (take st)
  else if Py.truthy_ostr (cursor st) then go st
  else if known && (total_scraped st <? ct) then
    if 100 <=? n then go st
    else (Stop st,
          [ warning_msg
              (api_source +:+ " API: Scraped "
               +:+ str_of_Z (total_scraped st) +:+ "/" +:+ str_of_Z ct
               +:+ " NFTs. Pagination may have been limited.")
              api_source (sc_chain st) ])
  else if 100 <=? n then go st
  else (Stop st, []).

(** Lines 1189-1210: look for the collection on the other EVM chains. *)
Fixpoint try_chains (contract_address : string) (chains : list Chain) (s : S)
  : option Chain * S :=
  match chains with
  | [] => (None, s)
  | alt_chain :: rest =>
      match get_collection_nfts s contract_address alt_chain None 10 with
      | (Ok alt_response, s) =>
          match r_nfts alt_response with
          | _ :: _ => (Some alt_chain, s)
          | [] => try_chains contract_address rest s
          end
      | (Raised _, s) => try_chains contract_address rest s
      end
  end.

Definition with_chain (st : ScrapeState) (c : Chain) : ScrapeState :=
  {| cursor := cursor st; total_scraped := total_scraped st;
     seen_nfts := seen_nfts st; collection_total := collection_total st;
     sc_page_count := sc_page_count st; sc_chain := c |}.

(** Lines 1161-1225: an empty page.  [Next] carries on into the rest of
    the loop body (the collection was found on another chain). *)
Definition empty_page (contract_address api_source : string)
    (st : ScrapeState) (s : S) : Flow ScrapeState * list Message * S :=
  let chain := sc_chain st in
  if sc_page_count st =? 0 then
    if bool_decide (chain = SOLANA)
       && negb (Py.startswith "0x" contract_address)
       && (Py.len contract_address <? 32)
    then (Stop st,
          [ Msg [ ("type", VStr "error");
                  ("message",
                   VStr ("Magic Eden collection symbol '" +:+ contract_address
                         +:+ "' cannot be used directly. Please provide the Solana collection address. You can find it on Magic Eden by viewing the collection details.")) ] ],
          s)
    else
      let warn :=
        warning_msg ("No NFTs found on " +:+ value chain
                     +:+ ". Trying other chains...") api_source chain in
      if bool_decide (chain = ETHEREUM) && Py.startswith "0x" contract_address
      then
        match try_chains contract_address [POLYGON; ARBITRUM; OPTIMISM; BASE] s
        with
        | (Some alt_chain, s) => (Next (with_chain st alt_chain), [warn], s)
        | (None, s) => (Stop st, [warn], s)
        end
      else if bool_decide (chain = SOLANA)
      then (Stop st,
            [ warn;
              error_msg
                "No NFTs found. Please verify the collection address is correct."
                api_source chain ], s)
      else (Stop st, [warn], s)
  else (Stop st, [], s).

(** One pass through the body of the [while] loop. *)
Definition scrape_page (contract_address api_source : string)
    (st : ScrapeState) (s : S) : Flow ScrapeState * list Message * S :=
  let chain := sc_chain st in
  match get_collection_nfts s contract_address chain (cursor st)
          (scrape_page_size chain) with
  | (Raised e, s) =>
      (Stop st,
       [ error_msg
           (if Py.contains "No client available" e
               || Py.contains "not available" (Py.lower e)
            then "Chain " +:+ value chain
                 +:+ " not available. Please ensure API keys are configured."
            else "Error: " +:+ e)
           api_source chain ], s)
  | (Ok response, s) =>
      let total := infer_total chain (collection_total st) response s in
      let found :=
        match collection_total st, total with
        | None, Some t =>
            if Py.truthy_int t
            then [ Msg [ ("type", VStr "collection_info");
                         ("collection_total", VInt t) ] ]
            else []
        | _, _ => []
        end in
      let st :=
        {| cursor := cursor st; total_scraped := total_scraped st;
           seen_nfts := seen_nfts st; collection_total := total;
           sc_page_count := sc_page_count st; sc_chain := chain |} in
      let entered :=
        match r_nfts response with
        | [] => empty_page contract_address api_source st s
        | _ :: _ => (Next st, [], s)
        end in
      match entered with
      | (Stop st, msgs, s) => (Stop st, found ++ msgs, s)
      | (Next st, msgs, s) =>
          let '(sent, seen, total_scraped) :=
            send_nfts contract_address api_source (sc_chain st)
              (r_nfts response) (seen_nfts st) (total_scraped st) in
          let st :=
            {| cursor := cursor st; total_scraped := total_scraped;
               seen_nfts := seen; collection_total := collection_total st;
               sc_page_count := sc_page_count st;
               sc_chain := sc_chain st |} in
          let progress := progress_msg st (r_has_more response) in
          let '(flow, more) := paginate api_source st response in
          (flow, found ++ msgs ++ sent ++ [progress] ++ more, s)
      end
  end.

(** What a run of the scraping loop leaves. *)
Record ScrapeRun : Type := {
  sr_state : ScrapeState;
  sr_scout : S;
  sr_messages : list Message;
  sr_fetches : nat;     (* passes through the loop body: one page request each *)
}.

Fixpoint scrape_loop (fuel : nat) (contract_address api_source : string)
    (st : ScrapeState) (s : S) (sent : list Message) (fetches : nat)
  : option ScrapeRun :=
  if sc_page_count st <? max_pages then
    match fuel with
    | O => None
    | Datatypes.S fuel =>
        match scrape_page contract_address api_source st s with
        | (Next st, msgs, s) =>
            scrape_loop fuel contract_address api_source st s (sent ++ msgs)
              (Datatypes.S fetches)
        | (Stop st, msgs, s) =>
            Some {| sr_state := st; sr_scout := s;
                    sr_messages := sent ++ msgs;
                    sr_fetches := Datatypes.S fetches |}
        end
    end
  else Some {| sr_state := st; sr_scout := s; sr_messages := sent;
               sr_fetches := fetches |}.

(** Line 1057 *)
Definition api_source_of (chain : Chain) (s : S) : string :=
  if decide (chain = SOLANA) then "Helius"
  else if scout_alchemy s then "Alchemy" else "Moralis".

(** The scraping loop from the loop variables as line 1059 finds them,
    followed by the [complete] message. *)
Definition scrape_walk (contract_address : string) (chain : Chain)
    (collection_total : option Z) (page_count : Z) (s : S)
  : option ScrapeRun :=
  let api_source := api_source_of chain s in
  let st :=
    {| cursor := None; total_scraped := 0; seen_nfts := ∅;
       collection_total := collection_total; sc_page_count := page_count;
       sc_chain := chain |} in
  match scrape_loop (Z.to_nat (max_pages - page_count)) contract_address
          api_source st s [] 0 with
  | Some run =>
      Some {| sr_state := sr_state run; sr_scout := sr_scout run;
              sr_messages :=
                sr_messages run ++ [complete_msg (sr_state run) api_source];
              sr_fetches := sr_fetches run |}
  | None => None
  end.

(** Lines 823-1494: count when [should_count] says so, then scrape.  The
    counting loop and the scraping loop share the variable [page_count]. *)
Definition scrape_collection (contract_address : string) (chain : Chain)
    (collection_total : option Z) (s : S) : option (option CountRun * ScrapeRun) :=
  if should_count chain collection_total then
    match count_walk contract_address chain s with
    | Some counted =>
        match scrape_walk contract_address chain
                (counted_total collection_total counted)
                (page_count (cr_state counted)) (cr_scout counted) with
        | Some run => Some (Some counted, run)
        | None => None
        end
    | None => None
    end
  else
    match scrape_walk contract_address chain collection_total 0 s with
    | Some run => Some (None, run)
    | None => None
    end.

End Walks.

End WebServer.

(** ** Strings: splitting and removing *)

Module PyStr.

(** [s.split(sep)] for a separator of one character. *)
Fixpoint split (sep : ascii) (s : string) : list string :=
  match s with
  | EmptyString => [EmptyString]
  | String a r =>
      if Ascii.eqb a sep then EmptyString :: split sep r
      else match split sep r with
           | [] => [String a EmptyString]
           | w :: ws => String a w :: ws
           end
  end.

(** [sep.join(parts)] for a separator of one character. *)
Fixpoint join (sep : ascii) (parts : list string) : string :=
  match parts with
  | [] => EmptyString
  | [w] => w
  | w :: ws => w +:+ String sep (join sep ws)
  end.

(** [s.replace(p, "")] for a non-empty [p]: the occurrences of [p] are
    found from the left and do not overlap.  [skip] counts the characters
    of an occurrence still to be dropped. *)
Fixpoint remove_from (p : string) (skip : nat) (s : string) : string :=
  match s with
  | EmptyString => EmptyString
  | String a r =>
      match skip with
      | Datatypes.S k => remove_from p k r
      | O =>
          if String.prefix p s
          then remove_from p (String.length p - 1) r
          else String a (remove_from p 0 r)
      end
  end.

Definition remove_all (p s : string) : string := remove_from p 0 s.

(** [s.lstrip(c)] for one character [c]. *)
Fixpoint lstrip_char (c : ascii) (s : string) : string :=
  match s with
  | EmptyString => EmptyString
  | String a r => if Ascii.eqb a c then lstrip_char c r else s
  end.

(** [x in l] for a list of strings. *)
Definition in_list (x : string) (l : list string) : bool :=
  existsb (String.eqb x) l.

(** [l.index(x)], when [x in l]. *)
Fixpoint index_of (x : string) (l : list string) : option nat :=
  match l with
  | [] => None
  | y :: r =>
      if String.eqb y x then Some O
      else match index_of x r with
           | Some i => Some (Datatypes.S i)
           | None => None
           end
  end.

(** [s[:n]] for [n >= 0]. *)
Fixpoint take (n : nat) (s : string) : string :=
  match n, s with
  | Datatypes.S k, String a r => String a (take k r)
  | _, _ => EmptyString
  end.

Definition newline : string := String (Ascii.ascii_of_N 10) EmptyString.

End PyStr.

(** ** The regular expressions of the validators *)

Module Re.

(** [[a-fA-F0-9]] *)
Definition hex_char (a : ascii) : bool :=
  let c := Py.code a in
  ((48 <=? c) && (c <=? 57) || (65 <=? c) && (c <=? 70)
   || (97 <=? c) && (c <=? 102))%N.

(** [[a-zA-Z0-9]] *)
Definition alnum_char (a : ascii) : bool :=
  let c := Py.code a in
  ((48 <=? c) && (c <=? 57) || (65 <=? c) && (c <=? 90)
   || (97 <=? c) && (c <=? 122))%N.

(** [[a-z0-9]] *)
Definition lower_alnum_char (a : ascii) : bool :=
  let c := Py.code a in
  ((48 <=? c) && (c <=? 57) || (97 <=? c) && (c <=? 122))%N.

(** [$] without [re.MULTILINE]: the end of the string, or the place just
    before a newline that ends the string. *)
Definition at_end (s : string) : bool :=
  String.eqb s "" || String.eqb s PyStr.newline.

(** [[cls]{lo,hi}$] matched from the start of [s]: some number of
    characters between [lo] and [hi], all of the class, and then [$]. *)
Fixpoint class_range_end (cls : ascii -> bool) (lo hi : nat) (s : string)
  : bool :=
  (Nat.eqb lo 0 && at_end s)
  || match s, hi with
     | String a r, Datatypes.S hi' =>
         cls a && class_range_end cls (Nat.pred lo) hi' r
     | _, _ => false
     end.

(** The first [n] characters of [s] when there are [n] and all are of the
    class: what [[cls]{n}] matches at the start of [s]. *)
Fixpoint class_exact (cls : ascii -> bool) (n : nat) (s : string)
  : option string :=
  match n with
  | O => Some EmptyString
  | Datatypes.S k =>
      match s with
      | String a r =>
          if cls a
          then match class_exact cls k r with
               | Some m => Some (String a m)
               | None => None
               end
          else None
      | EmptyString => None
      end
  end.

(** [re.match(r'^0x[a-fA-F0-9]{n}$', s)] *)
Definition match_0x_hex (n : nat) (s : string) : bool :=
  match s with
  | String "0"%char (String "x"%char r) => class_range_end hex_char n n r
  | _ => false
  end.

(** [re.search(r'0x[a-fA-F0-9]{40}', s)]: the leftmost match. *)
Fixpoint search_0x_hex40 (s : string) : option string :=
  match s with
  | EmptyString => None
  | String a r =>
      match (match s with
             | String "0"%char (String "x"%char h) =>
                 class_exact hex_char 40 h
             | _ => None
             end) with
      | Some m => Some ("0x" +:+ m)
      | None => search_0x_hex40 r
      end
  end.

End Re.

(** ** security.py *)

Module Security.

Definition evm_chains : list string :=
  [ "ethereum"; "eth"; "polygon"; "arbitrum"; "optimism"; "base"; "bsc";
    "avalanche" ].

(** [re.match(r'^(1|3|bc1)[a-zA-Z0-9]{25,62}$', s)] *)
Definition match_bitcoin (s : string) : bool :=
  match s with
  | String "1"%char r => Re.class_range_end Re.alnum_char 25 62 r
  | String "3"%char r => Re.class_range_end Re.alnum_char 25 62 r
  | String "b"%char (String "c"%char (String "1"%char r)) =>
      Re.class_range_end Re.alnum_char 25 62 r
  | _ => false
  end.

(** [sanitize_blockchain_address(address, chain)], for an [address] that
    is a [str]. *)
Definition sanitize_blockchain_address (address chain : string)
  : option string :=
  if negb (Py.truthy_str address) then None
  else
    let address := Py.strip address in
    if PyStr.in_list (Py.lower chain) evm_chains then
      if negb (Py.startswith "0x" address) then None
      else if negb (Py.len address =? 42) then None
      else if negb (Re.match_0x_hex 40 address) then None
      else Some (Py.lower address)
    else if PyStr.in_list (Py.lower chain) ["solana"; "sol"] then
      if (Py.len address <? 32) || (44 <? Py.len address) then None
      else if negb (Helius.base58_match address false) then None
      else Some address
    else if PyStr.in_list (Py.lower chain) ["bitcoin"; "btc"] then
      if negb (match_bitcoin address) then None
      else Some address
    else None.

(** [validate_contract_address(address, chain)] of this module. *)
Definition validate_contract_address (address chain : string)
  : bool * option string :=
  match sanitize_blockchain_address address chain with
  | Some normalized =>
      if Py.truthy_str normalized then (true, Some normalized)
      else (false, None)
  | None => (false, None)
  end.

(** [validate_transaction_hash(tx_hash, chain)] *)
Definition validate_transaction_hash (tx_hash chain : string) : bool :=
  if negb (Py.truthy_str tx_hash) then false
  else
    let tx_hash := Py.strip tx_hash in
    if PyStr.in_list (Py.lower chain) evm_chains then
      Re.match_0x_hex 64 tx_hash
    else if PyStr.in_list (Py.lower chain) ["solana"; "sol"] then
      if negb (Py.len tx_hash =? 88) then false
      else Re.class_range_end Helius.base58_char 88 88 tx_hash
    else if PyStr.in_list (Py.lower chain) ["bitcoin"; "btc"] then
      Re.class_range_end Re.hex_char 64 64 tx_hash
    else false.

(** A value as [prevent_private_key_exposure] tells values apart: a dict,
    a list, a [str], or anything else (known by how it prints). *)
#[warnings="-register-all"]
Inductive json : Type :=
| JStr (s : string)
| JOther (shown : string)
| JList (l : list json)
| JDict (items : list (string * json)).

Definition sensitive_keys : list string :=
  [ "private_key"; "privateKey"; "private-key";
    "secret"; "secret_key"; "secretKey"; "secret-key";
    "mnemonic"; "seed"; "seed_phrase"; "seedPhrase";
    "api_key"; "apiKey"; "api-key"; "apikey";
    "password"; "passwd"; "pwd";
    "token"; "access_token"; "accessToken";
    "webhook_secret"; "webhookSecret" ].

(** [any(sensitive in key_lower for sensitive in sensitive_keys)] *)
Definition is_sensitive (key : string) : bool :=
  existsb (fun sensitive => Py.contains sensitive (Py.lower key))
    sensitive_keys.

Definition redacted : json := JStr "***REDACTED***".

(** [prevent_private_key_exposure(data)], on the dict [data] and on every
    other value as the identity (the function is only called on dicts). *)
Fixpoint prevent_private_key_exposure (data : json) : json :=
  match data with
  | JDict items =>
      JDict
        (List.map
           (fun kv =>
              match kv with
              | (key, value) =>
                  if is_sensitive key then (key, redacted)
                  else
                    match value with
                    | JDict _ => (key, prevent_private_key_exposure value)
                    | JList l =>
                        (key,
                         JList
                           (List.map
                              (fun item =>
                                 match item with
                                 | JDict _ =>
                                     prevent_private_key_exposure item
                                 | _ => item
                                 end) l))
                    | _ => (key, value)
                    end
              end) items)
  | _ => data
  end.

End Security.

(** ** utils.py *)

Module Utils.

(** [eth_utils], when it can be imported: [is_address] and
    [to_checksum_address], either of which may raise. *)
Section EthUtils.
Variable ETH_UTILS_AVAILABLE : bool.
Variable is_address : string -> Result bool.
Variable to_checksum_address : string -> Result string.

(** [validate_ethereum_address(address)] *)
Definition validate_ethereum_address (address : string)
  : bool * option string :=
  if negb (Py.truthy_str address) then (false, None)
  else
    let address := Py.strip address in
    if negb (Py.startswith "0x" address) || negb (Py.len address =? 42)
    then (false, None)
    else if negb (Re.match_0x_hex 40 address) then (false, None)
    else
      let basic := (true, Some address) in
      if ETH_UTILS_AVAILABLE then
        match is_address address with
        | Ok true =>
            match to_checksum_address address with
            | Ok checksum => (true, Some checksum)
            | Raised _ => basic
            end
        | Ok false => basic
        | Raised _ => basic
        end
      else basic.

(** [base58.b58decode], which raises on a character outside the
    alphabet; the bytes are a string here. *)
Variable b58decode : string -> Result string.

(** [validate_solana_address(address)] *)
Definition validate_solana_address (address : string)
  : bool * option string :=
  if negb (Py.truthy_str address) then (false, None)
  else
    let address := Py.strip address in
    if (Py.len address <? 32) || (44 <? Py.len address) then (false, None)
    else
      match b58decode address with
      | Ok decoded =>
          if Py.len decoded =? 32 then (true, Some address)
          else (false, None)
      | Raised _ => (false, None)
      end.

(** [re.match(r'^[13][a-km-zA-HJ-NP-Z1-9]{25,34}$', s)] *)
Definition match_legacy (s : string) : bool :=
  match s with
  | String "1"%char r => Re.class_range_end Helius.base58_char 25 34 r
  | String "3"%char r => Re.class_range_end Helius.base58_char 25 34 r
  | _ => false
  end.

(** [re.match(r'^bc1[a-z0-9]{39,59}$', s)] *)
Definition match_segwit (s : string) : bool :=
  match s with
  | String "b"%char (String "c"%char (String "1"%char r)) =>
      Re.class_range_end Re.lower_alnum_char 39 59 r
  | _ => false
  end.

(** [validate_bitcoin_address(address)] *)
Definition validate_bitcoin_address (address : string)
  : bool * option string :=
  if negb (Py.truthy_str address) then (false, None)
  else
    let address := Py.strip address in
    if match_legacy address || match_segwit address
    then (true, Some address)
    else (false, None).

(** [validate_contract_address(address, chain)] of this module: the one
    the web server imports under that name. *)
Definition validate_contract_address (address chain : string)
  : bool * option string :=
  let chain_lower := Py.lower chain in
  if PyStr.in_list chain_lower
       [ "ethereum"; "eth"; "polygon"; "arbitrum"; "optimism"; "base";
         "avalanche"; "bsc" ]
  then validate_ethereum_address address
  else if PyStr.in_list chain_lower ["solana"; "sol"]
  then validate_solana_address address
  else if PyStr.in_list chain_lower ["bitcoin"; "btc"]
  then validate_bitcoin_address address
  else if Py.truthy_str address && (10 <? Py.len address)
  then (true, Some (Py.strip address))
  else (false, None).

End EthUtils.

Definition valid_chains : list string :=
  [ "ethereum"; "eth"; "polygon"; "matic"; "arbitrum"; "arb";
    "optimism"; "op"; "base"; "avalanche"; "avax"; "bsc"; "binance";
    "solana"; "sol"; "bitcoin"; "btc" ].

(** [validate_chain(chain)] *)
Definition validate_chain (chain : string) : bool :=
  PyStr.in_list (Py.lower chain) valid_chains.

End Utils.

(** ** config.py: API keys *)

Module Config.

(** [get_keys] of [Config.from_env]; [env_value] is what [os.environ]
    holds under the name, if anything. *)
Definition get_keys (env_value : option string) : list string :=
  let keys_str := default "" env_value in
  if negb (Py.truthy_str keys_str) then []
  else
    List.filter Py.truthy_str
      (List.map Py.strip (PyStr.split ","%char keys_str)).

Record APIConfig : Type := {
  keys : list string;
  base_url : string;
  rate_limit : Z;
}.

(** [APIConfig.get_key(index)]: [keys[index % len(keys)]]. *)
Definition get_key (cfg : APIConfig) (index : Z) : Result string :=
  let n := Z.of_nat (length (keys cfg)) in
  if n =? 0 then Raised "ZeroDivisionError: integer division or modulo by zero"
  else
    match keys cfg !! Z.to_nat (index `mod` n) with
    | Some k => Ok k
    | None => Raised "IndexError: list index out of range"
    end.

(** The key lists and base URLs of [Config]. *)
Record Config : Type := {
  alchemy_api_keys : list string;
  moralis_api_keys : list string;
  helius_api_keys : list string;
  quicknode_api_keys : list string;
  alchemy_base_url : string;
  moralis_base_url : string;
  helius_base_url : string;
  quicknode_base_url : string;
}.

(** What [Config.from_env] reads for the four providers. *)
Record Environ : Type := {
  ALCHEMY_API_KEY : option string;
  MORALIS_API_KEY : option string;
  HELIUS_API_KEY : option string;
  QUICKNODE_API_KEY : option string;
}.

(** [Config.from_env], as far as the keys go; the URLs are the class
    defaults. *)
Definition from_env (env : Environ) : Config :=
  {| alchemy_api_keys := get_keys (ALCHEMY_API_KEY env);
     moralis_api_keys := get_keys (MORALIS_API_KEY env);
     helius_api_keys := get_keys (HELIUS_API_KEY env);
     quicknode_api_keys := get_keys (QUICKNODE_API_KEY env);
     alchemy_base_url := "https://{chain}-mainnet.g.alchemy.com";
     moralis_base_url := "https://deep-index.moralis.io/api/v2";
     helius_base_url := "https://api.helius.xyz";
     quicknode_base_url := "https://{chain}.quiknode.pro" |}.

Definition truthy_list {A} (l : list A) : bool :=
  match l with [] => false | _ => true end.

Definition get_alchemy_config (c : Config) : Result APIConfig :=
  if negb (truthy_list (alchemy_api_keys c))
  then Raised "Alchemy API keys not configured"
  else Ok {| keys := alchemy_api_keys c; base_url := alchemy_base_url c;
             rate_limit := 330 |}.

Definition get_moralis_config (c : Config) : Result APIConfig :=
  if negb (truthy_list (moralis_api_keys c))
  then Raised "Moralis API keys not configured"
  else Ok {| keys := moralis_api_keys c; base_url := moralis_base_url c;
             rate_limit := 200 |}.

Definition get_helius_config (c : Config) : Result APIConfig :=
  if negb (truthy_list (helius_api_keys c))
  then Raised "Helius API keys not configured"
  else Ok {| keys := helius_api_keys c; base_url := helius_base_url c;
             rate_limit := 1000 |}.

(** [get_quicknode_config] returns [None] where the others raise. *)
Definition get_quicknode_config (c : Config) : option APIConfig :=
  if negb (truthy_list (quicknode_api_keys c)) then None
  else Some {| keys := quicknode_api_keys c;
               base_url := quicknode_base_url c; rate_limit := 100 |}.

End Config.

(** ** clients/base.py: the key ring of a client *)

Module BaseClient.

(** The two attributes of [BaseAPIClient] the key rotation reads and
    writes. *)
Record KeyRing : Type := {
  api_keys : list string;
  current_key_index : Z;
}.

(** [BaseAPIClient.__init__] *)
Definition new (api_keys : list string) : KeyRing :=
  {| api_keys := api_keys; current_key_index := 0 |}.

(** [get_api_key] *)
Definition get_api_key (c : KeyRing) : Result string :=
  if negb (Config.truthy_list (api_keys c))
  then Raised "No API keys configured"
  else
    let n := Z.of_nat (length (api_keys c)) in
    match api_keys c !! Z.to_nat (current_key_index c `mod` n) with
    | Some key => Ok key
    | None => Raised "IndexError: list index out of range"
    end.

(** [rotate_api_key] *)
Definition rotate_api_key (c : KeyRing) : Result KeyRing :=
  let n := Z.of_nat (length (api_keys c)) in
  if n =? 0 then Raised "ZeroDivisionError: integer division or modulo by zero"
  else Ok {| api_keys := api_keys c;
             current_key_index := (current_key_index c + 1) `mod` n |}.

(** [rotate_api_key] called [k] times. *)
Fixpoint rotations (k : nat) (c : KeyRing) : Result KeyRing :=
  match k with
  | O => Ok c
  | Datatypes.S k' =>
      match rotate_api_key c with
      | Ok c' => rotations k' c'
      | Raised e => Raised e
      end
  end.

End BaseClient.

(** ** normalizer.py: [convert_ipfs_to_http] *)

Module Ipfs.

Definition gateway : string := "https://cloudflare-ipfs.com/ipfs/".

(** [convert_ipfs_to_http(ipfs_url)], for an [ipfs_url] that is a [str]. *)
Definition convert_ipfs_to_http (ipfs_url : string) : option string :=
  if negb (Py.truthy_str ipfs_url) then None
  else if Py.startswith "http://" ipfs_url
          || Py.startswith "https://" ipfs_url
  then Some ipfs_url
  else if Py.startswith "ipfs://" ipfs_url then
    let ipfs_path :=
      PyStr.lstrip_char "/"%char (PyStr.remove_all "ipfs://" ipfs_url) in
    Some (gateway +:+ ipfs_path)
  else if Py.startswith "Qm" ipfs_url
          && (40 <? Py.len (hd "" (PyStr.split "/"%char ipfs_url)))
  then Some (gateway +:+ ipfs_url)
  else Some ipfs_url.

End Ipfs.

(** ** web_server.py: [ConnectionManager] *)

Module Manager.

Section Connections.
Context {W : Type} `{EqDecision W}.

(** [send_json] on a connection: [true] when the message went out,
    [false] when the call raised. *)
Variable send_json : W -> bool.

(** [list.remove(x)]: the first element equal to [x] goes. *)
Fixpoint remove_first (x : W) (l : list W) : list W :=
  match l with
  | [] => []
  | y :: r => if decide (y = x) then r else y :: remove_first x r
  end.

(** [connect], after the socket was accepted. *)
Definition connect (websocket : W) (active_connections : list W) : list W :=
  active_connections ++ [websocket].

(** [disconnect] *)
Definition disconnect (websocket : W) (active_connections : list W)
  : list W :=
  if decide (websocket ∈ active_connections)
  then remove_first websocket active_connections
  else active_connections.

(** [broadcast]: the [for] loop reads the list by position, and the list
    it reads is the one the loop body removes from.  [i] is the position
    of the iterator; [sent] collects the connections the message went out
    to.  The loop ends when [i] is no position of the list. *)
Fixpoint broadcast_loop (fuel : nat) (i : nat) (active_connections : list W)
    (sent : list W) : list W * list W :=
  match fuel with
  | O => (active_connections, sent)
  | Datatypes.S fuel =>
      match active_connections !! i with
      | None => (active_connections, sent)
      | Some connection =>
          if send_json connection
          then broadcast_loop fuel (Datatypes.S i) active_connections
                 (sent ++ [connection])
          else
            let active_connections :=
              if decide (connection ∈ active_connections)
              then remove_first connection active_connections
              else active_connections in
            broadcast_loop fuel (Datatypes.S i) active_connections sent
      end
  end.

(** [broadcast(message)]: the connections left, and the connections the
    message went out to, in order.  The loop makes at most as many passes
    as the list has elements at the start. *)
Definition broadcast (active_connections : list W) : list W * list W :=
  broadcast_loop (length active_connections) 0 active_connections [].

End Connections.

End Manager.

(** ** web_server.py: what the handlers do with the input *)

Module Extract.
Import Models.

(** [p in s] *)
Definition has (p s : string) : bool := Py.contains p s.

(** [s.startswith("0x") and len(s) == 42] *)
Definition looks_evm (s : string) : bool :=
  Py.startswith "0x" s && (Py.len s =? 42).

(** The first position of [l] whose element satisfies [f]. *)
Fixpoint find_index (f : string -> bool) (l : list string) : option nat :=
  match l with
  | [] => None
  | y :: r =>
      if f y then Some O
      else match find_index f r with
           | Some i => Some (Datatypes.S i)
           | None => None
           end
  end.

(** Lines 217-228 and 232-242: the chain named in a Nintondo URL. *)
Definition nintondo_chain (url_lower : string) : Chain :=
  if has "mainnet" url_lower || has "ethereum" url_lower
     || has "eth" url_lower then ETHEREUM
  else if has "polygon" url_lower || has "matic" url_lower then POLYGON
  else if has "arbitrum" url_lower || has "arb" url_lower then ARBITRUM
  else if has "optimism" url_lower || has "op" url_lower then OPTIMISM
  else if has "base" url_lower then BASE
  else ETHEREUM.

(** Lines 208-242 *)
Definition nintondo (collection_url : string) : string * Chain :=
  match Re.search_0x_hex40 collection_url with
  | Some contract => (contract, nintondo_chain (Py.lower collection_url))
  | None => (collection_url, nintondo_chain (Py.lower collection_url))
  end.

(** Lines 251-281: [/collections/<chain>/<address>].  [None] when the
    block returns nothing (an [IndexError] is caught). *)
Definition magiceden_collections (parts : list string)
  : option (string * Chain) :=
  match find_index (fun part => String.eqb (Py.lower part) "collections")
          parts with
  | None => None
  | Some collections_idx =>
      match parts !! (collections_idx + 1)%nat with
      | None => None
      | Some chain_part =>
          let chain_name := Py.lower chain_part in
          match parts !! (collections_idx + 2)%nat with
          | None => None
          | Some contract_address =>
              let evm (c : Chain) :=
                if looks_evm contract_address
                then Some (contract_address, c) else None in
              if String.eqb chain_name "ethereum"
                 || String.eqb chain_name "eth" then evm ETHEREUM
              else if String.eqb chain_name "polygon" then evm POLYGON
              else if String.eqb chain_name "arbitrum" then evm ARBITRUM
              else if String.eqb chain_name "optimism" then evm OPTIMISM
              else if String.eqb chain_name "base" then evm BASE
              else if String.eqb chain_name "solana"
                      || String.eqb chain_name "sol"
              then Some (contract_address, SOLANA)
              else None
          end
      end
  end.

(** [parts[idx + 1]] for [idx = parts.index("marketplace")], when
    ["marketplace" in parts] and the position exists. *)
Definition after_marketplace (parts : list string) : option string :=
  if PyStr.in_list "marketplace" parts then
    match PyStr.index_of "marketplace" parts with
    | Some idx => parts !! (idx + 1)%nat
    | None => None
    end
  else None.

(** Lines 245-297: the Magic Eden block; [None] when it returns nothing. *)
Definition magiceden (collection_url : string) : option (string * Chain) :=
  let parts := PyStr.split "/"%char collection_url in
  let url_lower := Py.lower collection_url in
  match (if has "/collections/" url_lower
         then magiceden_collections parts else None) with
  | Some r => Some r
  | None =>
      match (match after_marketplace parts with
             | Some collection_symbol =>
                 if Py.truthy_str collection_symbol
                 then Some (collection_symbol, SOLANA) else None
             | None => None
             end) with
      | Some r => Some r
      | None =>
          match last parts with
          | Some collection_symbol =>
              if Py.truthy_str collection_symbol
                 && negb (PyStr.in_list collection_symbol
                            [""; "magiceden.io"; "magiceden.us"])
              then
                if looks_evm collection_symbol
                then Some (collection_symbol, ETHEREUM)
                else Some (collection_symbol, SOLANA)
              else None
          | None => None
          end
      end
  end.

(** Lines 299-303 *)
Definition solanart (collection_url : string) : option (string * Chain) :=
  match last (PyStr.split "/"%char collection_url) with
  | Some collection_symbol =>
      if Py.truthy_str collection_symbol
      then Some (collection_symbol, SOLANA) else None
  | None => None
  end.

(** The contract two places after ["assets"], when it starts with
    ["0x"]. *)
Definition opensea_assets (parts : list string) : option string :=
  if PyStr.in_list "assets" parts then
    match PyStr.index_of "assets" parts with
    | Some idx =>
        match parts !! (idx + 2)%nat with
        | Some contract =>
            if Py.startswith "0x" contract then Some contract else None
        | None => None
        end
    | None => None
    end
  else None.

(** Lines 306-358 *)
Definition opensea (collection_url : string) : string * Chain :=
  let url_lower := Py.lower collection_url in
  let parts := PyStr.split "/"%char collection_url in
  let on (c : Chain) :=
    match opensea_assets parts with
    | Some contract => (contract, c)
    | None => (collection_url, c)
    end in
  if has "/polygon/" url_lower || has "polygon" url_lower then on POLYGON
  else if has "/arbitrum/" url_lower || has "arbitrum" url_lower
  then on ARBITRUM
  else if has "/optimism/" url_lower || has "optimism" url_lower
  then on OPTIMISM
  else if has "/base/" url_lower || has "base" url_lower then on BASE
  else
    match opensea_assets parts with
    | Some contract => (contract, ETHEREUM)
    | None =>
        if (4 <=? length parts)%nat
           && bool_decide (parts !! (length parts - 2)%nat
                           = Some "collection")
        then (default "" (last parts), ETHEREUM)
        else (collection_url, ETHEREUM)
    end.

(** The name [re] in [extract_collection_info].  The [import re] of line
    212 sits inside the Nintondo block, which makes [re] a local name of
    the whole function; the block always returns, so on every path that
    gets past it the name has no value and the first line that reads it
    raises [UnboundLocalError] (the text is that of Python 3.11 and
    later). *)
Definition re_unbound {A : Type} : Result A :=
  Raised "UnboundLocalError: cannot access local variable 're' where it is not associated with a value".

(** Lines 389-413: a chain named by a keyword, else Ethereum.  Each
    keyword branch starts by reading [re] (lines 392, 397, 402, 407). *)
Definition keywords (collection_url : string) : Result (string * Chain) :=
  let url_lower := Py.lower collection_url in
  if has "polygon" url_lower || has "matic" url_lower then re_unbound
  else if has "arbitrum" url_lower || has "arb" url_lower then re_unbound
  else if has "optimism" url_lower || has "op" url_lower then re_unbound
  else if has "base" url_lower then re_unbound
  else Ok (collection_url, ETHEREUM).

(** [extract_collection_info(collection_url)], for a [collection_url]
    that is a [str].  The Nintondo block (lines 208-245) is the only place
    where [re] has a value. *)
Definition extract_collection_info (collection_url : string)
  : Result (string * Chain) :=
  if negb (Py.truthy_str collection_url)
  then Raised "Collection URL cannot be empty or None"
  else
    let collection_url := Py.strip collection_url in
    if negb (Py.truthy_str collection_url)
    then Raised "Collection URL cannot be empty"
    else
      let url_lower := Py.lower collection_url in
      if has "nintondo.io" url_lower || has "nintondo.com" url_lower
      then Ok (nintondo collection_url)
      else
        match (if has "magiceden" url_lower
               then magiceden collection_url else None) with
        | Some r => Ok r
        | None =>
            match (if has "solanart.io" url_lower
                   then solanart collection_url else None) with
            | Some r => Ok r
            | None =>
                if has "opensea.io" url_lower
                then Ok (opensea collection_url)
                else if has "solana" url_lower || has "sol" url_lower
                        || has "magiceden" url_lower
                        || has "solanart" url_lower
                then re_unbound                      (* line 365 *)
                else if looks_evm collection_url
                then Ok (collection_url, ETHEREUM)
                else if (32 <=? Py.len collection_url)
                        && (Py.len collection_url <=? 44)
                        && negb (Py.startswith "0x" collection_url)
                then re_unbound                      (* line 385 *)
                else keywords collection_url
            end
        end.

(** [a, b = v] for a [v] that is [None] or a [str]: a string unpacks into
    its characters. *)
Definition unpack_pair (v : option string) : Result (string * string) :=
  match v with
  | None => Raised "TypeError: cannot unpack non-iterable NoneType object"
  | Some s =>
      match s with
      | String a (String b EmptyString) =>
          Ok (String a EmptyString, String b EmptyString)
      | String _ (String _ (String _ _)) =>
          Raised "ValueError: too many values to unpack (expected 2)"
      | _ =>
          Raised ("ValueError: not enough values to unpack (expected 2, got "
                  +:+ WebServer.str_of_Z (Py.len s) +:+ ")")
      end
  end.

(** Lines 567-577 of the [scrape_collection] action: the address check.
    [Ok None]: the error message is sent and the action is dropped;
    [Ok (Some a)]: the action goes on with the address [a]. *)
Definition checked_address (contract_address : string) (chain : Chain)
  : Result (option string) :=
  match unpack_pair
          (Security.sanitize_blockchain_address contract_address
             (value chain)) with
  | Raised e => Raised e
  | Ok (is_valid, normalized_address) =>
      if negb (Py.truthy_str is_valid) then Ok None
      else Ok (Some (if Py.truthy_str normalized_address
                     then normalized_address else contract_address))
  end.

End Extract.

(** ** webhooks/app.py: the rate limit *)

Module Webhooks.

Definition RATE_LIMIT_WINDOW : float := 60.

(** The [while] loop of lines 62-63: timestamps are dropped from the left
    as long as the leftmost is older than the window. *)
Fixpoint drop_old (now : float) (q : list float) : list float :=
  match q with
  | t :: r =>
      if PrimFloat.ltb t (now - RATE_LIMIT_WINDOW)%float
      then drop_old now r else q
  | [] => []
  end.

Section RateLimit.

(** [MAX_EVENTS_PER_IP], read from the environment when the module is
    loaded. *)
Variable MAX_EVENTS_PER_IP : Z.

(** [check_rate_limit(ip)] when [time.time()] returns [now];
    [rate_limit_store] holds for each IP the times of its accepted
    requests, oldest first. *)
Definition check_rate_limit (ip : string) (now : float)
    (rate_limit_store : gmap string (list float))
  : bool * gmap string (list float) :=
  let q := drop_old now (default [] (rate_limit_store !! ip)) in
  if MAX_EVENTS_PER_IP <=? Z.of_nat (length q)
  then (false, <[ip := q]> rate_limit_store)
  else (true, <[ip := q ++ [now]]> rate_limit_store).

End RateLimit.

End Webhooks.

(** * Properties *)

(** ** Truthiness of strings *)

Lemma Py_truthy_str_spec (s : string) : Py.truthy_str s = true <-> s <> "".
Proof.
  unfold Py.truthy_str. destruct (String.eqb_spec s ""); simpl; split;
    congruence.
Qed.

(** ** [Chain.from_string] *)

Module ChainFacts.
Import Models.

Lemma mapping_lookup_key (k : string) (c : Chain) :
  mapping !! k = Some c -> k ∈ (mapping_items.*1).
Proof.
  unfold mapping. intros H.
  apply elem_of_list_to_map_2 in H.
  apply list_elem_of_fmap. exists (k, c). split; [reflexivity | exact H].
Qed.

Lemma from_string_unknown (s : string) :
  Py.strip (Py.lower s) ∉ (mapping_items.*1) -> from_string s = ETHEREUM.
Proof.
  intros Hk. unfold from_string.
  destruct (mapping !! Py.strip (Py.lower s)) as [c|] eqn:E; [|reflexivity].
  exfalso. apply Hk. eapply mapping_lookup_key. exact E.
Qed.

Lemma from_string_known (s k : string) (c : Chain) :
  Py.strip (Py.lower s) = k -> mapping !! k = Some c -> from_string s = c.
Proof. intros Hk Hm. unfold from_string. rewrite Hk, Hm. reflexivity. Qed.

(** C9.  [Chain.from_string] is a total function of its argument.  With
    [k] the argument lower-cased and then stripped of surrounding
    whitespace: [k] among eth/ethereum gives ETHEREUM, matic/polygon gives
    POLYGON, arb/arbitrum gives ARBITRUM, op/optimism gives OPTIMISM, base
    gives BASE, sol/solana gives SOLANA, and any [k] outside these eleven
    aliases gives ETHEREUM. *)
Theorem from_string_aliases_else_ethereum (s : string) :
  let k := Py.strip (Py.lower s) in
  (k = "eth" \/ k = "ethereum" -> from_string s = ETHEREUM) /\
  (k = "matic" \/ k = "polygon" -> from_string s = POLYGON) /\
  (k = "arb" \/ k = "arbitrum" -> from_string s = ARBITRUM) /\
  (k = "op" \/ k = "optimism" -> from_string s = OPTIMISM) /\
  (k = "base" -> from_string s = BASE) /\
  (k = "sol" \/ k = "solana" -> from_string s = SOLANA) /\
  (k ∉ ["eth"; "ethereum"; "polygon"; "matic"; "arbitrum"; "arb";
        "optimism"; "op"; "base"; "solana"; "sol"] ->
   from_string s = ETHEREUM).
Proof.
  intros k.
  split; [|split; [|split; [|split; [|split; [|split]]]]].
  1-4, 6: intros [H|H]; eapply from_string_known; try exact H; reflexivity.
  - intros H; eapply from_string_known; [exact H | reflexivity].
  - intros H. apply from_string_unknown. exact H.
Qed.

Lemma from_string_aliases_witness :
  from_string "  ETH " = ETHEREUM /\ from_string "Matic" = POLYGON /\
  from_string "ARB" = ARBITRUM /\ from_string "op" = OPTIMISM /\
  from_string "Base" = BASE /\ from_string "SOLANA" = SOLANA /\
  from_string "bitcoin" = ETHEREUM.
Proof.
  pose proof (from_string_aliases_else_ethereum "  ETH ") as (H1 & _).
  pose proof (from_string_aliases_else_ethereum "Matic") as (_ & H2 & _).
  pose proof (from_string_aliases_else_ethereum "ARB") as (_ & _ & H3 & _).
  pose proof (from_string_aliases_else_ethereum "op") as (_ & _ & _ & H4 & _).
  pose proof (from_string_aliases_else_ethereum "Base")
    as (_ & _ & _ & _ & H5 & _).
  pose proof (from_string_aliases_else_ethereum "SOLANA")
    as (_ & _ & _ & _ & _ & H6 & _).
  pose proof (from_string_aliases_else_ethereum "bitcoin")
    as (_ & _ & _ & _ & _ & _ & H7).
  split; [|split; [|split; [|split; [|split; [|split]]]]].
  - apply H1. left. reflexivity.
  - apply H2. left. reflexivity.
  - apply H3. left. reflexivity.
  - apply H4. left. reflexivity.
  - apply H5. reflexivity.
  - apply H6. right. reflexivity.
  - apply H7. vm_compute. intros H.
    repeat (apply elem_of_cons in H as [H|H]; [discriminate H|]).
    apply elem_of_nil in H. exact H.
Defined.

(** Surrounding whitespace and letter case do not matter. *)
Example from_string_trim_case :
  from_string (String (ascii_of_nat 9) " Polygon" +:+ String (ascii_of_nat 10) "")
  = POLYGON.
Proof. reflexivity. Qed.

End ChainFacts.

(** ** The in-memory cache *)

Module MemoryFacts.
Import Memory.

Section Facts.
Context {V : Type}.
Implicit Types (st : MemoryStorage V) (c : TTLCache V) (l : Link V).

Lemma find_link_app_new (k : string) (ls : list (Link V)) l :
  (forall l', In l' ls -> has_key k l' = false) ->
  has_key k l = true ->
  find_link k (ls ++ [l]) = Some l.
Proof.
  intros Hno Hl. unfold find_link. induction ls as [|x ls IH]; simpl.
  - rewrite Hl. reflexivity.
  - rewrite (Hno x (or_introl eq_refl)). apply IH.
    intros l' Hin. apply Hno. right. exact Hin.
Qed.

Lemma remove_key_no_key (k : string) (ls : list (Link V)) l :
  In l (remove_key k ls) -> has_key k l = false.
Proof.
  unfold remove_key. intros Hin. apply filter_In in Hin as [_ H].
  apply negb_true_iff in H. exact H.
Qed.

Lemma find_link_none_no_key (k : string) (ls : list (Link V)) l :
  find_link k ls = None -> In l ls -> has_key k l = false.
Proof.
  unfold find_link. intros Hnone Hin.
  exact (find_none _ _ Hnone l Hin).
Qed.

Lemma In_tail {A} (x : A) (xs : list A) : In x (tail xs) -> In x xs.
Proof. destruct xs; simpl; auto. Qed.

(** After [cache[key] = value] at [time], the entry found under [key] is
    the new one, and it expires [ttl c] later. *)
Lemma cache_setitem_find (time : Z) (k : string) (v : V) c :
  find_link k (links (cache_setitem time k v c))
  = Some {| lk_key := k; lk_value := v; lk_expires := time + ttl c |}.
Proof.
  unfold cache_setitem. simpl.
  apply find_link_app_new.
  - intros l' Hin.
    destruct (find_link k (List.filter (live time) (links c))) eqn:E.
    + eapply remove_key_no_key. exact Hin.
    + destruct (maxsize c <? _).
      * eapply find_link_none_no_key; [exact E|]. apply In_tail. exact Hin.
      * eapply find_link_none_no_key; [exact E | exact Hin].
  - unfold has_key. simpl. apply String.eqb_refl.
Qed.

Lemma new_well_formed (cfg : Config) : well_formed (new (V:=V) cfg).
Proof. split; reflexivity. Qed.

Lemma set_cache_well_formed time key value ttl st :
  well_formed st -> well_formed (set_cache time key value ttl st).
Proof.
  intros [H1 H2]. unfold set_cache, well_formed.
  destruct (negb _); simpl; auto.
Qed.

Lemma get_cache_well_formed time key st :
  well_formed st -> well_formed (snd (get_cache time key st)).
Proof.
  intros [H1 H2]. unfold get_cache, cache_get, well_formed.
  destruct (find_link key (links (cache st))) as [l|]; simpl.
  - destruct (live time l); simpl; auto.
  - auto.
Qed.

Lemma delete_cache_well_formed key st :
  well_formed st -> well_formed (delete_cache key st).
Proof. intros [H1 H2]. split; simpl; assumption. Qed.

(** C10.  [set_cache] stores the same cache whatever [ttl] the caller
    passes, and the entry it stores is returned by [get_cache] exactly
    while the timer reads less than the time of the store plus the
    configured [cache_ttl]. *)
Theorem set_cache_ttl_argument_ignored (st : MemoryStorage V) (key : string)
    (value : V) (ttl : Z) (time t : Z) :
  well_formed st ->
  (forall ttl', set_cache time key value ttl st
                = set_cache time key value ttl' st) /\
  fst (get_cache t key (set_cache time key value ttl st))
  = if t <? time + cache_ttl (config st) then Some value else None.
Proof.
  intros [Httl _]. split.
  - intros ttl'. unfold set_cache.
    destruct (negb (ttl =? _)), (negb (ttl' =? _)); reflexivity.
  - assert (Hc : cache (set_cache time key value ttl st)
                 = cache_setitem time key value (cache st)).
    { unfold set_cache. destruct (negb _); reflexivity. }
    unfold get_cache, cache_get. rewrite Hc, cache_setitem_find.
    unfold live. simpl. rewrite Httl.
    destruct (t <? time + cache_ttl (config st)); reflexivity.
Qed.

End Facts.

Definition sample_config : Config := {| cache_ttl := 900; max_workers := 5 |}.

Lemma set_cache_ttl_argument_ignored_witness :
  well_formed (new (V:=Z) sample_config) /\
  set_cache 100 "k" 7 60 (new sample_config)
  = set_cache 100 "k" 7 900 (new sample_config) /\
  fst (get_cache 999 "k" (set_cache 100 "k" 7 60 (new sample_config)))
  = Some 7 /\
  fst (get_cache 1000 "k" (set_cache 100 "k" 7 60 (new sample_config)))
  = None.
Proof.
  pose proof (new_well_formed (V:=Z) sample_config) as Hwf.
  split; [exact Hwf|].
  destruct (set_cache_ttl_argument_ignored (new sample_config) "k" 7 60 100
              999 Hwf) as [Hsame Hlive].
  destruct (set_cache_ttl_argument_ignored (new sample_config) "k" 7 60 100
              1000 Hwf) as [_ Hdead].
  split; [apply Hsame|]. split; [exact Hlive | exact Hdead].
Defined.

End MemoryFacts.

(** ** Helius: what the first page says about the collection total *)

Module HeliusFacts.
Import Clients Helius.

Section Facts.
Context {Item : Type} (enrich : Item -> Item).

(** A first page with no cursor and fewer items than the limit: the item
    count is stored as the collection total (totals not yet known). *)
Lemma first_page_short_stores_item_count (st : ClientState)
    (cursor : option string) (page_size : Z) (env : CallEnv Item)
    (body : RpcBody Item) :
  _collection_total st = None ->
  Py.truthy_ostr cursor = false ->
  rpc env = Ok body ->
  Py.truthy_ostr (rpc_cursor body) = false ->
  Z.of_nat (length (rpc_items body)) < limit_of page_size ->
  _collection_total (snd (group_query true st cursor page_size env))
  = Some (Z.of_nat (length (rpc_items body))).
Proof.
  intros Hnone Hfirst Hrpc Hnocur Hshort.
  unfold group_query. rewrite Hrpc. simpl.
  unfold actual_total_of. rewrite Hfirst, Hnocur. simpl.
  apply Z.ltb_lt in Hshort. rewrite Hshort.
  unfold store_total_direct. rewrite Hnone. reflexivity.
Qed.

(** The direct-address bookkeeping, on a first page that comes with a
    cursor: the [total] of the response is stored as the collection
    total. *)
Lemma direct_first_page_with_cursor (st : ClientState)
    (cursor : option string) (page_size : Z) (env : CallEnv Item)
    (body : RpcBody Item) :
  _collection_total st = None ->
  Py.truthy_ostr cursor = false ->
  rpc env = Ok body ->
  Py.truthy_ostr (rpc_cursor body) = true ->
  0 < rpc_total body ->
  _collection_total (snd (group_query true st cursor page_size env))
  = Some (rpc_total body).
Proof.
  intros Hnone Hfirst Hrpc Hcur Hpos.
  unfold group_query. rewrite Hrpc. simpl.
  unfold actual_total_of. rewrite Hfirst, Hcur. simpl.
  unfold store_total_direct. rewrite Hnone.
  apply Z.ltb_lt in Hpos. rewrite Hpos. reflexivity.
Qed.

(** The resolved-symbol bookkeeping on the same page stores nothing. *)
Lemma resolved_first_page_with_cursor (st : ClientState)
    (cursor : option string) (page_size : Z) (env : CallEnv Item)
    (body : RpcBody Item) :
  _collection_total st = None ->
  Py.truthy_ostr cursor = false ->
  rpc env = Ok body ->
  Py.truthy_ostr (rpc_cursor body) = true ->
  _collection_total (snd (group_query false st cursor page_size env)) = None.
Proof.
  intros Hnone Hfirst Hrpc Hcur.
  unfold group_query. rewrite Hrpc. simpl.
  unfold actual_total_of. rewrite Hfirst, Hcur. simpl.
  unfold store_total_resolved. rewrite Hnone, Hcur. simpl.
  rewrite ?andb_false_r. simpl. exact Hnone.
Qed.

End Facts.

(** A collection address, and a first page of 1000 items that comes with a
    cursor and reports [total = 1000]. *)
Definition sample_address : string :=
  "So11111111111111111111111111111111111111112".

Definition full_first_page : CallEnv unit :=
  {| resolved := None;
     rpc := Ok {| rpc_items := repeat tt 1000; rpc_cursor := Some "page-2";
                  rpc_total := 1000 |};
     das := Raised "not called" |}.

(** C1.  On a first request (no cursor) for a collection address, with a
    page size of 1000, a response of 1000 items that carries a next-page
    cursor and [total = 1000] leaves [_collection_total = 1000] on the
    client and puts [total = 1000] in the result: the total field of the
    page is stored as the collection total. *)
Theorem first_page_with_cursor_stores_page_total :
  let '(r, st) :=
    get_collection_nfts id fresh sample_address "solana" None 1000
      full_first_page in
  _collection_total st = Some 1000 /\
  _last_total st = Some 1000 /\
  (d_total <$> (match r with Ok d => Some d | Raised _ => None end))
  = Some (Some 1000) /\
  (d_cursor <$> (match r with Ok d => Some d | Raised _ => None end))
  = Some (Some "page-2").
Proof. vm_compute. repeat split; reflexivity. Qed.

(** The same page reached through a resolved collection symbol leaves the
    total unknown. *)
Example resolved_symbol_keeps_total_unknown :
  let env := {| resolved := Some sample_address;
                rpc := rpc full_first_page; das := das full_first_page |} in
  _collection_total
    (snd (get_collection_nfts id fresh "okay_bears" "solana" None 1000 env))
  = None.
Proof. vm_compute. reflexivity. Qed.

(** A collection of 7 items: one page, no cursor, total 7. *)
Example short_collection_exact_total :
  let env := {| resolved := None;
                rpc := Ok {| rpc_items := repeat tt 7; rpc_cursor := None;
                             rpc_total := 7 |};
                das := Raised "not called" |} in
  let '(r, st) :=
    get_collection_nfts id fresh sample_address "solana" None 1000 env in
  _collection_total st = Some 7 /\
  (d_total <$> (match r with Ok d => Some d | Raised _ => None end))
  = Some (Some 7).
Proof. vm_compute. split; reflexivity. Qed.

End HeliusFacts.

(** ** Statistics reconciliation *)

Module StatsFacts.
Import Models Normalizer Scout.

(** *** Sequences of assignments *)

Lemma seq_split (i : nat) stmts s :
  seq_stmts stmts s = seq_stmts (skipn i stmts) (seq_stmts (firstn i stmts) s).
Proof.
  unfold seq_stmts. rewrite <- fold_left_app, firstn_skipn. reflexivity.
Qed.

(** A field that no statement of a sequence writes is left as it was. *)
Lemma seq_keeps {B} (p : CollectionStats -> B) stmts :
  Forall (fun f => forall s, p (f s) = p s) stmts ->
  forall s, p (seq_stmts stmts s) = p s.
Proof.
  unfold seq_stmts. induction 1 as [|f stmts Hf _ IH]; intros s; simpl.
  - reflexivity.
  - rewrite IH. apply Hf.
Qed.

Ltac keeps :=
  repeat constructor; intros;
  unfold take_ostr, take_oint, take_ofloat, fill_ostr, fill_oint, fill_ofloat;
  repeat match goal with
         | |- context [if ?b then _ else _] => destruct b
         end;
  reflexivity.

(** [field_at p i]: the field [p] of a merge is decided by statement
    number [i] (from 0) alone. *)
Ltac field_at p i :=
  rewrite (seq_split (S i)); cbn [firstn skipn];
  rewrite (seq_keeps p) by keeps;
  rewrite (seq_split i); cbn [firstn skipn];
  unfold seq_stmts at 1; cbn [fold_left];
  unfold take_ostr, take_oint, take_ofloat, fill_ostr, fill_oint, fill_ofloat;
  match goal with
  | |- context [if ?b then _ else _] => destruct b
  end;
  [reflexivity | cbn beta; try (rewrite (seq_keeps p) by keeps); reflexivity].

(** [fill_at p i]: statement number [i] fills the field [p] when it is
    empty, and no other statement writes it. *)
Ltac fill_at p i s :=
  rewrite (seq_split (S i)); cbn [firstn skipn];
  rewrite (seq_keeps p) by keeps;
  rewrite (seq_split i); cbn [firstn skipn];
  unfold seq_stmts at 1; cbn [fold_left]; cbn beta;
  unfold fill_ostr, fill_oint, fill_ofloat;
  let x := fresh "x" in
  let Hx := fresh "Hx" in
  match goal with
  | |- context [seq_stmts ?l s] =>
      assert (Hx : p (seq_stmts l s) = p s) by (apply (seq_keeps p); keeps);
      set (x := seq_stmts l s) in *; clearbody x
  end;
  rewrite Hx;
  match goal with
  | |- context [if ?b then _ else _] => destruct b
  end;
  [reflexivity | exact Hx].

(** *** What each overlay does to the marketplace fields *)

Lemma merge_reservoir_floor_price r a s :
  cs_floor_price (merge_reservoir r a s)
  = if Py.truthy_ofloat (cs_floor_price r) then cs_floor_price r
    else cs_floor_price s.
Proof. unfold merge_reservoir. field_at cs_floor_price 0%nat. Qed.

Lemma merge_reservoir_total_volume r a s :
  cs_total_volume (merge_reservoir r a s)
  = if Py.truthy_ofloat (cs_total_volume r) then cs_total_volume r
    else cs_total_volume s.
Proof. unfold merge_reservoir. field_at cs_total_volume 2%nat. Qed.

Lemma merge_reservoir_volume_24h r a s :
  cs_volume_24h (merge_reservoir r a s)
  = if Py.truthy_ofloat (cs_volume_24h r) then cs_volume_24h r
    else cs_volume_24h s.
Proof. unfold merge_reservoir. field_at cs_volume_24h 3%nat. Qed.

Lemma merge_reservoir_volume_7d r a s :
  cs_volume_7d (merge_reservoir r a s)
  = if Py.truthy_ofloat (cs_volume_7d r) then cs_volume_7d r
    else cs_volume_7d s.
Proof. unfold merge_reservoir. field_at cs_volume_7d 4%nat. Qed.

Lemma merge_reservoir_volume_30d r a s :
  cs_volume_30d (merge_reservoir r a s)
  = if Py.truthy_ofloat (cs_volume_30d r) then cs_volume_30d r
    else cs_volume_30d s.
Proof. unfold merge_reservoir. field_at cs_volume_30d 5%nat. Qed.

Lemma merge_reservoir_sales_24h r a s :
  cs_sales_24h (merge_reservoir r a s)
  = if Py.truthy_oint (cs_sales_24h r) then cs_sales_24h r
    else cs_sales_24h s.
Proof. unfold merge_reservoir. field_at cs_sales_24h 6%nat. Qed.

Lemma merge_reservoir_sales_7d r a s :
  cs_sales_7d (merge_reservoir r a s)
  = if Py.truthy_oint (cs_sales_7d r) then cs_sales_7d r else cs_sales_7d s.
Proof. unfold merge_reservoir. field_at cs_sales_7d 7%nat. Qed.

Lemma merge_reservoir_sales_30d r a s :
  cs_sales_30d (merge_reservoir r a s)
  = if Py.truthy_oint (cs_sales_30d r) then cs_sales_30d r
    else cs_sales_30d s.
Proof. unfold merge_reservoir. field_at cs_sales_30d 8%nat. Qed.

Lemma merge_reservoir_total_owners r a s :
  cs_total_owners (merge_reservoir r a s)
  = if Py.truthy_oint (cs_total_owners r) then cs_total_owners r
    else cs_total_owners s.
Proof. unfold merge_reservoir. field_at cs_total_owners 9%nat. Qed.

Lemma merge_reservoir_market_cap r a s :
  cs_market_cap (merge_reservoir r a s)
  = if Py.truthy_ofloat (cs_market_cap r) then cs_market_cap r
    else cs_market_cap s.
Proof. unfold merge_reservoir. field_at cs_market_cap 10%nat. Qed.

Lemma merge_reservoir_owners_percentage r a s :
  cs_owners_percentage (merge_reservoir r a s)
  = if Py.truthy_ofloat (cs_owners_percentage r) then cs_owners_percentage r
    else cs_owners_percentage s.
Proof. unfold merge_reservoir. field_at cs_owners_percentage 11%nat. Qed.

Lemma merge_reservoir_total_supply r a s :
  cs_total_supply (merge_reservoir r a s)
  = if Py.truthy_oint (cs_total_supply r) then cs_total_supply r
    else cs_total_supply s.
Proof. unfold merge_reservoir. field_at cs_total_supply 18%nat. Qed.

Lemma merge_magiceden_total_supply m s :
  cs_total_supply (merge_magiceden m s)
  = if Py.truthy_oint (cs_total_supply m) then cs_total_supply m
    else cs_total_supply s.
Proof.
  unfold merge_magiceden.
  rewrite (seq_split 11); cbn [firstn skipn].
  unfold seq_stmts at 1; cbn [fold_left]. unfold take_oint at 1.
  destruct (Py.truthy_oint (cs_total_supply m)) eqn:E; [reflexivity|].
  rewrite (seq_split 1); cbn [firstn skipn].
  rewrite (seq_keeps cs_total_supply) by keeps.
  unfold seq_stmts, take_oint; cbn [fold_left]. rewrite E. reflexivity.
Qed.

Lemma merge_magiceden_floor_price m s :
  cs_floor_price (merge_magiceden m s)
  = if Py.truthy_ofloat (cs_floor_price m) then cs_floor_price m
    else cs_floor_price s.
Proof. unfold merge_magiceden. field_at cs_floor_price 1%nat. Qed.

Lemma merge_magiceden_total_volume m s :
  cs_total_volume (merge_magiceden m s)
  = if Py.truthy_ofloat (cs_total_volume m) then cs_total_volume m
    else cs_total_volume s.
Proof. unfold merge_magiceden. field_at cs_total_volume 3%nat. Qed.

Lemma merge_magiceden_volume_24h m s :
  cs_volume_24h (merge_magiceden m s)
  = if Py.truthy_ofloat (cs_volume_24h m) then cs_volume_24h m
    else cs_volume_24h s.
Proof. unfold merge_magiceden. field_at cs_volume_24h 4%nat. Qed.

Lemma merge_magiceden_total_owners m s :
  cs_total_owners (merge_magiceden m s)
  = if Py.truthy_oint (cs_total_owners m) then cs_total_owners m
    else cs_total_owners s.
Proof. unfold merge_magiceden. field_at cs_total_owners 5%nat. Qed.

(** The Solana overlay never writes the 7-day and 30-day volumes, the
    sales counts, or the derived fields. *)
Lemma merge_magiceden_untouched m s :
  cs_volume_7d (merge_magiceden m s) = cs_volume_7d s /\
  cs_volume_30d (merge_magiceden m s) = cs_volume_30d s /\
  cs_sales_24h (merge_magiceden m s) = cs_sales_24h s /\
  cs_sales_7d (merge_magiceden m s) = cs_sales_7d s /\
  cs_sales_30d (merge_magiceden m s) = cs_sales_30d s /\
  cs_market_cap (merge_magiceden m s) = cs_market_cap s /\
  cs_owners_percentage (merge_magiceden m s) = cs_owners_percentage s.
Proof.
  unfold merge_magiceden.
  repeat split; match goal with
                | |- ?p _ = _ => apply (seq_keeps p); keeps
                end.
Qed.

Lemma merge_moralis_total_supply w m s :
  cs_total_supply (merge_moralis w m s)
  = if w && negb (Py.truthy_oint (cs_total_supply s))
       && Py.truthy_oint (cs_total_supply m)
    then cs_total_supply m else cs_total_supply s.
Proof.
  unfold merge_moralis.
  rewrite (seq_split 3); cbn [firstn skipn].
  unfold seq_stmts at 1; cbn [fold_left]; cbn beta.
  assert (Hx : cs_total_supply
                 (seq_stmts
                    [ (fun s => fill_ostr (cs_name s) (cs_name m) set_name s);
                      (fun s => fill_ostr (cs_description s)
                                  (cs_description m) set_description s);
                      (fun s => fill_ostr (cs_image_url s) (cs_image_url m)
                                  set_image_url s) ] s)
               = cs_total_supply s)
    by (apply (seq_keeps cs_total_supply); keeps).
  set (x := seq_stmts _ s) in *. clearbody x.
  destruct w; simpl; [|exact Hx].
  unfold fill_oint. rewrite Hx.
  destruct (negb _ && _); [reflexivity | exact Hx].
Qed.

Lemma merge_moralis_untouched w m s :
  cs_floor_price (merge_moralis w m s) = cs_floor_price s /\
  cs_total_owners (merge_moralis w m s) = cs_total_owners s /\
  cs_market_cap (merge_moralis w m s) = cs_market_cap s /\
  cs_owners_percentage (merge_moralis w m s) = cs_owners_percentage s.
Proof.
  unfold merge_moralis.
  repeat split; match goal with
                | |- ?p _ = _ => apply (seq_keeps p); destruct w; keeps
                end.
Qed.

Lemma merge_quicknode_untouched q s :
  cs_floor_price (merge_quicknode q s) = cs_floor_price s /\
  cs_total_supply (merge_quicknode q s) = cs_total_supply s /\
  cs_total_owners (merge_quicknode q s) = cs_total_owners s /\
  cs_market_cap (merge_quicknode q s) = cs_market_cap s /\
  cs_owners_percentage (merge_quicknode q s) = cs_owners_percentage s.
Proof.
  unfold merge_quicknode.
  repeat split; match goal with
                | |- ?p _ = _ => apply (seq_keeps p); keeps
                end.
Qed.

Lemma merge_selenium_floor_price d s :
  cs_floor_price (merge_selenium d s)
  = if negb (Py.truthy_ofloat (cs_floor_price s))
       && Py.truthy_ofloat (se_floor_price d)
    then se_floor_price d else cs_floor_price s.
Proof. unfold merge_selenium. fill_at cs_floor_price 3%nat s. Qed.

Lemma merge_selenium_total_supply d s :
  cs_total_supply (merge_selenium d s)
  = if negb (Py.truthy_oint (cs_total_supply s))
       && Py.truthy_oint (se_total_supply d)
    then se_total_supply d else cs_total_supply s.
Proof. unfold merge_selenium. fill_at cs_total_supply 4%nat s. Qed.

Lemma merge_selenium_total_owners d s :
  cs_total_owners (merge_selenium d s)
  = if negb (Py.truthy_oint (cs_total_owners s))
       && Py.truthy_oint (se_total_owners d)
    then se_total_owners d else cs_total_owners s.
Proof. unfold merge_selenium. fill_at cs_total_owners 6%nat s. Qed.

Lemma merge_selenium_untouched d s :
  cs_market_cap (merge_selenium d s) = cs_market_cap s /\
  cs_owners_percentage (merge_selenium d s) = cs_owners_percentage s.
Proof.
  unfold merge_selenium.
  split; match goal with
         | |- ?p _ = _ => apply (seq_keeps p); keeps
         end.
Qed.

(** *** The derived fields *)

Lemma reservoir_market_cap_Some fp ts mc :
  reservoir_market_cap fp ts = Some mc ->
  exists f t, fp = Some f /\ ts = Some t /\
              Py.truthy_float f = true /\ Py.truthy_int t = true /\
              mc = (f * Py.float_of_int t)%float.
Proof.
  unfold reservoir_market_cap.
  destruct fp as [f|], ts as [t|]; try discriminate.
  destruct (Py.truthy_float f) eqn:Ef, (Py.truthy_int t) eqn:Et;
    simpl; try discriminate.
  intros [= <-]. exists f, t. repeat split; assumption.
Qed.

Lemma reservoir_owners_percentage_Some ow ts op :
  reservoir_owners_percentage ow ts = Some op ->
  exists o t, ow = Some o /\ ts = Some t /\
              Py.truthy_int o = true /\ Py.truthy_int t = true /\
              op = ((Py.float_of_int o / Py.float_of_int t)
                    * Py.float_of_int 100)%float.
Proof.
  unfold reservoir_owners_percentage.
  destruct ow as [o|], ts as [t|]; try discriminate.
  destruct (Py.truthy_int o) eqn:Eo, (Py.truthy_int t) eqn:Et;
    simpl; try discriminate.
  intros [= <-]. exists o, t. repeat split; assumption.
Qed.

(** A derived field that is set was computed from the inputs the record
    holds, and those inputs are not empty. *)
Definition derived_sound (s : CollectionStats) : Prop :=
  (forall mc, cs_market_cap s = Some mc ->
     exists f t, cs_floor_price s = Some f /\ cs_total_supply s = Some t /\
                 Py.truthy_float f = true /\ Py.truthy_int t = true /\
                 mc = (f * Py.float_of_int t)%float) /\
  (forall op, cs_owners_percentage s = Some op ->
     exists o t, cs_total_owners s = Some o /\ cs_total_supply s = Some t /\
                 Py.truthy_int o = true /\ Py.truthy_int t = true /\
                 op = ((Py.float_of_int o / Py.float_of_int t)
                       * Py.float_of_int 100)%float).

Definition derived_empty (s : CollectionStats) : Prop :=
  cs_market_cap s = None /\ cs_owners_percentage s = None.

Lemma derived_empty_sound s : derived_empty s -> derived_sound s.
Proof. intros [H1 H2]. split; intros x Hx; congruence. Qed.

Lemma merge_reservoir_sound (data : ReservoirData) a c s :
  derived_empty s ->
  derived_sound (merge_reservoir (reservoir_record data a c) a s).
Proof.
  intros [Hm Ho].
  set (r := reservoir_record data a c).
  assert (Hrm : cs_market_cap r
                = reservoir_market_cap (cs_floor_price r) (cs_total_supply r))
    by reflexivity.
  assert (Hro : cs_owners_percentage r
                = reservoir_owners_percentage (cs_total_owners r)
                    (cs_total_supply r)) by reflexivity.
  clearbody r. split.
  - intros mc. rewrite merge_reservoir_market_cap, Hm.
    destruct (Py.truthy_ofloat (cs_market_cap r)); [|discriminate].
    rewrite Hrm. intros H.
    apply reservoir_market_cap_Some in H as (f & t & Hf & Ht & Tf & Tt & ->).
    exists f, t.
    rewrite merge_reservoir_floor_price, merge_reservoir_total_supply.
    rewrite Hf, Ht. simpl. rewrite Tf, Tt. repeat split; assumption.
  - intros op. rewrite merge_reservoir_owners_percentage, Ho.
    destruct (Py.truthy_ofloat (cs_owners_percentage r)); [|discriminate].
    rewrite Hro. intros H.
    apply reservoir_owners_percentage_Some in H
      as (o & t & Hw & Ht & To & Tt & ->).
    exists o, t.
    rewrite merge_reservoir_total_owners, merge_reservoir_total_supply.
    rewrite Hw, Ht. simpl. rewrite To, Tt. repeat split; assumption.
Qed.

(** A step that keeps the derived fields and changes an input only when
    that input is empty keeps [derived_sound]. *)
Lemma gap_fill_sound (s s' : CollectionStats) vf vt vo (bf bt bo : bool) :
  cs_market_cap s' = cs_market_cap s ->
  cs_owners_percentage s' = cs_owners_percentage s ->
  cs_floor_price s'
  = (if bf && negb (Py.truthy_ofloat (cs_floor_price s)) then vf
     else cs_floor_price s) ->
  cs_total_supply s'
  = (if bt && negb (Py.truthy_oint (cs_total_supply s)) then vt
     else cs_total_supply s) ->
  cs_total_owners s'
  = (if bo && negb (Py.truthy_oint (cs_total_owners s)) then vo
     else cs_total_owners s) ->
  derived_sound s -> derived_sound s'.
Proof.
  intros Hm Ho Hf Ht Hw [S1 S2]. split.
  - intros mc. rewrite Hm. intros H.
    destruct (S1 mc H) as (f & t & Ef & Et & Tf & Tt & ->).
    exists f, t. rewrite Hf, Ht, Ef, Et. simpl. rewrite Tf, Tt. simpl.
    rewrite !andb_false_r. repeat split; assumption.
  - intros op. rewrite Ho. intros H.
    destruct (S2 op H) as (o & t & Eo & Et & To & Tt & ->).
    exists o, t. rewrite Hw, Ht, Eo, Et. simpl. rewrite To, Tt. simpl.
    rewrite !andb_false_r. repeat split; assumption.
Qed.

Lemma merge_moralis_sound w m s :
  derived_sound s -> derived_sound (merge_moralis w m s).
Proof.
  destruct (merge_moralis_untouched w m s) as (Hf & Hw & Hm & Ho).
  apply (gap_fill_sound s _ None (cs_total_supply m) None false
           (w && Py.truthy_oint (cs_total_supply m)) false);
    try assumption.
  rewrite merge_moralis_total_supply.
  destruct w, (Py.truthy_oint (cs_total_supply s)),
    (Py.truthy_oint (cs_total_supply m)); reflexivity.
Qed.

Lemma merge_quicknode_sound q s :
  derived_sound s -> derived_sound (merge_quicknode q s).
Proof.
  destruct (merge_quicknode_untouched q s) as (Hf & Ht & Hw & Hm & Ho).
  apply (gap_fill_sound s _ None None None false false false);
    assumption.
Qed.

Lemma merge_selenium_sound d s :
  derived_sound s -> derived_sound (merge_selenium d s).
Proof.
  destruct (merge_selenium_untouched d s) as (Hm & Ho).
  apply (gap_fill_sound s _ (se_floor_price d) (se_total_supply d)
           (se_total_owners d) (Py.truthy_ofloat (se_floor_price d))
           (Py.truthy_oint (se_total_supply d))
           (Py.truthy_oint (se_total_owners d)));
    try assumption.
  - rewrite merge_selenium_floor_price.
    destruct (Py.truthy_ofloat (cs_floor_price s)),
      (Py.truthy_ofloat (se_floor_price d)); reflexivity.
  - rewrite merge_selenium_total_supply.
    destruct (Py.truthy_oint (cs_total_supply s)),
      (Py.truthy_oint (se_total_supply d)); reflexivity.
  - rewrite merge_selenium_total_owners.
    destruct (Py.truthy_oint (cs_total_owners s)),
      (Py.truthy_oint (se_total_owners d)); reflexivity.
Qed.

Lemma normalized_ok {A} (record : A -> CollectionStats) (data : Payload A)
    (s : CollectionStats) :
  normalized record data = Ok s -> exists a, data = Typed a /\ s = record a.
Proof.
  destruct data as [a|e]; simpl; [|discriminate].
  intros [= <-]. eauto.
Qed.

Lemma alchemy_base_empty d a c s :
  alchemy_base d a c = Ok s -> derived_empty s.
Proof.
  unfold alchemy_base, normalize_alchemy_collection.
  destruct (normalized _ d) as [r|e] eqn:E; [|discriminate].
  apply normalized_ok in E as (ad & -> & ->). intros [= <-].
  unfold derived_empty.
  repeat match goal with
         | |- context [if ?b then _ else _] => destruct b
         end; split; reflexivity.
Qed.

(** A property of the record, when there is one. *)
Definition on_some (P : CollectionStats -> Prop)
    (o : option CollectionStats) : Prop :=
  forall s, o = Some s -> P s.

Lemma moralis_fill_sound w m c o :
  on_some derived_sound o -> on_some derived_sound (moralis_fill w m c o).
Proof.
  unfold moralis_fill, when_stats.
  destruct (normalize_moralis_collection m c) as [r|e]; [|auto].
  intros H s. destruct o as [x|]; simpl; [|discriminate].
  intros [= <-]. apply merge_moralis_sound, H. reflexivity.
Qed.

Lemma quicknode_fill_sound q c o :
  on_some derived_sound o -> on_some derived_sound (quicknode_fill q c o).
Proof.
  unfold quicknode_fill, when_stats.
  destruct (normalize_quicknode_collection q c) as [r|e]; [|auto].
  intros H s. destruct o as [x|]; simpl; [|discriminate].
  intros [= <-]. apply merge_quicknode_sound, H. reflexivity.
Qed.

Lemma merge_evm_sound results a c s :
  merge_evm results a c = Ok (Some s) -> derived_sound s.
Proof.
  unfold merge_evm.
  assert (Hfill : forall o,
             on_some derived_sound o ->
             match res_quicknode results with
             | Some qn_data =>
                 Ok (quicknode_fill qn_data c
                       match res_moralis results with
                       | Some moralis_data => moralis_fill true moralis_data c o
                       | None => o
                       end)
             | None =>
                 Ok match res_moralis results with
                    | Some moralis_data => moralis_fill true moralis_data c o
                    | None => o
                    end
             end = Ok (Some s) -> derived_sound s).
  { intros o Ho.
    assert (Hm : on_some derived_sound
                   match res_moralis results with
                   | Some moralis_data => moralis_fill true moralis_data c o
                   | None => o
                   end).
    { destruct (res_moralis results); [apply moralis_fill_sound|]; exact Ho. }
    destruct (res_quicknode results) as [qd|]; intros [= E].
    - exact (quicknode_fill_sound qd c _ Hm s E).
    - exact (Hm s E). }
  destruct (res_alchemy results) as [ad|].
  - destruct (alchemy_base ad a c) as [base|e] eqn:Hb; [|discriminate].
    apply alchemy_base_empty in Hb.
    destruct (res_reservoir results) as [rd|].
    + destruct (payload_truthy rv_truthy rd).
      * unfold normalize_reservoir_collection.
        destruct (normalized _ rd) as [r|e] eqn:Hr; [|discriminate].
        apply normalized_ok in Hr as (d & -> & ->).
        apply Hfill. intros x [= <-].
        apply merge_reservoir_sound. exact Hb.
      * apply Hfill. intros x [= <-]. apply derived_empty_sound. exact Hb.
    + apply Hfill. intros x [= <-]. apply derived_empty_sound. exact Hb.
  - destruct (res_reservoir results) as [rd|];
      apply Hfill; intros x Hx; discriminate Hx.
Qed.

Lemma merge_solana_empty results a c s :
  merge_solana results a c = Ok (Some s) -> derived_empty s.
Proof.
  unfold merge_solana.
  assert (Hkeep : forall m x, derived_empty x ->
                              derived_empty (merge_moralis false m x)).
  { intros m x [H1 H2].
    destruct (merge_moralis_untouched false m x) as (_ & _ & Hm & Ho).
    split; congruence. }
  assert (Hov : forall me x, derived_empty me -> derived_empty x ->
                             derived_empty (merge_magiceden me x)).
  { intros me x _ [H1 H2].
    destruct (merge_magiceden_untouched me x) as (_ & _ & _ & _ & _ & Hm & Ho).
    split; congruence. }
  assert (Hfill : forall o,
             on_some derived_empty o ->
             match res_moralis results with
             | Some moralis_data => Ok (moralis_fill false moralis_data c o)
             | None => Ok o
             end = Ok (Some s) -> derived_empty s).
  { intros o Ho. destruct (res_moralis results) as [md|]; intros [= E];
      [|exact (Ho s E)].
    revert E. unfold moralis_fill, when_stats.
    destruct (normalize_moralis_collection md c) as [r|e]; [|exact (Ho s)].
    destruct o as [x|]; simpl; [|discriminate].
    intros [= <-]. apply Hkeep, Ho. reflexivity. }
  assert (Hme : forall sd id me,
             normalize_magiceden_collection sd id a c = Ok me ->
             derived_empty me).
  { intros sd id me. unfold normalize_magiceden_collection.
    destruct sd as [sd|e]; [destruct id as [id|e]|]; try discriminate.
    intros [= <-]. split; reflexivity. }
  assert (Hh : forall hd x, normalize_helius_collection hd c = Ok x ->
                            derived_empty x).
  { intros hd x H. apply normalized_ok in H as (d & -> & ->).
    split; reflexivity. }
  destruct (res_helius results) as [hd|].
  - destruct (normalize_helius_collection hd c) as [h|e] eqn:Eh;
      [|discriminate].
    apply Hh in Eh.
    destruct (bool_decide _ || bool_decide _).
    + cbv zeta. destruct (payload_truthy _ _ || payload_truthy _ _).
      * destruct (normalize_magiceden_collection _ _ a c) as [me|e] eqn:Em;
          [|discriminate].
        apply Hme in Em. apply Hfill. intros x [= <-]. auto.
      * apply Hfill. intros x [= <-]. exact Eh.
    + apply Hfill. intros x [= <-]. exact Eh.
  - destruct (bool_decide _ || bool_decide _).
    + cbv zeta. destruct (payload_truthy _ _ || payload_truthy _ _).
      * destruct (normalize_magiceden_collection _ _ a c) as [me|e] eqn:Em;
          [|discriminate].
        apply Hme in Em. apply Hfill. intros x [= <-]. exact Em.
      * apply Hfill. intros x Hx. discriminate Hx.
    + apply Hfill. intros x Hx. discriminate Hx.
Qed.

(** C6 (as amended).  In the record [merge_results] builds, a [market_cap]
    that is set equals the record's [floor_price] times its [total_supply],
    and an [owners_percentage] that is set equals the record's
    [total_owners] divided by its [total_supply], times 100; both can only
    be set on an EVM chain, where they are the values the Reservoir
    normalizer computed. *)
Theorem derived_fields_from_reservoir_only (results : Results)
    (contract_address : string) (chain : Chain) (stats : CollectionStats) :
  merge_results results contract_address chain = Ok stats ->
  (forall mc, cs_market_cap stats = Some mc ->
     chain <> SOLANA /\
     exists fp ts, cs_floor_price stats = Some fp /\
                   cs_total_supply stats = Some ts /\
                   mc = (fp * Py.float_of_int ts)%float) /\
  (forall op, cs_owners_percentage stats = Some op ->
     chain <> SOLANA /\
     exists ow ts, cs_total_owners stats = Some ow /\
                   cs_total_supply stats = Some ts /\
                   op = ((Py.float_of_int ow / Py.float_of_int ts)
                         * Py.float_of_int 100)%float).
Proof.
  intros Hmerge.
  assert (Hsound : derived_sound stats /\ (chain = SOLANA -> derived_empty stats)).
  { revert Hmerge. unfold merge_results, when_stats.
    destruct (decide (chain = SOLANA)) as [Hc|Hc].
    - destruct (merge_solana results contract_address chain) as [[s|]|e] eqn:E;
        [| |discriminate].
      + apply merge_solana_empty in E.
        assert (He : forall d, derived_empty (merge_selenium d s)).
        { intros d. destruct E as [E1 E2].
          destruct (merge_selenium_untouched d s) as (Hm & Ho).
          split; congruence. }
        destruct (res_selenium results) as [d|];
          [destruct (se_truthy d)|]; simpl; intros [= <-];
          auto using derived_empty_sound.
      + destruct (res_selenium results) as [d|];
          [destruct (se_truthy d)|]; simpl; intros [= <-];
          (split; [apply derived_empty_sound|intros _]; split; reflexivity).
    - destruct (merge_evm results contract_address chain) as [[s|]|e] eqn:E;
        [| |discriminate].
      + apply merge_evm_sound in E.
        destruct (res_selenium results) as [d|];
          [destruct (se_truthy d)|]; simpl; intros [= <-];
          (split; [auto using merge_selenium_sound | intros; contradiction]).
      + destruct (res_selenium results) as [d|];
          [destruct (se_truthy d)|]; simpl; intros [= <-];
          (split; [apply derived_empty_sound; split; reflexivity
                  | intros; contradiction]). }
  destruct Hsound as [[S1 S2] Hsol]. split.
  - intros mc H. split.
    + intros Hc. destruct (Hsol Hc) as [E _]. congruence.
    + destruct (S1 mc H) as (f & t & Ef & Et & _ & _ & ->). eauto.
  - intros op H. split.
    + intros Hc. destruct (Hsol Hc) as [_ E]. congruence.
    + destruct (S2 op H) as (o & t & Eo & Et & _ & _ & ->). eauto.
Qed.

(** *** Concrete runs *)

Definition not_called {A} : Result A := Raised "not called".

Definition evm_scout : NFTScout :=
  {| alchemy := true; moralis := true; helius := None; quicknode := false;
     magiceden := true; reservoir := true; selenium_scraper := false;
     storage := Memory.new MemoryFacts.sample_config |}.

Definition solana_scout : NFTScout :=
  {| alchemy := true; moralis := false; helius := Some Helius.fresh;
     quicknode := false; magiceden := true; reservoir := true;
     selenium_scraper := false;
     storage := Memory.new MemoryFacts.sample_config |}.

Definition reservoir_body (price_amount : option float)
    (ownerCount tokenCount : option Z) : ReservoirData :=
  {| rv_truthy := true; rv_price_amount := price_amount;
     rv_currency_symbol := Some "ETH";
     rv_volume_1day := None; rv_volume_7day := None;
     rv_volume_30day := None; rv_volume_allTime := None;
     rv_sales_1day := None; rv_sales_7day := None; rv_sales_30day := None;
     rv_ownerCount := ownerCount; rv_name := Some "Apes";
     rv_description := None; rv_image := None; rv_website := None;
     rv_twitter := None; rv_discord := None;
     rv_tokenCount := tokenCount; rv_isSpam := Some false |}.

Definition alchemy_body : AlchemyMeta :=
  {| am_truthy := true; am_address := Some "0xa9e5";
     am_name := Some "Apes"; am_cm_name := None;
     am_os_collectionName := None; am_os_name := None;
     am_symbol := Some "APE"; am_cm_symbol := None;
     am_os_safelist := None |}.

Definition moralis_body (total_supply : option Z) : MoralisMeta :=
  {| mo_token_address := Some "0xa9e5"; mo_name := Some "Apes";
     mo_symbol := Some "APE"; mo_description := None; mo_image := None;
     mo_total_supply := total_supply |}.

Definition evm_env (rv : ReservoirData) (mo : MoralisMeta) : StatsEnv :=
  {| s_now := 0; s_helius := not_called; s_magiceden_stats := not_called;
     s_magiceden_info := not_called; s_moralis := Ok (Typed mo);
     s_alchemy := Ok (Typed alchemy_body); s_reservoir := Ok (Typed rv);
     s_quicknode := not_called; s_selenium := not_called;
     s_from_cached := Ok |}.

Definition me_stats_body : MeStats :=
  {| ms_truthy := true; ms_floorPrice := Some 1200000000%float;
     ms_volume24h := None; ms_volume7d := Some 3000000000%float;
     ms_volume30d := None; ms_volumeAll := None; ms_avgPrice24hr := None;
     ms_sales24h := Some 7; ms_sales7d := None; ms_sales30d := None;
     ms_supply := Some 480; ms_nested_supply := None |}.

Definition solana_env : StatsEnv :=
  {| s_now := 0;
     s_helius :=
       Ok (Typed (helius_metadata (Some "Okay Bears") None None 500));
     s_magiceden_stats := Ok (Typed me_stats_body);
     s_magiceden_info := Ok (Typed me_info_empty);
     s_moralis := not_called; s_alchemy := not_called;
     s_reservoir := not_called; s_quicknode := not_called;
     s_selenium := not_called;
     s_from_cached := Ok |}.

(** The record, when one is returned. *)
Definition record_of (r : Result CollectionStats) : option CollectionStats :=
  match r with Ok s => Some s | Raised _ => None end.

Definition stats_of (r : Result CollectionStats * NFTScout)
  : option CollectionStats :=
  record_of (fst r).

(** With nothing cached under the key, what is returned or raised is what
    the merge of the answers of the source calls returns or raises. *)
Lemma get_collection_stats_uncached sc a c sym url env :
  fst (Memory.get_cache (s_now env) (cache_key "collection_stats" a c)
         (storage sc)) = None ->
  fst (get_collection_stats sc a c sym url env)
  = merge_results (gather sc a c sym url env) a c.
Proof.
  unfold get_collection_stats. intros H.
  destruct (Memory.get_cache _ _ _) as [cached st]. simpl in H. subst cached.
  change (gather (with_storage sc st) a c sym url env)
    with (gather sc a c sym url env).
  destruct (merge_results _ a c); reflexivity.
Qed.

(** On an EVM chain every marketplace field of the Reservoir record that
    is not empty replaces the value of the base record. *)
Lemma reservoir_overlay_wins r a s :
  (Py.truthy_ofloat (cs_floor_price r) = true ->
   cs_floor_price (merge_reservoir r a s) = cs_floor_price r) /\
  (Py.truthy_ofloat (cs_total_volume r) = true ->
   cs_total_volume (merge_reservoir r a s) = cs_total_volume r) /\
  (Py.truthy_ofloat (cs_volume_24h r) = true ->
   cs_volume_24h (merge_reservoir r a s) = cs_volume_24h r) /\
  (Py.truthy_ofloat (cs_volume_7d r) = true ->
   cs_volume_7d (merge_reservoir r a s) = cs_volume_7d r) /\
  (Py.truthy_ofloat (cs_volume_30d r) = true ->
   cs_volume_30d (merge_reservoir r a s) = cs_volume_30d r) /\
  (Py.truthy_oint (cs_sales_24h r) = true ->
   cs_sales_24h (merge_reservoir r a s) = cs_sales_24h r) /\
  (Py.truthy_oint (cs_sales_7d r) = true ->
   cs_sales_7d (merge_reservoir r a s) = cs_sales_7d r) /\
  (Py.truthy_oint (cs_sales_30d r) = true ->
   cs_sales_30d (merge_reservoir r a s) = cs_sales_30d r) /\
  (Py.truthy_oint (cs_total_owners r) = true ->
   cs_total_owners (merge_reservoir r a s) = cs_total_owners r) /\
  (Py.truthy_oint (cs_total_supply r) = true ->
   cs_total_supply (merge_reservoir r a s) = cs_total_supply r).
Proof.
  rewrite merge_reservoir_floor_price, merge_reservoir_total_volume,
    merge_reservoir_volume_24h, merge_reservoir_volume_7d,
    merge_reservoir_volume_30d, merge_reservoir_sales_24h,
    merge_reservoir_sales_7d, merge_reservoir_sales_30d,
    merge_reservoir_total_owners, merge_reservoir_total_supply.
  repeat split; intros ->; reflexivity.
Qed.

(** On Solana the Magic Eden record replaces floor price, all-time and
    24-hour volume, owners and total supply when it has them. *)
Lemma magiceden_overlay_wins m s :
  (Py.truthy_ofloat (cs_floor_price m) = true ->
   cs_floor_price (merge_magiceden m s) = cs_floor_price m) /\
  (Py.truthy_ofloat (cs_total_volume m) = true ->
   cs_total_volume (merge_magiceden m s) = cs_total_volume m) /\
  (Py.truthy_ofloat (cs_volume_24h m) = true ->
   cs_volume_24h (merge_magiceden m s) = cs_volume_24h m) /\
  (Py.truthy_oint (cs_total_owners m) = true ->
   cs_total_owners (merge_magiceden m s) = cs_total_owners m) /\
  (Py.truthy_oint (cs_total_supply m) = true ->
   cs_total_supply (merge_magiceden m s) = cs_total_supply m).
Proof.
  rewrite merge_magiceden_floor_price, merge_magiceden_total_volume,
    merge_magiceden_volume_24h, merge_magiceden_total_owners,
    merge_magiceden_total_supply.
  repeat split; intros ->; reflexivity.
Qed.

(** The example of the specification, on the EVM path: base total supply
    500 and no floor price, overlay 480 and 1.2. *)
Example reconciliation_priority_evm :
  let base := set_total_supply (Some 500)
                (default_stats "0xa9e5" ETHEREUM (Some "Apes")) in
  let overlay := set_floor_price (Some 1.2%float)
                   (set_total_supply (Some 480)
                      (default_stats "0xa9e5" ETHEREUM None)) in
  cs_total_supply (merge_reservoir overlay "0xa9e5" base) = Some 480 /\
  cs_floor_price (merge_reservoir overlay "0xa9e5" base) = Some 1.2%float.
Proof. vm_compute. split; reflexivity. Qed.

(** C5.  On Solana, with a Helius base record (total supply 500) and a
    Magic Eden record that has total supply 480, floor price 1.2, 24-hour
    sales 7 and 7-day volume 3.0: the merged record takes total supply
    480 and floor price 1.2, but its 24-hour sales and its 7-day volume
    stay empty. *)
Theorem solana_overlay_drops_sales_and_volume_7d :
  let overlay :=
    record_of (normalize_magiceden_collection (Typed me_stats_body)
                 (Typed me_info_empty) "okay_bears" SOLANA) in
  let merged :=
    stats_of (get_collection_stats solana_scout "okay_bears" SOLANA
                (Some "okay_bears") None solana_env) in
  (cs_sales_24h <$> overlay) = Some (Some 7) /\
  (cs_volume_7d <$> overlay) = Some (Some 3%float) /\
  (cs_total_supply <$> merged) = Some (Some 480) /\
  (cs_floor_price <$> merged) = Some (Some 1.2%float) /\
  (cs_sales_24h <$> merged) = Some None /\
  (cs_volume_7d <$> merged) = Some None.
Proof. vm_compute. repeat split; reflexivity. Qed.

(** C6, counterexample.  Reservoir knows floor price 2.0 and 400 owners
    but no token count; Moralis fills total supply 1000.  The record
    returned has all three inputs and neither derived field. *)
Lemma derived_fields_empty_after_gap_fill :
  let merged :=
    stats_of (get_collection_stats evm_scout "0xa9e5" ETHEREUM None None
                (evm_env (reservoir_body (Some 2e18%float) (Some 400) None)
                   (moralis_body (Some 1000)))) in
  (cs_floor_price <$> merged) = Some (Some 2%float) /\
  (cs_total_supply <$> merged) = Some (Some 1000) /\
  (cs_total_owners <$> merged) = Some (Some 400) /\
  (cs_market_cap <$> merged) = Some None /\
  (cs_owners_percentage <$> merged) = Some None /\
  (cs_market_cap <$> merged) <> Some (Some 2000%float) /\
  (cs_owners_percentage <$> merged) <> Some (Some 40%float).
Proof. vm_compute. repeat split; try reflexivity; discriminate. Qed.

(** The same collection when Reservoir also knows the token count. *)
Example derived_fields_from_reservoir :
  let merged :=
    stats_of (get_collection_stats evm_scout "0xa9e5" ETHEREUM None None
                (evm_env
                   (reservoir_body (Some 2e18%float) (Some 400) (Some 1000))
                   (moralis_body None))) in
  (cs_market_cap <$> merged) = Some (Some 2000%float) /\
  (cs_owners_percentage <$> merged) = Some (Some 40%float).
Proof. vm_compute. split; reflexivity. Qed.

Lemma derived_fields_from_reservoir_only_witness :
  let results :=
    gather evm_scout "0xa9e5" ETHEREUM None None
      (evm_env (reservoir_body (Some 2e18%float) (Some 400) (Some 1000))
         (moralis_body None)) in
  exists stats,
    merge_results results "0xa9e5" ETHEREUM = Ok stats /\
    cs_market_cap stats = Some 2000%float /\
    (exists fp ts, cs_floor_price stats = Some fp /\
                   cs_total_supply stats = Some ts /\
                   2000%float = (fp * Py.float_of_int ts)%float).
Proof.
  intros results.
  destruct (merge_results results "0xa9e5" ETHEREUM) as [stats|e] eqn:E;
    [|vm_compute in E; discriminate E].
  exists stats. split; [reflexivity|].
  assert (H : cs_market_cap stats = Some 2000%float).
  { vm_compute in E. injection E as <-. reflexivity. }
  split; [exact H|].
  destruct (derived_fields_from_reservoir_only results "0xa9e5" ETHEREUM
              stats E) as [Hm _].
  destruct (Hm _ H) as [_ Hex]. exact Hex.
Defined.

End StatsFacts.

(** ** Which failures leave [NFTScout] *)

Module ScoutFacts.
Import Models Clients Normalizer Scout.

Section Collection.
Context {Item : Type}.
Variable normalize_nft_from_source :
  Item -> string -> Chain -> Result NormalizedNFT.
Variable enrich : Item -> Item.

Local Abbreviation get_nfts := (get_collection_nfts normalize_nft_from_source enrich).
Local Abbreviation normalize := (normalize_page normalize_nft_from_source).








End Collection.

(** *** Statistics: a source whose call raised *)

Inductive Source : Type :=
| SrcHelius | SrcMagicEdenStats | SrcMagicEdenInfo | SrcMoralis
| SrcAlchemy | SrcReservoir | SrcQuickNode | SrcSelenium.


(** The entry of one source is not in [results]. *)
Definition without (src : Source) (r : Results) : Results :=
  {| res_helius := if src is SrcHelius then None else res_helius r;
     res_magiceden_stats :=
       if src is SrcMagicEdenStats then None else res_magiceden_stats r;
     res_magiceden_info :=
       if src is SrcMagicEdenInfo then None else res_magiceden_info r;
     res_moralis := if src is SrcMoralis then None else res_moralis r;
     res_alchemy := if src is SrcAlchemy then None else res_alchemy r;
     res_reservoir := if src is SrcReservoir then None else res_reservoir r;
     res_quicknode := if src is SrcQuickNode then None else res_quicknode r;
     res_selenium := if src is SrcSelenium then None else res_selenium r |}.

Lemma run_task_raised {A} created e : run_task (A:=A) created (Raised e) = None.
Proof. destruct created; reflexivity. Qed.


Definition no_results : Results :=
  {| res_helius := None; res_magiceden_stats := None;
     res_magiceden_info := None; res_moralis := None; res_alchemy := None;
     res_reservoir := None; res_quicknode := None; res_selenium := None |}.

Definition all_raise (e : string) : StatsEnv :=
  {| s_now := 0; s_helius := Raised e; s_magiceden_stats := Raised e;
     s_magiceden_info := Raised e; s_moralis := Raised e;
     s_alchemy := Raised e; s_reservoir := Raised e;
     s_quicknode := Raised e; s_selenium := Raised e;
     s_from_cached := Ok |}.

Lemma gather_all_raise sc a c sym url e :
  gather sc a c sym url (all_raise e) = no_results.
Proof.
  unfold gather, all_raise, no_results. simpl.
  rewrite !run_task_raised. reflexivity.
Qed.

Lemma moralis_fill_none w m c : moralis_fill w m c None = None.
Proof.
  unfold moralis_fill. destruct (normalize_moralis_collection m c);
    reflexivity.
Qed.

Lemma quicknode_fill_none q c : quicknode_fill q c None = None.
Proof.
  unfold quicknode_fill. destruct (normalize_quicknode_collection q c);
    reflexivity.
Qed.














End ScoutFacts.

(** ** The walks *)

Module WalkFacts.
Import Models WebServer.

Definition flow_state {A} (f : Flow A) : A :=
  match f with Next a => a | Stop a => a end.

Lemma or_ostr_None_truthy o :
  Py.truthy_ostr (Py.or_ostr o None) = Py.truthy_ostr o.
Proof. unfold Py.or_ostr. destruct (Py.truthy_ostr o) eqn:E; auto. Qed.

Lemma or_ostr_None_eq o :
  Py.truthy_ostr o = true -> Py.or_ostr o None = o.
Proof. unfold Py.or_ostr. intros ->. reflexivity. Qed.

Lemma count_page_size_pos chain : 100 <= count_page_size chain.
Proof. unfold count_page_size. destruct (decide _); lia. Qed.

Lemma max_count_pages_ge chain : 100 <= max_count_pages chain.
Proof. unfold max_count_pages. destruct (decide _); lia. Qed.

(** *** One page of the counting loop *)

(** Whatever the page, it is counted: one more page, its items added. *)
Lemma count_page_counts chain st r :
  page_count (flow_state (count_page chain st r)) = page_count st + 1 /\
  total_counted (flow_state (count_page chain st r))
  = total_counted st + Z.of_nat (length (r_nfts r)).
Proof.
  unfold count_page.
  repeat match goal with
         | |- context [if ?b then _ else _] => destruct b
         | |- context [match ?o with Some _ => _ | None => _ end] => destruct o
         end; simpl; split; reflexivity.
Qed.

(** A full page without a cursor: on to the next page, with the cursor
    made from the last NFT when one can be made. *)
Lemma count_page_full chain st r :
  Z.of_nat (length (r_nfts r)) = count_page_size chain ->
  Py.truthy_ostr (r_cursor r) = false ->
  page_count st + 1 < max_count_pages chain - 1 ->
  count_page chain st r
  = Next {| total_counted := total_counted st + count_page_size chain;
            current_cursor :=
              match last (r_nfts r) ≫= synthetic_cursor with
              | Some token_id => Some token_id
              | None => current_cursor st
              end;
            page_count := page_count st + 1;
            consecutive_empty_pages := 0 |}.
Proof.
  intros Hlen Hcur Hpages. unfold count_page.
  pose proof (count_page_size_pos chain) as Hps.
  rewrite Hlen, or_ostr_None_truthy, Hcur.
  replace (count_page_size chain =? 0) with false by (symmetry; lia).
  rewrite Z.eqb_refl. cbn [andb].
  destruct (last (r_nfts r)) as [nft|] eqn:El.
  - cbn [mbind option_bind]. unfold with_cursor. cbn.
    destruct (synthetic_cursor nft); [reflexivity|].
    replace (_ <? _) with true by (symmetry; lia). reflexivity.
  - apply last_None in El. rewrite El in Hlen. simpl in Hlen. lia.
Qed.

(** A page that is neither empty nor full, without a cursor: the end. *)
Lemma count_page_short chain st r :
  0 < Z.of_nat (length (r_nfts r)) < count_page_size chain ->
  Py.truthy_ostr (r_cursor r) = false ->
  count_page chain st r
  = Stop {| total_counted := total_counted st + Z.of_nat (length (r_nfts r));
            current_cursor := current_cursor st;
            page_count := page_count st + 1;
            consecutive_empty_pages := 0 |}.
Proof.
  intros Hlen Hcur. unfold count_page.
  rewrite or_ostr_None_truthy, Hcur.
  replace (_ =? 0) with false by (symmetry; lia).
  replace (_ =? count_page_size chain) with false by (symmetry; lia).
  replace (_ <? count_page_size chain) with true by (symmetry; lia).
  reflexivity.
Qed.

(** An empty page that comes with a cursor, after a page that was not
    empty: on to the next page, with that cursor. *)
Lemma count_page_empty_with_cursor chain st r :
  r_nfts r = [] ->
  consecutive_empty_pages st = 0 ->
  Py.truthy_ostr (r_cursor r) = true ->
  count_page chain st r
  = Next {| total_counted := total_counted st + 0;
            current_cursor := r_cursor r;
            page_count := page_count st + 1;
            consecutive_empty_pages := 1 |}.
Proof.
  intros Hn Hc Hcur. unfold count_page.
  rewrite Hn, Hc, or_ostr_None_truthy, Hcur, (or_ostr_None_eq _ Hcur).
  reflexivity.
Qed.

(** An empty page right after an empty page: the loop is left, cursor or
    no cursor. *)
Lemma count_page_second_empty chain st r :
  r_nfts r = [] ->
  1 <= consecutive_empty_pages st ->
  count_page chain st r
  = Stop {| total_counted := total_counted st + 0;
            current_cursor := current_cursor st;
            page_count := page_count st + 1;
            consecutive_empty_pages := consecutive_empty_pages st + 1 |}.
Proof.
  intros Hn Hc. unfold count_page. rewrite Hn.
  change (Z.of_nat (length [])) with 0. rewrite Z.eqb_refl. cbn [andb].
  replace (2 <=? _) with true by (symmetry; lia). reflexivity.
Qed.

(** An empty page without a cursor: the loop is left at once. *)
Lemma count_page_empty_no_cursor chain st r :
  r_nfts r = [] ->
  Py.truthy_ostr (r_cursor r) = false ->
  exists st', count_page chain st r = Stop st'.
Proof.
  intros Hn Hcur. unfold count_page.
  pose proof (count_page_size_pos chain) as Hps.
  rewrite Hn, or_ostr_None_truthy, Hcur.
  change (Z.of_nat (length [])) with 0. rewrite Z.eqb_refl. cbn [andb].
  destruct (2 <=? _); [eauto|].
  replace (0 =? count_page_size chain) with false by (symmetry; lia).
  replace (0 <? count_page_size chain) with true by (symmetry; lia).
  eauto.
Qed.

(** *** Messages *)

(** The NFTs sent to the client, in the order sent. *)
Fixpoint emitted (msgs : list Message) : list NormalizedNFT :=
  match msgs with
  | [] => []
  | NftMsg nft _ _ :: rest => nft :: emitted rest
  | Msg _ :: rest => emitted rest
  end.

Lemma emitted_app l1 l2 : emitted (l1 ++ l2) = emitted l1 ++ emitted l2.
Proof.
  induction l1 as [|[nft n src|f] l1 IH]; simpl; [reflexivity| |exact IH].
  rewrite IH. reflexivity.
Qed.

(** A message that is not an NFT and has no [confidence] key. *)
Definition plain (m : Message) : Prop :=
  match m with
  | NftMsg _ _ _ => False
  | Msg fields => field "confidence" fields = None
  end.

(** A message that has no [confidence] key, is neither an error nor a
    warning, and reports [has_more = True] when it is a progress
    report. *)
Definition calm (m : Message) : Prop :=
  match m with
  | NftMsg _ _ _ => True
  | Msg fields =>
      field "confidence" fields = None /\
      field "type" fields <> Some (VStr "error") /\
      field "type" fields <> Some (VStr "warning") /\
      (field "type" fields = Some (VStr "progress") ->
       field "has_more" fields = Some (VBool true))
  end.

Definition no_confidence (m : Message) : Prop :=
  match m with
  | NftMsg _ _ _ => True
  | Msg fields => field "confidence" fields = None
  end.

Lemma plain_emitted msgs : Forall plain msgs -> emitted msgs = [].
Proof.
  induction 1 as [|[nft n src|f] l H _ IH]; simpl; [reflexivity| |exact IH].
  destruct H.
Qed.

Lemma plain_no_confidence msgs : Forall plain msgs -> Forall no_confidence msgs.
Proof.
  intros H. eapply Forall_impl; [exact H|].
  intros [nft n src|f]; simpl; auto.
Qed.

(** *** The loop over the NFTs of a page *)

Lemma send_nfts_spec (a api : string) (chain : Chain)
    (nfts : list NormalizedNFT) (seen : gset (string * string)) (total : Z) :
  let '(msgs, seen', total') := send_nfts a api chain nfts seen total in
  NoDup (nft_id <$> emitted msgs) /\
  (forall id, id ∈ (nft_id <$> emitted msgs) -> id ∉ seen) /\
  (forall id, id ∈ seen' <-> id ∈ seen \/ id ∈ (nft_id <$> emitted msgs)) /\
  total' = total + Z.of_nat (length (emitted msgs)) /\
  (forall nft, nft ∈ nfts -> nft_id nft ∈ seen') /\
  (forall nft, nft ∈ emitted msgs -> nft ∈ nfts) /\
  Forall no_confidence msgs /\ Forall calm msgs.
Proof.
  revert seen total. induction nfts as [|nft rest IH]; intros seen total.
  - simpl. repeat split; try constructor; try set_solver. lia.
  - simpl. destruct (decide (nft_id nft ∈ seen)) as [Hin|Hnin].
    + specialize (IH seen total).
      destruct (send_nfts a api chain rest seen total) as [[msgs seen'] total'].
      destruct IH as (H1 & H2 & H3 & H4 & H5 & H6 & H7 & H8).
      repeat split; auto.
      * apply H3.
      * apply H3.
      * intros x Hx. apply elem_of_cons in Hx as [->|Hx]; [|auto].
        apply H3. left. exact Hin.
      * intros x Hx. apply elem_of_cons. right. auto.
    + specialize (IH (seen ∪ {[nft_id nft]}) (total + 1)).
      destruct (send_nfts a api chain rest (seen ∪ {[nft_id nft]}) (total + 1))
        as [[msgs seen'] total'].
      destruct IH as (H1 & H2 & H3 & H4 & H5 & H6 & H7 & H8).
      assert (Hfirst : forall l : list Message,
                 Forall plain l -> emitted (l ++ msgs) = emitted msgs).
      { intros l Hl. rewrite emitted_app, (plain_emitted l Hl). reflexivity. }
      assert (Hem : emitted
                      ((if total + 1 =? 1
                        then [ Msg [ ("type", VStr "collection_info");
                                     ("collection_name",
                                      VStr (default a
                                              (Py.or_ostr (collection_name nft)
                                                 (Some a))));
                                     ("chain", VStr (value chain)) ] ]
                        else []) ++ msgs) = emitted msgs).
      { apply Hfirst. destruct (total + 1 =? 1); repeat constructor. }
      cbn [emitted]. rewrite Hem. cbn [fmap list_fmap length].
      repeat split.
      * constructor; [|exact H1].
        intros Hdup. apply H2 in Hdup. set_solver.
      * intros id Hid. apply elem_of_cons in Hid as [->|Hid]; [exact Hnin|].
        apply H2 in Hid. set_solver.
      * intros Hid. apply H3 in Hid as [Hid|Hid]; [|set_solver].
        apply elem_of_union in Hid as [Hid|Hid]; [left; exact Hid|].
        right. set_solver.
      * intros [Hid|Hid]; apply H3; [set_solver|].
        apply elem_of_cons in Hid as [->|Hid]; [set_solver|right; exact Hid].
      * lia.
      * intros x Hx. apply elem_of_cons in Hx as [->|Hx]; [|auto].
        apply H3. set_solver.
      * intros x Hx. apply elem_of_cons in Hx as [->|Hx]; [set_solver|].
        apply elem_of_cons. right. auto.
      * constructor; [exact I|]. apply Forall_app. split; [|exact H7].
        destruct (total + 1 =? 1); repeat constructor.
      * constructor; [exact I|]. apply Forall_app. split; [|exact H8].
        destruct (total + 1 =? 1); repeat constructor; simpl; congruence.
Qed.

(** A page all of whose NFTs were seen before sends nothing and counts
    nothing. *)
Lemma send_nfts_all_seen (a api : string) (chain : Chain)
    (nfts : list NormalizedNFT) (seen : gset (string * string)) (total : Z) :
  (forall nft, nft ∈ nfts -> nft_id nft ∈ seen) ->
  send_nfts a api chain nfts seen total = ([], seen, total).
Proof.
  induction nfts as [|nft rest IH]; intros Hall; simpl; [reflexivity|].
  destruct (decide (nft_id nft ∈ seen)) as [Hin|Hnin].
  - apply IH. intros x Hx. apply Hall. apply elem_of_cons. right. exact Hx.
  - exfalso. apply Hnin. apply Hall. apply elem_of_cons. left. reflexivity.
Qed.

(** *** The deduplicated item set *)

(** A list of NFTs without its repetitions: of the NFTs that have the same
    (token_id, contract_address) pair the first one stays. *)
Fixpoint deduplicated (nfts : list NormalizedNFT) : list NormalizedNFT :=
  match nfts with
  | [] => []
  | nft :: rest =>
      nft :: filter (fun x => nft_id x <> nft_id nft) (deduplicated rest)
  end.

Lemma filter_all {A : Type} (P : A -> Prop) `{!forall x, Decision (P x)}
    (l : list A) :
  (forall x, P x) -> filter P l = l.
Proof.
  intros HP. induction l as [|x l IH]; [reflexivity|].
  rewrite filter_cons_True by apply HP. rewrite IH. reflexivity.
Qed.

Lemma deduplicated_subset nfts nft :
  nft ∈ deduplicated nfts -> nft ∈ nfts.
Proof.
  induction nfts as [|x l IH]; simpl; [auto|].
  intros H. apply elem_of_cons in H as [->|H]; [left|].
  apply list_elem_of_filter in H as [_ H]. right. auto.
Qed.

(** Every pair of the list is the pair of an NFT that stays. *)
Lemma deduplicated_ids nfts id :
  id ∈ nft_id <$> deduplicated nfts <-> id ∈ nft_id <$> nfts.
Proof.
  induction nfts as [|x l IH]; [reflexivity|].
  cbn [deduplicated fmap list_fmap]. rewrite !elem_of_cons, <- IH.
  split.
  - intros [->|H]; [left; reflexivity|]. right.
    apply list_elem_of_fmap in H as (y & -> & Hy).
    apply list_elem_of_filter in Hy as [_ Hy].
    apply list_elem_of_fmap. exists y. auto.
  - intros [->|H]; [left; reflexivity|].
    destruct (decide (id = nft_id x)) as [->|Hne]; [left; reflexivity|].
    right. apply list_elem_of_fmap in H as (y & -> & Hy).
    apply list_elem_of_fmap. exists y. split; [reflexivity|].
    apply list_elem_of_filter. auto.
Qed.

Lemma deduplicated_app (l1 l2 : list NormalizedNFT) :
  deduplicated (l1 ++ l2)
  = deduplicated l1
    ++ filter (fun x => nft_id x ∉ nft_id <$> l1) (deduplicated l2).
Proof.
  induction l1 as [|x l1 IH].
  - simpl. rewrite filter_all; [reflexivity|].
    intros y Hy. inversion Hy.
  - cbn [app deduplicated fmap list_fmap]. rewrite IH, filter_app.
    f_equal. f_equal. rewrite list_filter_filter.
    apply list_filter_iff. intros y. rewrite not_elem_of_cons. tauto.
Qed.

(** The NFTs a page sends are the deduplicated page without the NFTs whose
    pair was seen before; each of them counts once. *)
Lemma send_nfts_emitted (a api : string) (chain : Chain)
    (nfts : list NormalizedNFT) (seen : gset (string * string)) (total : Z) :
  let '(msgs, seen', total') := send_nfts a api chain nfts seen total in
  emitted msgs = filter (fun x => nft_id x ∉ seen) (deduplicated nfts) /\
  total' = total + Z.of_nat (length (emitted msgs)) /\
  (forall id, id ∈ seen' <-> id ∈ seen \/ id ∈ nft_id <$> nfts).
Proof.
  revert seen total. induction nfts as [|nft rest IH]; intros seen total.
  - simpl. split; [reflexivity|]. split; [lia|]. intros id. set_solver.
  - cbn [send_nfts deduplicated].
    destruct (decide (nft_id nft ∈ seen)) as [Hin|Hnin].
    + specialize (IH seen total).
      destruct (send_nfts a api chain rest seen total)
        as [[msgs seen'] total'].
      destruct IH as (H1 & H2 & H3).
      split; [|split; [exact H2|]].
      * rewrite filter_cons_False by (intros H; exact (H Hin)).
        rewrite list_filter_filter, H1. apply list_filter_iff.
        intros y. split; [|tauto]. intros Hy. split; [exact Hy|].
        intros E. apply Hy. rewrite E. exact Hin.
      * intros id. rewrite H3. cbn [fmap list_fmap]. rewrite elem_of_cons.
        split; [tauto|]. intros [H|[->|H]]; auto.
    + specialize (IH (seen ∪ {[nft_id nft]}) (total + 1)).
      destruct (send_nfts a api chain rest (seen ∪ {[nft_id nft]})
                  (total + 1)) as [[msgs seen'] total'].
      destruct IH as (H1 & H2 & H3).
      assert (Hem : emitted
                      ((if total + 1 =? 1
                        then [ Msg [ ("type", VStr "collection_info");
                                     ("collection_name",
                                      VStr (default a
                                              (Py.or_ostr (collection_name nft)
                                                 (Some a))));
                                     ("chain", VStr (value chain)) ] ]
                        else []) ++ msgs) = emitted msgs).
      { destruct (total + 1 =? 1); reflexivity. }
      cbn [emitted]. rewrite Hem. cbn [length].
      split; [|split; [lia|]].
      * rewrite filter_cons_True by exact Hnin. f_equal.
        rewrite list_filter_filter, H1. apply list_filter_iff.
        intros y. rewrite not_elem_of_union, not_elem_of_singleton. tauto.
      * intros id. rewrite H3. cbn [fmap list_fmap].
        rewrite elem_of_cons, elem_of_union, elem_of_singleton. tauto.
Qed.

(** *** Going on to the next page *)

Lemma paginate_shape api st r :
  let '(fl, more) := paginate api st r in
  seen_nfts (flow_state fl) = seen_nfts st /\
  total_scraped (flow_state fl) = total_scraped st /\
  sc_chain (flow_state fl) = sc_chain st /\
  (forall st', fl = Next st' -> sc_page_count st' = sc_page_count st + 1) /\
  Forall plain more /\
  (forall st', fl = Next st' -> more = []).
Proof.
  unfold paginate.
  repeat match goal with
         | |- context [if ?b then _ else _] => destruct b
         end;
    cbn; repeat split; try reflexivity; try discriminate;
    try (intros st' [= <-]; reflexivity);
    repeat constructor.
Qed.

Section Walks.
Context {S : Type}.
Variable fetch :
  S -> string -> Chain -> option string -> Z ->
  Result CollectionNFTResponse * S.
Variable scout_alchemy : S -> bool.
Variable helius_totals : S -> option (option Z * option Z).

(** *** The counting loop *)

Lemma count_loop_unfold fuel a chain st s reqs :
  count_loop fetch (Datatypes.S fuel) a chain st s reqs
  = if page_count st <? max_count_pages chain then
      match fetch s a chain (current_cursor st) (count_page_size chain) with
      | (Raised _, s') =>
          Some {| cr_state := st; cr_scout := s';
                  cr_requests := reqs ++ [current_cursor st] |}
      | (Ok r, s') =>
          match count_page chain st r with
          | Next st' =>
              count_loop fetch fuel a chain st' s'
                (reqs ++ [current_cursor st])
          | Stop st' =>
              Some {| cr_state := st'; cr_scout := s';
                      cr_requests := reqs ++ [current_cursor st] |}
          end
      end
    else Some {| cr_state := st; cr_scout := s; cr_requests := reqs |}.
Proof. reflexivity. Qed.

(** The loop returns, and makes at most as many requests as there are
    pages left below [max_count_pages]. *)
Lemma count_loop_returns fuel a chain st s reqs :
  max_count_pages chain - page_count st <= Z.of_nat fuel ->
  exists run,
    count_loop fetch fuel a chain st s reqs = Some run /\
    Z.of_nat (length (cr_requests run))
    <= Z.of_nat (length reqs) + Z.max 0 (max_count_pages chain - page_count st).
Proof.
  revert st s reqs. induction fuel as [|fuel IH]; intros st s reqs Hfuel.
  - simpl. replace (_ <? _) with false by (symmetry; lia).
    eexists. split; [reflexivity|]. simpl. lia.
  - rewrite count_loop_unfold.
    destruct (page_count st <? max_count_pages chain) eqn:Hlt.
    + apply Z.ltb_lt in Hlt.
      destruct (fetch s a chain _ _) as [[r|e] s'].
      * pose proof (count_page_counts chain st r) as [Hpc _].
        destruct (count_page chain st r) as [st'|st']; simpl in Hpc.
        -- destruct (IH st' s' (reqs ++ [current_cursor st])) as (run & E & B);
             [lia|].
           exists run. split; [exact E|].
           rewrite length_app in B. simpl in B. lia.
        -- eexists. split; [reflexivity|]. simpl.
           rewrite length_app. simpl. lia.
      * eexists. split; [reflexivity|]. simpl.
        rewrite length_app. simpl. lia.
    + eexists. split; [reflexivity|]. simpl. lia.
Qed.

(** The requests made before stay in front of the requests of the run. *)
Lemma count_loop_requests fuel a chain st s reqs run :
  count_loop fetch fuel a chain st s reqs = Some run ->
  exists rest, cr_requests run = reqs ++ rest.
Proof.
  revert st s reqs. induction fuel as [|fuel IH]; intros st s reqs.
  - simpl. destruct (_ <? _); [discriminate|]. intros [= <-].
    exists []. simpl. rewrite app_nil_r. reflexivity.
  - rewrite count_loop_unfold.
    destruct (page_count st <? max_count_pages chain).
    + destruct (fetch s a chain _ _) as [[r|e] s'].
      * destruct (count_page chain st r) as [st'|st'].
        -- intros E. apply IH in E as [rest E].
           exists (current_cursor st :: rest). rewrite E, <- app_assoc.
           reflexivity.
        -- intros [= <-]. exists [current_cursor st]. reflexivity.
      * intros [= <-]. exists [current_cursor st]. reflexivity.
    + intros [= <-]. exists []. simpl. rewrite app_nil_r. reflexivity.
Qed.

Lemma count_walk_returns a chain s :
  exists run,
    count_walk fetch a chain s = Some run /\
    Z.of_nat (length (cr_requests run)) <= max_count_pages chain.
Proof.
  unfold count_walk.
  pose proof (max_count_pages_ge chain).
  destruct (count_loop_returns (Z.to_nat (max_count_pages chain)) a chain
              count_start s []) as (run & E & B).
  - simpl. lia.
  - exists run. split; [exact E|]. simpl in B. lia.
Qed.

(** *** One pass of the scraping loop *)

Lemma try_chains_any a chains s : exists r s', try_chains fetch a chains s = (r, s').
Proof. destruct (try_chains fetch a chains s); eauto. Qed.

Lemma empty_page_shape a api st s :
  let '(fl, msgs, s') := empty_page fetch a api st s in
  seen_nfts (flow_state fl) = seen_nfts st /\
  total_scraped (flow_state fl) = total_scraped st /\
  sc_page_count (flow_state fl) = sc_page_count st /\
  Forall plain msgs /\
  (sc_page_count st <> 0 -> fl = Stop st /\ msgs = []).
Proof.
  unfold empty_page.
  destruct (sc_page_count st =? 0) eqn:E.
  - apply Z.eqb_eq in E.
    destruct (_ && _ && _).
    + repeat split; try reflexivity; try (repeat constructor); congruence.
    + destruct (_ && _).
      * destruct (try_chains fetch a _ s) as [[alt|] s'];
          repeat split; try reflexivity; try (repeat constructor); congruence.
      * destruct (bool_decide _);
          repeat split; try reflexivity; try (repeat constructor); congruence.
  - repeat split; try reflexivity; constructor.
Qed.

Lemma scrape_page_shape a api st s :
  let '(fl, msgs, s') := scrape_page fetch helius_totals a api st s in
  NoDup (nft_id <$> emitted msgs) /\
  (forall id, id ∈ (nft_id <$> emitted msgs) -> id ∉ seen_nfts st) /\
  (forall id, id ∈ seen_nfts (flow_state fl)
              <-> id ∈ seen_nfts st \/ id ∈ (nft_id <$> emitted msgs)) /\
  total_scraped (flow_state fl)
  = total_scraped st + Z.of_nat (length (emitted msgs)) /\
  Forall no_confidence msgs /\
  (forall st', fl = Next st' -> sc_page_count st' = sc_page_count st + 1).
Proof.
  unfold scrape_page.
  destruct (fetch s a (sc_chain st) (cursor st) _) as [[r|e] s'].
  2:{ unfold error_msg.
      cbn [emitted fmap list_fmap length Z.of_nat flow_state].
      split; [constructor|].
      split; [intros id Hid; inversion Hid|].
      split; [intros id; set_solver|].
      split; [lia|].
      split; [repeat constructor | discriminate]. }
  set (total := infer_total helius_totals (sc_chain st) (collection_total st)
                  r s').
  set (found := match collection_total st, total with
                | None, Some t => _
                | _, _ => _
                end).
  assert (Hfound : Forall plain found).
  { subst found. destruct (collection_total st), total as [t|];
      try constructor. destruct (Py.truthy_int t); repeat constructor. }
  set (st1 := {| cursor := cursor st; total_scraped := total_scraped st;
                 seen_nfts := seen_nfts st; collection_total := total;
                 sc_page_count := sc_page_count st;
                 sc_chain := sc_chain st |}).
  assert (Hentered :
            forall (st2 : ScrapeState) (msgs0 : list Message) (s2 : S),
              seen_nfts st2 = seen_nfts st ->
              total_scraped st2 = total_scraped st ->
              sc_page_count st2 = sc_page_count st ->
              Forall plain msgs0 ->
              let '(fl, msgs, s') :=
                let '(sent, seen, total_scraped) :=
                  send_nfts a api (sc_chain st2) (r_nfts r) (seen_nfts st2)
                    (total_scraped st2) in
                let st :=
                  {| cursor := cursor st2; total_scraped := total_scraped;
                     seen_nfts := seen;
                     collection_total := collection_total st2;
                     sc_page_count := sc_page_count st2;
                     sc_chain := sc_chain st2 |} in
                let progress := progress_msg st (r_has_more r) in
                let '(flow, more) := paginate api st r in
                (flow, found ++ msgs0 ++ sent ++ [progress] ++ more, s2) in
              NoDup (nft_id <$> emitted msgs) /\
              (forall id, id ∈ (nft_id <$> emitted msgs) -> id ∉ seen_nfts st) /\
              (forall id, id ∈ seen_nfts (flow_state fl)
                          <-> id ∈ seen_nfts st
                              \/ id ∈ (nft_id <$> emitted msgs)) /\
              total_scraped (flow_state fl)
              = total_scraped st + Z.of_nat (length (emitted msgs)) /\
              Forall no_confidence msgs /\
              (forall st', fl = Next st' ->
                           sc_page_count st' = sc_page_count st + 1)).
  { intros st2 msgs0 s2 Hseen Htot Hpc Hplain.
    pose proof (send_nfts_spec a api (sc_chain st2) (r_nfts r) (seen_nfts st2)
                  (total_scraped st2)) as Hsend.
    destruct (send_nfts a api (sc_chain st2) (r_nfts r) (seen_nfts st2)
                (total_scraped st2)) as [[sent seen] tot].
    destruct Hsend as (H1 & H2 & H3 & H4 & _ & _ & H7 & _).
    cbv zeta.
    match goal with
    | |- context [paginate api ?x r] =>
        pose proof (paginate_shape api x r) as Hpag;
        destruct (paginate api x r) as [flow more]
    end.
    cbn [seen_nfts total_scraped sc_page_count sc_chain] in Hpag.
    destruct Hpag as (P1 & P2 & _ & P4 & P5 & _).
    assert (Hem : emitted (found ++ msgs0 ++ sent ++ [progress_msg
                     {| cursor := cursor st2; total_scraped := tot;
                        seen_nfts := seen;
                        collection_total := collection_total st2;
                        sc_page_count := sc_page_count st2;
                        sc_chain := sc_chain st2 |} (r_has_more r)] ++ more)
                  = emitted sent).
    { rewrite !emitted_app, (plain_emitted _ Hfound),
        (plain_emitted _ Hplain), (plain_emitted _ P5).
      cbn. rewrite app_nil_r. reflexivity. }
    cbv zeta. rewrite Hem. rewrite Hseen, Htot in *.
    repeat split.
    - exact H1.
    - exact H2.
    - rewrite P1. apply H3.
    - rewrite P1. apply H3.
    - rewrite P2. exact H4.
    - repeat (apply Forall_app; split);
        auto using plain_no_confidence.
      repeat constructor.
    - intros st' E. rewrite (P4 st' E), Hpc. reflexivity. }
  destruct (r_nfts r) as [|x l] eqn:Enfts.
  - pose proof (empty_page_shape a api st1 s') as Hempty.
    destruct (empty_page fetch a api st1 s') as [[fl0 msgs0] s2].
    destruct Hempty as (E1 & E2 & E3 & E4 & _).
    destruct fl0 as [st2|st2]; cbn [flow_state] in *.
    + apply Hentered; assumption.
    + rewrite emitted_app, (plain_emitted _ Hfound), (plain_emitted _ E4).
      cbn [app fmap list_fmap length Z.of_nat].
      split; [constructor|].
      split; [intros id Hid; inversion Hid|].
      split; [intros id; rewrite E1; set_solver|].
      split; [rewrite E2; subst st1; cbn [total_scraped]; lia|].
      split; [|discriminate].
      apply Forall_app; split; auto using plain_no_confidence.
  - specialize (Hentered st1 [] s' eq_refl eq_refl eq_refl (Forall_nil_2 _)).
    exact Hentered.
Qed.

(** *** The scraping loop *)

Lemma scrape_loop_unfold fuel a api st s sent n :
  scrape_loop fetch helius_totals (Datatypes.S fuel) a api st s sent n
  = if sc_page_count st <? max_pages then
      match scrape_page fetch helius_totals a api st s with
      | (Next st', msgs, s') =>
          scrape_loop fetch helius_totals fuel a api st' s' (sent ++ msgs)
            (Datatypes.S n)
      | (Stop st', msgs, s') =>
          Some {| sr_state := st'; sr_scout := s';
                  sr_messages := sent ++ msgs;
                  sr_fetches := Datatypes.S n |}
      end
    else Some {| sr_state := st; sr_scout := s; sr_messages := sent;
                 sr_fetches := n |}.
Proof. reflexivity. Qed.

(** The loop returns, after at most as many passes as there are pages
    left below [max_pages]. *)
Lemma scrape_loop_returns fuel a api st s sent n :
  max_pages - sc_page_count st <= Z.of_nat fuel ->
  exists run,
    scrape_loop fetch helius_totals fuel a api st s sent n = Some run /\
    Z.of_nat (sr_fetches run)
    <= Z.of_nat n + Z.max 0 (max_pages - sc_page_count st).
Proof.
  revert st s sent n. induction fuel as [|fuel IH]; intros st s sent n Hfuel.
  - simpl. replace (_ <? _) with false by (symmetry; lia).
    eexists. split; [reflexivity|]. simpl. lia.
  - rewrite scrape_loop_unfold.
    destruct (sc_page_count st <? max_pages) eqn:Hlt.
    + apply Z.ltb_lt in Hlt.
      pose proof (scrape_page_shape a api st s) as Hshape.
      destruct (scrape_page fetch helius_totals a api st s)
        as [[[st'|st'] msgs] s'].
      * destruct Hshape as (_ & _ & _ & _ & _ & Hpc).
        specialize (Hpc st' eq_refl).
        destruct (IH st' s' (sent ++ msgs) (Datatypes.S n)) as (run & E & B);
          [lia|].
        exists run. split; [exact E|]. lia.
      * eexists. split; [reflexivity|]. simpl. lia.
    + eexists. split; [reflexivity|]. simpl. lia.
Qed.

(** What the loop keeps true of the NFTs sent so far. *)
Definition dedup_inv (st : ScrapeState) (sent : list Message) : Prop :=
  NoDup (nft_id <$> emitted sent) /\
  (forall id, id ∈ seen_nfts st <-> id ∈ (nft_id <$> emitted sent)) /\
  total_scraped st = Z.of_nat (length (emitted sent)) /\
  Forall no_confidence sent.

Lemma scrape_page_dedup_inv a api st s sent :
  dedup_inv st sent ->
  let '(fl, msgs, s') := scrape_page fetch helius_totals a api st s in
  dedup_inv (flow_state fl) (sent ++ msgs).
Proof.
  intros (I1 & I2 & I3 & I4).
  pose proof (scrape_page_shape a api st s) as Hshape.
  destruct (scrape_page fetch helius_totals a api st s) as [[fl msgs] s'].
  destruct Hshape as (H1 & H2 & H3 & H4 & H5 & _).
  unfold dedup_inv. rewrite emitted_app, fmap_app, length_app.
  repeat split.
  - apply NoDup_app. split; [exact I1|]. split; [|exact H1].
    intros id Hid Hid'. apply (H2 id Hid'). apply I2. exact Hid.
  - intros Hid. apply elem_of_app. apply H3 in Hid as [Hid|Hid];
      [left; apply I2; exact Hid | right; exact Hid].
  - intros Hid. apply H3. apply elem_of_app in Hid as [Hid|Hid];
      [left; apply I2; exact Hid | right; exact Hid].
  - lia.
  - apply Forall_app. split; assumption.
Qed.

Lemma scrape_loop_dedup_inv fuel a api st s sent n run :
  dedup_inv st sent ->
  scrape_loop fetch helius_totals fuel a api st s sent n = Some run ->
  dedup_inv (sr_state run) (sr_messages run).
Proof.
  revert st s sent n. induction fuel as [|fuel IH]; intros st s sent n Hinv.
  - simpl. destruct (_ <? _); [discriminate|]. intros [= <-]. exact Hinv.
  - rewrite scrape_loop_unfold.
    destruct (sc_page_count st <? max_pages); [|intros [= <-]; exact Hinv].
    pose proof (scrape_page_dedup_inv a api st s sent Hinv) as Hstep.
    destruct (scrape_page fetch helius_totals a api st s)
      as [[[st'|st'] msgs] s']; cbn [flow_state] in Hstep.
    + apply IH. exact Hstep.
    + intros [= <-]. exact Hstep.
Qed.

(** *** The pages of a walk *)

(** The page that answers the request of one pass, if the request is
    answered. *)
Definition page_received (a : string) (st : ScrapeState) (s : S)
  : list CollectionNFTResponse :=
  match fetch s a (sc_chain st) (cursor st) (scrape_page_size (sc_chain st))
  with
  | (Ok r, _) => [r]
  | (Raised _, _) => []
  end.

(** The pages that answer the page requests of the scraping loop, first
    page first. *)
Fixpoint received (fuel : nat) (a api : string) (st : ScrapeState) (s : S)
  : list CollectionNFTResponse :=
  if sc_page_count st <? max_pages then
    match fuel with
    | O => []
    | Datatypes.S fuel =>
        match scrape_page fetch helius_totals a api st s with
        | (Next st', _, s') =>
            page_received a st s ++ received fuel a api st' s'
        | (Stop _, _, _) => page_received a st s
        end
    end
  else [].

(** The pages of [scrape_walk]. *)
Definition walk_pages (a : string) (chain : Chain)
    (collection_total : option Z) (page_count : Z) (s : S)
  : list CollectionNFTResponse :=
  received (Z.to_nat (max_pages - page_count)) a
    (api_source_of scout_alchemy chain s)
    {| cursor := None; total_scraped := 0; seen_nfts := ∅;
       collection_total := collection_total; sc_page_count := page_count;
       sc_chain := chain |} s.

(** All NFTs of a list of pages, in the order received. *)
Definition nfts_of (pages : list CollectionNFTResponse)
  : list NormalizedNFT :=
  concat (r_nfts <$> pages).

Lemma nfts_of_app p1 p2 : nfts_of (p1 ++ p2) = nfts_of p1 ++ nfts_of p2.
Proof. unfold nfts_of. rewrite fmap_app, concat_app. reflexivity. Qed.

(** One pass sends the NFTs of its page that were not seen before, each
    pair once. *)
Lemma scrape_page_emitted a api st s :
  let '(fl, msgs, s') := scrape_page fetch helius_totals a api st s in
  emitted msgs
  = filter (fun x => nft_id x ∉ seen_nfts st)
      (deduplicated (nfts_of (page_received a st s))).
Proof.
  unfold scrape_page, page_received.
  destruct (fetch s a (sc_chain st) (cursor st) _) as [[r|e] s'];
    [|reflexivity].
  set (total := infer_total helius_totals (sc_chain st) (collection_total st)
                  r s').
  set (found := match collection_total st, total with
                | None, Some t => _
                | _, _ => _
                end).
  assert (Hfound : Forall plain found).
  { subst found. destruct (collection_total st), total as [t|];
      try constructor. destruct (Py.truthy_int t); repeat constructor. }
  set (st1 := {| cursor := cursor st; total_scraped := total_scraped st;
                 seen_nfts := seen_nfts st; collection_total := total;
                 sc_page_count := sc_page_count st;
                 sc_chain := sc_chain st |}).
  unfold nfts_of. cbn [fmap list_fmap concat]. rewrite app_nil_r.
  assert (Hentered :
            forall (st2 : ScrapeState) (msgs0 : list Message) (s2 : S),
              seen_nfts st2 = seen_nfts st ->
              Forall plain msgs0 ->
              let '(fl, msgs, s') :=
                let '(sent, seen, total_scraped) :=
                  send_nfts a api (sc_chain st2) (r_nfts r) (seen_nfts st2)
                    (total_scraped st2) in
                let st :=
                  {| cursor := cursor st2; total_scraped := total_scraped;
                     seen_nfts := seen;
                     collection_total := collection_total st2;
                     sc_page_count := sc_page_count st2;
                     sc_chain := sc_chain st2 |} in
                let progress := progress_msg st (r_has_more r) in
                let '(flow, more) := paginate api st r in
                (flow, found ++ msgs0 ++ sent ++ [progress] ++ more, s2) in
              emitted msgs
              = filter (fun x => nft_id x ∉ seen_nfts st)
                  (deduplicated (r_nfts r))).
  { intros st2 msgs0 s2 Hseen Hplain.
    pose proof (send_nfts_emitted a api (sc_chain st2) (r_nfts r)
                  (seen_nfts st2) (total_scraped st2)) as Hsend.
    destruct (send_nfts a api (sc_chain st2) (r_nfts r) (seen_nfts st2)
                (total_scraped st2)) as [[sent seen] tot].
    destruct Hsend as (H1 & _ & _).
    cbv zeta.
    match goal with
    | |- context [paginate api ?x r] =>
        pose proof (paginate_shape api x r) as Hpag;
        destruct (paginate api x r) as [flow more]
    end.
    destruct Hpag as (_ & _ & _ & _ & P5 & _).
    rewrite !emitted_app, (plain_emitted _ Hfound),
      (plain_emitted _ Hplain), (plain_emitted _ P5).
    cbn. rewrite app_nil_r, H1, Hseen. reflexivity. }
  destruct (r_nfts r) as [|x l] eqn:Enfts.
  - pose proof (empty_page_shape a api st1 s') as Hempty.
    destruct (empty_page fetch a api st1 s') as [[fl0 msgs0] s2].
    destruct Hempty as (E1 & _ & _ & E4 & _).
    destruct fl0 as [st2|st2]; cbn [flow_state] in *.
    + apply Hentered; assumption.
    + rewrite emitted_app, (plain_emitted _ Hfound), (plain_emitted _ E4).
      reflexivity.
  - exact (Hentered st1 [] s' eq_refl (Forall_nil_2 _)).
Qed.

(** The loop sends the deduplicated NFTs of the pages received. *)
Lemma scrape_loop_emitted fuel a api st s sent n run before :
  dedup_inv st sent ->
  emitted sent = deduplicated (nfts_of before) ->
  scrape_loop fetch helius_totals fuel a api st s sent n = Some run ->
  emitted (sr_messages run)
  = deduplicated (nfts_of (before ++ received fuel a api st s)).
Proof.
  revert st s sent n before.
  induction fuel as [|fuel IH]; intros st s sent n before Hinv Hsent.
  - simpl. destruct (_ <? _); [discriminate|]. intros [= <-].
    rewrite app_nil_r. exact Hsent.
  - rewrite scrape_loop_unfold. cbn [received].
    destruct (sc_page_count st <? max_pages);
      [|intros [= <-]; rewrite app_nil_r; exact Hsent].
    pose proof (scrape_page_dedup_inv a api st s sent Hinv) as Hstep.
    pose proof (scrape_page_emitted a api st s) as Hpage.
    assert (Hnext : forall msgs,
               emitted msgs
               = filter (fun x => nft_id x ∉ seen_nfts st)
                   (deduplicated (nfts_of (page_received a st s))) ->
               emitted (sent ++ msgs)
               = deduplicated (nfts_of (before ++ page_received a st s))).
    { intros msgs Hm.
      rewrite emitted_app, Hm, Hsent, nfts_of_app, deduplicated_app.
      f_equal. apply list_filter_iff. intros x.
      destruct Hinv as (_ & I2 & _). rewrite I2, Hsent, deduplicated_ids.
      reflexivity. }
    destruct (scrape_page fetch helius_totals a api st s)
      as [[[st'|st'] msgs] s']; cbn [flow_state] in Hstep.
    + intros E. rewrite app_assoc.
      exact (IH st' s' (sent ++ msgs) (Datatypes.S n)
               (before ++ page_received a st s) Hstep (Hnext msgs Hpage) E).
    + intros [= <-]. cbn [sr_messages]. exact (Hnext msgs Hpage).
Qed.

(** The walk returns, and what it sends and counts is the deduplicated
    list of the NFTs of its pages. *)
Lemma scrape_walk_emitted a chain ct pc s :
  exists run,
    scrape_walk fetch scout_alchemy helius_totals a chain ct pc s = Some run /\
    emitted (sr_messages run)
    = deduplicated (nfts_of (walk_pages a chain ct pc s)) /\
    total_scraped (sr_state run)
    = Z.of_nat (length (deduplicated (nfts_of (walk_pages a chain ct pc s)))).
Proof.
  unfold scrape_walk, walk_pages.
  set (st := {| cursor := None; total_scraped := 0; seen_nfts := ∅;
                collection_total := ct; sc_page_count := pc;
                sc_chain := chain |}).
  set (api := api_source_of scout_alchemy chain s).
  destruct (scrape_loop_returns (Z.to_nat (max_pages - pc)) a api st s [] 0)
    as (run & E & _); [subst st; cbn [sc_page_count]; lia|].
  assert (Hinv : dedup_inv st []).
  { unfold dedup_inv. subst st. cbn.
    split; [constructor|]. split; [intros id; set_solver|].
    split; [reflexivity | constructor]. }
  pose proof (scrape_loop_dedup_inv _ a api st s [] 0%nat run Hinv E)
    as (_ & _ & I3 & _).
  pose proof (scrape_loop_emitted _ a api st s [] 0%nat run [] Hinv
                eq_refl E) as Hem.
  cbn [app] in Hem.
  rewrite E. eexists. split; [reflexivity|].
  cbn [sr_messages sr_state]. rewrite emitted_app. cbn [emitted].
  rewrite app_nil_r. split; [exact Hem|]. rewrite I3, Hem. reflexivity.
Qed.

(** *** A scout that always has more *)

(** Every request is answered with a full page, a cursor and
    [has_more = True]. *)
Definition always_full : Prop :=
  forall s a c cur,
  exists r s',
    fetch s a c cur (scrape_page_size c) = (Ok r, s') /\
    Z.of_nat (length (r_nfts r)) = scrape_page_size c /\
    Py.truthy_ostr (r_cursor r) = true /\
    r_has_more r = true.

Lemma scrape_page_size_ge chain : 100 <= scrape_page_size chain.
Proof. unfold scrape_page_size. destruct (decide _); lia. Qed.

Lemma paginate_full api st r :
  scrape_page_size (sc_chain st) <= Z.of_nat (length (r_nfts r)) ->
  exists st', paginate api st r = (Next st', []).
Proof.
  intros Hlen. unfold paginate.
  destruct (_ && _ && _); [eauto|].
  assert (Hfull : bool_decide (sc_chain st = SOLANA)
                  && (1000 <=? Z.of_nat (length (r_nfts r)))
                  || negb (bool_decide (sc_chain st = SOLANA))
                     && (100 <=? Z.of_nat (length (r_nfts r))) = true).
  { unfold scrape_page_size in Hlen.
    destruct (decide (sc_chain st = SOLANA)) as [E|E].
    - rewrite (bool_decide_eq_true_2 _ E). cbn.
      rewrite orb_false_r. apply Z.leb_le. lia.
    - rewrite (bool_decide_eq_false_2 _ E). cbn. apply Z.leb_le. lia. }
  rewrite Hfull. eauto.
Qed.

Lemma scrape_page_full a api st s :
  always_full ->
  exists st' msgs s',
    scrape_page fetch helius_totals a api st s = (Next st', msgs, s') /\
    Forall calm msgs.
Proof.
  intros Hfull.
  destruct (Hfull s a (sc_chain st) (cursor st))
    as (r & s' & Hf & Hlen & Hcur & Hmore).
  pose proof (scrape_page_size_ge (sc_chain st)) as Hps.
  unfold scrape_page. rewrite Hf.
  set (total := infer_total helius_totals (sc_chain st) (collection_total st)
                  r s').
  set (found := match collection_total st, total with
                | None, Some t => _
                | _, _ => _
                end).
  assert (Hfound : Forall calm found).
  { subst found. destruct (collection_total st), total as [t|];
      try constructor. destruct (Py.truthy_int t); repeat constructor;
      simpl; congruence. }
  destruct (r_nfts r) as [|x l] eqn:Enfts; [simpl in Hlen; lia|].
  rewrite <- Enfts in *. cbv zeta.
  cbn [seen_nfts total_scraped sc_chain cursor collection_total
       sc_page_count].
  pose proof (send_nfts_spec a api (sc_chain st) (r_nfts r) (seen_nfts st)
                (total_scraped st)) as Hsend.
  destruct (send_nfts a api (sc_chain st) (r_nfts r) (seen_nfts st)
              (total_scraped st)) as [[sent seen] tot].
  destruct Hsend as (_ & _ & _ & _ & _ & _ & _ & Hcalm).
  match goal with
  | |- context [paginate api ?x r] =>
      destruct (paginate_full api x r) as (st' & Hpag);
      [cbn [sc_chain]; lia|]; rewrite Hpag
  end.
  eexists _, _, _. split; [reflexivity|].
  repeat (apply Forall_app; split); auto.
  repeat constructor; simpl; congruence.
Qed.

Lemma scrape_loop_full fuel a api st s sent n :
  always_full ->
  sc_page_count st <= max_pages ->
  max_pages - sc_page_count st <= Z.of_nat fuel ->
  Forall calm sent ->
  exists run,
    scrape_loop fetch helius_totals fuel a api st s sent n = Some run /\
    sr_fetches run = (n + Z.to_nat (max_pages - sc_page_count st))%nat /\
    sc_page_count (sr_state run) = max_pages /\
    Forall calm (sr_messages run).
Proof.
  intros Hfull. revert st s sent n.
  induction fuel as [|fuel IH]; intros st s sent n Hle Hfuel Hcalm.
  - simpl. replace (_ <? _) with false by (symmetry; lia).
    eexists. split; [reflexivity|]. simpl. repeat split; [lia|lia|assumption].
  - rewrite scrape_loop_unfold.
    destruct (sc_page_count st <? max_pages) eqn:Hlt.
    + apply Z.ltb_lt in Hlt.
      destruct (scrape_page_full a api st s Hfull)
        as (st' & msgs & s' & Hpage & Hmsgs).
      pose proof (scrape_page_shape a api st s) as Hshape.
      rewrite Hpage in Hshape |- *.
      destruct Hshape as (_ & _ & _ & _ & _ & Hpc).
      specialize (Hpc st' eq_refl).
      destruct (IH st' s' (sent ++ msgs) (Datatypes.S n))
        as (run & E & F & P & C); [lia|lia| |].
      { apply Forall_app. split; assumption. }
      exists run. split; [exact E|]. repeat split; [lia|exact P|exact C].
    + apply Z.ltb_ge in Hlt.
      eexists. split; [reflexivity|]. simpl.
      repeat split; [lia|lia|assumption].
Qed.

(** *** The scraping walk as a whole *)

Lemma complete_msg_fields st api :
  exists fields,
    complete_msg st api = Msg fields /\
    field "type" fields = Some (VStr "complete") /\
    field "total_scraped" fields = Some (VInt (total_scraped st)) /\
    field "collection_total" fields = Some (v_oint (collection_total st)) /\
    field "has_more" fields = None /\
    field "confidence" fields = None.
Proof. eexists. split; [reflexivity|]. repeat split. Qed.

Lemma scrape_walk_returns a chain ct pc s :
  exists run,
    scrape_walk fetch scout_alchemy helius_totals a chain ct pc s = Some run /\
    Z.of_nat (sr_fetches run) <= Z.max 0 (max_pages - pc) /\
    last (sr_messages run)
    = Some (complete_msg (sr_state run) (api_source_of scout_alchemy chain s)) /\
    dedup_inv (sr_state run) (sr_messages run).
Proof.
  unfold scrape_walk.
  set (st0 := {| cursor := None; total_scraped := 0; seen_nfts := ∅;
                 collection_total := ct; sc_page_count := pc;
                 sc_chain := chain |}).
  destruct (scrape_loop_returns (Z.to_nat (max_pages - pc)) a
              (api_source_of scout_alchemy chain s) st0 s [] 0)
    as (run & E & B); [subst st0; cbn [sc_page_count]; lia|].
  rewrite E. eexists. split; [reflexivity|].
  cbn [sr_fetches sr_messages sr_state].
  split; [subst st0; cbn [sc_page_count] in B; lia|].
  split; [apply last_snoc|].
  assert (Hinv0 : dedup_inv st0 []).
  { repeat split; try constructor; set_solver. }
  destruct (scrape_loop_dedup_inv _ _ _ _ _ _ _ _ Hinv0 E)
    as (I1 & I2 & I3 & I4).
  unfold dedup_inv. rewrite emitted_app. cbn [emitted complete_msg].
  rewrite app_nil_r. repeat split; try assumption.
  - apply I2.
  - apply I2.
  - apply Forall_app. split; [exact I4|]. repeat constructor.
Qed.

Lemma scrape_walk_full a chain ct pc s :
  always_full ->
  0 <= pc <= max_pages ->
  exists run,
    scrape_walk fetch scout_alchemy helius_totals a chain ct pc s = Some run /\
    sr_fetches run = Z.to_nat (max_pages - pc) /\
    sc_page_count (sr_state run) = max_pages /\
    Forall calm (sr_messages run) /\
    last (sr_messages run)
    = Some (complete_msg (sr_state run) (api_source_of scout_alchemy chain s)).
Proof.
  intros Hfull Hpc. unfold scrape_walk.
  set (st0 := {| cursor := None; total_scraped := 0; seen_nfts := ∅;
                 collection_total := ct; sc_page_count := pc;
                 sc_chain := chain |}).
  destruct (scrape_loop_full (Z.to_nat (max_pages - pc)) a
              (api_source_of scout_alchemy chain s) st0 s [] 0 Hfull)
    as (run & E & F & P & C);
    [subst st0; cbn [sc_page_count]; lia
    |subst st0; cbn [sc_page_count]; lia
    |constructor|].
  rewrite E. eexists. split; [reflexivity|].
  cbn [sr_fetches sr_messages sr_state].
  split; [exact F|]. split; [exact P|].
  split; [|apply last_snoc].
  apply Forall_app. split; [exact C|].
  repeat constructor; simpl; congruence.
Qed.

(** The cursor made from the last NFT is its token id, trimmed, whenever
    that is not empty and not the text [None]. *)
Lemma synthetic_cursor_token_id nft :
  Py.strip (token_id nft) <> "" ->
  Py.strip (token_id nft) <> "None" ->
  synthetic_cursor nft = Some (Py.strip (token_id nft)).
Proof.
  intros Hne Hnn. unfold synthetic_cursor.
  assert (Ht : Py.truthy_str (token_id nft) = true).
  { apply Py_truthy_str_spec. intros E. apply Hne. rewrite E. reflexivity. }
  rewrite Ht.
  assert (Hu : unusable (Some (Py.strip (token_id nft))) = false).
  { unfold unusable.
    apply Py_truthy_str_spec in Hne. rewrite Hne. simpl.
    apply String.eqb_neq. exact Hnn. }
  rewrite Hu, Hu. reflexivity.
Qed.

(** C2.  Against a scout that answers the first request with a full page
    and no cursor, the second request (whatever its cursor) with a full
    page and no cursor, and the third with one item less than a full page
    and no cursor, the counting loop makes exactly three requests and
    reports [2 * page_size + (page_size - 1)].  The second and the third
    request carry the cursor made from the last NFT of the page before:
    its trimmed token id whenever that is a usable identifier. *)
Theorem full_page_continuation (a : string) (chain : Chain)
    (collection_total : option Z) (s0 s1 s2 s3 : S)
    (p1 p2 p3 : CollectionNFTResponse) :
  let page_size := count_page_size chain in
  fetch s0 a chain None page_size = (Ok p1, s1) ->
  (forall c, fetch s1 a chain c page_size = (Ok p2, s2)) ->
  (forall c, fetch s2 a chain c page_size = (Ok p3, s3)) ->
  Z.of_nat (length (r_nfts p1)) = page_size ->
  Py.truthy_ostr (r_cursor p1) = false ->
  Z.of_nat (length (r_nfts p2)) = page_size ->
  Py.truthy_ostr (r_cursor p2) = false ->
  Z.of_nat (length (r_nfts p3)) = page_size - 1 ->
  Py.truthy_ostr (r_cursor p3) = false ->
  exists run,
    count_walk fetch a chain s0 = Some run /\
    length (cr_requests run) = 3%nat /\
    counted_total collection_total run
    = Some (2 * page_size + (page_size - 1)) /\
    (exists c1 c2,
       cr_requests run = [None; c1; c2] /\
       c1 = last (r_nfts p1) ≫= synthetic_cursor /\
       c2 = match last (r_nfts p2) ≫= synthetic_cursor with
            | Some token_id => Some token_id
            | None => c1
            end /\
       (forall nft, last (r_nfts p1) = Some nft ->
                    Py.strip (token_id nft) <> "" ->
                    Py.strip (token_id nft) <> "None" ->
                    c1 = Some (Py.strip (token_id nft))) /\
       (forall nft, last (r_nfts p2) = Some nft ->
                    Py.strip (token_id nft) <> "" ->
                    Py.strip (token_id nft) <> "None" ->
                    c2 = Some (Py.strip (token_id nft)))).
Proof.
  intros page_size F1 F2 F3 L1 C1 L2 C2 L3 C3.
  pose proof (count_page_size_pos chain) as Hps.
  pose proof (max_count_pages_ge chain) as Hmax.
  fold page_size in Hps.
  unfold count_walk.
  destruct (Z.to_nat (max_count_pages chain)) as [|[|[|fuel]]] eqn:Efuel;
    try lia.
  rewrite count_loop_unfold.
  change (page_count count_start) with 0.
  replace (0 <? max_count_pages chain) with true by (symmetry; lia).
  change (current_cursor count_start) with (@None string).
  fold page_size. rewrite F1.
  rewrite (count_page_full chain count_start p1 L1 C1)
    by (change (page_count count_start) with 0; lia).
  rewrite count_loop_unfold. cbn [page_count current_cursor].
  change (page_count count_start) with 0.
  replace (0 + 1 <? max_count_pages chain) with true by (symmetry; lia).
  fold page_size. rewrite F2.
  rewrite (count_page_full chain _ p2 L2 C2) by (cbn [page_count]; lia).
  rewrite count_loop_unfold. cbn [page_count current_cursor total_counted].
  replace (0 + 1 + 1 <? max_count_pages chain) with true by (symmetry; lia).
  fold page_size. rewrite F3.
  rewrite (count_page_short chain _ p3) by (fold page_size; (lia || assumption)).
  eexists. split; [reflexivity|].
  split; [reflexivity|].
  split.
  { unfold counted_total. cbn [cr_state total_counted].
    change (total_counted count_start) with 0. fold page_size. rewrite L3.
    replace (0 <? _) with true by (symmetry; lia). f_equal. lia. }
  cbn [cr_requests app].
  change (current_cursor count_start) with (@None string).
  eexists _, _. split; [reflexivity|].
  split.
  { destruct (last (r_nfts p1) ≫= synthetic_cursor); reflexivity. }
  split.
  { destruct (last (r_nfts p1) ≫= synthetic_cursor),
      (last (r_nfts p2) ≫= synthetic_cursor); reflexivity. }
  split.
  - intros nft El Hne Hnn. rewrite El. cbn [mbind option_bind].
    rewrite (synthetic_cursor_token_id nft Hne Hnn). reflexivity.
  - intros nft El Hne Hnn. rewrite El. cbn [mbind option_bind].
    rewrite (synthetic_cursor_token_id nft Hne Hnn). reflexivity.
Qed.

(** *** Empty pages *)

Lemma scrape_page_empty_later a api st s r s' :
  sc_page_count st <> 0 ->
  fetch s a (sc_chain st) (cursor st) (scrape_page_size (sc_chain st))
  = (Ok r, s') ->
  r_nfts r = [] ->
  exists st' msgs,
    scrape_page fetch helius_totals a api st s = (Stop st', msgs, s') /\
    seen_nfts st' = seen_nfts st /\ total_scraped st' = total_scraped st /\
    emitted msgs = [].
Proof.
  intros Hpc Hf Hn. unfold scrape_page. rewrite Hf, Hn.
  unfold empty_page. cbn [sc_page_count].
  replace (sc_page_count st =? 0) with false by (symmetry; lia).
  eexists _, _. split; [reflexivity|].
  split; [reflexivity|]. split; [reflexivity|].
  rewrite app_nil_r.
  destruct (collection_total st); [reflexivity|].
  destruct (infer_total _ _ _ _ _) as [t|]; [|reflexivity].
  destruct (Py.truthy_int t); reflexivity.
Qed.

(** C3 (as amended).  In the counting loop an empty page that does not
    follow an empty page and carries a cursor is followed by one more
    request, made with that cursor, unless the page was the last one the
    page limit allows: then the loop ends and nothing more is requested.
    An empty page that follows an empty page ends the loop, cursor or no
    cursor; and an empty page without a cursor ends the loop at once.  In
    the scraping loop an empty page met when [page_count] is not 0, as it
    is on every pass but the first, ends the loop at once: nothing is
    requested again and no NFT is sent. *)
Theorem empty_pages_end_the_walks (a api : string) (chain : Chain)
    (fuel : nat) :
  (forall st s reqs r s',
     page_count st < max_count_pages chain ->
     fetch s a chain (current_cursor st) (count_page_size chain)
     = (Ok r, s') ->
     r_nfts r = [] ->
     (consecutive_empty_pages st = 0 ->
      Py.truthy_ostr (r_cursor r) = true ->
      (page_count st + 1 < max_count_pages chain ->
       max_count_pages chain - page_count st <= Z.of_nat (Datatypes.S fuel) ->
       exists run rest,
         count_loop fetch (Datatypes.S fuel) a chain st s reqs = Some run /\
         cr_requests run = reqs ++ [current_cursor st; r_cursor r] ++ rest) /\
      (max_count_pages chain <= page_count st + 1 ->
       count_loop fetch (Datatypes.S fuel) a chain st s reqs
       = Some {| cr_state :=
                   {| total_counted := total_counted st + 0;
                      current_cursor := r_cursor r;
                      page_count := page_count st + 1;
                      consecutive_empty_pages := 1 |};
                 cr_scout := s';
                 cr_requests := reqs ++ [current_cursor st] |}) /\
      count_loop fetch (Datatypes.S fuel) a chain st s reqs
      = count_loop fetch fuel a chain
          {| total_counted := total_counted st + 0;
             current_cursor := r_cursor r;
             page_count := page_count st + 1;
             consecutive_empty_pages := 1 |}
          s' (reqs ++ [current_cursor st])) /\
     (1 <= consecutive_empty_pages st ->
      count_loop fetch (Datatypes.S fuel) a chain st s reqs
      = Some {| cr_state :=
                  {| total_counted := total_counted st + 0;
                     current_cursor := current_cursor st;
                     page_count := page_count st + 1;
                     consecutive_empty_pages :=
                       consecutive_empty_pages st + 1 |};
                cr_scout := s';
                cr_requests := reqs ++ [current_cursor st] |}) /\
     (Py.truthy_ostr (r_cursor r) = false ->
      exists st',
        count_loop fetch (Datatypes.S fuel) a chain st s reqs
        = Some {| cr_state := st'; cr_scout := s';
                  cr_requests := reqs ++ [current_cursor st] |})) /\
  (forall st s sent n r s',
     sc_page_count st < max_pages ->
     sc_page_count st <> 0 ->
     fetch s a (sc_chain st) (cursor st) (scrape_page_size (sc_chain st))
     = (Ok r, s') ->
     r_nfts r = [] ->
     exists st' msgs,
       scrape_loop fetch helius_totals (Datatypes.S fuel) a api st s sent n
       = Some {| sr_state := st'; sr_scout := s';
                 sr_messages := sent ++ msgs;
                 sr_fetches := Datatypes.S n |} /\
       total_scraped st' = total_scraped st /\
       emitted msgs = []).
Proof.
  split.
  - intros st s reqs r s' Hlt Hf Hn. split; [|split].
    + intros Hc Hcur.
      assert (Hstep : count_loop fetch (Datatypes.S fuel) a chain st s reqs
                      = count_loop fetch fuel a chain
                          {| total_counted := total_counted st + 0;
                             current_cursor := r_cursor r;
                             page_count := page_count st + 1;
                             consecutive_empty_pages := 1 |}
                          s' (reqs ++ [current_cursor st])).
      { rewrite count_loop_unfold.
        replace (_ <? _) with true by (symmetry; lia).
        rewrite Hf, (count_page_empty_with_cursor chain st r Hn Hc Hcur).
        reflexivity. }
      split; [|split; [|exact Hstep]].
      * intros Hroom Hfuel. rewrite Hstep.
        destruct fuel as [|fuel']; [lia|].
        destruct (count_loop_returns (Datatypes.S fuel') a chain
                    {| total_counted := total_counted st + 0;
                       current_cursor := r_cursor r;
                       page_count := page_count st + 1;
                       consecutive_empty_pages := 1 |}
                    s' (reqs ++ [current_cursor st]))
          as (run & E & _); [cbn [page_count]; lia|].
        exists run. rewrite E.
        rewrite count_loop_unfold in E. cbn [page_count current_cursor] in E.
        replace (page_count st + 1 <? max_count_pages chain) with true in E
          by (symmetry; lia).
        assert (Hreq : exists rest,
                   cr_requests run
                   = (reqs ++ [current_cursor st]) ++ [r_cursor r] ++ rest).
        { destruct (fetch s' a chain (r_cursor r) (count_page_size chain))
            as [[r2|e] s2].
          - destruct (count_page chain _ r2) as [st2|st2].
            + apply count_loop_requests in E as [rest E].
              exists rest. rewrite E, <- !app_assoc. reflexivity.
            + injection E as <-. exists []. reflexivity.
          - injection E as <-. exists []. reflexivity. }
        destruct Hreq as [rest Hreq]. exists rest.
        split; [reflexivity|]. rewrite Hreq, <- app_assoc. reflexivity.
      * intros Hlast. rewrite Hstep.
        destruct fuel as [|fuel']; cbn [count_loop page_count];
          replace (page_count st + 1 <? max_count_pages chain) with false
            by (symmetry; lia);
          reflexivity.
    + intros Hc. rewrite count_loop_unfold.
      replace (_ <? _) with true by (symmetry; lia).
      rewrite Hf, (count_page_second_empty chain st r Hn Hc).
      reflexivity.
    + intros Hcur.
      destruct (count_page_empty_no_cursor chain st r Hn Hcur) as [st' E].
      exists st'. rewrite count_loop_unfold.
      replace (_ <? _) with true by (symmetry; lia).
      rewrite Hf, E. reflexivity.
  - intros st s sent n r s' Hlt Hpc Hf Hn.
    destruct (scrape_page_empty_later a api st s r s' Hpc Hf Hn)
      as (st' & msgs & Hpage & _ & Htot & Hem).
    exists st', msgs. rewrite scrape_loop_unfold.
    replace (_ <? _) with true by (symmetry; lia).
    rewrite Hpage. auto.
Qed.

(** *** Errors raised by the scout *)



(** *** The claims about the scraping walk *)

(** C4.  The scraping walk returns, and the NFTs it sends are the
    deduplicated list of the NFTs of the pages it received: of the NFTs
    with the same (token_id, contract_address) pair the first is sent and
    the later ones are not.  So the NFTs sent have pairwise different
    pairs, every NFT received is sent or has the pair of one sent before
    it, nothing else is sent, [total_scraped] is the number of NFTs sent,
    and the pairs in [seen_nfts] are the pairs received.  Within one page,
    the NFTs sent are the deduplicated page without the NFTs whose pair
    was seen before, each counted once; a page all of whose NFTs were seen
    before sends nothing and leaves the count as it was.  A second walk
    that receives the same sequence of pages, from whatever state of the
    scout and whatever total it starts with, sends the same NFTs and ends
    with the same count. *)
Theorem walk_sends_each_nft_once (a : string) (chain : Chain)
    (collection_total : option Z) (page_count : Z) (s : S) :
  exists run,
    scrape_walk fetch scout_alchemy helius_totals a chain collection_total
      page_count s = Some run /\
    let pages := walk_pages a chain collection_total page_count s in
    emitted (sr_messages run) = deduplicated (nfts_of pages) /\
    NoDup (nft_id <$> emitted (sr_messages run)) /\
    (forall nft, nft ∈ nfts_of pages ->
                 nft_id nft ∈ nft_id <$> emitted (sr_messages run)) /\
    (forall nft, nft ∈ emitted (sr_messages run) -> nft ∈ nfts_of pages) /\
    total_scraped (sr_state run)
    = Z.of_nat (length (emitted (sr_messages run))) /\
    (forall id, id ∈ seen_nfts (sr_state run)
                <-> id ∈ nft_id <$> nfts_of pages) /\
    (forall api c nfts (seen : gset (string * string)) total,
       emitted (send_nfts a api c nfts seen total).1.1
       = filter (fun x => nft_id x ∉ seen) (deduplicated nfts) /\
       (send_nfts a api c nfts seen total).2
       = total + Z.of_nat (length (emitted
                                     (send_nfts a api c nfts seen total).1.1)) /\
       ((forall nft : NormalizedNFT, nft ∈ nfts -> nft_id nft ∈ seen) ->
        send_nfts a api c nfts seen total = ([], seen, total))) /\
    (forall collection_total' page_count' s',
       walk_pages a chain collection_total' page_count' s' = pages ->
       exists run',
         scrape_walk fetch scout_alchemy helius_totals a chain
           collection_total' page_count' s' = Some run' /\
         emitted (sr_messages run') = emitted (sr_messages run) /\
         total_scraped (sr_state run') = total_scraped (sr_state run)).
Proof.
  destruct (scrape_walk_returns a chain collection_total page_count s)
    as (run & E & _ & _ & I1 & I2 & I3 & _).
  destruct (scrape_walk_emitted a chain collection_total page_count s)
    as (run0 & E0 & Hem & Htot).
  rewrite E in E0. injection E0 as <-.
  exists run. split; [exact E|]. cbv zeta.
  split; [exact Hem|]. split; [exact I1|]. split.
  { intros nft Hin. rewrite Hem. apply deduplicated_ids.
    apply list_elem_of_fmap. exists nft. auto. }
  split.
  { intros nft Hin. rewrite Hem in Hin. apply deduplicated_subset, Hin. }
  split; [exact I3|]. split.
  { intros id. rewrite I2, Hem. apply deduplicated_ids. }
  split.
  - intros api c nfts seen total.
    pose proof (send_nfts_emitted a api c nfts seen total) as Hsend.
    pose proof (send_nfts_all_seen a api c nfts seen total) as Hnone.
    destruct (send_nfts a api c nfts seen total) as [[msgs seen'] total'].
    destruct Hsend as (H1 & H2 & _). cbn [fst snd].
    split; [exact H1|]. split; [exact H2 | exact Hnone].
  - intros ct' pc' s2 Hpages.
    destruct (scrape_walk_emitted a chain ct' pc' s2)
      as (run' & E' & Hem' & Htot').
    exists run'. split; [exact E'|].
    rewrite Hem', Htot', Hpages, Hem, Htot. split; reflexivity.
Qed.

(** C7 (as amended).  The counting loop makes at most [max_count_pages]
    requests and the scraping loop at most [max_pages] passes, whatever
    the scout answers.  The scraping walk always ends with the [complete]
    message; that message has no [has_more] and no [confidence] key, and
    no message of the walk has a [confidence] key.  Against a scout that
    always answers a full page with a cursor and [has_more], the scraping
    loop runs until [page_count] is [max_pages], and sends neither an
    error nor a warning; every progress report on the way says
    [has_more = True]. *)
Theorem walks_stop_at_page_limit (a : string) (chain : Chain)
    (collection_total : option Z) (page_count : Z) (s : S) :
  (exists run,
     count_walk fetch a chain s = Some run /\
     Z.of_nat (length (cr_requests run)) <= max_count_pages chain) /\
  (exists run fields,
     scrape_walk fetch scout_alchemy helius_totals a chain collection_total
       page_count s = Some run /\
     Z.of_nat (sr_fetches run) <= Z.max 0 (max_pages - page_count) /\
     Forall no_confidence (sr_messages run) /\
     last (sr_messages run) = Some (Msg fields) /\
     field "type" fields = Some (VStr "complete") /\
     field "total_scraped" fields
     = Some (VInt (total_scraped (sr_state run))) /\
     field "has_more" fields = None /\
     field "confidence" fields = None) /\
  (always_full ->
   0 <= page_count <= max_pages ->
   exists run,
     scrape_walk fetch scout_alchemy helius_totals a chain collection_total
       page_count s = Some run /\
     sr_fetches run = Z.to_nat (max_pages - page_count) /\
     sc_page_count (sr_state run) = max_pages /\
     Forall calm (sr_messages run)).
Proof.
  split; [apply count_walk_returns|]. split.
  - destruct (scrape_walk_returns a chain collection_total page_count s)
      as (run & E & B & L & _ & _ & _ & Hnc).
    destruct (complete_msg_fields (sr_state run)
                (api_source_of scout_alchemy chain s))
      as (fields & Hm & Ht & Hts & _ & Hh & Hc).
    exists run, fields. rewrite <- Hm. auto 10.
  - intros Hfull Hpc.
    destruct (scrape_walk_full a chain collection_total page_count s Hfull Hpc)
      as (run & E & F & P & C & _).
    exists run. auto.
Qed.

End Walks.

(** *** A scripted scout *)

Definition mk_nft (id : string) : NormalizedNFT :=
  {| token_id := id; contract_address := "0xa9e5"; chain := ETHEREUM;
     name := None; image_url := None; owner_address := None;
     raw_metadata := None; collection_name := Some "Apes";
     token_standard := Some "ERC721" |}.

(** NFTs number [start] to [start + len - 1]. *)
Definition nfts_from (start len : nat) : list NormalizedNFT :=
  List.map (fun i => mk_nft (str_of_Z (Z.of_nat i))) (seq start len).

(** A page as the scout returns it for Alchemy: no total, [has_more]
    inferred from the cursor and the page size. *)
Definition page (nfts : list NormalizedNFT) (cursor : option string)
  : CollectionNFTResponse :=
  {| r_contract_address := "0xa9e5"; r_chain := ETHEREUM;
     r_total_count := Z.of_nat (length nfts); r_total := None;
     r_nfts := nfts; r_cursor := cursor;
     r_has_more :=
       bool_decide (cursor <> None) || (100 <=? Z.of_nat (length nfts)) |}.

(** A scout that answers request number [n] with the [n]-th page of a
    script, whatever is asked, and with an empty page after the script. *)
Definition scripted (script : list CollectionNFTResponse) (n : nat)
    (a : string) (c : Chain) (cursor : option string) (page_size : Z)
  : Result CollectionNFTResponse * nat :=
  (Ok (nth n script (page [] None)), Datatypes.S n).

Definition two_full_pages_then_99 : list CollectionNFTResponse :=
  [ page (nfts_from 0 100) None; page (nfts_from 100 100) None;
    page (nfts_from 200 99) None ].

Lemma full_page_continuation_witness :
  exists run,
    count_walk (scripted two_full_pages_then_99) "0xa9e5" ETHEREUM 0%nat
    = Some run /\
    length (cr_requests run) = 3%nat /\
    counted_total None run = Some 299 /\
    cr_requests run = [None; Some "99"; Some "199"].
Proof.
  destruct (full_page_continuation (scripted two_full_pages_then_99)
              "0xa9e5" ETHEREUM None 0%nat 1%nat 2%nat 3%nat
              (page (nfts_from 0 100) None) (page (nfts_from 100 100) None)
              (page (nfts_from 200 99) None))
    as (run & Hrun & Hlen & Htotal & c1 & c2 & Hreq & Hc1 & Hc2 & _);
    try reflexivity; try (intros c; reflexivity).
  exists run. split; [exact Hrun|]. split; [exact Hlen|].
  split; [exact Htotal|].
  rewrite Hreq, Hc2, Hc1. vm_compute. reflexivity.
Defined.

(** *** Empty pages, on scripted scouts *)

Definition two_empty_pages_with_cursor : list CollectionNFTResponse :=
  [ page [] (Some "c1"); page [] (Some "c2"); page (nfts_from 0 5) None ].

(** The loop variables before the last page the limit allows. *)
Definition at_last_page : CountState :=
  {| total_counted := 19900; current_cursor := Some "c0"; page_count := 199;
     consecutive_empty_pages := 0 |}.

(** Two empty pages that carry cursors: the second request is made with
    the cursor of the first empty page, and the third page of the script
    is never asked for.  An empty page with a cursor that is page 200 of
    the count: the loop ends, and its cursor is not used. *)
Lemma empty_pages_end_the_walks_witness :
  (exists run rest,
     count_loop (scripted two_empty_pages_with_cursor) 200 "0xa9e5" ETHEREUM
       count_start 0%nat [] = Some run /\
     cr_requests run = [None; Some "c1"] ++ rest) /\
  count_loop (scripted two_empty_pages_with_cursor) 200 "0xa9e5" ETHEREUM
    count_start 0%nat []
  = Some {| cr_state :=
              {| total_counted := 0; current_cursor := Some "c1";
                 page_count := 2; consecutive_empty_pages := 2 |};
            cr_scout := 2%nat;
            cr_requests := [None; Some "c1"] |} /\
  count_loop (scripted two_empty_pages_with_cursor) 200 "0xa9e5" ETHEREUM
    at_last_page 0%nat []
  = Some {| cr_state :=
              {| total_counted := 19900; current_cursor := Some "c1";
                 page_count := 200; consecutive_empty_pages := 1 |};
            cr_scout := 1%nat;
            cr_requests := [Some "c0"] |}.
Proof.
  pose proof (empty_pages_end_the_walks (scripted two_empty_pages_with_cursor)
                (fun _ => None) "0xa9e5" "Alchemy" ETHEREUM) as H.
  destruct (H 199%nat) as [Hcount _].
  destruct (Hcount count_start 0%nat [] (page [] (Some "c1")) 1%nat)
    as [Hfirst _]; [reflexivity | reflexivity | reflexivity |].
  destruct (Hfirst eq_refl eq_refl) as (Hrequest & _ & Hstep).
  split; [|split].
  - apply Hrequest; [reflexivity | vm_compute; intros Hc; discriminate Hc].
  - rewrite Hstep.
    destruct (H 198%nat) as [Hcount' _].
    destruct (Hcount'
                {| total_counted := 0; current_cursor := Some "c1";
                   page_count := 1; consecutive_empty_pages := 1 |}
                1%nat [None] (page [] (Some "c2")) 2%nat)
      as (_ & Hsecond & _); [reflexivity | reflexivity | reflexivity |].
    exact (Hsecond ltac:(cbn; lia)).
  - destruct (Hcount at_last_page 0%nat [] (page [] (Some "c1")) 1%nat)
      as [Hlast _]; [reflexivity | reflexivity | reflexivity |].
    destruct (Hlast eq_refl eq_refl) as (_ & Hlimit & _).
    apply Hlimit. vm_compute. intros Hc. discriminate Hc.
Defined.

(** C3 (as the specification states it) fails in the counting loop: when
    the first page is empty and has no cursor, one request is made and
    the loop ends; the page is not asked for a second time. *)
Lemma single_empty_page_is_not_retried :
  exists run,
    count_walk (scripted []) "0xa9e5" ETHEREUM 0%nat = Some run /\
    cr_requests run = [None] /\
    cr_scout run = 1%nat /\
    consecutive_empty_pages (cr_state run) = 1 /\
    page_count (cr_state run) = 1.
Proof. eexists. vm_compute. repeat split. Qed.

(** The same in the scraping loop, after a page with items: the empty
    second page ends the walk, and the third page of the script is never
    asked for. *)
Example scrape_walk_empty_page_is_not_retried :
  (fun run => (sr_fetches run, total_scraped (sr_state run)))
  <$> scrape_walk (scripted [ page (nfts_from 0 100) (Some "c1");
                              page [] (Some "c2");
                              page (nfts_from 100 100) None ])
        (fun _ => true) (fun _ => None) "0xa9e5" ETHEREUM (Some 200) 0 0%nat
  = Some (2%nat, 100).
Proof. vm_compute. reflexivity. Qed.

(** *** Pages that overlap *)

(** The second page repeats the first: five NFTs are sent, not eight. *)
Example overlapping_pages_sent_once :
  (fun run => (token_id <$> emitted (sr_messages run),
               total_scraped (sr_state run), sr_fetches run))
  <$> scrape_walk (scripted [ page (nfts_from 0 3) (Some "c1");
                              page (nfts_from 0 3) (Some "c2");
                              page (nfts_from 3 2) None ])
        (fun _ => true) (fun _ => None) "0xa9e5" ETHEREUM (Some 5) 0 0%nat
  = Some (["0"; "1"; "2"; "3"; "4"], 5, 4%nat).
Proof. vm_compute. reflexivity. Qed.

(** A scout that answers request number [n] with page [n mod length] of
    a script: the same sequence of pages again and again. *)
Definition replaying (script : list CollectionNFTResponse) (n : nat)
    (a : string) (c : Chain) (cursor : option string) (page_size : Z)
  : Result CollectionNFTResponse * nat :=
  (Ok (nth (n mod length script) script (page [] None)), Datatypes.S n).

(** The first two pages overlap; the fourth is empty and ends the walk. *)
Definition overlapping_pages : list CollectionNFTResponse :=
  [ page (nfts_from 0 3) (Some "c1"); page (nfts_from 1 3) (Some "c2");
    page (nfts_from 4 1) None; page [] None ].

(** Two walks one after the other over the same four pages: the second
    starts from the scout as the first walk left it and without a total.
    Both send the NFTs 0 to 4 once and count five. *)
Lemma walk_sends_each_nft_once_witness :
  exists run run',
    scrape_walk (replaying overlapping_pages) (fun _ => true)
      (fun _ => None) "0xa9e5" ETHEREUM (Some 5) 0 0%nat = Some run /\
    sr_scout run = 4%nat /\
    scrape_walk (replaying overlapping_pages) (fun _ => true)
      (fun _ => None) "0xa9e5" ETHEREUM None 0 (sr_scout run) = Some run' /\
    token_id <$> emitted (sr_messages run) = ["0"; "1"; "2"; "3"; "4"] /\
    emitted (sr_messages run') = emitted (sr_messages run) /\
    total_scraped (sr_state run) = 5 /\
    total_scraped (sr_state run') = 5.
Proof.
  destruct (walk_sends_each_nft_once (replaying overlapping_pages)
              (fun _ => true) (fun _ => None) "0xa9e5" ETHEREUM (Some 5) 0
              0%nat) as (run & E & Hem & _ & _ & _ & T & _ & _ & Hsecond).
  assert (Hscout : sr_scout run = 4%nat).
  { assert (Hs : sr_scout
                   <$> scrape_walk (replaying overlapping_pages)
                         (fun _ => true) (fun _ => None) "0xa9e5" ETHEREUM
                         (Some 5) 0 0%nat = Some 4%nat)
      by (vm_compute; reflexivity).
    rewrite E in Hs. injection Hs as Hs. exact Hs. }
  destruct (Hsecond None 0 (sr_scout run)) as (run' & E' & Hem' & T').
  { rewrite Hscout. vm_compute. reflexivity. }
  exists run, run'. split; [exact E|]. split; [exact Hscout|].
  split; [exact E'|].
  assert (Hids : token_id <$> emitted (sr_messages run)
                 = ["0"; "1"; "2"; "3"; "4"]).
  { rewrite Hem. vm_compute. reflexivity. }
  assert (Hfive : total_scraped (sr_state run) = 5).
  { rewrite T. rewrite <- (length_fmap token_id), Hids. reflexivity. }
  split; [exact Hids|]. split; [exact Hem'|]. split; [exact Hfive|].
  rewrite T'. exact Hfive.
Defined.

(** *** A scout that never runs out *)

(** Every request is answered with a page of the size asked for, a cursor
    and [has_more]. *)
Definition endless (s : unit) (a : string) (c : Chain)
    (cursor : option string) (page_size : Z)
  : Result CollectionNFTResponse * unit :=
  (Ok (page (nfts_from 0 (Z.to_nat page_size)) (Some "next")), tt).

Lemma length_nfts_from start len : length (nfts_from start len) = len.
Proof. unfold nfts_from. rewrite length_map, length_seq. reflexivity. Qed.

Lemma endless_always_full : always_full endless.
Proof.
  intros s a c cur. eexists _, _. split; [reflexivity|].
  cbn [page r_nfts r_cursor r_has_more].
  rewrite length_nfts_from.
  split; [|split; reflexivity].
  unfold scrape_page_size. destruct (decide (c = SOLANA)); reflexivity.
Qed.

Lemma walks_stop_at_page_limit_witness :
  exists run,
    scrape_walk endless (fun _ => true) (fun _ => None) "0xa9e5" ETHEREUM
      (Some 50000) 0 tt = Some run /\
    Z.of_nat (sr_fetches run) = 10000 /\
    sc_page_count (sr_state run) = 10000 /\
    Forall calm (sr_messages run).
Proof.
  destruct (walks_stop_at_page_limit endless (fun _ => true) (fun _ => None)
              "0xa9e5" ETHEREUM (Some 50000) 0 tt) as (_ & _ & Hfull).
  destruct (Hfull endless_always_full) as (run & E & F & P & C);
    [unfold max_pages; lia|].
  exists run. split; [exact E|]. split; [|split; [exact P | exact C]].
  rewrite F. unfold max_pages. lia.
Defined.

(** C7 (as the specification states it) fails: against a scout that never
    runs out the scraping loop stops after its 10000 passes, and the one
    message that reports the end is the [complete] message, which has
    neither a [has_more] nor a [confidence] key; no warning and no error
    is sent. *)
Lemma page_limit_is_reported_as_complete :
  exists run fields,
    scrape_collection endless (fun _ => true) (fun _ => None) "0xa9e5"
      ETHEREUM (Some 50000) tt = Some (None, run) /\
    Z.of_nat (sr_fetches run) = 10000 /\
    sc_page_count (sr_state run) = max_pages /\
    last (sr_messages run) = Some (Msg fields) /\
    field "type" fields = Some (VStr "complete") /\
    field "has_more" fields = None /\
    field "confidence" fields = None /\
    Forall calm (sr_messages run).
Proof.
  destruct (scrape_walk_full endless (fun _ => true) (fun _ => None)
              "0xa9e5" ETHEREUM (Some 50000) 0 tt endless_always_full)
    as (run & E & F & P & C & L); [unfold max_pages; lia|].
  destruct (complete_msg_fields (sr_state run)
              (api_source_of (fun _ => true) ETHEREUM tt))
    as (fields & Hm & Ht & _ & _ & Hh & Hc).
  exists run, fields. unfold scrape_collection.
  change (should_count ETHEREUM (Some 50000)) with false. cbv iota.
  rewrite E, L, Hm. split; [reflexivity|].
  split; [rewrite F; unfold max_pages; lia|]. auto 10.
Qed.

End WalkFacts.

(** ** Failures of the providers *)

Module FailureFacts.
Import Models Clients Normalizer Scout WebServer ScoutFacts.


(** *** On a scout with Alchemy *)

Definition no_helius : Helius.CallEnv unit :=
  {| Helius.resolved := None;
     Helius.rpc := Raised "not called";
     Helius.das := Raised "not called" |}.


Definition nft_of_item (item : unit) (a : string) (c : Chain)
  : Result NormalizedNFT :=
  Ok {| token_id := "1"; contract_address := a; chain := c;
        name := None; image_url := None; owner_address := None;
        raw_metadata := None; collection_name := None;
        token_standard := None |}.

(** A scout that answers with the error of its client. *)
Definition failing (s : unit) (a : string) (c : Chain)
    (cursor : option string) (page_size : Z)
  : Result CollectionNFTResponse * unit :=
  (Raised "ClientResponseError: 500", tt).




End FailureFacts.

(** * Further properties *)

(** ** Strings *)

Module StrFacts.

(** Every character of [s] satisfies [P]. *)
Fixpoint all_chars (P : ascii -> bool) (s : string) : bool :=
  match s with
  | EmptyString => true
  | String a r => P a && all_chars P r
  end.

Definition not_space (a : ascii) : bool := negb (Py.isspace a).

Lemma all_chars_impl (P Q : ascii -> bool) (s : string) :
  (forall a, P a = true -> Q a = true) ->
  all_chars P s = true -> all_chars Q s = true.
Proof.
  intros H. induction s as [|a r IH]; simpl; [reflexivity|].
  intros [Ha Hr]%andb_true_iff. rewrite (H a Ha), (IH Hr). reflexivity.
Qed.

Lemma all_chars_app (P : ascii -> bool) (s t : string) :
  all_chars P (s +:+ t) = all_chars P s && all_chars P t.
Proof.
  induction s as [|a r IH]; [reflexivity|].
  change (String a r +:+ t) with (String a (r +:+ t)).
  cbn [all_chars]. rewrite IH, andb_assoc. reflexivity.
Qed.

Lemma all_chars_lower (P Q : ascii -> bool) (s : string) :
  (forall a, P a = true -> Q (Py.lower_char a) = true) ->
  all_chars P s = true -> all_chars Q (Py.lower s) = true.
Proof.
  intros H. induction s as [|a r IH]; simpl; [reflexivity|].
  intros [Ha Hr]%andb_true_iff. rewrite (H a Ha), (IH Hr). reflexivity.
Qed.

Lemma length_lower (s : string) :
  String.length (Py.lower s) = String.length s.
Proof. induction s as [|a r IH]; simpl; congruence. Qed.

Lemma prefix_all_chars (P : ascii -> bool) (p s : string) :
  String.prefix p s = true -> all_chars P s = true -> all_chars P p = true.
Proof.
  revert s. induction p as [|a p IH]; intros s; [reflexivity|].
  destruct s as [|b s]; simpl; [intros H; discriminate H|].
  destruct (Ascii.ascii_dec a b) as [E|E]; [subst b|intros H; discriminate H].
  intros Hp [Hb Hs]%andb_true_iff.
  rewrite Hb, (IH s Hp Hs). reflexivity.
Qed.

(** A string that occurs in [s] is made of characters of [s]. *)
Lemma contains_all_chars (P : ascii -> bool) (p s : string) :
  Py.contains p s = true -> all_chars P s = true -> all_chars P p = true.
Proof.
  induction s as [|b s IH]; cbn [Py.contains all_chars].
  - rewrite orb_false_r. intros Hp _. destruct p; [reflexivity|discriminate].
  - intros [Hp|Hp]%orb_true_iff [Hb Hs]%andb_true_iff.
    + eapply prefix_all_chars; [exact Hp|]. simpl. rewrite Hb, Hs. reflexivity.
    + apply IH; assumption.
Qed.

Lemma contains_false (P : ascii -> bool) (p s : string) :
  all_chars P s = true -> all_chars P p = false -> Py.contains p s = false.
Proof.
  intros Hs Hp. destruct (Py.contains p s) eqn:E; [|reflexivity].
  rewrite (contains_all_chars P p s E Hs) in Hp. discriminate.
Qed.

(** *** [strip] *)

Lemma append_cons (a : ascii) (r t : string) :
  String a r +:+ t = String a (r +:+ t).
Proof. reflexivity. Qed.

Lemma append_nil_l (t : string) : "" +:+ t = t.
Proof. reflexivity. Qed.

Lemma append_nil_r (s : string) : s +:+ "" = s.
Proof.
  induction s as [|a r IH]; [reflexivity|].
  rewrite append_cons, IH. reflexivity.
Qed.

Lemma append_assoc (s t u : string) : (s +:+ t) +:+ u = s +:+ (t +:+ u).
Proof.
  induction s as [|a r IH]; [reflexivity|].
  rewrite !append_cons, IH. reflexivity.
Qed.

Lemma rev_onto_app (s acc : string) :
  Py.rev_onto s acc = Py.rev_onto s "" +:+ acc.
Proof.
  revert acc. induction s as [|a r IH]; intros acc; [reflexivity|].
  cbn [Py.rev_onto].
  rewrite (IH (String a acc)), (IH (String a "")).
  rewrite append_assoc. reflexivity.
Qed.

Lemma reverse_cons (a : ascii) (r : string) :
  Py.reverse (String a r) = Py.reverse r +:+ String a "".
Proof. unfold Py.reverse. simpl. apply rev_onto_app. Qed.

Lemma reverse_app (s t : string) :
  Py.reverse (s +:+ t) = Py.reverse t +:+ Py.reverse s.
Proof.
  induction s as [|a r IH].
  - rewrite append_nil_l. change (Py.reverse "") with "".
    rewrite append_nil_r. reflexivity.
  - rewrite append_cons, !reverse_cons, IH, append_assoc. reflexivity.
Qed.

Lemma reverse_involutive (s : string) : Py.reverse (Py.reverse s) = s.
Proof.
  induction s as [|a r IH]; [reflexivity|].
  rewrite reverse_cons, reverse_app, IH. reflexivity.
Qed.

Lemma all_chars_reverse (P : ascii -> bool) (s : string) :
  all_chars P (Py.reverse s) = all_chars P s.
Proof.
  induction s as [|a r IH]; [reflexivity|].
  rewrite reverse_cons, all_chars_app, IH. simpl.
  rewrite andb_true_r, andb_comm. reflexivity.
Qed.

Lemma lstrip_id (s : string) :
  all_chars not_space s = true -> Py.lstrip s = s.
Proof.
  destruct s as [|a r]; simpl; [reflexivity|].
  unfold not_space. intros [Ha _]%andb_true_iff.
  apply negb_true_iff in Ha. rewrite Ha. reflexivity.
Qed.

(** A string without whitespace is its own [strip]. *)
Lemma strip_id (s : string) :
  all_chars not_space s = true -> Py.strip s = s.
Proof.
  intros H. unfold Py.strip, Py.rstrip.
  rewrite (lstrip_id s H), lstrip_id, reverse_involutive; [reflexivity|].
  rewrite all_chars_reverse. exact H.
Qed.

(** *** Lengths and prefixes *)

Lemma len_length (s : string) : Py.len s = Z.of_nat (String.length s).
Proof. reflexivity. Qed.

Lemma truthy_str_length (s : string) :
  Py.truthy_str s = negb (Nat.eqb (String.length s) 0).
Proof. destruct s; reflexivity. Qed.

End StrFacts.

(** ** When the handler counts by paginating *)

Module CountFacts.
Import Models WebServer.

(** X1.  The [scrape_collection] action counts by paginating exactly when
    the total it has is missing or zero, or, on a chain other than
    Solana, when it is at most 100.  On Solana a total that is known and
    not zero is never counted again: the test for a total equal to the
    page size 1000 is never reached. *)
Theorem should_count_iff (chain : Chain) (collection_total : option Z) :
  should_count chain collection_total = true <->
  (Py.truthy_oint collection_total = false \/
   (chain <> SOLANA /\
    exists n, collection_total = Some n /\ n <= 100)).
Proof.
  unfold should_count, Py.truthy_oint, Py.truthy_int.
  destruct collection_total as [n|]; simpl.
  - destruct (Z.eqb_spec n 0) as [->|Hn]; simpl.
    + destruct (bool_decide (chain = SOLANA)); simpl; split; auto.
    + destruct (Z.ltb_spec 100 n) as [Hgt|Hle]; simpl.
      * destruct (Z.eqb_spec n 100); simpl; [lia|].
        split; [discriminate|].
        intros [H|[_ (m & [= <-] & Hm)]]; [discriminate H | lia].
      * rewrite andb_false_r.
        case_bool_decide as Hc; simpl.
        -- destruct (Z.eqb_spec n 1000); [lia|]. simpl.
           split; [discriminate|].
           intros [H|[Hne _]]; [discriminate H | contradiction].
        -- destruct (Z.eqb_spec n 100); simpl.
           ++ split; [|reflexivity]. intros _. right. split; [exact Hc|].
              exists n. split; [reflexivity | lia].
           ++ destruct (Z.leb_spec n 100); [|lia]. simpl.
              split; [|reflexivity]. intros _. right. split; [exact Hc|].
              exists n. split; [reflexivity | lia].
  - destruct (bool_decide (chain = SOLANA)); simpl; split; auto.
Qed.

End CountFacts.

(** ** Addresses *)

Module AddressFacts.
Import Models StrFacts.

Lemma class_range_end_eq (cls : ascii -> bool) (lo hi : nat) (s : string) :
  Re.class_range_end cls lo hi s
  = (Nat.eqb lo 0 && Re.at_end s)
    || match s, hi with
       | String a r, Datatypes.S hi' =>
           cls a && Re.class_range_end cls (Nat.pred lo) hi' r
       | _, _ => false
       end.
Proof. destruct hi; reflexivity. Qed.

Lemma class_range_end_length (cls : ascii -> bool) (lo hi : nat)
    (s : string) :
  Re.class_range_end cls lo hi s = true -> (lo <= String.length s)%nat.
Proof.
  revert lo hi. induction s as [|a r IH]; intros lo hi;
    rewrite class_range_end_eq.
  - rewrite orb_false_r. intros [H _]%andb_true_iff.
    apply Nat.eqb_eq in H. subst lo. simpl. lia.
  - intros [H|H]%orb_true_iff.
    + apply andb_true_iff in H as [H _]. apply Nat.eqb_eq in H. lia.
    + destruct hi as [|hi']; [discriminate H|].
      apply andb_true_iff in H as [_ H]. apply IH in H. simpl. lia.
Qed.

(** [[cls]{n}$] on a string of [n] characters says that all of them are
    of the class. *)
Lemma class_range_end_exact (cls : ascii -> bool) (n : nat) (s : string) :
  String.length s = n ->
  Re.class_range_end cls n n s = all_chars cls s.
Proof.
  revert n. induction s as [|a r IH]; intros n Hlen; simpl in Hlen; subst n.
  - reflexivity.
  - rewrite class_range_end_eq.
    cbn [all_chars Nat.eqb Nat.pred andb orb String.length].
    rewrite (IH _ eq_refl). reflexivity.
Qed.

Lemma match_0x_hex_inv (n : nat) (s : string) :
  Re.match_0x_hex n s = true -> String.length s = Datatypes.S (Datatypes.S n) ->
  exists h, s = "0x" +:+ h /\ String.length h = n /\
            all_chars Re.hex_char h = true.
Proof.
  unfold Re.match_0x_hex. intros Hm Hlen.
  destruct s as [|a [|b h]]; try discriminate Hm; try discriminate Hlen.
  destruct (Ascii.ascii_dec a "0") as [->|Ha].
  2:{ exfalso. revert Hm. destruct a as [[] [] [] [] [] [] [] []];
      try discriminate; congruence. }
  destruct (Ascii.ascii_dec b "x") as [->|Hb].
  2:{ exfalso. revert Hm. destruct b as [[] [] [] [] [] [] [] []];
      try discriminate; congruence. }
  simpl in Hlen. exists h. split; [reflexivity|].
  assert (Hh : String.length h = n) by lia. split; [exact Hh|].
  rewrite <- (class_range_end_exact _ n h Hh). exact Hm.
Qed.

Lemma match_0x_hex_intro (n : nat) (h : string) :
  String.length h = n -> all_chars Re.hex_char h = true ->
  Re.match_0x_hex n ("0x" +:+ h) = true.
Proof.
  intros Hlen Hh. change ("0x" +:+ h) with (String "0" (String "x" h)).
  unfold Re.match_0x_hex. rewrite (class_range_end_exact _ n h Hlen).
  exact Hh.
Qed.

Lemma lower_char_idem (a : ascii) :
  Py.lower_char (Py.lower_char a) = Py.lower_char a.
Proof. destruct a as [[] [] [] [] [] [] [] []]; reflexivity. Qed.

Lemma lower_idem (s : string) : Py.lower (Py.lower s) = Py.lower s.
Proof.
  induction s as [|a r IH]; simpl; [reflexivity|].
  rewrite lower_char_idem, IH. reflexivity.
Qed.

Lemma hex_lower (a : ascii) :
  Re.hex_char a = true -> Re.hex_char (Py.lower_char a) = true.
Proof. destruct a as [[] [] [] [] [] [] [] []]; intros H; try discriminate H; reflexivity. Qed.

Lemma hex_not_space (a : ascii) :
  Re.hex_char a = true -> not_space a = true.
Proof. destruct a as [[] [] [] [] [] [] [] []]; intros H; try discriminate H; reflexivity. Qed.

Lemma base58_not_space (a : ascii) :
  Helius.base58_char a = true -> not_space a = true.
Proof. destruct a as [[] [] [] [] [] [] [] []]; intros H; try discriminate H; reflexivity. Qed.

(** What [sanitize_blockchain_address] returns on an EVM chain. *)
Lemma sanitize_evm (address chain a' : string) :
  PyStr.in_list (Py.lower chain) Security.evm_chains = true ->
  Security.sanitize_blockchain_address address chain = Some a' ->
  exists h, Py.strip address = "0x" +:+ h /\ String.length h = 40%nat /\
            all_chars Re.hex_char h = true /\
            a' = "0x" +:+ Py.lower h.
Proof.
  intros Hc. unfold Security.sanitize_blockchain_address. rewrite Hc.
  destruct (Py.truthy_str address); [|discriminate]. cbn [negb].
  destruct (Py.startswith "0x" (Py.strip address)); [|discriminate].
  cbn [negb].
  destruct (Z.eqb_spec (Py.len (Py.strip address)) 42) as [Hlen|];
    [|discriminate]. cbn [negb].
  destruct (Re.match_0x_hex 40 (Py.strip address)) eqn:Hm; [|discriminate].
  cbn [negb]. intros [= <-].
  destruct (match_0x_hex_inv 40 _ Hm) as (h & Hs & Hh & Hall).
  { unfold Py.len in Hlen. lia. }
  exists h. rewrite Hs. auto.
Qed.

Lemma sanitize_evm_intro (address chain h : string) :
  PyStr.in_list (Py.lower chain) Security.evm_chains = true ->
  Py.strip address = "0x" +:+ h -> String.length h = 40%nat ->
  all_chars Re.hex_char h = true ->
  address <> "" ->
  Security.sanitize_blockchain_address address chain
  = Some ("0x" +:+ Py.lower h).
Proof.
  intros Hc Hs Hlen Hall Hne. unfold Security.sanitize_blockchain_address.
  rewrite Hc, Hs.
  replace (Py.truthy_str address) with true
    by (symmetry; apply Py_truthy_str_spec; exact Hne).
  cbn [negb].
  change (Py.startswith "0x" ("0x" +:+ h)) with (String.prefix "" h).
  replace (String.prefix "" h) with true by (destruct h; reflexivity).
  cbn [negb].
  replace (Py.len ("0x" +:+ h) =? 42) with true.
  2:{ symmetry. apply Z.eqb_eq. unfold Py.len.
      change ("0x" +:+ h) with (String "0" (String "x" h)). simpl. lia. }
  cbn [negb]. rewrite (match_0x_hex_intro 40 h Hlen Hall). reflexivity.
Qed.

(** X2.  On an EVM chain, an address that [sanitize_blockchain_address]
    accepts is ["0x"] and 40 hexadecimal digits once surrounding
    whitespace is gone; what is returned is that address in lower case,
    42 characters long; and sanitizing what is returned gives it back
    unchanged. *)
Theorem sanitize_evm_lower_case_fixed_point (address chain a' : string) :
  PyStr.in_list (Py.lower chain) Security.evm_chains = true ->
  Security.sanitize_blockchain_address address chain = Some a' ->
  a' = Py.lower (Py.strip address) /\
  String.length a' = 42%nat /\
  Re.match_0x_hex 40 (Py.strip address) = true /\
  Re.match_0x_hex 40 a' = true /\
  Security.sanitize_blockchain_address a' chain = Some a'.
Proof.
  intros Hc Hs.
  destruct (sanitize_evm address chain a' Hc Hs)
    as (h & Hstrip & Hlen & Hall & ->).
  assert (Hlow : all_chars Re.hex_char (Py.lower h) = true).
  { eapply all_chars_lower; [|exact Hall]. exact hex_lower. }
  assert (Hlenl : String.length (Py.lower h) = 40%nat).
  { rewrite length_lower. exact Hlen. }
  split; [rewrite Hstrip; reflexivity|].
  split; [change ("0x" +:+ Py.lower h)
            with (String "0" (String "x" (Py.lower h)));
          simpl; lia|].
  split; [rewrite Hstrip; apply match_0x_hex_intro; assumption|].
  split; [apply match_0x_hex_intro; assumption|].
  rewrite (sanitize_evm_intro ("0x" +:+ Py.lower h) chain (Py.lower h));
    try assumption.
  - rewrite lower_idem. reflexivity.
  - apply strip_id.
    change ("0x" +:+ Py.lower h) with (String "0" (String "x" (Py.lower h))).
    cbn [all_chars]. change (not_space "0") with true.
    change (not_space "x") with true. cbn [andb].
    eapply all_chars_impl; [|exact Hlow]. exact hex_not_space.
  - discriminate.
Qed.

Lemma sanitize_evm_lower_case_fixed_point_witness :
  Security.sanitize_blockchain_address
    "  0xBC4CA0EdA7647A8aB7C2061c2E118A18a936f13D " "Ethereum"
  = Some "0xbc4ca0eda7647a8ab7c2061c2e118a18a936f13d" /\
  Security.sanitize_blockchain_address
    "0xbc4ca0eda7647a8ab7c2061c2e118a18a936f13d" "Ethereum"
  = Some "0xbc4ca0eda7647a8ab7c2061c2e118a18a936f13d".
Proof.
  split; [reflexivity|].
  apply (sanitize_evm_lower_case_fixed_point
           "  0xBC4CA0EdA7647A8aB7C2061c2E118A18a936f13D " "Ethereum");
    reflexivity.
Defined.

(** An address that comes back from [sanitize_blockchain_address] has at
    least 26 characters. *)
Lemma sanitize_length (address chain a' : string) :
  Security.sanitize_blockchain_address address chain = Some a' ->
  (26 <= String.length a')%nat.
Proof.
  unfold Security.sanitize_blockchain_address.
  destruct (Py.truthy_str address); [|discriminate]. cbn [negb].
  destruct (PyStr.in_list (Py.lower chain) Security.evm_chains).
  - destruct (Py.startswith "0x" (Py.strip address)); [|discriminate].
    cbn [negb].
    destruct (Z.eqb_spec (Py.len (Py.strip address)) 42) as [Hlen|];
      [|discriminate]. cbn [negb].
    destruct (Re.match_0x_hex 40 (Py.strip address)); [|discriminate].
    cbn [negb]. intros [= <-]. rewrite length_lower.
    unfold Py.len in Hlen. lia.
  - destruct (PyStr.in_list (Py.lower chain) ["solana"; "sol"]).
    + destruct (Z.ltb_spec (Py.len (Py.strip address)) 32); [discriminate|].
      cbn [orb].
      destruct (44 <? Py.len (Py.strip address)); [discriminate|].
      destruct (Helius.base58_match _ _); [|discriminate].
      cbn [negb]. intros [= <-]. unfold Py.len in *. lia.
    + destruct (PyStr.in_list (Py.lower chain) ["bitcoin"; "btc"]);
        [|discriminate].
      destruct (Security.match_bitcoin (Py.strip address)) eqn:Hm;
        [|discriminate].
      cbn [negb]. intros [= <-]. revert Hm. unfold Security.match_bitcoin.
      destruct (Py.strip address) as [|a r]; [discriminate|].
      destruct a as [[] [] [] [] [] [] [] []]; try discriminate.
      * intros H%class_range_end_length. simpl. lia.
      * intros H%class_range_end_length. simpl. lia.
      * destruct r as [|b r]; [discriminate|].
        destruct b as [[] [] [] [] [] [] [] []]; try discriminate.
        destruct r as [|c r]; [discriminate|].
        destruct c as [[] [] [] [] [] [] [] []]; try discriminate.
        intros H%class_range_end_length. simpl. lia.
Qed.

(** X3.  The address check of the [scrape_collection] action never lets an
    address through: [sanitize_blockchain_address] returns [None] or one
    string, the handler unpacks what it returns into two names, and the
    unpacking raises for [None] (a [TypeError]) and for every string the
    function can return (a [ValueError], since it has more than two
    characters).  The exception leaves the message loop of the socket. *)
Theorem checked_address_always_raises (contract_address : string)
    (chain : Chain) :
  Extract.checked_address contract_address chain
  = Raised "TypeError: cannot unpack non-iterable NoneType object" \/
  Extract.checked_address contract_address chain
  = Raised "ValueError: too many values to unpack (expected 2)".
Proof.
  unfold Extract.checked_address.
  destruct (Security.sanitize_blockchain_address contract_address
              (value chain)) as [a'|] eqn:E; [right|left; reflexivity].
  apply sanitize_length in E.
  destruct a' as [|a [|b [|c r]]]; simpl in E; try lia. reflexivity.
Qed.

End AddressFacts.

(** ** [extract_collection_info] on a bare address *)

Module ExtractFacts.
Import Models StrFacts AddressFacts.

(** A hexadecimal digit or the letter x. *)
Definition hex_or_x (a : ascii) : bool :=
  Re.hex_char a || Ascii.eqb a "x".

Definition not_slash (a : ascii) : bool := negb (Ascii.eqb a "/").

Lemma hex_or_x_lower (a : ascii) :
  hex_or_x a = true -> hex_or_x (Py.lower_char a) = true.
Proof.
  destruct a as [[] [] [] [] [] [] [] []]; intros H; try discriminate H;
    reflexivity.
Qed.

Lemma base58_lower_alnum (a : ascii) :
  Helius.base58_char a = true -> Re.alnum_char (Py.lower_char a) = true.
Proof.
  destruct a as [[] [] [] [] [] [] [] []]; intros H; try discriminate H;
    reflexivity.
Qed.

Lemma base58_not_slash (a : ascii) :
  Helius.base58_char a = true -> not_slash a = true.
Proof.
  destruct a as [[] [] [] [] [] [] [] []]; intros H; try discriminate H;
    reflexivity.
Qed.

Lemma strip_truthy (u s : string) :
  Py.strip u = s -> s <> "" -> Py.truthy_str u = true.
Proof.
  intros Hs Hne. destruct u; [|reflexivity].
  exfalso. apply Hne. rewrite <- Hs. reflexivity.
Qed.

Lemma startswith_0x (h : string) : Py.startswith "0x" ("0x" +:+ h) = true.
Proof.
  change (Py.startswith "0x" ("0x" +:+ h)) with (String.prefix "" h).
  destruct h; reflexivity.
Qed.

Lemma eqb_length_false (s t : string) :
  String.length s <> String.length t -> String.eqb s t = false.
Proof.
  intros H. destruct (String.eqb_spec s t) as [->|]; [|reflexivity].
  contradiction.
Qed.

Lemma split_no_sep (sep : ascii) (s : string) :
  all_chars (fun a => negb (Ascii.eqb a sep)) s = true ->
  PyStr.split sep s = [s].
Proof.
  induction s as [|a r IH]; cbn [PyStr.split all_chars]; [reflexivity|].
  intros [Ha Hr]%andb_true_iff. apply negb_true_iff in Ha.
  rewrite Ha, (IH Hr). reflexivity.
Qed.

Lemma base58_not_0x (s : string) :
  all_chars Helius.base58_char s = true -> Py.startswith "0x" s = false.
Proof.
  destruct s as [|a r]; [reflexivity|]. cbn [all_chars].
  intros [Ha _]%andb_true_iff. unfold Py.startswith. cbn [String.prefix].
  destruct (Ascii.ascii_dec "0" a) as [<-|]; [discriminate Ha|reflexivity].
Qed.

(** X4.  A bare EVM address, that is ["0x"] and 40 hexadecimal digits with
    or without whitespace around it, is returned as it is (without the
    whitespace) with the chain Ethereum: none of the marketplace and chain
    keywords the function looks for can occur in it. *)
Theorem extract_evm_address (collection_url h : string) :
  Py.strip collection_url = "0x" +:+ h ->
  String.length h = 40%nat ->
  all_chars Re.hex_char h = true ->
  Extract.extract_collection_info collection_url
  = Ok ("0x" +:+ h, ETHEREUM).
Proof.
  intros Hs Hlen Hall.
  assert (Hq : all_chars hex_or_x (Py.lower ("0x" +:+ h)) = true).
  { apply (all_chars_lower hex_or_x); [exact hex_or_x_lower|].
    change ("0x" +:+ h) with (String "0" (String "x" h)).
    cbn [all_chars]. change (hex_or_x "0") with true.
    change (hex_or_x "x") with true. cbn [andb].
    eapply all_chars_impl; [|exact Hall].
    intros a Ha. unfold hex_or_x. rewrite Ha. reflexivity. }
  assert (Hk : forall kw, all_chars hex_or_x kw = false ->
                          Extract.has kw (Py.lower ("0x" +:+ h)) = false).
  { intros kw Hkw. exact (contains_false hex_or_x kw _ Hq Hkw). }
  unfold Extract.extract_collection_info.
  rewrite (strip_truthy collection_url _ Hs) by discriminate.
  cbn [negb]. rewrite Hs.
  change (Py.truthy_str ("0x" +:+ h)) with true. cbn [negb].
  rewrite !Hk by reflexivity. cbn [orb].
  unfold Extract.looks_evm. rewrite startswith_0x.
  replace (Py.len ("0x" +:+ h) =? 42) with true; [reflexivity|].
  symmetry. apply Z.eqb_eq. unfold Py.len.
  change ("0x" +:+ h) with (String "0" (String "x" h)). simpl. lia.
Qed.

Lemma extract_evm_address_witness :
  Extract.extract_collection_info
    " 0xBC4CA0EdA7647A8aB7C2061c2E118A18a936f13D"
  = Ok ("0xBC4CA0EdA7647A8aB7C2061c2E118A18a936f13D", ETHEREUM).
Proof.
  apply (extract_evm_address
           " 0xBC4CA0EdA7647A8aB7C2061c2E118A18a936f13D"
           "BC4CA0EdA7647A8aB7C2061c2E118A18a936f13D"); reflexivity.
Defined.

(** X5.  A bare Solana address, that is 32 to 44 characters of the base58
    alphabet with or without whitespace around it, is not recognised: the
    function raises [UnboundLocalError], at line 365 when "sol" happens to
    occur in the address and at line 385 otherwise, because both lines
    read [re], which only the Nintondo block binds.  The one exception is
    an address in which "magiceden" occurs: the Magic Eden block returns
    it, with the chain Solana, before [re] is read. *)
Theorem extract_bare_solana_address (collection_url s : string) :
  Py.strip collection_url = s ->
  (32 <= String.length s <= 44)%nat ->
  all_chars Helius.base58_char s = true ->
  Extract.extract_collection_info collection_url
  = if Extract.has "magiceden" (Py.lower s)
    then Ok (s, SOLANA) else Extract.re_unbound.
Proof.
  intros Hs Hlen Hall.
  assert (Hne : s <> "") by (intros ->; simpl in Hlen; lia).
  assert (Hq : all_chars Re.alnum_char (Py.lower s) = true).
  { apply (all_chars_lower Helius.base58_char); [|exact Hall].
    exact base58_lower_alnum. }
  assert (Hk : forall kw, all_chars Re.alnum_char kw = false ->
                          Extract.has kw (Py.lower s) = false).
  { intros kw Hkw. exact (contains_false Re.alnum_char kw _ Hq Hkw). }
  assert (Hsplit : PyStr.split "/" s = [s]).
  { apply split_no_sep. eapply all_chars_impl; [|exact Hall].
    exact base58_not_slash. }
  assert (H0x : Py.startswith "0x" s = false) by (apply base58_not_0x, Hall).
  assert (Htruthy : Py.truthy_str s = true)
    by (apply Py_truthy_str_spec, Hne).
  unfold Extract.extract_collection_info.
  rewrite (strip_truthy collection_url s Hs Hne). cbn [negb].
  rewrite Hs, Htruthy. cbn [negb].
  rewrite (Hk "nintondo.io"), (Hk "nintondo.com"), (Hk "solanart.io"),
    (Hk "opensea.io") by reflexivity.
  cbn [orb].
  destruct (Extract.has "magiceden" (Py.lower s)) eqn:Hme.
  - unfold Extract.magiceden. rewrite Hsplit, (Hk "/collections/") by reflexivity.
    unfold Extract.after_marketplace, PyStr.in_list. cbn [existsb].
    rewrite (eqb_length_false "marketplace" s) by (simpl; lia).
    cbn [orb]. change (last [s]) with (Some s). cbv iota beta.
    rewrite Htruthy.
    rewrite (eqb_length_false s "") by (simpl; lia).
    rewrite (eqb_length_false s "magiceden.io") by (simpl; lia).
    rewrite (eqb_length_false s "magiceden.us") by (simpl; lia).
    cbn [orb negb andb]. unfold Extract.looks_evm. rewrite H0x.
    reflexivity.
  - destruct (Extract.has "solana" (Py.lower s)
              || Extract.has "sol" (Py.lower s) || false
              || Extract.has "solanart" (Py.lower s)) eqn:Hsol.
    + reflexivity.
    + unfold Extract.looks_evm. rewrite H0x. cbn [andb negb].
      replace (32 <=? Py.len s) with true
        by (symmetry; apply Z.leb_le; unfold Py.len; lia).
      replace (Py.len s <=? 44) with true
        by (symmetry; apply Z.leb_le; unfold Py.len; lia).
      reflexivity.
Qed.

(** The wrapped SOL mint, and an address in which "magiceden" occurs. *)
Lemma extract_bare_solana_address_witness :
  Extract.extract_collection_info
    "So11111111111111111111111111111111111111112 "
  = Extract.re_unbound /\
  Extract.extract_collection_info
    "SoLbase58ethopMagicEdenXyz123456789ABCDEFGH "
  = Ok ("SoLbase58ethopMagicEdenXyz123456789ABCDEFGH", SOLANA).
Proof.
  split.
  - exact (extract_bare_solana_address
             "So11111111111111111111111111111111111111112 "
             "So11111111111111111111111111111111111111112"
             eq_refl ltac:(simpl; lia) eq_refl).
  - exact (extract_bare_solana_address
             "SoLbase58ethopMagicEdenXyz123456789ABCDEFGH "
             "SoLbase58ethopMagicEdenXyz123456789ABCDEFGH"
             eq_refl ltac:(simpl; lia) eq_refl).
Defined.

End ExtractFacts.

(** ** [ConnectionManager] *)

Module ManagerFacts.
Import Manager.

Section Facts.
Context {W : Type} `{EqDecision W}.
Variable send_json : W -> bool.

Lemma remove_first_middle (x : W) (done rest : list W) :
  x ∉ done -> remove_first x (done ++ x :: rest) = done ++ rest.
Proof.
  induction done as [|y done IH]; intros Hx; simpl.
  - destruct (decide (x = x)); [reflexivity|contradiction].
  - destruct (decide (y = x)) as [->|_].
    + exfalso. apply Hx. left.
    + rewrite IH; [reflexivity|]. intros Hin. apply Hx. right. exact Hin.
Qed.

Lemma broadcast_loop_past_end (fuel i : nat) (l sent : list W) :
  (length l <= i)%nat -> broadcast_loop send_json fuel i l sent = (l, sent).
Proof.
  intros Hi. destruct fuel as [|fuel]; [reflexivity|]. simpl.
  rewrite (lookup_ge_None_2 l i Hi). reflexivity.
Qed.

Lemma broadcast_loop_step (fuel i : nat) (l sent : list W) :
  broadcast_loop send_json (Datatypes.S fuel) i l sent
  = match l !! i with
    | None => (l, sent)
    | Some connection =>
        if send_json connection
        then broadcast_loop send_json fuel (Datatypes.S i) l
               (sent ++ [connection])
        else broadcast_loop send_json fuel (Datatypes.S i)
               (if decide (connection ∈ l)
                then remove_first connection l else l) sent
    end.
Proof. reflexivity. Qed.

(** When no [send_json] fails, the loop walks the rest of the list. *)
Lemma broadcast_loop_all_ok (fuel : nat) (done todo sent : list W) :
  (forall c, c ∈ todo -> send_json c = true) ->
  (length todo <= fuel)%nat ->
  broadcast_loop send_json fuel (length done) (done ++ todo) sent
  = (done ++ todo, sent ++ todo).
Proof.
  revert done todo sent.
  induction fuel as [|fuel IH]; intros done todo sent Hok Hfuel.
  - destruct todo; [|simpl in Hfuel; lia]. rewrite !app_nil_r. reflexivity.
  - destruct todo as [|c t].
    + rewrite !app_nil_r. apply broadcast_loop_past_end. lia.
    + simpl. rewrite list_lookup_middle by reflexivity.
      rewrite (Hok c) by left.
      replace (done ++ c :: t) with ((done ++ [c]) ++ t)
        by (rewrite <- app_assoc; reflexivity).
      replace (Datatypes.S (length done)) with (length (done ++ [c]))
        by (rewrite length_app; simpl; lia).
      rewrite IH.
      * rewrite <- !app_assoc. reflexivity.
      * intros c' Hc'. apply Hok. right. exact Hc'.
      * simpl in Hfuel. lia.
Qed.

(** What the loop does from a position on, whatever fails: the part of
    the list before the position stays, the connections kept and the
    connections reached are among those from the position on. *)
Lemma broadcast_loop_sub (fuel : nat) (done todo sent l' sent' : list W) :
  NoDup (done ++ todo) ->
  broadcast_loop send_json fuel (length done) (done ++ todo) sent
  = (l', sent') ->
  exists kept extra,
    l' = done ++ kept /\ sent' = sent ++ extra /\
    (forall c, c ∈ kept -> c ∈ todo) /\
    (forall c, c ∈ extra -> c ∈ todo).
Proof.
  revert done todo sent.
  induction fuel as [|fuel IH]; intros done todo sent Hnd.
  - simpl. intros [= <- <-]. exists todo, []. rewrite app_nil_r.
    split_and!; [reflexivity | reflexivity | auto | set_solver].
  - destruct todo as [|c t].
    + rewrite broadcast_loop_past_end by (rewrite app_nil_r; lia).
      intros [= <- <-]. exists [], []. rewrite !app_nil_r.
      split_and!; [reflexivity | reflexivity | auto | auto].
    + simpl. rewrite list_lookup_middle by reflexivity.
      apply NoDup_app in Hnd as Hparts. destruct Hparts as (Hd & Hdt & Ht).
      apply NoDup_cons in Ht as [Hct Ht].
      destruct (send_json c).
      * replace (done ++ c :: t) with ((done ++ [c]) ++ t)
          by (rewrite <- app_assoc; reflexivity).
        replace (Datatypes.S (length done)) with (length (done ++ [c]))
          by (rewrite length_app; simpl; lia).
        intros Hrun. apply IH in Hrun as (kept & extra & -> & -> & Hk & He).
        2:{ rewrite <- app_assoc. exact Hnd. }
        exists (c :: kept), (c :: extra).
        rewrite <- !app_assoc. split; [reflexivity|]. split; [reflexivity|].
        split; intros c' [->|Hc']%elem_of_cons;
          solve [left | right; auto].
      * destruct (decide (c ∈ done ++ c :: t)) as [_|Hno].
        2:{ exfalso. apply Hno. apply elem_of_app. right. left. }
        rewrite remove_first_middle.
        2:{ intros Hin. apply (Hdt c Hin). left. }
        destruct t as [|b t'].
        -- rewrite broadcast_loop_past_end by (rewrite app_nil_r; lia).
           intros [= <- <-]. exists [], []. rewrite !app_nil_r.
           split; [reflexivity|]. split; [reflexivity|].
           split; intros c' Hc'; apply elem_of_nil in Hc'; contradiction.
        -- replace (done ++ b :: t') with ((done ++ [b]) ++ t')
             by (rewrite <- app_assoc; reflexivity).
           replace (Datatypes.S (length done)) with (length (done ++ [b]))
             by (rewrite length_app; simpl; lia).
           intros Hrun.
           apply IH in Hrun as (kept & extra & -> & -> & Hk & He).
           2:{ rewrite <- app_assoc. apply NoDup_app.
               split; [exact Hd|]. split; [|exact Ht].
               intros x Hx Hin. apply (Hdt x Hx). right. exact Hin. }
           exists (b :: kept), extra.
           rewrite <- !app_assoc. split; [reflexivity|].
           split; [reflexivity|]. split.
           ++ intros c' [->|Hc']%elem_of_cons;
                [right; left | right; right; auto].
           ++ intros c' Hc'. right. right. auto.
Qed.

(** X6.  When every [send_json] succeeds, [broadcast] sends the message
    to every connection once, in the order of the list, and leaves the
    list as it was. *)
Theorem broadcast_reaches_everyone (active_connections : list W) :
  (forall c, c ∈ active_connections -> send_json c = true) ->
  broadcast send_json active_connections
  = (active_connections, active_connections).
Proof.
  intros Hok. unfold broadcast.
  exact (broadcast_loop_all_ok (length active_connections) []
           active_connections [] Hok (Nat.le_refl _)).
Qed.

(** X7.  [broadcast] removes a connection whose [send_json] raised from
    the list it is iterating over, so the connection that follows it in
    the list is passed over: it stays connected and does not get the
    message.  The connections before the failing one get the message and
    the failing one is gone afterwards. *)
Theorem broadcast_skips_after_failure (before after : list W)
    (failing next : W) :
  NoDup (before ++ failing :: next :: after) ->
  (forall c, c ∈ before -> send_json c = true) ->
  send_json failing = false ->
  exists left sent,
    broadcast send_json (before ++ failing :: next :: after) = (left, sent) /\
    (next ∈ left) /\ (next ∉ sent) /\ (failing ∉ left) /\
    (forall c, c ∈ before -> c ∈ sent).
Proof.
  intros Hnd Hok Hfail. unfold broadcast.
  apply NoDup_app in Hnd as Hparts. destruct Hparts as (Hb & Hbr & Hr).
  apply NoDup_cons in Hr as [Hfr Hr]. apply NoDup_cons in Hr as [Hna Ha].
  assert (Hnf : next <> failing).
  { intros ->. apply Hfr. left. }
  rewrite length_app. cbn [length].
  replace (length before + Datatypes.S (Datatypes.S (length after)))%nat
    with (Datatypes.S (length before + Datatypes.S (length after)))%nat by lia.
  (* the connections before the failing one *)
  assert (Hpre : forall fuel (done todo rest sent : list W),
             (forall c, c ∈ todo -> send_json c = true) ->
             broadcast_loop send_json (length todo + fuel) (length done)
               (done ++ todo ++ rest) sent
             = broadcast_loop send_json fuel (length (done ++ todo))
                 (done ++ todo ++ rest) (sent ++ todo)).
  { intros fuel done todo. revert done.
    induction todo as [|c t IH]; intros done rest sent Hall.
    - rewrite !app_nil_r. reflexivity.
    - cbn [length Nat.add app broadcast_loop].
      rewrite list_lookup_middle by reflexivity.
      rewrite (Hall c) by left.
      replace (done ++ c :: t ++ rest) with ((done ++ [c]) ++ t ++ rest)
        by (rewrite <- app_assoc; reflexivity).
      replace (Datatypes.S (length done)) with (length (done ++ [c]))
        by (rewrite length_app; simpl; lia).
      rewrite IH by (intros c' Hc'; apply Hall; right; exact Hc').
      rewrite <- !app_assoc. reflexivity. }
  replace (Datatypes.S (length before + Datatypes.S (length after)))%nat
    with (length before + Datatypes.S (Datatypes.S (length after)))%nat by lia.
  pose proof (Hpre (Datatypes.S (Datatypes.S (length after))) [] before
                (failing :: next :: after) [] Hok) as Hstep.
  cbn [app length] in Hstep. rewrite Hstep. clear Hstep Hpre.
  (* the failing one *)
  rewrite broadcast_loop_step, list_lookup_middle by reflexivity.
  rewrite Hfail.
  destruct (decide (failing ∈ before ++ failing :: next :: after))
    as [_|Hno].
  2:{ exfalso. apply Hno. apply elem_of_app. right. left. }
  rewrite remove_first_middle.
  2:{ intros Hin. apply (Hbr failing Hin). left. }
  (* the rest *)
  replace (before ++ next :: after) with ((before ++ [next]) ++ after)
    by (rewrite <- app_assoc; reflexivity).
  replace (Datatypes.S (length before)) with (length (before ++ [next]))
    by (rewrite length_app; simpl; lia).
  destruct (broadcast_loop send_json (Datatypes.S (length after))
              (length (before ++ [next])) ((before ++ [next]) ++ after)
              before) as [left sent] eqn:Hrun.
  apply broadcast_loop_sub in Hrun as (kept & extra & -> & -> & Hk & He).
  2:{ rewrite <- app_assoc. apply NoDup_app. split; [exact Hb|].
      split; [|apply NoDup_cons; split; assumption].
      intros x Hx Hin. apply (Hbr x Hx). right. exact Hin. }
  exists ((before ++ [next]) ++ kept), (before ++ extra).
  split; [reflexivity|]. split; [|split; [|split]].
  - apply elem_of_app. left. apply elem_of_app. right. left.
  - intros [Hin|Hin]%elem_of_app.
    + apply (Hbr next Hin). right. left.
    + apply Hna. apply He. exact Hin.
  - intros [[Hin|Hin]%elem_of_app|Hin]%elem_of_app.
    + apply (Hbr failing Hin). left.
    + apply elem_of_cons in Hin as [Hin|Hin]; [congruence|].
      apply elem_of_nil in Hin. exact Hin.
    + apply Hfr. right. apply Hk. exact Hin.
  - intros c Hc. apply elem_of_app. left. exact Hc.
Qed.

End Facts.

(** Three connections, of which the first fails: the second is passed
    over, the third gets the message. *)
Lemma broadcast_skips_after_failure_witness :
  exists left sent,
    broadcast (fun c : nat => negb (Nat.eqb c 1)) [1; 2; 3]%nat
    = (left, sent) /\
    (2%nat ∈ left) /\ (2%nat ∉ sent) /\ (1%nat ∉ left) /\
    (forall c : nat, c ∈ @nil nat -> c ∈ sent).
Proof.
  apply (broadcast_skips_after_failure (fun c : nat => negb (Nat.eqb c 1))
           [] [3%nat] 1%nat 2%nat).
  - repeat constructor; set_solver.
  - intros c Hc. apply elem_of_nil in Hc. contradiction.
  - reflexivity.
Defined.

Lemma broadcast_reaches_everyone_witness :
  broadcast (fun _ : nat => true) [1; 2; 3]%nat
  = ([1; 2; 3]%nat, [1; 2; 3]%nat).
Proof.
  apply (broadcast_reaches_everyone (fun _ : nat => true)).
  intros c _. reflexivity.
Defined.

End ManagerFacts.

(** ** Redaction of secrets *)

Module RedactFacts.
Import Security.

(** Induction over [json], with the hypothesis for every element of a
    list and every value of a dict. *)
Section Induction.
Variable P : json -> Prop.
Hypothesis Hstr : forall s, P (JStr s).
Hypothesis Hother : forall s, P (JOther s).
Hypothesis Hlist : forall l, Forall P l -> P (JList l).
Hypothesis Hdict :
  forall items, Forall (fun kv => P (snd kv)) items -> P (JDict items).

Fixpoint json_induction (j : json) : P j :=
  match j with
  | JStr s => Hstr s
  | JOther s => Hother s
  | JList l =>
      Hlist l
        ((fix go (l : list json) : Forall P l :=
            match l with
            | [] => @List.Forall_nil _ P
            | x :: r => @List.Forall_cons _ P x r (json_induction x) (go r)
            end) l)
  | JDict items =>
      Hdict items
        ((fix go (items : list (string * json))
            : Forall (fun kv => P (snd kv)) items :=
            match items with
            | [] => @List.Forall_nil _ _
            | (k, v) :: r =>
                @List.Forall_cons _ (fun kv => P (snd kv)) (k, v) r
                  (json_induction v) (go r)
            end) items)
  end.
End Induction.

(** [bound j k v]: in the dict [j], the key [k] is bound to [v], at the
    top or further down, going through values that are dicts and through
    dicts that are elements of a value that is a list. *)
Inductive bound : json -> string -> json -> Prop :=
| bound_here items k v :
    (k, v) ∈ items -> bound (JDict items) k v
| bound_dict items k' sub k v :
    (k', JDict sub) ∈ items -> bound (JDict sub) k v ->
    bound (JDict items) k v
| bound_list items k' l sub k v :
    (k', JList l) ∈ items -> JDict sub ∈ l -> bound (JDict sub) k v ->
    bound (JDict items) k v.

(** One entry of a dict, as the loop body of the function treats it. *)
Definition entry (kv : string * json) : string * json :=
  match kv with
  | (key, value) =>
      if is_sensitive key then (key, redacted)
      else
        match value with
        | JDict _ => (key, prevent_private_key_exposure value)
        | JList l =>
            (key,
             JList
               (List.map
                  (fun item =>
                     match item with
                     | JDict _ => prevent_private_key_exposure item
                     | _ => item
                     end) l))
        | _ => (key, value)
        end
  end.

Lemma prevent_dict (items : list (string * json)) :
  prevent_private_key_exposure (JDict items) = JDict (List.map entry items).
Proof. reflexivity. Qed.

(** What the induction carries: the property of a value, and for a list
    the property of its elements. *)
Definition deep (Q : json -> Prop) (j : json) : Prop :=
  Q j /\ match j with JList l => Forall Q l | _ => True end.

Lemma deep_induction (Q : json -> Prop) :
  (forall s, Q (JStr s)) -> (forall s, Q (JOther s)) ->
  (forall l, Q (JList l)) ->
  (forall items, Forall (fun kv => deep Q (snd kv)) items ->
                 Q (JDict items)) ->
  forall j, Q j.
Proof.
  intros Hs Ho Hl Hd j.
  enough (Hdeep : deep Q j) by exact (proj1 Hdeep).
  induction j using json_induction.
  - split; [apply Hs | exact I].
  - split; [apply Ho | exact I].
  - split; [apply Hl|]. eapply Forall_impl; [exact H|].
    intros x Hx. exact (proj1 Hx).
  - split; [|exact I]. apply Hd. exact H.
Qed.

Lemma elem_of_map {A B : Type} (f : A -> B) (l : list A) (y : B) :
  y ∈ List.map f l -> exists x, f x = y /\ x ∈ l.
Proof.
  intros Hin. apply list_elem_of_In, in_map_iff in Hin as (x & Hx & Hin).
  exists x. split; [exact Hx | apply list_elem_of_In, Hin].
Qed.

Definition redacts (j : json) : Prop :=
  forall k v,
    bound (prevent_private_key_exposure j) k v ->
    is_sensitive k = true -> v = redacted.

Lemma redacts_all (j : json) : redacts j.
Proof.
  induction j using deep_induction;
    try (intros k v Hb; inversion Hb; fail).
  intros k v Hb Hsens. rewrite prevent_dict in Hb.
  inversion Hb as [its k0 v0 Hin | its k' sub k0 v0 Hin Hsub
                   | its k' l sub k0 v0 Hin Hl Hsub]; subst.
  - apply elem_of_map in Hin as ([k1 v1] & Heq & Hin).
    unfold entry in Heq. destruct (is_sensitive k1) eqn:Hk1.
    + injection Heq as Hk Hv. subst. reflexivity.
    + assert (Hk : k1 = k) by (destruct v1; injection Heq; auto).
      subst k1. congruence.
  - apply elem_of_map in Hin as ([k1 v1] & Heq & Hin).
    unfold entry in Heq. destruct (is_sensitive k1) eqn:Hk1.
    + discriminate Heq.
    + rewrite Forall_forall in H. specialize (H (k1, v1) Hin).
      destruct H as [Hq _]. cbn [snd] in Hq.
      destruct v1; injection Heq as Hk Hv; try discriminate Hv.
      apply (Hq k v); [|exact Hsens]. rewrite <- Hv in Hsub. exact Hsub.
  - apply elem_of_map in Hin as ([k1 v1] & Heq & Hin).
    unfold entry in Heq. destruct (is_sensitive k1) eqn:Hk1.
    + discriminate Heq.
    + rewrite Forall_forall in H. specialize (H (k1, v1) Hin).
      destruct H as [_ Hel]. cbn [snd] in Hel.
      destruct v1 as [| |l1|]; injection Heq as Hk Hv;
        try discriminate Hv.
      subst l.
      apply elem_of_map in Hl as (item & Hitem & Hinl).
      rewrite Forall_forall in Hel. specialize (Hel item Hinl).
      destruct item; try discriminate Hitem.
      apply (Hel k v); [|exact Hsens]. rewrite <- Hitem in Hsub.
      exact Hsub.
Qed.

Definition fixed (j : json) : Prop :=
  prevent_private_key_exposure (prevent_private_key_exposure j)
  = prevent_private_key_exposure j.

Lemma is_dict_prevent (j : json) :
  match j with
  | JDict _ =>
      exists items, prevent_private_key_exposure j = JDict items
  | _ => prevent_private_key_exposure j = j
  end.
Proof. destruct j; try reflexivity. eexists. reflexivity. Qed.

Lemma fixed_all (j : json) : fixed j.
Proof.
  induction j using deep_induction; try reflexivity.
  unfold fixed. rewrite !prevent_dict. f_equal.
  rewrite List.map_map. apply List.map_ext_in. intros [k1 v1] Hin.
  apply list_elem_of_In in Hin.
  rewrite Forall_forall in H. specialize (H (k1, v1) Hin).
  destruct H as [Hq Hel]. cbn [snd] in Hq, Hel.
  unfold entry at 2. destruct (is_sensitive k1) eqn:Hk1.
  - unfold entry, redacted. rewrite Hk1. reflexivity.
  - destruct v1 as [s|s|l1|its].
    + unfold entry. rewrite Hk1. reflexivity.
    + unfold entry. rewrite Hk1. reflexivity.
    + unfold entry. rewrite Hk1. f_equal. f_equal.
      rewrite List.map_map. apply List.map_ext_in. intros item Hitem.
      apply list_elem_of_In in Hitem.
      rewrite Forall_forall in Hel. specialize (Hel item Hitem).
      destruct item as [s|s|l2|its]; try reflexivity.
      destruct (is_dict_prevent (JDict its)) as [its' E].
      rewrite E. rewrite <- E. exact Hel.
    + destruct (is_dict_prevent (JDict its)) as [its' E].
      unfold entry. rewrite Hk1, E. rewrite <- E. f_equal. exact Hq.
Qed.

(** X8.  After [prevent_private_key_exposure], every key whose lower-case
    form contains one of the sensitive words is bound to the text
    ["***REDACTED***"], at the top of the dict and at every depth reached
    through nested dicts and through dicts held in a list; and applying
    the function to its own result changes nothing. *)
Theorem secrets_redacted_at_every_depth (data : json) (k : string)
    (v : json) :
  bound (prevent_private_key_exposure data) k v ->
  is_sensitive k = true ->
  v = redacted /\
  prevent_private_key_exposure (prevent_private_key_exposure data)
  = prevent_private_key_exposure data.
Proof.
  intros Hb Hs. split; [exact (redacts_all data k v Hb Hs)|].
  apply fixed_all.
Qed.

Definition sample_log : json :=
  JDict [ ("user", JStr "alice");
          ("config",
           JDict [ ("Api_Key", JStr "k-123"); ("region", JStr "eu") ]);
          ("sessions",
           JList [ JDict [ ("accessToken", JOther "42") ];
                   JStr "plain" ]) ].

Lemma secrets_redacted_at_every_depth_witness :
  prevent_private_key_exposure sample_log
  = JDict [ ("user", JStr "alice");
            ("config",
             JDict [ ("Api_Key", redacted); ("region", JStr "eu") ]);
            ("sessions",
             JList [ JDict [ ("accessToken", redacted) ];
                     JStr "plain" ]) ] /\
  forall v,
    bound (prevent_private_key_exposure sample_log) "accessToken" v ->
    v = redacted.
Proof.
  split; [reflexivity|]. intros v Hb.
  exact (proj1 (secrets_redacted_at_every_depth sample_log "accessToken" v
                  Hb eq_refl)).
Defined.

End RedactFacts.

(** ** IPFS links *)

Module IpfsFacts.
Import Ipfs StrFacts.

Lemma prefix_append (p s t : string) :
  String.prefix p s = true -> String.prefix p (s +:+ t) = true.
Proof.
  revert s. induction p as [|a p IH]; intros s;
    [intros _; destruct (s +:+ t); reflexivity|].
  destruct s as [|b s]; cbn [String.prefix]; [intros H; discriminate H|].
  rewrite append_cons. cbn [String.prefix].
  destruct (Ascii.ascii_dec a b); [apply IH | intros H; discriminate H].
Qed.

Lemma startswith_other_letter (a b : ascii) (p q s : string) :
  a <> b ->
  Py.startswith (String a p) s = true ->
  Py.startswith (String b q) s = false.
Proof.
  unfold Py.startswith. intros Hab.
  destruct s as [|c s]; cbn [String.prefix]; [intros H; discriminate H|].
  destruct (Ascii.ascii_dec a c) as [<-|]; [|intros H; discriminate H].
  intros _. destruct (Ascii.ascii_dec b a) as [->|]; [contradiction|].
  reflexivity.
Qed.

Lemma gateway_result (p : string) :
  Py.startswith "https://" (gateway +:+ p) = true /\
  Py.truthy_str (gateway +:+ p) = true.
Proof.
  split.
  - unfold Py.startswith. apply prefix_append. reflexivity.
  - reflexivity.
Qed.

Lemma convert_http (u : string) :
  Py.truthy_str u = true ->
  Py.startswith "http://" u || Py.startswith "https://" u = true ->
  convert_ipfs_to_http u = Some u.
Proof.
  intros Ht Hh. unfold convert_ipfs_to_http. rewrite Ht, Hh. reflexivity.
Qed.

(** X9.  Whatever [convert_ipfs_to_http] returns does not start with
    ["ipfs://"], and converting it again gives it back unchanged. *)
Theorem convert_ipfs_never_ipfs_and_stable (ipfs_url r : string) :
  convert_ipfs_to_http ipfs_url = Some r ->
  Py.startswith "ipfs://" r = false /\
  convert_ipfs_to_http r = Some r.
Proof.
  unfold convert_ipfs_to_http at 1.
  destruct (Py.truthy_str ipfs_url) eqn:Ht; [|discriminate]. cbn [negb].
  destruct (Py.startswith "http://" ipfs_url
            || Py.startswith "https://" ipfs_url) eqn:Hh.
  - intros [= <-]. split; [|apply convert_http; assumption].
    apply orb_true_iff in Hh as [Hh|Hh];
      eapply startswith_other_letter; try exact Hh; discriminate.
  - destruct (Py.startswith "ipfs://" ipfs_url) eqn:Hi.
    + intros [= <-].
      destruct (gateway_result
                  (PyStr.lstrip_char "/"
                     (PyStr.remove_all "ipfs://" ipfs_url))) as [Hs Htr].
      split.
      * eapply startswith_other_letter; [|exact Hs]. discriminate.
      * apply convert_http; [exact Htr|]. rewrite Hs.
        apply orb_true_r.
    + destruct (Py.startswith "Qm" ipfs_url
                && (40 <? Py.len (hd "" (PyStr.split "/" ipfs_url)))) eqn:Hq.
      * intros [= <-].
        destruct (gateway_result ipfs_url) as [Hs Htr].
        split.
        -- eapply startswith_other_letter; [|exact Hs]. discriminate.
        -- apply convert_http; [exact Htr|]. rewrite Hs. apply orb_true_r.
      * intros [= <-]. split; [exact Hi|].
        unfold convert_ipfs_to_http. rewrite Ht, Hh, Hi, Hq. reflexivity.
Qed.

Lemma convert_ipfs_never_ipfs_and_stable_witness :
  convert_ipfs_to_http "ipfs:///ipfs://QmYwAPJzv5CZsnA/1.png"
  = Some "https://cloudflare-ipfs.com/ipfs/QmYwAPJzv5CZsnA/1.png" /\
  convert_ipfs_to_http
    "https://cloudflare-ipfs.com/ipfs/QmYwAPJzv5CZsnA/1.png"
  = Some "https://cloudflare-ipfs.com/ipfs/QmYwAPJzv5CZsnA/1.png".
Proof.
  split; [reflexivity|].
  apply (convert_ipfs_never_ipfs_and_stable
           "ipfs:///ipfs://QmYwAPJzv5CZsnA/1.png"). reflexivity.
Defined.

End IpfsFacts.

(** ** API keys *)

Module KeyFacts.
Import StrFacts.

Definition not_comma (a : ascii) : bool := negb (Ascii.eqb a ",").

(** A key as [get_keys] returns it: not empty, no whitespace around it,
    no comma in it. *)
Definition clean (k : string) : Prop :=
  k <> "" /\ Py.strip k = k /\ all_chars not_comma k = true.

Lemma split_cons_no_sep (sep : ascii) (w s : string) :
  all_chars (fun a => negb (Ascii.eqb a sep)) w = true ->
  PyStr.split sep (w +:+ String sep s) = w :: PyStr.split sep s.
Proof.
  induction w as [|a w IH]; intros Hw.
  - rewrite append_nil_l. cbn [PyStr.split]. rewrite Ascii.eqb_refl.
    reflexivity.
  - cbn [all_chars] in Hw. apply andb_true_iff in Hw as [Ha Hw].
    apply negb_true_iff in Ha.
    rewrite append_cons. cbn [PyStr.split]. rewrite Ha, (IH Hw).
    reflexivity.
Qed.

Lemma split_join (keys : list string) :
  keys <> [] ->
  Forall (fun k => all_chars not_comma k = true) keys ->
  PyStr.split "," (PyStr.join "," keys) = keys.
Proof.
  induction keys as [|k [|k' ks] IH]; intros Hne Hall; [contradiction| |].
  - cbn [PyStr.join]. apply ExtractFacts.split_no_sep.
    apply Forall_inv in Hall. exact Hall.
  - change (PyStr.join "," (k :: k' :: ks))
      with (k +:+ String "," (PyStr.join "," (k' :: ks))).
    rewrite split_cons_no_sep by (apply Forall_inv in Hall; exact Hall).
    rewrite IH; [reflexivity | discriminate |].
    apply Forall_inv_tail in Hall. exact Hall.
Qed.

Lemma join_truthy (keys : list string) :
  keys <> [] -> Forall (fun k => k <> "") keys ->
  Py.truthy_str (PyStr.join "," keys) = true.
Proof.
  destruct keys as [|k [|k' ks]]; intros Hne Hall; [contradiction| |].
  - apply Forall_inv in Hall. apply Py_truthy_str_spec. exact Hall.
  - apply Forall_inv in Hall. destruct k; [contradiction|]. reflexivity.
Qed.

(** X10.  [get_keys] reads back a list of keys written with commas
    between them: when every key is non-empty, has no whitespace around
    it and no comma in it, the keys come back as they were, in order.  An
    unset variable gives no key. *)
Theorem get_keys_join (keys : list string) :
  Forall clean keys ->
  Config.get_keys (Some (PyStr.join "," keys)) = keys /\
  Config.get_keys None = [].
Proof.
  intros Hclean. split; [|reflexivity].
  destruct keys as [|k ks]; [reflexivity|].
  unfold Config.get_keys. cbn [default from_option]. unfold id.
  rewrite join_truthy.
  2: discriminate.
  2:{ eapply Forall_impl; [exact Hclean|]. intros x Hx. exact (proj1 Hx). }
  cbn [negb]. rewrite split_join.
  2: discriminate.
  2:{ eapply Forall_impl; [exact Hclean|].
      intros x Hx. exact (proj2 (proj2 Hx)). }
  induction Hclean as [|x l (Hne & Hs & _) _ IH]; [reflexivity|].
  cbn [List.map List.filter]. rewrite Hs.
  replace (Py.truthy_str x) with true
    by (symmetry; apply Py_truthy_str_spec; exact Hne).
  rewrite IH. reflexivity.
Qed.

Lemma get_keys_join_witness :
  Config.get_keys (Some "key-one,key-two,key-three")
  = ["key-one"; "key-two"; "key-three"].
Proof.
  apply (get_keys_join ["key-one"; "key-two"; "key-three"]).
  repeat constructor; discriminate.
Defined.

Lemma lookup_mod (keys : list string) (i : Z) :
  keys <> [] ->
  exists k,
    keys !! Z.to_nat (i `mod` Z.of_nat (length keys)) = Some k /\ k ∈ keys.
Proof.
  intros Hne.
  assert (Hlen : 0 < Z.of_nat (length keys)).
  { destruct keys; [contradiction|]. simpl. lia. }
  pose proof (Z.mod_pos_bound i _ Hlen) as Hb.
  destruct (keys !! Z.to_nat (i `mod` Z.of_nat (length keys))) as [k|] eqn:E.
  - exists k. split; [reflexivity|]. eapply list_elem_of_lookup_2. exact E.
  - apply lookup_ge_None in E. lia.
Qed.

(** X11.  With at least one key, key rotation never fails and never
    leaves the list: after [k] calls of [rotate_api_key] on a new client,
    [get_api_key] returns the key at position [k mod n] of the [n] keys,
    so the keys are used in turn and the first one comes back after [n]
    rotations. *)
Theorem rotation_cycles_through_keys (keys : list string) (k : nat) :
  keys <> [] ->
  exists c key,
    BaseClient.rotations k (BaseClient.new keys) = Ok c /\
    BaseClient.api_keys c = keys /\
    keys !! (k `mod` length keys)%nat = Some key /\
    BaseClient.get_api_key c = Ok key.
Proof.
  intros Hne.
  assert (Hlen : 0 < Z.of_nat (length keys)).
  { destruct keys; [contradiction|]. simpl. lia. }
  assert (Hrot : forall k c,
             BaseClient.api_keys c = keys ->
             exists c',
               BaseClient.rotations k c = Ok c' /\
               BaseClient.api_keys c' = keys /\
               BaseClient.current_key_index c' `mod` Z.of_nat (length keys)
               = (BaseClient.current_key_index c + Z.of_nat k)
                   `mod` Z.of_nat (length keys)).
  { clear k. induction k as [|k IH]; intros c Hc.
    - exists c. split; [reflexivity|]. split; [exact Hc|].
      rewrite Z.add_0_r. reflexivity.
    - cbn [BaseClient.rotations]. unfold BaseClient.rotate_api_key.
      rewrite Hc.
      replace (Z.of_nat (length keys) =? 0) with false
        by (symmetry; apply Z.eqb_neq; lia).
      destruct (IH {| BaseClient.api_keys := keys;
                      BaseClient.current_key_index :=
                        (BaseClient.current_key_index c + 1)
                          `mod` Z.of_nat (length keys) |} eq_refl)
        as (c' & Hr & Hk & Hi).
      exists c'. split; [exact Hr|]. split; [exact Hk|].
      rewrite Hi. cbn [BaseClient.current_key_index].
      rewrite Zplus_mod_idemp_l. f_equal. lia. }
  destruct (Hrot k (BaseClient.new keys) eq_refl) as (c & Hr & Hk & Hi).
  cbn [BaseClient.new BaseClient.current_key_index] in Hi.
  rewrite Z.add_0_l in Hi.
  destruct (lookup_mod keys (Z.of_nat k) Hne) as (key & Hkey & _).
  exists c, key. split; [exact Hr|]. split; [exact Hk|].
  assert (Hidx : Z.to_nat (Z.of_nat k `mod` Z.of_nat (length keys))
                 = (k `mod` length keys)%nat).
  { rewrite <- Nat2Z.inj_mod. apply Nat2Z.id. }
  split; [rewrite <- Hidx; exact Hkey|].
  unfold BaseClient.get_api_key. rewrite Hk.
  destruct keys; [contradiction|]. cbn [Config.truthy_list negb].
  rewrite Hi, Hkey. reflexivity.
Qed.

Lemma rotation_cycles_through_keys_witness :
  exists c,
    BaseClient.rotations 5 (BaseClient.new ["a"; "b"; "c"]) = Ok c /\
    BaseClient.get_api_key c = Ok "c".
Proof.
  destruct (rotation_cycles_through_keys ["a"; "b"; "c"] 5)
    as (c & key & Hr & _ & Hkey & Hget); [discriminate|].
  exists c. split; [exact Hr|].
  injection Hkey as <-. exact Hget.
Defined.

End KeyFacts.

(** ** The in-memory cache, continued *)

Module CacheFacts.
Import Memory MemoryFacts.

Section Facts.
Context {V : Type}.
Implicit Types (st : MemoryStorage V) (c : TTLCache V) (l : Link V).

Lemma find_link_remove_same (k : string) (ls : list (Link V)) :
  find_link k (remove_key k ls) = None.
Proof.
  unfold find_link, remove_key.
  induction ls as [|l ls IH]; [reflexivity|]. cbn [List.filter].
  destruct (has_key k l) eqn:E; cbn [negb]; [exact IH|].
  cbn [List.find]. rewrite E. exact IH.
Qed.

Lemma find_link_remove_other (k k' : string) (ls : list (Link V)) :
  k' <> k -> find_link k' (remove_key k ls) = find_link k' ls.
Proof.
  intros Hne. unfold find_link, remove_key.
  induction ls as [|l ls IH]; [reflexivity|]. cbn [List.filter List.find].
  destruct (has_key k l) eqn:E; cbn [negb].
  - replace (has_key k' l) with false; [exact IH|].
    unfold has_key in *. apply String.eqb_eq in E.
    symmetry. apply String.eqb_neq. congruence.
  - cbn [List.find]. destruct (has_key k' l); [reflexivity | exact IH].
Qed.

(** What [get_cache] answers, read off the list of links. *)
Lemma get_cache_find (t : Z) (k : string) st :
  fst (get_cache t k st)
  = match find_link k (links (cache st)) with
    | Some l => if live t l then Some (lk_value l) else None
    | None => None
    end.
Proof.
  unfold get_cache, cache_get.
  destruct (find_link k (links (cache st))) as [l|]; [|reflexivity].
  destruct (live t l); reflexivity.
Qed.

(** X12.  After [delete_cache(key)] nothing is found under [key], at any
    time, and what is found under every other key is what was found
    before. *)
Theorem delete_cache_forgets_only_the_key (st : MemoryStorage V)
    (key : string) (t : Z) :
  fst (get_cache t key (delete_cache key st)) = None /\
  (forall key', key' <> key ->
     fst (get_cache t key' (delete_cache key st))
     = fst (get_cache t key' st)).
Proof.
  split.
  - rewrite get_cache_find. cbn [delete_cache cache cache_pop with_links links].
    rewrite find_link_remove_same. reflexivity.
  - intros key' Hne. rewrite !get_cache_find.
    cbn [delete_cache cache cache_pop with_links links].
    rewrite (find_link_remove_other key key' _ Hne). reflexivity.
Qed.

Lemma length_remove_key (k : string) (ls : list (Link V)) :
  (length (remove_key k ls) <= length ls)%nat.
Proof. unfold remove_key. apply filter_length_le. Qed.

Lemma length_remove_key_found (k : string) (ls : list (Link V)) l :
  find_link k ls = Some l ->
  (length (remove_key k ls) < length ls)%nat.
Proof.
  unfold find_link, remove_key.
  induction ls as [|x ls IH]; [discriminate|]. cbn [List.find List.filter].
  destruct (has_key k x); cbn [negb length].
  - intros _.
    pose proof (filter_length_le (fun l0 => negb (has_key k l0)) ls).
    lia.
  - intros Hf. specialize (IH Hf). lia.
Qed.

(** The number of entries the cache holds. *)
Definition size (st : MemoryStorage V) : nat := length (links (cache st)).

(** A storage made by [MemoryStorage(config)] and used through its three
    methods. *)
Inductive reachable : MemoryStorage V -> Prop :=
| reach_new cfg : reachable (new cfg)
| reach_set st time key value ttl :
    reachable st -> reachable (set_cache time key value ttl st)
| reach_get st time key :
    reachable st -> reachable (snd (get_cache time key st))
| reach_delete st key :
    reachable st -> reachable (delete_cache key st).

(** X13.  However the storage is used, it never holds more than 10000
    entries: [set_cache] on a full cache makes room first. *)
Theorem cache_never_exceeds_max_size (st : MemoryStorage V) :
  reachable st -> Z.of_nat (size st) <= 10000.
Proof.
  intros Hr.
  enough (H : maxsize (cache st) = 10000 /\ Z.of_nat (size st) <= 10000)
    by exact (proj2 H).
  induction Hr as [cfg | st time key value ttl Hr [Hm IH]
                   | st time key Hr [Hm IH] | st key Hr [Hm IH]].
  - split; [reflexivity|]. unfold size. simpl. lia.
  - assert (Hc : cache (set_cache time key value ttl st)
                 = cache_setitem time key value (cache st)).
    { unfold set_cache. destruct (negb _); reflexivity. }
    unfold size. rewrite Hc. split; [exact Hm|].
    unfold cache_setitem. cbn [links with_links expire].
    rewrite length_app. cbn [length].
    pose proof (filter_length_le (live time) (links (cache st))) as Hf.
    unfold size in IH.
    destruct (find_link key (List.filter (live time) (links (cache st))))
      as [l|] eqn:E.
    + pose proof (length_remove_key_found key _ l E). lia.
    + rewrite Hm.
      destruct (Z.ltb_spec 10000
                  (Z.of_nat (length (List.filter (live time)
                                       (links (cache st)))) + 1)).
      * destruct (List.filter (live time) (links (cache st)));
          cbn [tail length] in *; lia.
      * lia.
  - unfold size, get_cache, cache_get in *.
    destruct (find_link key (links (cache st))) as [l|] eqn:E;
      [|split; assumption].
    destruct (live time l); [|split; assumption].
    cbn [snd cache links with_links maxsize]. split; [exact Hm|].
    rewrite length_app. cbn [length].
    pose proof (length_remove_key_found key _ l E). lia.
  - unfold size in *. cbn [delete_cache cache cache_pop with_links links
                             maxsize].
    split; [exact Hm|].
    pose proof (length_remove_key key (links (cache st))). lia.
Qed.

End Facts.

Lemma cache_never_exceeds_max_size_witness :
  Z.of_nat
    (size (set_cache 5 "b" 2 900
             (delete_cache "a" (set_cache 0 "a" 1 900 (new sample_config)))))
  <= 10000.
Proof.
  apply (cache_never_exceeds_max_size (V:=Z)).
  repeat constructor.
Defined.

End CacheFacts.

(** ** What the scout leaves in the cache *)

Module ScoutCacheFacts.
Import Models Clients Normalizer Scout Memory.

Lemma get_after_set {V : Type} (st : MemoryStorage V) (time t : Z)
    (k : string) (v : V) (ttl : Z) :
  well_formed st ->
  fst (get_cache t k (set_cache time k v ttl st))
  = if t <? time + cache_ttl (config st) then Some v else None.
Proof.
  intros [Httl _].
  assert (Hc : cache (set_cache time k v ttl st)
               = cache_setitem time k v (cache st)).
  { unfold set_cache. destruct (negb _); reflexivity. }
  rewrite CacheFacts.get_cache_find, Hc, MemoryFacts.cache_setitem_find.
  unfold live. cbn [lk_expires lk_value]. rewrite Httl. reflexivity.
Qed.

Lemma get_cache_miss {V : Type} (st : MemoryStorage V) (t : Z) (k : string) :
  fst (get_cache t k st) = None -> snd (get_cache t k st) = st.
Proof.
  unfold get_cache, cache_get.
  destruct (find_link k (links (cache st))) as [l|].
  - destruct (live t l); [discriminate|]. intros _. destruct st; reflexivity.
  - intros _. destruct st; reflexivity.
Qed.

Section Collection.
Context {Item : Type}.
Variable normalize_nft_from_source :
  Item -> string -> Chain -> Result NormalizedNFT.
Variable enrich : Item -> Item.

(** X14.  A page that [get_collection_nfts] returns names the address and
    the chain asked for, its [total_count] is the number of NFTs in it,
    and its NFTs are what the cache then holds under
    ["collection:<address>:<chain>"], until [cache_ttl] seconds after the
    call: each page replaces the page cached before it. *)
Theorem returned_page_is_cached (sc sc' : NFTScout) (a : string)
    (c : Chain) (cursor : option string) (page_size : Z)
    (env : NftEnv Item) (r : CollectionNFTResponse) :
  well_formed (storage sc) ->
  get_collection_nfts normalize_nft_from_source enrich sc a c cursor
    page_size env = (Ok r, sc') ->
  r_contract_address r = a /\ r_chain r = c /\
  r_total_count r = Z.of_nat (length (r_nfts r)) /\
  forall t,
    fst (get_cache t (cache_key "collection" a c) (storage sc'))
    = if t <? now env + cache_ttl (config (storage sc))
      then Some (CachedNfts (r_nfts r)) else None.
Proof.
  intros Hwf. unfold get_collection_nfts.
  destruct (_get_client_for_chain sc c) as [client|]; [|discriminate].
  set (fetched := match client with
                  | HeliusClient st => _
                  | AlchemyClient => _
                  | MoralisClient => _
                  | QuickNodeClient => _
                  end).
  assert (Hst : forall x sc1, fetched = (Ok x, sc1) -> storage sc1 = storage sc).
  { subst fetched. intros x sc1.
    destruct client as [st| | |].
    - destruct (Helius.get_collection_nfts _ _ _ _ _ _ _) as [[resp|e] st'];
        intros [= _ <-]; reflexivity.
    - destruct (Alchemy.get_contract_nfts _) as [resp|e];
        intros [= _ <-]; reflexivity.
    - intros [= _ <-]. reflexivity.
    - intros [= _ <-]. reflexivity. }
  destruct fetched as [[[response client']|e] sc1]; [|discriminate].
  specialize (Hst _ _ eq_refl).
  destruct (normalize_page _ _ _ _) as [normalized|e]; [|discriminate].
  intros [= <- <-]. cbn [r_contract_address r_chain r_total_count r_nfts].
  split; [reflexivity|]. split; [reflexivity|]. split; [reflexivity|].
  intros t. cbn [storage with_storage]. rewrite Hst.
  apply get_after_set. exact Hwf.
Qed.

End Collection.

(** Alchemy answers with a page of two items and a token for the next
    page. *)
Definition alchemy_page : NftEnv unit :=
  {| now := 100; helius_env := FailureFacts.no_helius;
     alchemy_request :=
       Ok {| Alchemy.b_nfts := [tt; tt]; Alchemy.b_nextToken := Some "n1";
             Alchemy.b_pageKey := None |};
     moralis_request := Raised "not called" |}.

Lemma returned_page_is_cached_witness :
  exists r sc',
    get_collection_nfts FailureFacts.nft_of_item id StatsFacts.evm_scout
      "0xa9e5" ETHEREUM None 100 alchemy_page = (Ok r, sc') /\
    r_total_count r = Z.of_nat (length (r_nfts r)) /\
    fst (get_cache 999 (cache_key "collection" "0xa9e5" ETHEREUM)
           (storage sc'))
    = Some (CachedNfts (r_nfts r)) /\
    fst (get_cache 1000 (cache_key "collection" "0xa9e5" ETHEREUM)
           (storage sc'))
    = None.
Proof.
  destruct (get_collection_nfts FailureFacts.nft_of_item id
              StatsFacts.evm_scout "0xa9e5" ETHEREUM None 100 alchemy_page)
    as [[r|e] sc'] eqn:E; [|vm_compute in E; discriminate E].
  exists r, sc'. split; [reflexivity|].
  destruct (returned_page_is_cached FailureFacts.nft_of_item id
              StatsFacts.evm_scout sc' "0xa9e5" ETHEREUM None 100
              alchemy_page r (MemoryFacts.new_well_formed _) E)
    as (_ & _ & Hcount & Hcache).
  split; [exact Hcount|]. split; [exact (Hcache 999) | exact (Hcache 1000)].
Defined.

(** X15.  Statistics that [get_collection_stats] has computed and
    returned are served from the cache afterwards: a later call for the
    same address and chain, made before [cache_ttl] seconds have passed,
    asks no source and returns what the [CollectionStats] constructor
    makes of the cached record, the record itself when the constructor
    accepts it and gives it back, the exception of the constructor when it
    refuses it. *)
Theorem stats_are_served_from_cache (sc sc1 : NFTScout) (a : string)
    (c : Chain) (sym url sym' url' : option string) (env env' : StatsEnv)
    (stats : CollectionStats) :
  well_formed (storage sc) ->
  fst (get_cache (s_now env) (cache_key "collection_stats" a c)
         (storage sc)) = None ->
  get_collection_stats sc a c sym url env = (Ok stats, sc1) ->
  s_now env' < s_now env + cache_ttl (config (storage sc)) ->
  merge_results (gather sc a c sym url env) a c = Ok stats /\
  fst (get_collection_stats sc1 a c sym' url' env')
  = s_from_cached env' stats /\
  (s_from_cached env' stats = Ok stats ->
   fst (get_collection_stats sc1 a c sym' url' env') = Ok stats) /\
  (forall e,
     s_from_cached env' stats = Raised e ->
     fst (get_collection_stats sc1 a c sym' url' env') = Raised e).
Proof.
  intros Hwf Hmiss Hrun Hsoon.
  pose proof (get_cache_miss _ _ _ Hmiss) as Hsame.
  unfold get_collection_stats in Hrun.
  destruct (get_cache (s_now env) (cache_key "collection_stats" a c)
              (storage sc)) as [cached st] eqn:E.
  cbn [fst snd] in Hmiss, Hsame. subst cached st.
  assert (Hsc : with_storage sc (storage sc) = sc) by (destruct sc; reflexivity).
  rewrite Hsc in Hrun.
  destruct (merge_results (gather sc a c sym url env) a c) as [merged|e]
    eqn:Em; [|discriminate Hrun].
  injection Hrun as <- <-.
  assert (Hsecond : fst (get_collection_stats
                           (with_storage sc
                              (set_cache (s_now env)
                                 (cache_key "collection_stats" a c)
                                 (CachedStats merged)
                                 (cache_ttl (config (storage sc)))
                                 (storage sc)))
                           a c sym' url' env')
                    = s_from_cached env' merged).
  { unfold get_collection_stats. cbn [storage with_storage].
    pose proof (get_after_set (storage sc) (s_now env) (s_now env')
                  (cache_key "collection_stats" a c) (CachedStats merged)
                  (cache_ttl (config (storage sc))) Hwf) as Hhit.
    apply Z.ltb_lt in Hsoon. rewrite Hsoon in Hhit.
    destruct (get_cache (s_now env') _ _) as [cached st'].
    cbn [fst] in Hhit. subst cached. reflexivity. }
  split; [reflexivity|]. split; [exact Hsecond|]. split.
  - intros H. rewrite Hsecond. exact H.
  - intros e H. rewrite Hsecond. exact H.
Qed.

(** The sources of the first call: Reservoir and Moralis answer. *)
Definition first_call : StatsEnv :=
  StatsFacts.evm_env
    (StatsFacts.reservoir_body (Some 2e18%float) (Some 400) (Some 1000))
    (StatsFacts.moralis_body None).

(** A later call in which every source is down and the constructor refuses
    the cached dict. *)
Definition refusing (e : string) : StatsEnv :=
  {| s_now := 10;
     s_helius := Raised "down";
     s_magiceden_stats := Raised "down"; s_magiceden_info := Raised "down";
     s_moralis := Raised "down"; s_alchemy := Raised "down";
     s_reservoir := Raised "down"; s_quicknode := Raised "down";
     s_selenium := Raised "down";
     s_from_cached := fun _ => Raised e |}.

Lemma stats_are_served_from_cache_witness :
  exists stats sc1,
    get_collection_stats StatsFacts.evm_scout "0xa9e5" ETHEREUM None None
      first_call = (Ok stats, sc1) /\
    fst (get_collection_stats sc1 "0xa9e5" ETHEREUM None None
           (ScoutFacts.all_raise "down")) = Ok stats /\
    fst (get_collection_stats sc1 "0xa9e5" ETHEREUM None None
           (refusing "ValidationError: image_url"))
    = Raised "ValidationError: image_url".
Proof.
  destruct (get_collection_stats StatsFacts.evm_scout "0xa9e5" ETHEREUM
              None None first_call) as [[stats|e] sc1] eqn:E;
    [|vm_compute in E; discriminate E].
  exists stats, sc1. split; [reflexivity|].
  split.
  - destruct (stats_are_served_from_cache StatsFacts.evm_scout sc1 "0xa9e5"
                ETHEREUM None None None None first_call
                (ScoutFacts.all_raise "down") stats
                (MemoryFacts.new_well_formed _) eq_refl E)
      as (_ & _ & Hsame & _).
    + vm_compute. reflexivity.
    + apply Hsame. reflexivity.
  - destruct (stats_are_served_from_cache StatsFacts.evm_scout sc1 "0xa9e5"
                ETHEREUM None None None None first_call
                (refusing "ValidationError: image_url") stats
                (MemoryFacts.new_well_formed _) eq_refl E)
      as (_ & _ & _ & Hrefused).
    + vm_compute. reflexivity.
    + apply Hrefused. reflexivity.
Defined.

End ScoutCacheFacts.

(** ** Which source decides a field on an EVM chain *)

Module PriorityFacts.
Import Models Normalizer Scout StatsFacts.

(** The marketplace fields, by type. *)
Definition float_fields : list (CollectionStats -> option float) :=
  [ cs_floor_price; cs_total_volume; cs_volume_24h; cs_volume_7d;
    cs_volume_30d ].

Definition int_fields : list (CollectionStats -> option Z) :=
  [ cs_sales_24h; cs_sales_7d; cs_sales_30d; cs_total_owners;
    cs_total_supply ].

(** [f] leaves every marketplace field that has a value as it is. *)
Definition keeps_known (f : CollectionStats -> CollectionStats) : Prop :=
  forall s,
    (forall p, In p float_fields ->
               Py.truthy_ofloat (p s) = true -> p (f s) = p s) /\
    (forall p, In p int_fields ->
               Py.truthy_oint (p s) = true -> p (f s) = p s).

Ltac each_field H :=
  repeat (destruct H as [<-|H]; [|]); [..|destruct H].

Lemma merge_selenium_total_volume d s :
  cs_total_volume (merge_selenium d s)
  = if negb (Py.truthy_ofloat (cs_total_volume s))
       && Py.truthy_ofloat (se_total_volume d)
    then se_total_volume d else cs_total_volume s.
Proof. unfold merge_selenium. fill_at cs_total_volume 5%nat s. Qed.

Lemma keeps_known_selenium d : keeps_known (merge_selenium d).
Proof.
  intros s. split; intros p Hp Ht; each_field Hp.
  - rewrite merge_selenium_floor_price, Ht. reflexivity.
  - rewrite merge_selenium_total_volume, Ht. reflexivity.
  - unfold merge_selenium. apply (seq_keeps cs_volume_24h). keeps.
  - unfold merge_selenium. apply (seq_keeps cs_volume_7d). keeps.
  - unfold merge_selenium. apply (seq_keeps cs_volume_30d). keeps.
  - unfold merge_selenium. apply (seq_keeps cs_sales_24h). keeps.
  - unfold merge_selenium. apply (seq_keeps cs_sales_7d). keeps.
  - unfold merge_selenium. apply (seq_keeps cs_sales_30d). keeps.
  - rewrite merge_selenium_total_owners, Ht. reflexivity.
  - rewrite merge_selenium_total_supply, Ht. reflexivity.
Qed.

Lemma keeps_known_quicknode q : keeps_known (merge_quicknode q).
Proof.
  intros s. split; intros p Hp Ht; each_field Hp; unfold merge_quicknode;
    match goal with
    | |- ?p _ = _ => apply (seq_keeps p); keeps
    end.
Qed.

Lemma keeps_known_moralis w m : keeps_known (merge_moralis w m).
Proof.
  intros s. split; intros p Hp Ht; each_field Hp;
    try (unfold merge_moralis;
         match goal with
         | |- ?p _ = _ => apply (seq_keeps p); destruct w; keeps
         end).
  rewrite merge_moralis_total_supply, Ht, andb_false_r. reflexivity.
Qed.

Lemma keeps_known_id : keeps_known (fun s => s).
Proof. intros s. split; reflexivity. Qed.

Lemma keeps_known_compose f g :
  keeps_known f -> keeps_known g -> keeps_known (fun s => g (f s)).
Proof.
  intros Hf Hg s. destruct (Hf s) as [Hf1 Hf2].
  destruct (Hg (f s)) as [Hg1 Hg2]. split; intros p Hp Ht.
  - rewrite Hg1, Hf1; auto. rewrite Hf1; auto.
  - rewrite Hg2, Hf2; auto. rewrite Hf2; auto.
Qed.

Lemma reservoir_takes (r : CollectionStats) (a : string)
    (s : CollectionStats) :
  (forall p, In p float_fields ->
             Py.truthy_ofloat (p r) = true -> p (merge_reservoir r a s) = p r) /\
  (forall p, In p int_fields ->
             Py.truthy_oint (p r) = true -> p (merge_reservoir r a s) = p r).
Proof.
  destruct (reservoir_overlay_wins r a s)
    as (H1 & H2 & H3 & H4 & H5 & H6 & H7 & H8 & H9 & H10).
  split; intros p Hp Ht; each_field Hp; auto.
Qed.

(** The steps that follow the Reservoir overlay on an EVM chain.  The
    Moralis and the QuickNode block have a [try] of their own: a normalizer
    that raises there leaves the record as it is. *)
Definition moralis_step (moralis_data : Payload MoralisMeta) (chain : Chain)
    (s : CollectionStats) : CollectionStats :=
  match normalize_moralis_collection moralis_data chain with
  | Ok moralis_stats => merge_moralis true moralis_stats s
  | Raised _ => s
  end.

Definition quicknode_step (qn_data : Payload QuickNodeMeta) (chain : Chain)
    (s : CollectionStats) : CollectionStats :=
  match normalize_quicknode_collection qn_data chain with
  | Ok qn_stats => merge_quicknode qn_stats s
  | Raised _ => s
  end.

Definition gap_fills (results : Results) (chain : Chain)
    (s : CollectionStats) : CollectionStats :=
  let s :=
    match res_moralis results with
    | Some moralis_data => moralis_step moralis_data chain s
    | None => s
    end in
  let s :=
    match res_quicknode results with
    | Some qn_data => quicknode_step qn_data chain s
    | None => s
    end in
  match res_selenium results with
  | Some selenium_data =>
      if se_truthy selenium_data then merge_selenium selenium_data s else s
  | None => s
  end.

Lemma keeps_known_when {A : Type} (o : option A)
    (f : A -> CollectionStats -> CollectionStats) :
  (forall x, keeps_known (f x)) ->
  keeps_known (fun s => match o with Some x => f x s | None => s end).
Proof. intros H. destruct o; [apply H | exact keeps_known_id]. Qed.

Lemma keeps_known_moralis_step m chain : keeps_known (moralis_step m chain).
Proof.
  unfold moralis_step. destruct (normalize_moralis_collection m chain).
  - apply keeps_known_moralis.
  - exact keeps_known_id.
Qed.

Lemma keeps_known_quicknode_step q chain :
  keeps_known (quicknode_step q chain).
Proof.
  unfold quicknode_step. destruct (normalize_quicknode_collection q chain).
  - apply keeps_known_quicknode.
  - exact keeps_known_id.
Qed.

Lemma keeps_known_gap_fills results chain :
  keeps_known (gap_fills results chain).
Proof.
  unfold gap_fills.
  apply (keeps_known_compose
           (fun s =>
              match res_quicknode results with
              | Some qn_data =>
                  quicknode_step qn_data chain
                    match res_moralis results with
                    | Some moralis_data => moralis_step moralis_data chain s
                    | None => s
                    end
              | None =>
                  match res_moralis results with
                  | Some moralis_data => moralis_step moralis_data chain s
                  | None => s
                  end
              end)
           (fun s =>
              match res_selenium results with
              | Some selenium_data =>
                  if se_truthy selenium_data
                  then merge_selenium selenium_data s else s
              | None => s
              end)).
  - apply (keeps_known_compose
             (fun s =>
                match res_moralis results with
                | Some moralis_data => moralis_step moralis_data chain s
                | None => s
                end)
             (fun s =>
                match res_quicknode results with
                | Some qn_data => quicknode_step qn_data chain s
                | None => s
                end)).
    + apply (keeps_known_when (res_moralis results)
               (fun m => moralis_step m chain)).
      intros m. apply keeps_known_moralis_step.
    + apply (keeps_known_when (res_quicknode results)
               (fun q => quicknode_step q chain)).
      intros q. apply keeps_known_quicknode_step.
  - apply (keeps_known_when (res_selenium results)
             (fun d s => if se_truthy d then merge_selenium d s else s)).
    intros d. destruct (se_truthy d);
      [apply keeps_known_selenium | exact keeps_known_id].
Qed.

Lemma merge_results_evm results a c ad rd base r :
  c <> SOLANA ->
  res_alchemy results = Some ad ->
  res_reservoir results = Some rd ->
  payload_truthy rv_truthy rd = true ->
  alchemy_base ad a c = Ok base ->
  normalize_reservoir_collection rd a c = Ok r ->
  merge_results results a c
  = Ok (gap_fills results c (merge_reservoir r a base)).
Proof.
  intros Hc Ha Hr Ht Hbase Hrv.
  unfold merge_results, merge_evm, gap_fills, when_stats, moralis_fill,
    quicknode_fill, moralis_step, quicknode_step.
  rewrite Ha, Hr, Hbase, Ht, Hrv.
  destruct (decide (c = SOLANA)); [contradiction|].
  destruct (res_moralis results) as [m|];
    [destruct (normalize_moralis_collection m c)|];
    (destruct (res_quicknode results) as [q|];
       [destruct (normalize_quicknode_collection q c)|]);
    destruct (res_selenium results) as [d|]; try destruct (se_truthy d);
    reflexivity.
Qed.

(** X16.  On an EVM chain, with an Alchemy record to start from, every
    marketplace field for which Reservoir has a value (a value that is
    not empty and not zero) has Reservoir's value in the record returned:
    floor price, the four volumes, the three sales counts, owners and
    total supply.  Alchemy's own value is replaced, and Moralis,
    QuickNode and the page scraper only fill what is still empty. *)
Theorem reservoir_decides_market_fields (results : Results) (a : string)
    (c : Chain) (ad : Payload AlchemyMeta) (rd : Payload ReservoirData)
    (base r : CollectionStats) :
  c <> SOLANA ->
  res_alchemy results = Some ad ->
  res_reservoir results = Some rd ->
  payload_truthy rv_truthy rd = true ->
  alchemy_base ad a c = Ok base ->
  normalize_reservoir_collection rd a c = Ok r ->
  exists final,
    merge_results results a c = Ok final /\
    (forall p, In p float_fields ->
               Py.truthy_ofloat (p r) = true -> p final = p r) /\
    (forall p, In p int_fields ->
               Py.truthy_oint (p r) = true -> p final = p r).
Proof.
  intros Hc Ha Hr Ht Hbase Hrv.
  exists (gap_fills results c (merge_reservoir r a base)).
  split; [exact (merge_results_evm results a c ad rd base r Hc Ha Hr Ht
                   Hbase Hrv)|].
  destruct (reservoir_takes r a base) as [Hf Hi].
  destruct (keeps_known_gap_fills results c (merge_reservoir r a base))
    as [Kf Ki].
  split; intros p Hp Htr.
  - rewrite Kf; auto. rewrite Hf; auto.
  - rewrite Ki; auto. rewrite Hi; auto.
Qed.

Lemma reservoir_decides_market_fields_witness :
  let results :=
    gather evm_scout "0xa9e5" ETHEREUM None None
      (evm_env (reservoir_body (Some 2e18%float) (Some 400) (Some 1000))
         (moralis_body (Some 999))) in
  exists final,
    merge_results results "0xa9e5" ETHEREUM = Ok final /\
    cs_floor_price final = Some 2%float /\
    cs_total_supply final = Some 1000.
Proof.
  intros results.
  edestruct (reservoir_decides_market_fields results "0xa9e5" ETHEREUM
               (Typed alchemy_body)
               (Typed (reservoir_body (Some 2e18%float) (Some 400)
                         (Some 1000))))
    as (final & Hrun & Hf & Hi); try reflexivity; try discriminate.
  exists final. split; [exact Hrun|]. split.
  - rewrite (Hf cs_floor_price); [reflexivity | left; reflexivity
                                 | reflexivity].
  - rewrite (Hi cs_total_supply);
      [reflexivity | do 4 right; left; reflexivity | reflexivity].
Defined.

(** X17.  On an EVM chain nothing is merged without the Alchemy record:
    when the Alchemy call gave no result, what is returned is the minimal
    record (address and name are the requested identifier) whatever
    Reservoir, Moralis, QuickNode and the page scraper returned. *)
Theorem evm_needs_alchemy_record (results : Results) (a : string)
    (c : Chain) :
  c <> SOLANA ->
  res_alchemy results = None ->
  merge_results results a c = Ok (default_stats a c (Some a)).
Proof.
  intros Hc Ha. unfold merge_results, merge_evm, when_stats.
  destruct (decide (c = SOLANA)); [contradiction|]. rewrite Ha.
  destruct (res_reservoir results) as [rd|], (res_moralis results),
    (res_quicknode results), (res_selenium results) as [sd|];
    rewrite ?ScoutFacts.moralis_fill_none, ?ScoutFacts.quicknode_fill_none;
    try destruct (se_truthy sd); reflexivity.
Qed.

Lemma evm_needs_alchemy_record_witness :
  merge_results
    (ScoutFacts.without ScoutFacts.SrcAlchemy
       (gather evm_scout "0xa9e5" ETHEREUM None None
          (evm_env (reservoir_body (Some 2e18%float) (Some 400) (Some 1000))
             (moralis_body (Some 999)))))
    "0xa9e5" ETHEREUM
  = Ok (default_stats "0xa9e5" ETHEREUM (Some "0xa9e5")).
Proof.
  apply evm_needs_alchemy_record; [discriminate | reflexivity].
Defined.

End PriorityFacts.

(** ** Helius: the collection total across calls *)

Module TotalFacts.
Import Clients Helius.

Section Facts.
Context {Item : Type} (enrich : Item -> Item).

Lemma lower_solana : Py.lower "solana" = "solana".
Proof. reflexivity. Qed.

Lemma group_query_current (direct : bool) (st : ClientState)
    (cursor : option string) (page_size : Z) (env : CallEnv Item) :
  _current_collection (snd (group_query direct st cursor page_size env))
  = _current_collection st.
Proof.
  unfold group_query. destruct (rpc env) as [body|e].
  - cbn [snd]. destruct direct.
    + unfold store_total_direct.
      destruct (_collection_total st); [reflexivity|].
      destruct (actual_total_of _ _ _ _ _); [reflexivity|].
      destruct (0 <? rpc_total body); reflexivity.
    + unfold store_total_resolved.
      destruct (_collection_total st); [reflexivity|].
      destruct (actual_total_of _ _ _ _ _); [reflexivity|].
      destruct (_ && _ && _); [reflexivity|].
      destruct (_ && _); reflexivity.
  - destruct (das env); reflexivity.
Qed.

(** With the total unknown, a first page that has no cursor and is
    shorter than the limit stores its item count, on either path. *)
Lemma group_query_short_first_page (direct : bool) (st : ClientState)
    (cursor : option string) (page_size : Z) (env : CallEnv Item)
    (body : RpcBody Item) :
  _collection_total st = None ->
  Py.truthy_ostr cursor = false ->
  rpc env = Ok body ->
  Py.truthy_ostr (rpc_cursor body) = false ->
  Z.of_nat (length (rpc_items body)) < limit_of page_size ->
  group_query direct st cursor page_size env
  = (Ok {| pg_items := rpc_items body; pg_cursor := rpc_cursor body;
           pg_has_more :=
             has_more_of (rpc_cursor body)
               (Z.of_nat (length (rpc_items body))) (limit_of page_size)
               (rpc_total body) |},
     store st (Z.of_nat (length (rpc_items body)))).
Proof.
  intros Hnone Hfirst Hrpc Hnocur Hshort.
  unfold group_query. rewrite Hrpc. cbv zeta.
  unfold actual_total_of. rewrite Hfirst, Hnocur. cbn [negb andb].
  apply Z.ltb_lt in Hshort. rewrite Hshort.
  unfold store_total_direct, store_total_resolved. rewrite Hnone.
  destruct direct; reflexivity.
Qed.

Lemma stored_total_store (st : ClientState) (n : Z) :
  n <> 0 -> stored_total (store st n) = Some n.
Proof.
  intros Hn. unfold stored_total, store. cbn [_collection_total].
  unfold Py.truthy_oint, Py.truthy_int.
  replace (n =? 0) with false by (symmetry; lia). reflexivity.
Qed.

(** X20.  A collection that fits in one page: on the first request for a
    collection (by address, or by a symbol the marketplaces resolve), when
    the RPC answers with a non-empty page that is shorter than the limit
    and has no cursor, the number of items of the page is returned as the
    collection total and kept on the client. *)
Theorem one_page_collection_total_is_item_count (st : ClientState)
    (collection_address : string) (cursor : option string) (page_size : Z)
    (env : CallEnv Item) (body : RpcBody Item) :
  _current_collection st <> Some collection_address ->
  is_address collection_address = true \/ Py.truthy_ostr (resolved env) = true ->
  Py.truthy_ostr cursor = false ->
  rpc env = Ok body ->
  Py.truthy_ostr (rpc_cursor body) = false ->
  0 < Z.of_nat (length (rpc_items body)) < limit_of page_size ->
  exists d st',
    get_collection_nfts enrich st collection_address "solana" cursor
      page_size env = (Ok d, st') /\
    d_total d = Some (Z.of_nat (length (rpc_items body))) /\
    d_totalCount d = Some (Z.of_nat (length (rpc_items body))) /\
    d_nfts d = List.map enrich (rpc_items body) /\
    _collection_total st' = Some (Z.of_nat (length (rpc_items body))).
Proof.
  intros Hnew Hpath Hfirst Hrpc Hnocur [Hpos Hshort].
  unfold get_collection_nfts. rewrite lower_solana. cbn [String.eqb negb].
  unfold reset_for.
  destruct (decide (_current_collection st = Some collection_address))
    as [E|_]; [contradiction|].
  assert (Hlen : forall l : list Item,
             length (List.map enrich l) = length l)
    by (intros l; apply List.length_map).
  destruct (is_address collection_address) eqn:Haddr.
  - rewrite (group_query_short_first_page true _ cursor page_size env body)
      by (try reflexivity; assumption).
    eexists _, _. split; [reflexivity|].
    unfold result_of. cbn [d_total d_totalCount d_nfts pg_items].
    rewrite stored_total_store by lia. rewrite Hlen.
    repeat split; reflexivity.
  - destruct Hpath as [Hpath|Hpath]; [discriminate Hpath|].
    rewrite Hpath.
    rewrite (group_query_short_first_page false _ cursor page_size env body)
      by (try reflexivity; assumption).
    eexists _, _. split; [reflexivity|].
    unfold result_of. cbn [d_total d_totalCount d_nfts pg_items].
    rewrite stored_total_store by lia. rewrite Hlen.
    repeat split; reflexivity.
Qed.

(** X21.  Once a total is stored for a collection address, every later
    request for that address leaves the client as it is and hands the
    stored total back, whatever the page says: with an RPC answer the
    result has the items and the cursor of that answer and the stored
    total; when the RPC request raises and the DAS request answers, the
    items of the DAS answer and the stored total; and the empty result,
    which has no total, exactly when both requests raise. *)
Theorem stored_total_is_never_revised (st : ClientState)
    (collection_address : string) (cursor : option string) (page_size : Z)
    (env : CallEnv Item) (t : Z) :
  is_address collection_address = true ->
  _current_collection st = Some collection_address ->
  _collection_total st = Some t ->
  t <> 0 ->
  exists d,
    get_collection_nfts enrich st collection_address "solana" cursor
      page_size env = (Ok d, st) /\
    match rpc env, das env with
    | Ok body, _ =>
        d_total d = Some t /\
        d_nfts d = List.map enrich (rpc_items body) /\
        d_cursor d = rpc_cursor body
    | Raised _, Ok response =>
        d_total d = Some t /\
        d_nfts d = List.map enrich (das_items response)
    | Raised _, Raised _ => d = empty_result
    end.
Proof.
  intros Haddr Hcur Htotal Ht.
  unfold get_collection_nfts. rewrite lower_solana. cbn [String.eqb negb].
  unfold reset_for.
  destruct (decide (_current_collection st = Some collection_address))
    as [_|E]; [|contradiction].
  rewrite Haddr. unfold group_query.
  assert (Hstored : stored_total st = Some t).
  { unfold stored_total. rewrite Htotal.
    unfold Py.truthy_oint, Py.truthy_int.
    replace (t =? 0) with false by (symmetry; lia). reflexivity. }
  destruct (rpc env) as [body|e].
  - cbv zeta. unfold store_total_direct. rewrite Htotal.
    eexists. split; [reflexivity|].
    unfold result_of. cbn [d_total d_nfts d_cursor pg_items pg_cursor].
    repeat split; [exact Hstored].
  - destruct (das env) as [response|e'].
    + eexists. split; [reflexivity|].
      unfold result_of. cbn [d_total d_nfts pg_items].
      split; [exact Hstored | reflexivity].
    + eexists. split; reflexivity.
Qed.

(** X22.  Requests by symbol do not keep a total from one call to the
    next: after a call that resolved the symbol to an address other than
    the symbol itself, the next call for the same symbol behaves as on a
    client that has never been used. *)
Theorem symbol_requests_start_afresh (st : ClientState)
    (symbol : string) (cursor cursor' : option string)
    (page_size page_size' : Z) (env env' : CallEnv Item) :
  is_address symbol = false ->
  Py.truthy_ostr (resolved env) = true ->
  resolved env <> Some symbol ->
  let st1 :=
    snd (get_collection_nfts enrich st symbol "solana" cursor page_size env) in
  get_collection_nfts enrich st1 symbol "solana" cursor' page_size' env'
  = get_collection_nfts enrich fresh symbol "solana" cursor' page_size' env'.
Proof.
  intros Haddr Hres Hne st1.
  assert (Hcur : _current_collection st1 = resolved env).
  { subst st1. unfold get_collection_nfts.
    rewrite lower_solana. cbn [String.eqb negb]. rewrite Haddr, Hres.
    match goal with
    | |- context [group_query false ?s ?c ?p ?e] =>
        pose proof (group_query_current false s c p e) as Hq;
        destruct (group_query false s c p e) as [[pg|err] st']
    end; cbn [snd] in *; exact Hq. }
  clearbody st1. unfold get_collection_nfts, reset_for.
  destruct (decide (_current_collection st1 = Some symbol)) as [E|_].
  { rewrite Hcur in E. contradiction. }
  destruct (decide (_current_collection fresh = Some symbol)) as [E|_].
  { discriminate E. }
  reflexivity.
Qed.

End Facts.

(** Seven items, no cursor, whatever [total] the response carries. *)
Definition seven_items : CallEnv unit :=
  {| resolved := Some HeliusFacts.sample_address;
     rpc := Ok {| rpc_items := repeat tt 7; rpc_cursor := None;
                  rpc_total := 1000 |};
     das := Raised "not called" |}.

Lemma one_page_collection_total_is_item_count_witness :
  exists d st',
    get_collection_nfts id fresh "okay_bears" "solana" None 1000 seven_items
    = (Ok d, st') /\
    d_total d = Some 7 /\
    d_totalCount d = Some 7 /\
    d_nfts d = List.map id (repeat tt 7) /\
    _collection_total st' = Some 7.
Proof.
  apply (one_page_collection_total_is_item_count id fresh "okay_bears" None
           1000 seven_items
           {| rpc_items := repeat tt 7; rpc_cursor := None;
              rpc_total := 1000 |}).
  - intros H; discriminate H.
  - right. reflexivity.
  - reflexivity.
  - reflexivity.
  - reflexivity.
  - vm_compute. split; reflexivity.
Defined.

(** The client after the first page of [HeliusFacts.full_first_page]. *)
Definition after_first_page : ClientState :=
  {| _current_collection := Some HeliusFacts.sample_address;
     _collection_total := Some 1000; _last_total := Some 1000 |}.

Lemma stored_total_is_never_revised_witness :
  exists d,
    get_collection_nfts id after_first_page HeliusFacts.sample_address
      "solana" (Some "page-2") 1000 seven_items = (Ok d, after_first_page) /\
    d_total d = Some 1000 /\
    d_nfts d = List.map id (repeat tt 7) /\
    d_cursor d = None.
Proof.
  apply (stored_total_is_never_revised id after_first_page
           HeliusFacts.sample_address (Some "page-2") 1000 seven_items 1000).
  - reflexivity.
  - reflexivity.
  - reflexivity.
  - lia.
Defined.

Lemma symbol_requests_start_afresh_witness :
  get_collection_nfts id
    (snd (get_collection_nfts id fresh "okay_bears" "solana" None 1000
            seven_items))
    "okay_bears" "solana" (Some "page-2") 1000 seven_items
  = get_collection_nfts id fresh "okay_bears" "solana" (Some "page-2") 1000
      seven_items.
Proof.
  apply (symbol_requests_start_afresh id fresh "okay_bears" None
           (Some "page-2") 1000 1000 seven_items seven_items).
  - reflexivity.
  - reflexivity.
  - intros H; discriminate H.
Defined.

End TotalFacts.

(** ** The validators of utils.py and of security.py side by side *)

Module ValidatorFacts.
Import StrFacts AddressFacts.

Lemma in_list_cons (x y : string) (l : list string) :
  PyStr.in_list x (y :: l) = String.eqb x y || PyStr.in_list x l.
Proof. reflexivity. Qed.

Lemma in_list_elem (x : string) (l : list string) :
  PyStr.in_list x l = true <-> x ∈ l.
Proof.
  induction l as [|y l IH].
  - split; [intros H; discriminate H | intros H; inversion H].
  - rewrite in_list_cons, orb_true_iff, IH, String.eqb_eq, elem_of_cons.
    reflexivity.
Qed.

(** The two lists of EVM chain names hold the same names. *)
Lemma evm_lists_agree (x : string) :
  PyStr.in_list x
    [ "ethereum"; "eth"; "polygon"; "arbitrum"; "optimism"; "base";
      "avalanche"; "bsc" ]
  = PyStr.in_list x Security.evm_chains.
Proof.
  unfold Security.evm_chains. rewrite !in_list_cons.
  destruct (String.eqb x "ethereum"), (String.eqb x "eth"),
    (String.eqb x "polygon"), (String.eqb x "arbitrum"),
    (String.eqb x "optimism"), (String.eqb x "base"),
    (String.eqb x "avalanche"), (String.eqb x "bsc"); reflexivity.
Qed.

Lemma class_range_end_mono (cls cls' : ascii -> bool) (hi : nat) :
  (forall a, cls a = true -> cls' a = true) ->
  forall (lo lo' hi' : nat) (s : string),
    (lo' <= lo)%nat -> (hi <= hi')%nat ->
    Re.class_range_end cls lo hi s = true ->
    Re.class_range_end cls' lo' hi' s = true.
Proof.
  intros Hcls. induction hi as [|hi IH]; intros lo lo' hi' s Hlo Hhi;
    rewrite (class_range_end_eq cls), (class_range_end_eq cls').
  - intros [H|H]%orb_true_iff.
    + apply andb_true_iff in H as [H1 H2]. apply Nat.eqb_eq in H1.
      replace lo' with 0%nat by lia. cbn [Nat.eqb andb]. rewrite H2.
      reflexivity.
    + destruct s; discriminate H.
  - intros [H|H]%orb_true_iff.
    + apply andb_true_iff in H as [H1 H2]. apply Nat.eqb_eq in H1.
      replace lo' with 0%nat by lia. cbn [Nat.eqb andb]. rewrite H2.
      reflexivity.
    + destruct s as [|a r]; [discriminate H|].
      apply andb_true_iff in H as [Ha Hr].
      destruct hi' as [|hi'']; [lia|].
      rewrite (Hcls a Ha). cbn [andb].
      rewrite (IH (Nat.pred lo) (Nat.pred lo') hi'' r) by (lia || exact Hr).
      apply orb_true_r.
Qed.

Lemma base58_alnum (a : ascii) :
  Helius.base58_char a = true -> Re.alnum_char a = true.
Proof.
  destruct a as [[] [] [] [] [] [] [] []]; intros H; try discriminate H;
    reflexivity.
Qed.

Lemma lower_alnum_alnum (a : ascii) :
  Re.lower_alnum_char a = true -> Re.alnum_char a = true.
Proof.
  destruct a as [[] [] [] [] [] [] [] []]; intros H; try discriminate H;
    reflexivity.
Qed.

Lemma match_legacy_inv (s : string) :
  Utils.match_legacy s = true ->
  exists r, (s = String "1" r \/ s = String "3" r) /\
            Re.class_range_end Helius.base58_char 25 34 r = true.
Proof.
  destruct s as [|a r]; [intros H; discriminate H|].
  destruct a as [[] [] [] [] [] [] [] []]; intros H; try discriminate H;
    exists r; (split; [|exact H]); first [left; reflexivity | right; reflexivity].
Qed.

Lemma match_segwit_inv (s : string) :
  Utils.match_segwit s = true ->
  exists r, s = String "b" (String "c" (String "1" r)) /\
            Re.class_range_end Re.lower_alnum_char 39 59 r = true.
Proof.
  destruct s as [|a [|b [|c r]]]; try (intros H; discriminate H).
  - destruct a as [[] [] [] [] [] [] [] []]; intros H; discriminate H.
  - destruct a as [[] [] [] [] [] [] [] []]; try (intros H; discriminate H).
    destruct b as [[] [] [] [] [] [] [] []]; intros H; discriminate H.
  - destruct a as [[] [] [] [] [] [] [] []]; try (intros H; discriminate H).
    destruct b as [[] [] [] [] [] [] [] []]; try (intros H; discriminate H).
    destruct c as [[] [] [] [] [] [] [] []]; intros H; try discriminate H.
    exists r. split; [reflexivity | exact H].
Qed.

(** What [utils.validate_bitcoin_address] accepts, the pattern of
    security.py matches. *)
Lemma utils_bitcoin_matches (s : string) :
  Utils.match_legacy s || Utils.match_segwit s = true ->
  Security.match_bitcoin s = true /\ s <> "".
Proof.
  intros [H|H]%orb_true_iff.
  - destruct (match_legacy_inv s H) as (r & [->| ->] & Hr);
      (split; [|intros E; discriminate E]); cbn [Security.match_bitcoin];
      exact (class_range_end_mono _ _ 34 base58_alnum 25 25 62 r
               ltac:(lia) ltac:(lia) Hr).
  - destruct (match_segwit_inv s H) as (r & -> & Hr).
    split; [|intros E; discriminate E]. cbn [Security.match_bitcoin].
    exact (class_range_end_mono _ _ 59 lower_alnum_alnum 39 25 62 r
             ltac:(lia) ltac:(lia) Hr).
Qed.

Section Validators.
Variable ETH_UTILS_AVAILABLE : bool.
Variable is_address : string -> Result bool.
Variable to_checksum_address : string -> Result string.
Variable b58decode : string -> Result string.

(** X23.  On an EVM chain the two functions named
    [validate_contract_address], the one of utils.py and the one of
    security.py, accept exactly the same addresses, whether or not
    [eth_utils] is installed and whatever it answers. *)
Theorem evm_validators_accept_the_same (address chain : string) :
  PyStr.in_list (Py.lower chain) Security.evm_chains = true ->
  fst (Utils.validate_contract_address ETH_UTILS_AVAILABLE is_address
         to_checksum_address b58decode address chain)
  = fst (Security.validate_contract_address address chain).
Proof.
  intros Hc.
  unfold Utils.validate_contract_address, Utils.validate_ethereum_address,
    Security.validate_contract_address.
  rewrite evm_lists_agree, Hc.
  destruct (Security.sanitize_blockchain_address address chain) as [a'|]
    eqn:Hs.
  - destruct (sanitize_evm address chain a' Hc Hs) as (h & Hstrip & Hlen & Hall & ->).
    replace (Py.truthy_str ("0x" +:+ Py.lower h)) with true by reflexivity.
    revert Hs. unfold Security.sanitize_blockchain_address. rewrite Hc.
    destruct (Py.truthy_str address); [|intros H; discriminate H].
    cbn [negb].
    destruct (Py.startswith "0x" (Py.strip address));
      [|intros H; discriminate H].
    destruct (Py.len (Py.strip address) =? 42); [|intros H; discriminate H].
    destruct (Re.match_0x_hex 40 (Py.strip address));
      [|intros H; discriminate H].
    intros _. cbn [negb orb].
    destruct ETH_UTILS_AVAILABLE; [|reflexivity].
    destruct (is_address (Py.strip address)) as [[|]|]; try reflexivity.
    destruct (to_checksum_address (Py.strip address)); reflexivity.
  - revert Hs. unfold Security.sanitize_blockchain_address. rewrite Hc.
    destruct (Py.truthy_str address); [|reflexivity].
    cbn [negb].
    destruct (Py.startswith "0x" (Py.strip address)); [|reflexivity].
    destruct (Py.len (Py.strip address) =? 42); [|reflexivity].
    destruct (Re.match_0x_hex 40 (Py.strip address)); [|reflexivity].
    intros H; discriminate H.
Qed.

Lemma bitcoin_chain (x : string) :
  PyStr.in_list x ["bitcoin"; "btc"] = true ->
  PyStr.in_list x Security.evm_chains = false /\
  PyStr.in_list x ["solana"; "sol"] = false.
Proof.
  intros H. apply in_list_elem in H.
  apply elem_of_cons in H as [->|H]; [split; reflexivity|].
  apply elem_of_cons in H as [->|H]; [split; reflexivity|].
  inversion H.
Qed.

(** X24.  A Bitcoin address that the validator of utils.py accepts is
    accepted by the validator of security.py as well, with the same
    normalized address. *)
Theorem bitcoin_utils_accepted_by_security (address chain n : string) :
  PyStr.in_list (Py.lower chain) ["bitcoin"; "btc"] = true ->
  Utils.validate_contract_address ETH_UTILS_AVAILABLE is_address
    to_checksum_address b58decode address chain = (true, Some n) ->
  Security.validate_contract_address address chain = (true, Some n).
Proof.
  intros Hc. destruct (bitcoin_chain _ Hc) as [Hevm Hsol].
  unfold Utils.validate_contract_address, Utils.validate_bitcoin_address,
    Security.validate_contract_address,
    Security.sanitize_blockchain_address.
  rewrite evm_lists_agree, Hevm, Hsol, Hc.
  destruct (Py.truthy_str address); [|intros H; discriminate H].
  cbn [negb].
  destruct (Utils.match_legacy (Py.strip address)
            || Utils.match_segwit (Py.strip address)) eqn:Hm;
    [|intros H; discriminate H].
  intros [= <-].
  destruct (utils_bitcoin_matches _ Hm) as [Hb Hne].
  rewrite Hb. cbn [negb].
  replace (Py.truthy_str (Py.strip address)) with true
    by (symmetry; apply Py_truthy_str_spec; exact Hne).
  reflexivity.
Qed.

(** X25.  For a chain name that neither validator knows, security.py
    rejects every address while utils.py accepts every string of more
    than ten characters, returned with the surrounding whitespace
    removed. *)
Theorem unknown_chain_validators_disagree (address chain : string) :
  PyStr.in_list (Py.lower chain)
    (Security.evm_chains ++ ["solana"; "sol"; "bitcoin"; "btc"]) = false ->
  Security.validate_contract_address address chain = (false, None) /\
  (10 < Py.len address ->
   Utils.validate_contract_address ETH_UTILS_AVAILABLE is_address
     to_checksum_address b58decode address chain
   = (true, Some (Py.strip address))).
Proof.
  intros Hc.
  assert (Hevm : PyStr.in_list (Py.lower chain) Security.evm_chains = false
                 /\ PyStr.in_list (Py.lower chain) ["solana"; "sol"] = false
                 /\ PyStr.in_list (Py.lower chain) ["bitcoin"; "btc"] = false).
  { unfold PyStr.in_list in Hc. rewrite existsb_app in Hc.
    apply orb_false_iff in Hc as [Hevm Hrest]. split; [exact Hevm|].
    revert Hrest. cbn [existsb]. unfold PyStr.in_list. cbn [existsb].
    destruct (String.eqb _ "solana"), (String.eqb _ "sol"),
      (String.eqb _ "bitcoin"), (String.eqb _ "btc");
      intros H; try discriminate H; split; reflexivity. }
  destruct Hevm as (Hevm & Hsol & Hbtc). split.
  - unfold Security.validate_contract_address,
      Security.sanitize_blockchain_address.
    rewrite Hevm, Hsol, Hbtc.
    destruct (negb (Py.truthy_str address)); reflexivity.
  - intros Hlen. unfold Utils.validate_contract_address.
    rewrite evm_lists_agree, Hevm, Hsol, Hbtc.
    replace (Py.truthy_str address) with true.
    2:{ symmetry. apply Py_truthy_str_spec. intros ->.
        unfold Py.len in Hlen. simpl in Hlen. lia. }
    replace (10 <? Py.len address) with true by (symmetry; lia).
    reflexivity.
Qed.

End Validators.

(** An [eth_utils] that denies every address, and a [b58decode] that
    always raises. *)
Definition deny (_ : string) : Result bool := Ok false.
Definition no_checksum (_ : string) : Result string := Raised "unused".
Definition no_decode (_ : string) : Result string := Raised "unused".

Lemma evm_validators_accept_the_same_witness :
  fst (Utils.validate_contract_address true deny no_checksum no_decode
         " 0xBC4CA0EdA7647A8aB7C2061c2E118A18a936f13D" "Polygon")
  = fst (Security.validate_contract_address
           " 0xBC4CA0EdA7647A8aB7C2061c2E118A18a936f13D" "Polygon").
Proof.
  apply (evm_validators_accept_the_same true deny no_checksum no_decode).
  reflexivity.
Defined.

Lemma bitcoin_utils_accepted_by_security_witness :
  Security.validate_contract_address
    "1A1zP1eP5QGefi2DMPTfTL5SLmv7DivfNa" "BTC"
  = (true, Some "1A1zP1eP5QGefi2DMPTfTL5SLmv7DivfNa").
Proof.
  apply (bitcoin_utils_accepted_by_security true deny no_checksum no_decode).
  - reflexivity.
  - reflexivity.
Defined.

(** ["matic"] is a chain name for [validate_chain]; neither validator
    has a case for it. *)
Lemma unknown_chain_validators_disagree_witness :
  Utils.validate_chain "matic" = true /\
  Security.validate_contract_address "<script>alert(1)</script>" "matic"
  = (false, None) /\
  Utils.validate_contract_address true deny no_checksum no_decode
    "<script>alert(1)</script>" "matic"
  = (true, Some "<script>alert(1)</script>").
Proof.
  split; [reflexivity|].
  destruct (unknown_chain_validators_disagree true deny no_checksum no_decode
              "<script>alert(1)</script>" "matic" eq_refl) as [Hsec Hutils].
  split; [exact Hsec|]. apply Hutils. vm_compute. reflexivity.
Defined.

End ValidatorFacts.

(** ** The rate limit of the webhook endpoints *)

Module RateFacts.
Import Webhooks.

Lemma drop_old_length (now : float) (q : list float) :
  (length (drop_old now q) <= length q)%nat.
Proof.
  induction q as [|t r IH]; [reflexivity|]. cbn [drop_old].
  destruct (PrimFloat.ltb t (now - RATE_LIMIT_WINDOW)); cbn [length]; lia.
Qed.

Section Facts.
Variable MAX_EVENTS_PER_IP : Z.

(** The stores that calls of [check_rate_limit] lead to, from the empty
    store of a fresh process. *)
Inductive reachable : gmap string (list float) -> Prop :=
| reachable_start : reachable ∅
| reachable_check (store : gmap string (list float)) (ip : string)
    (now : float) :
    reachable store ->
    reachable (snd (check_rate_limit MAX_EVENTS_PER_IP ip now store)).

Lemma reachable_bounded (store : gmap string (list float))
    (ip : string) (q : list float) :
  reachable store ->
  store !! ip = Some q ->
  Z.of_nat (length q) <= Z.max 0 MAX_EVENTS_PER_IP.
Proof.
  intros Hreach. revert ip q.
  induction Hreach as [|store ip' now Hreach IH]; intros ip q Hq.
  - rewrite lookup_empty in Hq. discriminate Hq.
  - unfold check_rate_limit in Hq.
    assert (Hold : Z.of_nat (length (drop_old now (default [] (store !! ip'))))
                   <= Z.max 0 MAX_EVENTS_PER_IP).
    { pose proof (drop_old_length now (default [] (store !! ip'))) as Hle.
      assert (Hq0 : Z.of_nat (length (default [] (store !! ip')))
                    <= Z.max 0 MAX_EVENTS_PER_IP).
      { destruct (store !! ip') as [q'|] eqn:E.
        - exact (IH ip' q' E).
        - change (Z.of_nat 0 <= Z.max 0 MAX_EVENTS_PER_IP). lia. }
      lia. }
    destruct (MAX_EVENTS_PER_IP
              <=? Z.of_nat (length (drop_old now (default [] (store !! ip')))))
      eqn:Hfull; cbn [snd] in Hq.
    + destruct (decide (ip = ip')) as [->|Hne].
      * rewrite lookup_insert_eq in Hq. injection Hq as <-. exact Hold.
      * rewrite lookup_insert_ne in Hq by congruence. exact (IH ip q Hq).
    + apply Z.leb_gt in Hfull.
      destruct (decide (ip = ip')) as [->|Hne].
      * rewrite lookup_insert_eq in Hq. injection Hq as <-.
        rewrite length_app. cbn [length]. lia.
      * rewrite lookup_insert_ne in Hq by congruence. exact (IH ip q Hq).
Qed.

(** Nothing is dropped while the oldest timestamp is inside the
    window. *)
Definition oldest_in_window (now : float) (q : list float) : Prop :=
  match q with
  | t :: _ => PrimFloat.ltb t (now - RATE_LIMIT_WINDOW) = false
  | [] => True
  end.

Lemma drop_old_recent (now : float) (q : list float) :
  oldest_in_window now q -> drop_old now q = q.
Proof.
  destruct q as [|t r]; [reflexivity|]. cbn [oldest_in_window drop_old].
  intros ->. reflexivity.
Qed.

(** X26.  However many requests arrive, from whatever addresses and at
    whatever times, the store never holds more than [MAX_EVENTS_PER_IP]
    timestamps for one IP; and once it holds that many for an IP, the
    oldest of them still inside the window, a request of that IP is
    refused and leaves the store as it is. *)
Theorem rate_limit_holds (store : gmap string (list float))
    (ip : string) (q : list float) :
  reachable store ->
  store !! ip = Some q ->
  Z.of_nat (length q) <= Z.max 0 MAX_EVENTS_PER_IP /\
  forall now : float,
    oldest_in_window now q ->
    MAX_EVENTS_PER_IP <= Z.of_nat (length q) ->
    check_rate_limit MAX_EVENTS_PER_IP ip now store = (false, store).
Proof.
  intros Hreach Hq. split; [exact (reachable_bounded store ip q Hreach Hq)|].
  intros now Hrecent Hfull. unfold check_rate_limit. rewrite Hq.
  cbn [default from_option]. unfold id.
  rewrite (drop_old_recent now q Hrecent).
  replace (MAX_EVENTS_PER_IP <=? Z.of_nat (length q)) with true
    by (symmetry; lia).
  rewrite (insert_id store ip q Hq). reflexivity.
Qed.

End Facts.

(** Two requests a second apart with a limit of two: the store after
    them, and the third request half a second later. *)
Definition two_requests : gmap string (list float) :=
  snd (check_rate_limit 2 "10.0.0.7" 1001
         (snd (check_rate_limit 2 "10.0.0.7" 1000 ∅))).

Lemma rate_limit_holds_witness :
  Z.of_nat (length [1000; 1001]%float) <= Z.max 0 2 /\
  check_rate_limit 2 "10.0.0.7" 1001.5 two_requests = (false, two_requests).
Proof.
  destruct (rate_limit_holds 2 two_requests "10.0.0.7" [1000; 1001]%float)
    as [Hbound Hrefused].
  - apply reachable_check. apply reachable_check. apply reachable_start.
  - vm_compute. reflexivity.
  - split; [exact Hbound|]. apply Hrefused.
    + vm_compute. reflexivity.
    + simpl. lia.
Defined.

End RateFacts.
